(** * Fertile: the prediction pipeline, embedded and verified

    A shallow embedding of the reconciler ([src/lib/reconciler.ts]), the
    symptom predictor ([predictors/symptoms.ts]), the calendar predictor
    ([predictors/calendar.ts]), the combined predictor
    ([predictors/combined.ts]) and the Fertility Friend CSV normaliser
    ([ff-import.ts], [lib/types.ts]).

    Numbers.  A JavaScript [number] that can carry a fraction is a real
    number ([R]): [Math.exp] is [exp], [Math.sqrt] is [sqrt], and no rounding
    error of the binary64 format is modelled.  Counts and indices are [nat],
    day counts are [Z].  Where a statement compares a computed number with a
    constant, or rests on the order in which a sum is taken, it is worded
    with the slack that rounding needs: [0 <= confidence] and not
    [0 < confidence], the exponential of a large negative number being
    rounded to 0; a bound to within a margin where the code adds decimal
    fractions; and the kind of a result read off the result itself.

    Dates.  A well-formed civil date ["YYYY-MM-DD"] is represented by its
    day number, the number of days since 1970-01-01; a [Date] object by its
    time value, the number of milliseconds since 1970-01-01T00:00:00Z.  The
    code parses every date string as midnight UTC and prints dates in UTC,
    but the reconciler and the symptom predictor step through the days with
    [setDate(getDate() + n)], which works in the local time of the host.
    The host's time zone is therefore part of the model ([Host.TimeZone]):
    [reconcile] takes it as an argument and [predictFromSymptoms] reads it
    from the ambient environment.  The calendar predictor uses
    [setUTCDate] and does not depend on it. *)

From Stdlib Require Import Reals Lra Lia ZArith List String Ascii Bool.
From Stdlib Require Import Permutation Sorted DecimalString.
From Stdlib Require OrderedTypeEx.
From Equations Require Import Equations.
Import ListNotations.

Open Scope string_scope.
Open Scope list_scope.
Open Scope R_scope.

(** ** JavaScript primitives *)

Module Js.

(** [Math.round]: the nearest integer, halves going up. *)
Definition round (x : R) : Z := Int_part (x + / 2).

(** The integer part kept by [new Date(x)] of a finite time value. *)
Definition trunc (x : R) : R :=
  if Rle_dec 0 x then IZR (Int_part x) else - IZR (Int_part (- x)).

Definition gtb (x y : R) : bool := if Rgt_dec x y then true else false.
Definition geb (x y : R) : bool := if Rge_dec x y then true else false.
Definition ltb (x y : R) : bool := if Rlt_dec x y then true else false.
Definition leb (x y : R) : bool := if Rle_dec x y then true else false.

(** [Array.prototype.sort(cmp)]: a stable sort; [x] stays in front of the
    elements it does not compare greater than. *)
Fixpoint insert {A : Type} (cmp : A -> A -> R) (x : A) (l : list A) : list A :=
  match l with
  | [] => [x]
  | y :: l' => if Rle_dec (cmp x y) 0 then x :: l else y :: insert cmp x l'
  end.

Definition sort {A : Type} (cmp : A -> A -> R) (l : list A) : list A :=
  fold_right (insert cmp) [] l.

(** [[...new Set(l)]]: the distinct elements in order of first occurrence. *)
Fixpoint uniq_from (seen l : list string) : list string :=
  match l with
  | [] => []
  | x :: l' =>
      if existsb (String.eqb x) seen then uniq_from seen l'
      else x :: uniq_from (x :: seen) l'
  end.

Definition uniq (l : list string) : list string := uniq_from [] l.

(** [l.join(sep)] *)
Definition join (sep : string) (l : list string) : string := String.concat sep l.

(** [String(n)] of an integer. *)
Definition showZ (z : Z) : string := NilZero.string_of_int (Z.to_int z).
Definition showNat (n : nat) : string := NilZero.string_of_uint (Nat.to_uint n).

(** [array.slice(from, to)] *)
Definition slice {A : Type} (from to : nat) (l : list A) : list A :=
  skipn from (firstn to l).

End Js.

(** ** The host's time zone

    [getDate], [setDate] and [toLocaleDateString] work in the local time of
    the host.  ECMAScript reads the host's time zone in two ways:
    [LocalTZA(t, true)], the offset of local time from UTC, in milliseconds,
    that is in force at the time value [t], and [LocalTZA(x, false)], the
    offset by which the local time value [x] is read ([UTC(x)] is [x] less
    that offset; a local time that a clock change skips or repeats is read
    with the offset from before the change).

    Two facts hold of every zone in which no clock change moves the clocks by
    more than a day, which is every zone of the IANA database: the date a day
    later in local time is a later instant, and moving a local time a day on
    never gives an earlier instant.  They make the date loops of the code
    terminate and are kept with the zone. *)

Module Host.

Record TimeZone : Type := mkTimeZone {
  offsetAt : Z -> Z;         (* LocalTZA(t, true) *)
  offsetOfLocal : Z -> Z;    (* LocalTZA(x, false) *)
  dayForward : forall t : Z,
    (t < t + offsetAt t + 86400000 - offsetOfLocal (t + offsetAt t + 86400000))%Z;
  dayMonotone : forall x : Z,
    (x - offsetOfLocal x <= x + 86400000 - offsetOfLocal (x + 86400000))%Z
}.

(** A zone with one offset throughout. *)
Definition fixed (c : Z) : TimeZone.
Proof.
  refine (mkTimeZone (fun _ => c) (fun _ => c) _ _); intros; lia.
Defined.

Definition utc : TimeZone := fixed 0.

(** A zone that keeps the offset [before] until the time value [T] and
    moves its clocks forward by one hour then (the start of daylight saving
    time).  The local hour that is skipped is read with the offset [before]. *)
Definition springForward (T before : Z) : TimeZone.
Proof.
  refine (mkTimeZone
            (fun t => if (t <? T)%Z then before else (before + 3600000)%Z)
            (fun x => if (x <? T + before + 3600000)%Z then before
                      else (before + 3600000)%Z) _ _);
    intros;
    repeat match goal with
           | |- context [(?a <? ?b)%Z] => destruct (Z.ltb_spec a b)
           end; lia.
Defined.

End Host.

(** ** Civil dates *)

Module Dates.

Definition msPerDay : R := 24 * 60 * 60 * 1000.

(** [new Date(s + 'T00:00:00Z')]: the time value of midnight UTC of the date
    with day number [d]. *)
Definition parseDate (d : Z) : Z := (d * 86400000)%Z.

(** [date.toISOString().split('T')[0]]: the day number of the date, in UTC,
    that the time value [t] falls on. *)
Definition formatDate (t : Z) : Z := (t / 86400000)%Z.

(** [parseDate(s).getTime()] of the date with day number [d], as a number. *)
Definition getTime (d : Z) : R := IZR d * msPerDay.

(** [daysBetween(a, b)] on two time values. *)
Definition daysBetween (a b : R) : Z := Js.round (Rabs (a - b) / msPerDay).

(** [addDays] of the calendar predictor: [setUTCDate(getUTCDate() + days)]
    on a date parsed and printed in UTC, which moves it by [days] days. *)
Definition addDays (d days : Z) : Z := (d + days)%Z.

(** [LocalTime(t)] and [UTC(x)] of ECMAScript. *)
Definition localTime (tz : Host.TimeZone) (t : Z) : Z :=
  (t + Host.offsetAt tz t)%Z.

Definition utcTime (tz : Host.TimeZone) (x : Z) : Z :=
  (x - Host.offsetOfLocal tz x)%Z.

(** Month and day of month of a day number (proleptic Gregorian calendar). *)
Definition civil (d : Z) : Z * Z :=
  let z := (d + 719468)%Z in
  let era := (z / 146097)%Z in
  let doe := (z - era * 146097)%Z in
  let yoe := ((doe - doe / 1460 + doe / 36524 - doe / 146096) / 365)%Z in
  let doy := (doe - (365 * yoe + yoe / 4 - yoe / 100))%Z in
  let mp := ((5 * doy + 2) / 153)%Z in
  let day := (doy - (153 * mp + 2) / 5 + 1)%Z in
  let month := (if mp <? 10 then mp + 3 else mp - 9)%Z in
  (month, day).

Definition monthShort (m : Z) : string :=
  nth (Z.to_nat (m - 1))
    ["Jan"; "Feb"; "Mar"; "Apr"; "May"; "Jun";
     "Jul"; "Aug"; "Sep"; "Oct"; "Nov"; "Dec"] "".

(** [date.getDate()]: the day of the month of the time value [t] in local
    time. *)
Definition getDate (tz : Host.TimeZone) (t : Z) : Z :=
  snd (civil (localTime tz t / 86400000)).

(** [date.setDate(dt)]: the time value of [date] after the call.  The new
    day is [MakeDay(year, month, dt)] of the local time: [dt - 1] days from
    the first of the month, so that [dt] may lie outside the month; the time
    within the day is kept, and the result is read as a local time. *)
Definition setDate (tz : Host.TimeZone) (t dt : Z) : Z :=
  let tl := localTime tz t in
  let day := (tl / 86400000 - snd (civil (tl / 86400000)) + dt)%Z in
  utcTime tz (day * 86400000 + tl mod 86400000)%Z.

(** [getDateRange(start, end)]: the loop pushes [current] and moves it a day
    on, in local time, while [current <= end]. *)
Equations? getDateRange (tz : Host.TimeZone) (current end_ : Z) : list Z
  by wf (Z.to_nat (end_ - current + 1)) lt :=
  getDateRange tz current end_ with Z_le_dec current end_ => {
    | left _ := current :: getDateRange tz (setDate tz current (getDate tz current + 1)) end_;
    | right _ := [] }.
Proof.
  unfold setDate, getDate, utcTime, localTime.
  set (tl := (current + Host.offsetAt tz current)%Z).
  pose proof (Z.div_mod tl 86400000 ltac:(lia)) as Hdm.
  replace ((tl / 86400000 - snd (civil (tl / 86400000))
            + (snd (civil (tl / 86400000)) + 1)) * 86400000 + tl mod 86400000)%Z
    with (tl + 86400000)%Z by lia.
  pose proof (Host.dayForward tz current) as Hf. fold tl in Hf. lia.
Qed.

(** [d.toLocaleDateString('en-US', { month: 'short', day: 'numeric' })]: the
    month and the day of the time value [t] in local time. *)
Definition formatDateReadable (tz : Host.TimeZone) (t : Z) : string :=
  let '(m, day) := civil (localTime tz t / 86400000) in
  (monthShort m ++ " " ++ Js.showZ day)%string.

End Dates.

(** ** Domain types ([src/types/index.ts]) *)

Module Cycle.
Record t : Type := mk {
  id : string;
  startDate : Z;
  length : Z;
  periodLength : Z;
  notes : option string;
  createdAt : string;
  updatedAt : string
}.
End Cycle.

(** A prediction.  [confidence] is declared a number; the reconciler reads it
    with [?? 50], so an absent value is representable. *)
Module Prediction.
Record t : Type := mk {
  id : string;
  source : string;
  fertileStart : Z;
  fertileEnd : Z;
  ovulationDate : option Z;
  confidence : option R;
  cycleId : option string;
  notes : option string;
  createdAt : string;
  updatedAt : string
}.
End Prediction.

Inductive CervicalMucusType : Type :=
  | cm_dry | cm_sticky | cm_creamy | cm_watery | cm_egg_white | cm_spotting.

Inductive OPKResult : Type :=
  | opk_negative | opk_almost_positive | opk_positive | opk_invalid.

Inductive SymptomType : Type :=
  | cramps | bloating | breast_tenderness | headache | mood_changes
  | fatigue | increased_libido | mittelschmerz | acne | other.

Inductive ObservationType : Type :=
  | ty_cervical_mucus | ty_bbt | ty_opk | ty_symptom.

(** The kind-specific part of an observation; the [type] tag is determined
    by it. *)
Inductive ObservationValue : Type :=
  | CMValue (value : CervicalMucusType)
  | BBTValue (value : R) (time : option string)
  | OPKValue (value : OPKResult) (brand : option string)
  | SymptomValue (value : SymptomType) (severity : option Z).

Module Observation.
Record t : Type := mk {
  id : string;
  date : Z;
  body : ObservationValue;
  notes : option string;
  createdAt : string;
  updatedAt : string
}.

Definition type (o : t) : ObservationType :=
  match body o with
  | CMValue _ => ty_cervical_mucus
  | BBTValue _ _ => ty_bbt
  | OPKValue _ _ => ty_opk
  | SymptomValue _ _ => ty_symptom
  end.
End Observation.

(** [BBTObservation]: an observation whose [type] is ['bbt']. *)
Module BBTObservation.
Record t : Type := mk {
  id : string;
  date : Z;
  value : R;
  time : option string;
  notes : option string;
  createdAt : string;
  updatedAt : string
}.
End BBTObservation.

(** ** The ambient environment

    [generateId] calls [crypto.randomUUID()] and [getTimestamp] calls
    [new Date().toISOString()]; [getDate] and [setDate] use the time zone the
    host is set to.  All of them read the host; the host is made an explicit
    world that is threaded through the code that calls them. *)

Module World.
Record t : Type := mk {
  clock : string;          (* what [new Date().toISOString()] returns now *)
  uuids : nat -> string;   (* the identifiers [crypto.randomUUID()] hands out *)
  drawn : nat;             (* how many have been handed out *)
  tz : Host.TimeZone       (* the time zone [getDate] and [setDate] work in *)
}.
End World.

Definition Eff (A : Type) : Type := World.t -> A * World.t.

Definition ret {A : Type} (a : A) : Eff A := fun w => (a, w).

Definition bind {A B : Type} (m : Eff A) (k : A -> Eff B) : Eff B :=
  fun w => let '(a, w') := m w in k a w'.

Notation "x <- m ;; k" := (bind m (fun x => k))
  (at level 61, m at next level, right associativity).

Definition generateId : Eff string :=
  fun w => (World.uuids w (World.drawn w),
            World.mk (World.clock w) (World.uuids w) (S (World.drawn w))
                     (World.tz w)).

Definition getTimestamp : Eff string :=
  fun w => (World.clock w, w).

(** The time zone the host is set to. *)
Definition timeZone : Eff Host.TimeZone :=
  fun w => (World.tz w, w).

(** ** The reconciler ([src/lib/reconciler.ts]) *)

Module DayScore.
Record t : Type := mk {
  date : Z;
  probability : R;
  sources : list string;
  rawScores : list (string * R)
}.
End DayScore.

(** [SourceWeights]: an object used as a dictionary.  The association list is
    read front to back, so in [{...a, ...b}], modelled [b ++ a], the entries of
    [b] win.  Only the listed keys are seen; a source tag is never the name of
    a property that every object inherits. *)
Definition SourceWeights : Type := list (string * R).

Fixpoint lookup (source : string) (weights : SourceWeights) : option R :=
  match weights with
  | [] => None
  | (k, v) :: rest => if String.eqb k source then Some v else lookup source rest
  end.

Definition spread (a b : SourceWeights) : SourceWeights := b ++ a.

Module Diagnostics.
Record t : Type := mk {
  sourceAgreement : R;
  outliers : list string;
  weights : SourceWeights;
  dayScores : list DayScore.t;
  inputPredictions : nat
}.
End Diagnostics.

Module ReconciledPrediction.
Record t : Type := mk {
  fertileStart : Z;
  fertileEnd : Z;
  ovulationDate : option Z;
  confidence : R;
  explain : list string;
  diagnostics : Diagnostics.t
}.
End ReconciledPrediction.

(** [ReconcilerOptions]: every key is optional; [None] is a key left out. *)
Module ReconcilerOptions.
Record t : Type := mk {
  weights : option SourceWeights;
  minConfidenceThreshold : option R;
  disagreementPenalty : option R;
  minSources : option R
}.
Definition empty : t := mk None None None None.
End ReconcilerOptions.

Module Reconciler.

Import Dates.

Definition DEFAULT_WEIGHTS : SourceWeights :=
  [ ("natural-cycles", 0.95);
    ("fertility-friend", 0.90);
    ("fertile-algorithm", 0.85);
    ("flo", 0.70);
    ("clue", 0.70);
    ("ovia", 0.65);
    ("manual", 0.60);
    ("calendar", 0.55);
    ("symptoms", 0.75) ].

(** [Required<ReconcilerOptions>] *)
Record Options : Type := mkOptions {
  weights : SourceWeights;
  minConfidenceThreshold : R;
  disagreementPenalty : R;
  minSources : R
}.

Definition DEFAULT_OPTIONS : Options :=
  mkOptions DEFAULT_WEIGHTS 0.3 0.15 1.

(** [{ ...DEFAULT_OPTIONS, ...options }] *)
Definition mergeOptions (options : ReconcilerOptions.t) : Options :=
  let pick {A : Type} (o : option A) (d : A) : A :=
    match o with Some v => v | None => d end in
  mkOptions
    (pick (ReconcilerOptions.weights options) (weights DEFAULT_OPTIONS))
    (pick (ReconcilerOptions.minConfidenceThreshold options)
          (minConfidenceThreshold DEFAULT_OPTIONS))
    (pick (ReconcilerOptions.disagreementPenalty options)
          (disagreementPenalty DEFAULT_OPTIONS))
    (pick (ReconcilerOptions.minSources options) (minSources DEFAULT_OPTIONS)).

(** [weights[source] ?? 0.5] *)
Definition getWeight (source : string) (weights : SourceWeights) : R :=
  match lookup source weights with
  | Some w => w
  | None => 0.5
  end.

(** [(p.confidence ?? 50)] *)
Definition confidenceOr50 (p : Prediction.t) : R :=
  match Prediction.confidence p with
  | Some c => c
  | None => 50
  end.

Definition calculateSourceAgreement (predictions : list Prediction.t) : R :=
  if (List.length predictions <=? 1)%nat then 1
  else
    let starts := map (fun p => getTime (Prediction.fertileStart p)) predictions in
    let ends := map (fun p => getTime (Prediction.fertileEnd p)) predictions in
    let avgStart := fold_left (fun a b => a + b) starts 0 / INR (List.length starts) in
    let avgEnd := fold_left (fun a b => a + b) ends 0 / INR (List.length ends) in
    let startVariance :=
      fold_left (fun sum s => sum + ((s - avgStart) / (24 * 60 * 60 * 1000)) ^ 2)
                starts 0
      / INR (List.length starts) in
    let endVariance :=
      fold_left (fun sum e => sum + ((e - avgEnd) / (24 * 60 * 60 * 1000)) ^ 2)
                ends 0
      / INR (List.length ends) in
    let avgVariance := (startVariance + endVariance) / 2 in
    exp (- avgVariance / 8).

(** The accumulators of the centroid loop. *)
Record Centroid : Type := mkCentroid {
  totalWeight : R;
  weightedStartSum : R;
  weightedEndSum : R
}.

Definition centroidStep (weights : SourceWeights) (acc : Centroid)
    (p : Prediction.t) : Centroid :=
  let weight := getWeight (Prediction.source p) weights in
  let startTime := getTime (Prediction.fertileStart p) in
  let endTime := getTime (Prediction.fertileEnd p) in
  mkCentroid (totalWeight acc + weight)
             (weightedStartSum acc + startTime * weight)
             (weightedEndSum acc + endTime * weight).

(** The test of the second loop of [identifyOutliers], the centroids being
    time values. *)
Definition isOutlier (centroidStart centroidEnd : R) (p : Prediction.t) : bool :=
  let pStart := getTime (Prediction.fertileStart p) in
  let pEnd := getTime (Prediction.fertileEnd p) in
  let startDiff := daysBetween pStart centroidStart in
  let endDiff := daysBetween pEnd centroidEnd in
  ((3 <? startDiff)%Z || (3 <? endDiff)%Z)%bool.

(** When the weights sum to zero the quotient is [NaN] or infinite,
    [new Date] of it is an invalid date, [daysBetween] with it is [NaN], and
    [NaN > 3] is false: nothing is pushed. *)
Definition identifyOutliers (predictions : list Prediction.t)
    (weights : SourceWeights) : list string :=
  if (List.length predictions <=? 2)%nat then []
  else
    let c := fold_left (centroidStep weights) predictions (mkCentroid 0 0 0) in
    if Req_dec_T (totalWeight c) 0 then []
    else
      let centroidStart := Js.trunc (weightedStartSum c / totalWeight c) in
      let centroidEnd := Js.trunc (weightedEndSum c / totalWeight c) in
      fold_left
        (fun outliers p =>
           if isOutlier centroidStart centroidEnd p
           then outliers ++ [Prediction.source p]
           else outliers)
        predictions [].

(** The body of the inner loop of [buildDayScores]: what prediction [p] adds
    to [rawScores] and [sources] for [date], a time value. *)
Definition scoreStep (weights : SourceWeights) (date : Z)
    (acc : list (string * R) * list string) (p : Prediction.t)
    : list (string * R) * list string :=
  let '(rawScores, sources) := acc in
  let start := parseDate (Prediction.fertileStart p) in
  let end_ := parseDate (Prediction.fertileEnd p) in
  let weight := getWeight (Prediction.source p) weights in
  let sourceConfidence := confidenceOr50 p / 100 in
  if ((start <=? date)%Z && (date <=? end_)%Z)%bool then
    (rawScores ++ [(Prediction.source p, weight * sourceConfidence)],
     sources ++ [Prediction.source p])
  else
    let daysOutside :=
      Z.min (daysBetween (IZR date) (IZR start))
            (daysBetween (IZR date) (IZR end_)) in
    let decayScore :=
      weight * sourceConfidence * exp (- (IZR daysOutside ^ 2) / 2) in
    if Rgt_dec decayScore 0.1 then
      (rawScores ++ [(Prediction.source p, decayScore)], sources)
    else (rawScores, sources).

Definition rangeStep (acc : Z * Z) (p : Prediction.t) : Z * Z :=
  let '(minDate, maxDate) := acc in
  let start := parseDate (Prediction.fertileStart p) in
  let end_ := parseDate (Prediction.fertileEnd p) in
  ((if (start <? minDate)%Z then start else minDate),
   (if (maxDate <? end_)%Z then end_ else maxDate)).

(** The body of the loop over [allDates]: the score of the time value
    [date], filed under the day it falls on in UTC. *)
Definition dayScore (weights : SourceWeights) (predictions : list Prediction.t)
    (date : Z) : DayScore.t :=
  let dateStr := formatDate date in
  let '(rawScores, sources) :=
    fold_left (scoreStep weights date) predictions ([], []) in
  let totalWeight :=
    fold_left (fun sum p => sum + getWeight (Prediction.source p) weights)
              predictions 0 in
  let probability :=
    if Rgt_dec totalWeight 0
    then fold_left (fun sum s => sum + snd s) rawScores 0 / totalWeight
    else 0 in
  DayScore.mk dateStr probability sources rawScores.

Definition buildDayScores (tz : Host.TimeZone) (predictions : list Prediction.t)
    (weights : SourceWeights) : list DayScore.t :=
  match predictions with
  | [] => []
  | p0 :: _ =>
      let '(minDate, maxDate) :=
        fold_left rangeStep predictions
                  (parseDate (Prediction.fertileStart p0),
                   parseDate (Prediction.fertileEnd p0)) in
      let extendedMin := setDate tz minDate (getDate tz minDate - 2) in
      let extendedMax := setDate tz maxDate (getDate tz maxDate + 2) in
      let allDates := getDateRange tz extendedMin extendedMax in
      map (dayScore weights predictions) allDates
  end.

(** The four counters of the run-finding loop of [findFertileWindow]. *)
Record Scan : Type := mkScan {
  bestStart : nat;
  bestLength : nat;
  currentStart : nat;
  currentLength : nat
}.

(** [if (currentLength > bestLength) { bestLength = ...; bestStart = ... }] *)
Definition commit (s : Scan) : Scan :=
  if (bestLength s <? currentLength s)%nat
  then mkScan (currentStart s) (currentLength s) (currentStart s) (currentLength s)
  else s.

(** The loop from index [i]: [prev] is [sortedDays[i - 1]], [rest] the days
    from [sortedDays[i]] on. *)
Fixpoint scanRuns (prev : DayScore.t) (rest : list DayScore.t) (i : nat)
    (s : Scan) : Scan :=
  match rest with
  | [] => s
  | curr :: rest' =>
      let gap := daysBetween (getTime (DayScore.date curr))
                             (getTime (DayScore.date prev)) in
      let s' :=
        if (gap =? 1)%Z
        then mkScan (bestStart s) (bestLength s) (currentStart s)
                    (S (currentLength s))
        else
          let c := commit s in
          mkScan (bestStart c) (bestLength c) i 1 in
      scanRuns curr rest' (S i) s'
  end.

Record Window : Type := mkWindow {
  start : option Z;
  end_ : option Z;
  peak : option Z
}.

Definition noWindow : Window := mkWindow None None None.

Definition last_date (d0 : DayScore.t) (l : list DayScore.t) : Z :=
  DayScore.date (List.last l d0).

Definition findFertileWindow (dayScores : list DayScore.t) (threshold : R)
    : Window :=
  let fertileDays :=
    filter (fun d => Js.geb (DayScore.probability d) threshold) dayScores in
  match fertileDays with
  | [] => noWindow
  | _ :: _ =>
      let sortedDays :=
        Js.sort (fun a b => getTime (DayScore.date a) - getTime (DayScore.date b))
                fertileDays in
      match sortedDays with
      | [] => noWindow
      | first :: rest =>
          let s := commit (scanRuns first rest 1 (mkScan 0 1 0 1)) in
          let windowDays :=
            Js.slice (bestStart s) (bestStart s + bestLength s) sortedDays in
          match windowDays with
          | [] => noWindow (* would raise; [windowDays] is never empty *)
          | w0 :: _ =>
              let peak :=
                fold_left
                  (fun best day =>
                     if Rgt_dec (DayScore.probability day) (DayScore.probability best)
                     then day else best)
                  windowDays w0 in
              mkWindow (Some (DayScore.date w0))
                       (Some (last_date w0 windowDays))
                       (Some (DayScore.date peak))
          end
      end
  end.

Definition generateExplanations (tz : Host.TimeZone)
    (predictions : list Prediction.t)
    (dayScores : list DayScore.t) (sourceAgreement : R)
    (outliers : list string) (fertileStart fertileEnd : Z) : list string :=
  let sourceCount := List.length predictions in
  let uniqueSources := Js.uniq (map Prediction.source predictions) in
  let sourceLine :=
    match predictions with
    | [p] => ("Based on " ++ Prediction.source p ++ " prediction only")%string
    | _ => ("Reconciled from " ++ Js.showNat sourceCount ++ " predictions ("
             ++ Js.join ", " uniqueSources ++ ")")%string
    end in
  let agreementLine :=
    if Rge_dec sourceAgreement 0.9
    then "Strong agreement: All sources align closely"
    else if Rge_dec sourceAgreement 0.7
    then "Good agreement: Sources mostly align"
    else if Rge_dec sourceAgreement 0.5
    then "Moderate agreement: Some variation between sources"
    else "Low agreement: Sources show significant variation" in
  let windowLength :=
    (daysBetween (getTime fertileEnd) (getTime fertileStart) + 1)%Z in
  let windowLine :=
    ("Fertile window: " ++ formatDateReadable tz (parseDate fertileStart) ++ " - "
       ++ formatDateReadable tz (parseDate fertileEnd) ++ " ("
       ++ Js.showZ windowLength ++ " days)")%string in
  let outlierLines :=
    if (0 <? List.length outliers)%nat
    then [(("Note: " ++ Js.join ", " outliers ++ " "
             ++ (if (List.length outliers =? 1)%nat then "differs" else "differ")
             ++ " significantly from consensus")%string)]
    else [] in
  let peakDays :=
    Js.sort (fun a b => DayScore.probability b - DayScore.probability a)
            (filter (fun d => Js.geb (DayScore.probability d) 0.8) dayScores) in
  let peakLines :=
    match peakDays with
    | [] => []
    | d :: _ =>
        [("Peak fertility: "
            ++ formatDateReadable tz (parseDate (DayScore.date d)))%string]
    end in
  [sourceLine; agreementLine; windowLine] ++ outlierLines ++ peakLines.

(** [predictions.filter((p) => (p.confidence ?? 50) > 0)] *)
Definition validPredictions (predictions : list Prediction.t) : list Prediction.t :=
  filter (fun p => Js.gtb (confidenceOr50 p) 0) predictions.

Definition effectiveThreshold (opts : Options) (sourceAgreement : R) : R :=
  if Rlt_dec sourceAgreement 0.7
  then minConfidenceThreshold opts
       + disagreementPenalty opts * (1 - sourceAgreement)
  else minConfidenceThreshold opts.

(** [[...validPredictions].sort(...)[0]] of the fallback. *)
Definition sortedByWeight (weights : SourceWeights) (valid : list Prediction.t)
    : list Prediction.t :=
  Js.sort (fun a b => getWeight (Prediction.source b) weights
                      - getWeight (Prediction.source a) weights)
          valid.

Definition reconcile (tz : Host.TimeZone) (predictions : list Prediction.t)
    (options : ReconcilerOptions.t) : option ReconciledPrediction.t :=
  let opts := mergeOptions options in
  let weights := spread DEFAULT_WEIGHTS (weights opts) in
  if Rlt_dec (INR (List.length predictions)) (minSources opts) then None
  else
    let validPredictions := validPredictions predictions in
    match validPredictions with
    | [] => None
    | _ :: _ =>
        let sourceAgreement := calculateSourceAgreement validPredictions in
        let outliers := identifyOutliers validPredictions weights in
        let dayScores := buildDayScores tz validPredictions weights in
        let effectiveThreshold := effectiveThreshold opts sourceAgreement in
        let window := findFertileWindow dayScores effectiveThreshold in
        let diagnostics :=
          Diagnostics.mk sourceAgreement outliers weights dayScores
                         (List.length validPredictions) in
        match start window, end_ window with
        | Some windowStart, Some windowEnd =>
            let confidence := sourceAgreement in
            let confidence :=
              confidence * Rmin 1 (0.7 + INR (List.length validPredictions) * 0.1) in
            let confidence :=
              confidence * Rmax 0.5 (1 - INR (List.length outliers) * 0.1) in
            let confidence := Rmin 1 (Rmax 0 confidence) in
            let explanations :=
              generateExplanations tz validPredictions dayScores sourceAgreement
                                   outliers windowStart windowEnd in
            Some (ReconciledPrediction.mk windowStart windowEnd (peak window)
                    confidence explanations diagnostics)
        | _, _ =>
            match sortedByWeight weights validPredictions with
            | [] => None (* [validPredictions] is not empty here *)
            | best :: _ =>
                Some (ReconciledPrediction.mk
                        (Prediction.fertileStart best)
                        (Prediction.fertileEnd best)
                        (Prediction.ovulationDate best)
                        (Rmax 0.2 (sourceAgreement * 0.5))
                        [ "Low confidence: Could not reconcile predictions";
                          ("Falling back to " ++ Prediction.source best
                             ++ " prediction")%string ]
                        diagnostics)
            end
        end
    end.

End Reconciler.

(** ** The symptom predictor ([src/lib/predictors/symptoms.ts]) *)

Module DayFertilityData.
Record t : Type := mk {
  date : Z;
  cmScore : Z;
  cmType : option CervicalMucusType;
  hasOPKPositive : bool;
  bbt : option R;
  fertilityScore : R
}.
End DayFertilityData.

Module SymptomPredictorOptions.
Record t : Type := mk {
  minCMScore : option R;
  daysBeforeOPK : option Z;
  daysAfterOPK : option Z;
  cmWeight : option R;
  opkWeight : option R
}.
Definition empty : t := mk None None None None None.
End SymptomPredictorOptions.

Module Symptoms.

Import Dates.

Definition CM_FERTILITY_SCORES (v : CervicalMucusType) : Z :=
  match v with
  | cm_dry => 0
  | cm_sticky => 1
  | cm_creamy => 2
  | cm_watery => 4
  | cm_egg_white => 5
  | cm_spotting => 1
  end.

(** The string a [CervicalMucusType] is at run time. *)
Definition cmName (v : CervicalMucusType) : string :=
  match v with
  | cm_dry => "dry"
  | cm_sticky => "sticky"
  | cm_creamy => "creamy"
  | cm_watery => "watery"
  | cm_egg_white => "egg-white"
  | cm_spotting => "spotting"
  end.

Record Options : Type := mkOptions {
  minCMScore : R;
  daysBeforeOPK : Z;
  daysAfterOPK : Z;
  cmWeight : R;
  opkWeight : R
}.

Definition DEFAULT_OPTIONS : Options := mkOptions 3 2 2 0.6 0.9.

(** [{ ...DEFAULT_OPTIONS, ...options }] *)
Definition mergeOptions (options : SymptomPredictorOptions.t) : Options :=
  let pick {A : Type} (o : option A) (d : A) : A :=
    match o with Some v => v | None => d end in
  mkOptions
    (pick (SymptomPredictorOptions.minCMScore options) (minCMScore DEFAULT_OPTIONS))
    (pick (SymptomPredictorOptions.daysBeforeOPK options) (daysBeforeOPK DEFAULT_OPTIONS))
    (pick (SymptomPredictorOptions.daysAfterOPK options) (daysAfterOPK DEFAULT_OPTIONS))
    (pick (SymptomPredictorOptions.cmWeight options) (cmWeight DEFAULT_OPTIONS))
    (pick (SymptomPredictorOptions.opkWeight options) (opkWeight DEFAULT_OPTIONS)).

(** The [Map<string, Observation[]>] of [analyzeDays], in insertion order. *)
Definition ByDate : Type := list (Z * list Observation.t).

Fixpoint mapGet (date : Z) (m : ByDate) : option (list Observation.t) :=
  match m with
  | [] => None
  | (k, v) :: m' => if (k =? date)%Z then Some v else mapGet date m'
  end.

Fixpoint mapSet (date : Z) (v : list Observation.t) (m : ByDate) : ByDate :=
  match m with
  | [] => [(date, v)]
  | (k, v') :: m' =>
      if (k =? date)%Z then (k, v) :: m' else (k, v') :: mapSet date v m'
  end.

Definition groupStep (byDate : ByDate) (obs : Observation.t) : ByDate :=
  let existing :=
    match mapGet (Observation.date obs) byDate with
    | Some l => l
    | None => []
    end in
  mapSet (Observation.date obs) (existing ++ [obs]) byDate.

Definition isType (ty : ObservationType) (o : Observation.t) : bool :=
  match Observation.type o, ty with
  | ty_cervical_mucus, ty_cervical_mucus => true
  | ty_bbt, ty_bbt => true
  | ty_opk, ty_opk => true
  | ty_symptom, ty_symptom => true
  | _, _ => false
  end.

(** One iteration of [for (const [date, obs] of byDate)]. *)
Definition analyzeDay (options : Options) (entry : Z * list Observation.t)
    : DayFertilityData.t :=
  let '(date, obs) := entry in
  let cmObs := find (isType ty_cervical_mucus) obs in
  let opkObs := find (isType ty_opk) obs in
  let bbtObs := find (isType ty_bbt) obs in
  let cmValue :=
    match cmObs with
    | Some o => match Observation.body o with CMValue v => Some v | _ => None end
    | None => None
    end in
  let cmScore :=
    match cmValue with Some v => CM_FERTILITY_SCORES v | None => 0%Z end in
  let hasOPKPositive :=
    match opkObs with
    | Some o =>
        match Observation.body o with
        | OPKValue opk_positive _ => true
        | _ => false
        end
    | None => false
    end in
  let fertilityScore := 0 in
  let fertilityScore := fertilityScore + (IZR cmScore / 5) * cmWeight options in
  let fertilityScore :=
    if hasOPKPositive then fertilityScore + opkWeight options
    else fertilityScore in
  let bbt :=
    match bbtObs with
    | Some o => match Observation.body o with BBTValue v _ => Some v | _ => None end
    | None => None
    end in
  DayFertilityData.mk date cmScore cmValue hasOPKPositive bbt
                      (Rmin 1 fertilityScore).

Definition analyzeDays (observations : list Observation.t) (options : Options)
    : list DayFertilityData.t :=
  let byDate := fold_left groupStep observations [] in
  let dayData := map (analyzeDay options) byDate in
  Js.sort (fun a b => getTime (DayFertilityData.date a)
                      - getTime (DayFertilityData.date b))
          dayData.

Record Window : Type := mkWindow {
  start : option Z;
  end_ : option Z;
  peak : option Z
}.

Definition noWindow : Window := mkWindow None None None.

(** [addDays] of the symptom predictor: [setDate(getDate() + days)] on a
    date parsed and printed in UTC. *)
Definition addDays (tz : Host.TimeZone) (dateStr days : Z) : Z :=
  let date := parseDate dateStr in
  formatDate (setDate tz date (getDate tz date + days)).

Definition findFertileWindow (tz : Host.TimeZone)
    (dayData : list DayFertilityData.t) (options : Options) : Window :=
  match dayData with
  | [] => noWindow
  | _ :: _ =>
      let opkPositiveDays := filter DayFertilityData.hasOPKPositive dayData in
      let highCMDays :=
        filter (fun d => Js.geb (IZR (DayFertilityData.cmScore d)) (minCMScore options))
               dayData in
      match opkPositiveDays with
      | opkDay :: _ =>
          let start :=
            addDays tz (DayFertilityData.date opkDay) (- daysBeforeOPK options) in
          let end_ :=
            addDays tz (DayFertilityData.date opkDay) (daysAfterOPK options) in
          let peak := addDays tz (DayFertilityData.date opkDay) 1 in
          mkWindow (Some start) (Some end_) (Some peak)
      | [] =>
          match highCMDays with
          | first :: _ =>
              let peakDay :=
                fold_left
                  (fun best day =>
                     if (DayFertilityData.cmScore best <? DayFertilityData.cmScore day)%Z
                     then day else best)
                  highCMDays first in
              let start := DayFertilityData.date first in
              let end_ := addDays tz (DayFertilityData.date peakDay) 2 in
              let peak := addDays tz (DayFertilityData.date peakDay) 1 in
              mkWindow (Some start) (Some end_) (Some peak)
          | [] => noWindow
          end
      end
  end.

Definition calculateConfidence (dayData : list DayFertilityData.t)
    (hasOPK hasCM : bool) : Z :=
  let confidence := 40%Z in
  let confidence := (if hasOPK then confidence + 35 else confidence)%Z in
  let confidence := (if hasCM then confidence + 15 else confidence)%Z in
  let confidence :=
    (if (10 <=? List.length dayData)%nat then confidence + 10
     else if (5 <=? List.length dayData)%nat then confidence + 5
     else confidence)%Z in
  let confidence := (if (hasOPK && hasCM)%bool then confidence + 10 else confidence)%Z in
  Z.min 95 confidence.

Definition isRelevant (o : Observation.t) : bool :=
  match Observation.type o with
  | ty_cervical_mucus | ty_opk | ty_bbt => true
  | ty_symptom => false
  end.

Definition predictFromSymptoms (observations : list Observation.t)
    (cycleStartDate : option Z) (options : SymptomPredictorOptions.t)
    : Eff (option Prediction.t) :=
  tz <- timeZone ;;
  let opts := mergeOptions options in
  let relevantObs := filter isRelevant observations in
  match relevantObs with
  | [] => ret None
  | _ :: _ =>
      let dayData := analyzeDays relevantObs opts in
      let window := findFertileWindow tz dayData opts in
      match start window, end_ window with
      | Some windowStart, Some windowEnd =>
          let hasOPK := existsb DayFertilityData.hasOPKPositive dayData in
          let hasCM :=
            existsb (fun d => Js.geb (IZR (DayFertilityData.cmScore d)) (minCMScore opts))
                    dayData in
          let confidence := calculateConfidence dayData hasOPK hasCM in
          now <- getTimestamp ;;
          let notes : list string := [] in
          let notes := if hasOPK then notes ++ ["OPK positive detected"] else notes in
          let notes :=
            if hasCM then
              match dayData with
              | [] => notes
              | d0 :: _ =>
                  let peakCM :=
                    fold_left
                      (fun best d =>
                         if (DayFertilityData.cmScore best <? DayFertilityData.cmScore d)%Z
                         then d else best)
                      dayData d0 in
                  notes ++ [("Peak CM: "
                               ++ match DayFertilityData.cmType peakCM with
                                  | Some v => cmName v
                                  | None => "undefined"
                                  end)%string]
              end
            else notes in
          id <- generateId ;;
          ret (Some (Prediction.mk id "fertility-friend" windowStart windowEnd
                       (peak window) (Some (IZR confidence)) None
                       (Some ("Symptom-based: " ++ Js.join ", " notes)%string)
                       now now))
      | _, _ => ret None
      end
  end.

Record Shift : Type := mkShift {
  shiftDate : Z;
  confirmed : bool
}.

(** The loop [for (let i = 6; i < sorted.length - 2; i++)], [days] being
    [sorted] from index [i] on: it runs while three readings are left. *)
Fixpoint shiftLoop (baselineAvg : R) (days : list BBTObservation.t)
    : option Shift :=
  match days with
  | day1 :: rest =>
      match rest with
      | day2 :: day3 :: _ =>
          let threshold := baselineAvg + 0.2 in
          if (Js.geb (BBTObservation.value day1) threshold
              && Js.geb (BBTObservation.value day2) threshold
              && Js.geb (BBTObservation.value day3) threshold)%bool
          then Some (mkShift (BBTObservation.date day1) true)
          else shiftLoop baselineAvg rest
      | _ => None
      end
  | [] => None
  end.

Definition detectBBTShift (observations : list BBTObservation.t) : option Shift :=
  if (List.length observations <? 6)%nat then None
  else
    let sorted :=
      Js.sort (fun a b => getTime (BBTObservation.date a)
                          - getTime (BBTObservation.date b))
              observations in
    let baseline :=
      Js.sort (fun a b => BBTObservation.value a - BBTObservation.value b)
              (Js.slice 0 6 sorted) in
    let baselineAvg :=
      fold_left (fun sum o => sum + BBTObservation.value o) (Js.slice 0 5 baseline) 0
      / 5 in
    shiftLoop baselineAvg (skipn 6 sorted).

End Symptoms.

(** ** The calendar predictor ([src/lib/predictors/calendar.ts]) *)

Module CalendarPredictorOptions.
Record t : Type := mk {
  daysBeforeOvulation : option Z;
  daysAfterOvulation : option Z;
  lutealPhaseLength : option Z;
  regularityBonus : option R
}.
Definition empty : t := mk None None None None.
End CalendarPredictorOptions.

Module Calendar.

Import Dates.

Record Options : Type := mkOptions {
  daysBeforeOvulation : Z;
  daysAfterOvulation : Z;
  lutealPhaseLength : Z;
  regularityBonus : R
}.

Definition DEFAULT_OPTIONS : Options := mkOptions 5 1 14 10.

Definition mergeOptions (options : CalendarPredictorOptions.t) : Options :=
  let pick {A : Type} (o : option A) (d : A) : A :=
    match o with Some v => v | None => d end in
  mkOptions
    (pick (CalendarPredictorOptions.daysBeforeOvulation options)
          (daysBeforeOvulation DEFAULT_OPTIONS))
    (pick (CalendarPredictorOptions.daysAfterOvulation options)
          (daysAfterOvulation DEFAULT_OPTIONS))
    (pick (CalendarPredictorOptions.lutealPhaseLength options)
          (lutealPhaseLength DEFAULT_OPTIONS))
    (pick (CalendarPredictorOptions.regularityBonus options)
          (regularityBonus DEFAULT_OPTIONS)).

Definition calculateCycleVariability (cycles : list Cycle.t) : R :=
  if (List.length cycles <? 2)%nat then 5
  else
    let lengths := map (fun c => IZR (Cycle.length c)) cycles in
    let mean := fold_left (fun a b => a + b) lengths 0 / INR (List.length lengths) in
    let variance :=
      fold_left (fun sum l => sum + (l - mean) ^ 2) lengths 0
      / INR (List.length lengths) in
    sqrt variance.

Definition calculateAverageCycleLength (cycles : list Cycle.t) : Z :=
  match cycles with
  | [] => 28%Z
  | _ :: _ =>
      let totalLength := fold_left (fun sum c => sum + IZR (Cycle.length c)) cycles 0 in
      Js.round (totalLength / INR (List.length cycles))
  end.

(** [x.toFixed(1)] of a non-negative number: the integer nearest to [10 x]
    (the larger one on a tie), written with one decimal. *)
Definition toFixed1 (x : R) : string :=
  let n := Int_part (x * 10 + / 2) in
  (Js.showZ (n / 10) ++ "." ++ Js.showZ (n mod 10))%string.

Definition predictFromCalendar (currentCycleStart : Z)
    (historicalCycles : list Cycle.t) (options : CalendarPredictorOptions.t)
    : Eff Prediction.t :=
  let opts := mergeOptions options in
  let avgCycleLength := calculateAverageCycleLength historicalCycles in
  let variability := calculateCycleVariability historicalCycles in
  let ovulationDay := (avgCycleLength - lutealPhaseLength opts)%Z in
  let fertileStartDay := (ovulationDay - daysBeforeOvulation opts)%Z in
  let fertileEndDay := (ovulationDay + daysAfterOvulation opts)%Z in
  let ovulationDate := addDays currentCycleStart ovulationDay in
  let fertileStart := addDays currentCycleStart fertileStartDay in
  let fertileEnd := addDays currentCycleStart fertileEndDay in
  let confidence := 55 in
  let confidence :=
    if (6 <=? List.length historicalCycles)%nat then confidence + 10
    else if (3 <=? List.length historicalCycles)%nat then confidence + 5
    else confidence in
  let confidence :=
    if Rle_dec variability 2 then confidence + regularityBonus opts
    else if Rle_dec variability 4 then confidence + regularityBonus opts / 2
    else if Rgt_dec variability 6 then confidence - 15
    else confidence in
  let confidence := Rmax 20 (Rmin 80 confidence) in
  now <- getTimestamp ;;
  id <- generateId ;;
  ret (Prediction.mk id "manual" fertileStart fertileEnd (Some ovulationDate)
         (Some confidence) None
         (Some ("Calendar method: Based on "
                  ++ Js.showNat (List.length historicalCycles) ++ " cycles, avg "
                  ++ Js.showZ avgCycleLength ++ " days, variability ±"
                  ++ toFixed1 variability ++ " days")%string)
         now now).

(** The loop of [predictMultipleCycles] from index [i], [n] rounds to go. *)
Fixpoint multipleFrom (historicalCycles : list Cycle.t)
    (options : CalendarPredictorOptions.t) (avgCycleLength : Z)
    (n i : nat) (cycleStart : Z) : Eff (list Prediction.t) :=
  match n with
  | O => ret []
  | S n' =>
      prediction <- predictFromCalendar cycleStart historicalCycles options ;;
      let c :=
        match Prediction.confidence prediction with
        | Some c => c
        | None => 0
        end in
      let prediction :=
        Prediction.mk (Prediction.id prediction) (Prediction.source prediction)
          (Prediction.fertileStart prediction) (Prediction.fertileEnd prediction)
          (Prediction.ovulationDate prediction)
          (Some (Rmax 20 (c - INR i * 10)))
          (Prediction.cycleId prediction) (Prediction.notes prediction)
          (Prediction.createdAt prediction) (Prediction.updatedAt prediction) in
      rest <- multipleFrom historicalCycles options avgCycleLength n' (S i)
                           (addDays cycleStart avgCycleLength) ;;
      ret (prediction :: rest)
  end.

Definition predictMultipleCycles (currentCycleStart : Z)
    (historicalCycles : list Cycle.t) (numberOfCycles : nat)
    (options : CalendarPredictorOptions.t) : Eff (list Prediction.t) :=
  let avgCycleLength := calculateAverageCycleLength historicalCycles in
  multipleFrom historicalCycles options avgCycleLength numberOfCycles 0
               currentCycleStart.

End Calendar.

(** ** The combined predictor ([src/lib/predictors/combined.ts]) *)

Module CombinedPredictorOptions.
Record t : Type := mk {
  weights : option SourceWeights;
  alwaysIncludeCalendar : option bool;
  minSymptomObservations : option R
}.
Definition empty : t := mk None None None.
End CombinedPredictorOptions.

Module CombinedPredictionInput.
Record t : Type := mk {
  currentCycleStart : Z;
  historicalCycles : option (list Cycle.t);
  observations : option (list Observation.t);
  externalPredictions : option (list Prediction.t)
}.
End CombinedPredictionInput.

(** What [predictCombined] returns: the fields of [ReconciledPrediction].
    The confidence of its single-prediction branch is [p.confidence / 100],
    which is [NaN] when the prediction carries no confidence; [None] stands
    for that [NaN]. *)
Module CombinedPrediction.
Record t : Type := mk {
  fertileStart : Z;
  fertileEnd : Z;
  ovulationDate : option Z;
  confidence : option R;
  explain : list string;
  diagnostics : Diagnostics.t
}.

(** A result of [reconcile], returned as it is. *)
Definition ofReconciled (r : ReconciledPrediction.t) : t :=
  mk (ReconciledPrediction.fertileStart r) (ReconciledPrediction.fertileEnd r)
     (ReconciledPrediction.ovulationDate r)
     (Some (ReconciledPrediction.confidence r))
     (ReconciledPrediction.explain r) (ReconciledPrediction.diagnostics r).
End CombinedPrediction.

Inductive Impact : Type := positive | negative | neutral.

Inductive Overall : Type := excellent | good | fair | poor.

Module Factor.
Record t : Type := mk {
  name : string;
  impact : Impact;
  description : string
}.
End Factor.

Module PredictionQuality.
Record t : Type := mk {
  overall : Overall;
  score : Z;
  factors : list Factor.t;
  recommendations : list string
}.
End PredictionQuality.

Module Combined.

Record Options : Type := mkOptions {
  weights : SourceWeights;
  alwaysIncludeCalendar : bool;
  minSymptomObservations : R
}.

Definition DEFAULT_OPTIONS : Options :=
  mkOptions
    [ ("calendar", 0.55); ("symptoms", 0.80); ("manual", 0.60);
      ("fertility-friend", 0.85) ]
    true 3.

(** [{ ...DEFAULT_OPTIONS, ...options }] *)
Definition mergeOptions (options : CombinedPredictorOptions.t) : Options :=
  let pick {A : Type} (o : option A) (d : A) : A :=
    match o with Some v => v | None => d end in
  mkOptions
    (pick (CombinedPredictorOptions.weights options) (weights DEFAULT_OPTIONS))
    (pick (CombinedPredictorOptions.alwaysIncludeCalendar options)
          (alwaysIncludeCalendar DEFAULT_OPTIONS))
    (pick (CombinedPredictorOptions.minSymptomObservations options)
          (minSymptomObservations DEFAULT_OPTIONS)).

(** [p.source = source] *)
Definition setSource (p : Prediction.t) (source : string) : Prediction.t :=
  Prediction.mk (Prediction.id p) source
    (Prediction.fertileStart p) (Prediction.fertileEnd p)
    (Prediction.ovulationDate p) (Prediction.confidence p)
    (Prediction.cycleId p) (Prediction.notes p)
    (Prediction.createdAt p) (Prediction.updatedAt p).

(** The object returned when there is exactly one prediction. *)
Definition wrap (opts : Options) (p : Prediction.t) : CombinedPrediction.t :=
  CombinedPrediction.mk
    (Prediction.fertileStart p) (Prediction.fertileEnd p)
    (Prediction.ovulationDate p)
    (match Prediction.confidence p with
     | Some c => Some (c / 100)
     | None => None
     end)
    (("Based on " ++ Prediction.source p ++ " prediction only")%string
       :: match Prediction.notes p with
          | Some n => if String.eqb n "" then [] else [n]
          | None => []
          end)
    (Diagnostics.mk 1 [] (weights opts) [] 1).

Definition predictCombined (input : CombinedPredictionInput.t)
    (options : CombinedPredictorOptions.t) : Eff (option CombinedPrediction.t) :=
  let opts := mergeOptions options in
  let predictions : list Prediction.t := [] in
  calendarPrediction <-
    Calendar.predictFromCalendar
      (CombinedPredictionInput.currentCycleStart input)
      (match CombinedPredictionInput.historicalCycles input with
       | Some cycles => cycles
       | None => []
       end)
      CalendarPredictorOptions.empty ;;
  let calendarPrediction := setSource calendarPrediction "manual" in
  let noObservations :=
    match CombinedPredictionInput.observations input with
    | Some (_ :: _) => false
    | _ => true
    end in
  let predictions :=
    if (alwaysIncludeCalendar opts || noObservations)%bool
    then predictions ++ [calendarPrediction] else predictions in
  predictions <-
    match CombinedPredictionInput.observations input with
    | Some observations =>
        if Js.geb (INR (List.length observations)) (minSymptomObservations opts)
        then
          symptomPrediction <-
            Symptoms.predictFromSymptoms observations
              (Some (CombinedPredictionInput.currentCycleStart input))
              SymptomPredictorOptions.empty ;;
          ret (match symptomPrediction with
               | Some p => predictions ++ [p]
               | None => predictions
               end)
        else ret predictions
    | None => ret predictions
    end ;;
  let predictions :=
    match CombinedPredictionInput.externalPredictions input with
    | Some external => predictions ++ external
    | None => predictions
    end in
  match predictions with
  | [p] => ret (Some (wrap opts p))
  | _ =>
      tz <- timeZone ;;
      ret (option_map CombinedPrediction.ofReconciled
             (Reconciler.reconcile tz predictions
                (ReconcilerOptions.mk (Some (weights opts)) None None None)))
  end.

(** The three accumulators of [assessPredictionQuality]. *)
Record Assessment : Type := mkAssessment {
  factors : list Factor.t;
  recommendations : list string;
  score : Z
}.

(** The block "Assess historical cycle data". *)
Definition assessHistory (cycleCount : nat) (a : Assessment) : Assessment :=
  if (6 <=? cycleCount)%nat then
    mkAssessment
      (factors a ++ [Factor.mk "Historical cycles" positive
                       (Js.showNat cycleCount ++ " cycles tracked - excellent history")%string])
      (recommendations a) (score a + 15)
  else if (3 <=? cycleCount)%nat then
    mkAssessment
      (factors a ++ [Factor.mk "Historical cycles" positive
                       (Js.showNat cycleCount ++ " cycles tracked - good start")%string])
      (recommendations a) (score a + 8)
  else
    mkAssessment
      (factors a ++ [Factor.mk "Historical cycles" negative
                       ("Only " ++ Js.showNat cycleCount ++ " cycles tracked")%string])
      (recommendations a ++ ["Track more cycles for better calendar predictions"])
      (score a - 5).

(** The block "Assess cycle regularity". *)
Definition assessRegularity (historicalCycles : option (list Cycle.t))
    (a : Assessment) : Assessment :=
  match historicalCycles with
  | Some cycles =>
      if (3 <=? List.length cycles)%nat then
        let lengths := map (fun c => IZR (Cycle.length c)) cycles in
        let avg := fold_left (fun a b => a + b) lengths 0 / INR (List.length lengths) in
        let variance :=
          fold_left (fun sum l => sum + (l - avg) ^ 2) lengths 0
          / INR (List.length lengths) in
        let stdDev := sqrt variance in
        if Rle_dec stdDev 2 then
          mkAssessment
            (factors a ++ [Factor.mk "Cycle regularity" positive
                             "Very regular cycles (±2 days)"])
            (recommendations a) (score a + 10)
        else if Rle_dec stdDev 4 then
          mkAssessment
            (factors a ++ [Factor.mk "Cycle regularity" neutral
                             "Moderately regular cycles"])
            (recommendations a) (score a)
        else
          mkAssessment
            (factors a ++ [Factor.mk "Cycle regularity" negative
                             "Irregular cycles reduce prediction accuracy"])
            (recommendations a ++ ["Consider symptom tracking for irregular cycles"])
            (score a - 10)
      else a
  | None => a
  end.

(** The block "Assess observation data": the OPK part, then the
    cervical-mucus part. *)
Definition assessOPK (opkObs : nat) (a : Assessment) : Assessment :=
  if (0 <? opkObs)%nat then
    mkAssessment
      (factors a ++ [Factor.mk "OPK tracking" positive
                       (Js.showNat opkObs ++ " OPK observations - high accuracy")%string])
      (recommendations a) (score a + 20)
  else
    mkAssessment (factors a)
      (recommendations a ++ ["Consider using OPK tests for more accurate predictions"])
      (score a).

Definition assessCM (cmObs : nat) (a : Assessment) : Assessment :=
  if (7 <=? cmObs)%nat then
    mkAssessment
      (factors a ++ [Factor.mk "Cervical mucus tracking" positive
                       (Js.showNat cmObs ++ " CM observations - good symptom tracking")%string])
      (recommendations a) (score a + 10)
  else if (0 <? cmObs)%nat then
    mkAssessment
      (factors a ++ [Factor.mk "Cervical mucus tracking" neutral
                       (Js.showNat cmObs ++ " CM observations - could track more")%string])
      (recommendations a ++ ["Track cervical mucus daily for better symptom predictions"])
      (score a + 3)
  else
    mkAssessment
      (factors a ++ [Factor.mk "Symptom tracking" negative "No symptom observations"])
      (recommendations a ++ ["Start tracking cervical mucus for improved accuracy"])
      (score a).

(** The block "Assess external predictions". *)
Definition assessExternal (externalCount : nat) (a : Assessment) : Assessment :=
  if (0 <? externalCount)%nat then
    mkAssessment
      (factors a ++ [Factor.mk "External predictions" positive
                       (Js.showNat externalCount
                          ++ " app predictions for reconciliation")%string])
      (recommendations a)
      (score a + 5 * Z.min (Z.of_nat externalCount) 3)
  else a.

Definition assessPredictionQuality (input : CombinedPredictionInput.t)
    : PredictionQuality.t :=
  let a := mkAssessment [] [] 50 in
  let cycleCount :=
    match CombinedPredictionInput.historicalCycles input with
    | Some cycles => List.length cycles
    | None => O
    end in
  let a := assessHistory cycleCount a in
  let a := assessRegularity (CombinedPredictionInput.historicalCycles input) a in
  let count (ty : ObservationType) : nat :=
    match CombinedPredictionInput.observations input with
    | Some observations => List.length (filter (Symptoms.isType ty) observations)
    | None => O
    end in
  let cmObs := count ty_cervical_mucus in
  let opkObs := count ty_opk in
  let a := assessOPK opkObs a in
  let a := assessCM cmObs a in
  let externalCount :=
    match CombinedPredictionInput.externalPredictions input with
    | Some external => List.length external
    | None => O
    end in
  let a := assessExternal externalCount a in
  let score := Z.max 0 (Z.min 100 (score a)) in
  let overall :=
    if (80 <=? score)%Z then excellent
    else if (60 <=? score)%Z then good
    else if (40 <=? score)%Z then fair
    else poor in
  PredictionQuality.mk overall score (factors a) (recommendations a).

End Combined.

(** ** The Fertility Friend import ([src/lib/ff-import.ts], [src/lib/types.ts])

    Strings are sequences of bytes; [trim] and [toLowerCase] are modelled on
    the ASCII range.  Dictionary look-ups see the listed keys only (the
    keys an object literal inherits, such as [constructor], are left out). *)

Inductive FFCervicalMucus : Type :=
  | ff_dry | ff_sticky | ff_creamy | ff_watery | ff_eggwhite | ff_cm_unknown.

Inductive FFOPKResult : Type :=
  | ff_negative | ff_positive | ff_peak | ff_opk_unknown.

Module FFRawObservation.
Record t : Type := mk {
  date : string;
  temp : option R;
  cervicalMucus : option FFCervicalMucus;
  opk : option FFOPKResult;
  intercourse : option bool;
  notes : option string
}.
End FFRawObservation.

(** [ImportError] and [ImportWarning] have the same shape. *)
Module ImportError.
Record t : Type := mk {
  row : nat;
  field : string;
  message : string;
  value : option string
}.
End ImportError.

Module ImportResult.
Record t : Type := mk {
  success : bool;
  observations : list FFRawObservation.t;
  errors : list ImportError.t;
  warnings : list ImportError.t
}.
End ImportResult.

(** What [Papa.parse(csvContent, { header: true, ... })] hands back: the rows
    as dictionaries from header to cell, and the parser's own errors. *)
Definition ParsedCSVRow : Type := list (string * string).

Module PapaError.
Record t : Type := mk {
  row : option nat;
  message : string
}.
End PapaError.

Module PapaResult.
Record t : Type := mk {
  data : list ParsedCSVRow;
  errors : list PapaError.t
}.
End PapaResult.

Module Str.

Definition isDigit (c : ascii) : bool :=
  let n := nat_of_ascii c in ((48 <=? n) && (n <=? 57))%nat.

Definition isSpace (c : ascii) : bool :=
  let n := nat_of_ascii c in (((9 <=? n) && (n <=? 13)) || (n =? 32))%nat.

Definition lowerChar (c : ascii) : ascii :=
  let n := nat_of_ascii c in
  if ((65 <=? n) && (n <=? 90))%nat then ascii_of_nat (n + 32) else c.

Fixpoint toLowerCase (s : string) : string :=
  match s with
  | EmptyString => EmptyString
  | String c s' => String (lowerChar c) (toLowerCase s')
  end.

Fixpoint trimStart (s : string) : string :=
  match s with
  | EmptyString => EmptyString
  | String c s' => if isSpace c then trimStart s' else s
  end.

(** Drops the white space at the end: a character is kept when something
    that is not white space follows it. *)
Fixpoint trimEnd (s : string) : string :=
  match s with
  | EmptyString => EmptyString
  | String c s' =>
      match trimEnd s' with
      | EmptyString => if isSpace c then EmptyString else String c EmptyString
      | rest => String c rest
      end
  end.

Definition trim (s : string) : string := trimEnd (trimStart s).

Definition allDigits (s : string) : bool :=
  forallb isDigit (list_ascii_of_string s).

(** [s.split(sep)] for a one-character separator. *)
Fixpoint split (sep : ascii) (s : string) : list string :=
  match s with
  | EmptyString => [EmptyString]
  | String c s' =>
      if Ascii.eqb c sep then EmptyString :: split sep s'
      else
        match split sep s' with
        | [] => [String c EmptyString]
        | part :: parts => String c part :: parts
        end
  end.

(** [s.padStart(2, '0')] *)
Definition padStart2 (s : string) : string :=
  match String.length s with
  | O => "00"
  | S O => ("0" ++ s)%string
  | _ => s
  end.

(** [/^\d{4}-\d{2}-\d{2}$/.test(s)] *)
Definition matchISO (s : string) : bool :=
  match split "-" s with
  | [y; m; d] =>
      ((String.length y =? 4) && (String.length m =? 2) && (String.length d =? 2))%nat
      && allDigits y && allDigits m && allDigits d
  | _ => false
  end.

(** [s.match(/^(\d{1,2})\/(\d{1,2})\/(\d{4})$/)]: the three groups. *)
Definition matchSlashDate (s : string) : option (string * string * string) :=
  match split "/" s with
  | [a; b; y] =>
      if (((1 <=? String.length a) && (String.length a <=? 2))%nat
          && ((1 <=? String.length b) && (String.length b <=? 2))%nat
          && (String.length y =? 4)%nat
          && allDigits a && allDigits b && allDigits y)%bool
      then Some (a, b, y) else None
  | _ => None
  end.

(** [s.replace(/[°FfCc]/g, '')]; the degree sign is the two bytes 194, 176. *)
Fixpoint stripUnits (s : string) : string :=
  match s with
  | EmptyString => EmptyString
  | String c s' =>
      let n := nat_of_ascii c in
      if ((n =? 70) || (n =? 102) || (n =? 67) || (n =? 99))%nat then stripUnits s'
      else
        match s' with
        | String c' s'' =>
            if ((n =? 194) && (nat_of_ascii c' =? 176))%nat then stripUnits s''
            else String c (stripUnits s')
        | EmptyString => String c EmptyString
        end
  end.

(** [s.includes(p)] *)
Fixpoint includes (p s : string) : bool :=
  (String.prefix p s
   || match s with
      | EmptyString => false
      | String _ s' => includes p s'
      end)%bool.

End Str.

Module FFImport.

Definition CM_MAP : list (string * FFCervicalMucus) :=
  [ ("dry", ff_dry); ("d", ff_dry); ("none", ff_dry);
    ("sticky", ff_sticky); ("s", ff_sticky); ("tacky", ff_sticky);
    ("creamy", ff_creamy); ("c", ff_creamy); ("lotiony", ff_creamy);
    ("watery", ff_watery); ("w", ff_watery);
    ("eggwhite", ff_eggwhite); ("egg white", ff_eggwhite); ("ew", ff_eggwhite);
    ("e", ff_eggwhite); ("stretchy", ff_eggwhite) ].

Definition OPK_MAP : list (string * FFOPKResult) :=
  [ ("negative", ff_negative); ("neg", ff_negative); ("n", ff_negative);
    ("-", ff_negative);
    ("positive", ff_positive); ("pos", ff_positive); ("p", ff_positive);
    ("+", ff_positive);
    ("peak", ff_peak); ("high", ff_positive); ("low", ff_negative) ].

Definition INTERCOURSE_MAP : list (string * bool) :=
  [ ("yes", true); ("y", true); ("1", true); ("true", true); ("x", true);
    ("no", false); ("n", false); ("0", false); ("false", false); ("", false) ].

Fixpoint get {A : Type} (key : string) (m : list (string * A)) : option A :=
  match m with
  | [] => None
  | (k, v) :: m' => if String.eqb k key then Some v else get key m'
  end.

(** [!s || s.trim() === ''] for an optional cell. *)
Definition blank (s : option string) : bool :=
  match s with
  | None => true
  | Some s => String.eqb (Str.trim s) ""
  end.

Section Host.

(** Three built-ins of the host are taken as given: [new Date(s)] followed by
    [toISOString().split('T')[0]] ([None] for an invalid date), [parseFloat]
    ([None] for [NaN]) and the rendering of a number in a template string. *)
Variable dateParse : string -> option string.
Variable parseFloat : string -> option R.
Variable showNumber : R -> string.

Record DateResult : Type := mkDateResult {
  date : option string;
  error : option ImportError.t
}.

Definition parseDate (dateStr : string) (rowNum : nat) : DateResult :=
  if blank (Some dateStr) then
    mkDateResult None
      (Some (ImportError.mk rowNum "Date" "Date is required" (Some dateStr)))
  else
    let cleaned := Str.trim dateStr in
    if Str.matchISO cleaned then mkDateResult (Some cleaned) None
    else
      (* MM/DD/YYYY *)
      match Str.matchSlashDate cleaned with
      | Some (month, day, year) =>
          mkDateResult
            (Some (year ++ "-" ++ Str.padStart2 month ++ "-" ++ Str.padStart2 day)%string)
            None
      | None =>
          (* DD/MM/YYYY: the same pattern again *)
          match Str.matchSlashDate cleaned with
          | Some (day, month, year) =>
              mkDateResult
                (Some (year ++ "-" ++ Str.padStart2 month ++ "-"
                         ++ Str.padStart2 day)%string)
                None
          | None =>
              match dateParse cleaned with
              | Some iso => mkDateResult (Some iso) None
              | None =>
                  mkDateResult None
                    (Some (ImportError.mk rowNum "Date"
                             ("Invalid date format: " ++ cleaned)%string
                             (Some cleaned)))
              end
          end
      end.

Record TempResult : Type := mkTempResult {
  temp : option R;
  warning : option ImportError.t
}.

Definition parseTemp (tempStr : option string) (rowNum : nat) : TempResult :=
  match tempStr with
  | None => mkTempResult None None
  | Some s =>
      if blank tempStr then mkTempResult None None
      else
        let cleaned := Str.stripUnits (Str.trim s) in
        match parseFloat cleaned with
        | None =>
            mkTempResult None
              (Some (ImportError.mk rowNum "Temp"
                       ("Could not parse temperature: " ++ s)%string (Some s)))
        | Some temp =>
            if (Js.ltb temp 95 || Js.gtb temp 101)%bool then
              mkTempResult (Some temp)
                (Some (ImportError.mk rowNum "Temp"
                         ("Temperature " ++ showNumber temp
                            ++ "°F is outside typical BBT range (96-100°F)")%string
                         (Some s)))
            else mkTempResult (Some temp) None
        end
  end.

Definition parseCervicalMucus (cmStr : option string) : option FFCervicalMucus :=
  match cmStr with
  | None => None
  | Some s =>
      if blank cmStr then None
      else
        let normalized := Str.toLowerCase (Str.trim s) in
        match get normalized CM_MAP with
        | Some v => Some v
        | None => Some ff_cm_unknown
        end
  end.

Definition parseOPK (opkStr : option string) : option FFOPKResult :=
  match opkStr with
  | None => None
  | Some s =>
      if blank opkStr then None
      else
        let normalized := Str.toLowerCase (Str.trim s) in
        match get normalized OPK_MAP with
        | Some v => Some v
        | None => Some ff_opk_unknown
        end
  end.

Definition parseIntercourse (intStr : option string) : option bool :=
  match intStr with
  | None => None
  | Some s =>
      if blank intStr then None
      else get (Str.toLowerCase (Str.trim s)) INTERCOURSE_MAP
  end.

(** The inner loop of [findColumn]: the first key equal to [lowerName] once
    lower-cased. *)
Fixpoint findInsensitive (lowerName : string) (keys : ParsedCSVRow)
    : option string :=
  match keys with
  | [] => None
  | (key, cell) :: keys' =>
      if String.eqb (Str.toLowerCase key) lowerName then Some cell
      else findInsensitive lowerName keys'
  end.

Fixpoint findColumn (row : ParsedCSVRow) (possibleNames : list string)
    : option string :=
  match possibleNames with
  | [] => None
  | name :: names =>
      match get name row with
      | Some cell => Some cell
      | None =>
          match findInsensitive (Str.toLowerCase name) row with
          | Some cell => Some cell
          | None => findColumn row names
          end
      end
  end.

Record RowResult : Type := mkRowResult {
  observation : option FFRawObservation.t;
  errors : list ImportError.t;
  warnings : list ImportError.t
}.

Definition parseRow (row : ParsedCSVRow) (rowNum : nat) : RowResult :=
  let dateStr := findColumn row ["Date"; "date"; "DATE"] in
  let r := parseDate (match dateStr with Some s => s | None => "" end) rowNum in
  match error r with
  | Some dateError => mkRowResult None [dateError] []
  | None =>
      let tempStr := findColumn row ["Temp"; "Temperature"; "BBT"; "temp"; "temperature"] in
      let t := parseTemp tempStr rowNum in
      let warnings := match warning t with Some w => [w] | None => [] end in
      let cmStr :=
        findColumn row ["Cervical Fluid"; "CF"; "CM"; "Cervical Mucus";
                        "cervical fluid"; "Fluid"] in
      let cervicalMucus := parseCervicalMucus cmStr in
      let opkStr := findColumn row ["OPK"; "opk"; "LH Test"; "Ovulation Test"] in
      let opk := parseOPK opkStr in
      let intStr := findColumn row ["Intercourse"; "intercourse"; "BD"; "Sex"] in
      let intercourse := parseIntercourse intStr in
      let notes := findColumn row ["Notes"; "notes"; "Note"; "Comments"; "Memo"] in
      let observation :=
        FFRawObservation.mk
          (match date r with Some d => d | None => "" end)
          (temp t) cervicalMucus opk intercourse
          (match notes with
           | Some n => if String.eqb (Str.trim n) "" then None else Some (Str.trim n)
           | None => None
           end) in
      mkRowResult (Some observation) [] warnings
  end.

(** The state of the row loop of [parseFFCSV]. *)
Record Acc : Type := mkAcc {
  acc_errors : list ImportError.t;
  acc_warnings : list ImportError.t;
  acc_observations : list FFRawObservation.t
}.

(** The loop from index [i] over the rows that are left. *)
Fixpoint rowLoop (rows : list ParsedCSVRow) (i : nat) (acc : Acc) : Acc :=
  match rows with
  | [] => acc
  | row :: rows' =>
      let rowNum := (i + 2)%nat in
      let result := parseRow row rowNum in
      rowLoop rows' (S i)
        (mkAcc (acc_errors acc ++ errors result)
               (acc_warnings acc ++ warnings result)
               (match observation result with
                | Some o => acc_observations acc ++ [o]
                | None => acc_observations acc
                end))
  end.

(** [a.localeCompare(b)] on date strings, by byte order. *)
Definition localeCompare (a b : string) : R :=
  match String.compare a b with
  | Lt => -1
  | Eq => 0
  | Gt => 1
  end.

(** The duplicate check: a warning for every date already in [datesSeen]. *)
Fixpoint duplicateWarnings (datesSeen : list string)
    (observations : list FFRawObservation.t) : list ImportError.t :=
  match observations with
  | [] => []
  | obs :: rest =>
      let d := FFRawObservation.date obs in
      (if existsb (String.eqb d) datesSeen
       then [ImportError.mk 0 "Date" ("Duplicate date found: " ++ d)%string (Some d)]
       else [])
      ++ duplicateWarnings (d :: datesSeen) rest
  end.

(** [parseFFCSV], from the result of [Papa.parse] on. *)
Definition parseFFCSV (parsed : PapaResult.t) : ImportResult.t :=
  let errors :=
    map (fun err =>
           ImportError.mk (match PapaError.row err with Some r => r | None => O end)
                          "CSV" (PapaError.message err) None)
        (PapaResult.errors parsed) in
  let acc := rowLoop (PapaResult.data parsed) 0 (mkAcc errors [] []) in
  let observations :=
    Js.sort (fun a b => localeCompare (FFRawObservation.date a) (FFRawObservation.date b))
            (acc_observations acc) in
  let warnings := acc_warnings acc ++ duplicateWarnings [] observations in
  ImportResult.mk (List.length (acc_errors acc) =? 0)%nat observations
                  (acc_errors acc) warnings.

End Host.

Definition mapFFCervicalMucus (ffCM : FFCervicalMucus) : CervicalMucusType :=
  match ffCM with
  | ff_dry => cm_dry
  | ff_sticky => cm_sticky
  | ff_creamy => cm_creamy
  | ff_watery => cm_watery
  | ff_eggwhite => cm_egg_white
  | ff_cm_unknown => cm_dry
  end.

Definition mapFFOPKResult (ffOPK : FFOPKResult) : OPKResult :=
  match ffOPK with
  | ff_negative => opk_negative
  | ff_positive => opk_positive
  | ff_peak => opk_positive
  | ff_opk_unknown => opk_invalid
  end.

(** The observations [convertToObservations] makes of one raw row. *)
Definition convertOne (timestamp : string) (raw : FFRawObservation.t)
    (date : Z) : Eff (list Observation.t) :=
  bbt <- match FFRawObservation.temp raw with
         | Some temp =>
             id <- generateId ;;
             ret [Observation.mk id date (BBTValue temp None)
                    (FFRawObservation.notes raw) timestamp timestamp]
         | None => ret []
         end ;;
  cm <- match FFRawObservation.cervicalMucus raw with
        | Some ff_cm_unknown | None => ret []
        | Some v =>
            id <- generateId ;;
            ret [Observation.mk id date (CMValue (mapFFCervicalMucus v)) None
                   timestamp timestamp]
        end ;;
  opk <- match FFRawObservation.opk raw with
         | Some ff_opk_unknown | None => ret []
         | Some v =>
             id <- generateId ;;
             ret [Observation.mk id date (OPKValue (mapFFOPKResult v) None) None
                    timestamp timestamp]
         end ;;
  ret (bbt ++ cm ++ opk).

(** [convertToObservations]; [dayNumber] reads the day number off a raw
    row's date string. *)
Fixpoint convertLoop (dayNumber : string -> Z) (timestamp : string)
    (rawObservations : list FFRawObservation.t) : Eff (list Observation.t) :=
  match rawObservations with
  | [] => ret []
  | raw :: rest =>
      here <- convertOne timestamp raw (dayNumber (FFRawObservation.date raw)) ;;
      others <- convertLoop dayNumber timestamp rest ;;
      ret (here ++ others)
  end.

Definition convertToObservations (dayNumber : string -> Z)
    (rawObservations : list FFRawObservation.t) : Eff (list Observation.t) :=
  timestamp <- getTimestamp ;;
  convertLoop dayNumber timestamp rawObservations.

(** The strings the canonical values are at run time. *)
Definition opkName (v : OPKResult) : string :=
  match v with
  | opk_negative => "negative"
  | opk_almost_positive => "almost-positive"
  | opk_positive => "positive"
  | opk_invalid => "invalid"
  end.

(** A cervical-mucus cell as it reaches an observation: parsed, dropped when
    [unknown] (the guard of [convertToObservations]), then mapped. *)
Definition normalizeCM (cell : string) : option CervicalMucusType :=
  match parseCervicalMucus (Some cell) with
  | Some ff_cm_unknown | None => None
  | Some v => Some (mapFFCervicalMucus v)
  end.

Definition normalizeOPK (cell : string) : option OPKResult :=
  match parseOPK (Some cell) with
  | Some ff_opk_unknown | None => None
  | Some v => Some (mapFFOPKResult v)
  end.

Record Structure : Type := mkStructure {
  valid : bool;
  missingColumns : list string;
  foundColumns : list string
}.

(** [validateCSVStructure], from [parsed.meta.fields] on. *)
Definition validateCSVStructure (fields : option (list string)) : Structure :=
  let headers := match fields with Some f => f | None => [] end in
  let headersLower := map Str.toLowerCase headers in
  let requiredColumns := ["date"] in
  let missingColumns :=
    fold_left
      (fun missing required =>
         let found := existsb (Str.includes required) headersLower in
         if negb found then missing ++ [required] else missing)
      requiredColumns [] in
  mkStructure (List.length missingColumns =? 0)%nat missingColumns headers.

End FFImport.

(** * Properties *)

(** ** Vocabulary of the statements *)

(** The spellings of the parser's own vocabulary. *)
Definition ffCMName (v : FFCervicalMucus) : string :=
  match v with
  | ff_dry => "dry"
  | ff_sticky => "sticky"
  | ff_creamy => "creamy"
  | ff_watery => "watery"
  | ff_eggwhite => "eggwhite"
  | ff_cm_unknown => "unknown"
  end.

Definition ffOPKName (v : FFOPKResult) : string :=
  match v with
  | ff_negative => "negative"
  | ff_positive => "positive"
  | ff_peak => "peak"
  | ff_opk_unknown => "unknown"
  end.

(** A canonical value is produced when some cell normalises to it. *)
Definition producedCM (v : CervicalMucusType) : Prop :=
  exists cell, FFImport.normalizeCM cell = Some v.

Definition producedOPK (v : OPKResult) : Prop :=
  exists cell, FFImport.normalizeOPK cell = Some v.

(** A prediction without the three fields that are minted from the host. *)
Definition withoutMinted (p : Prediction.t) : Prediction.t :=
  Prediction.mk "" (Prediction.source p) (Prediction.fertileStart p)
    (Prediction.fertileEnd p) (Prediction.ovulationDate p)
    (Prediction.confidence p) (Prediction.cycleId p) (Prediction.notes p) "" "".

(** Two moments on a host in UTC. *)
Definition morning : World.t :=
  World.mk "2025-02-01T08:00:00.000Z" (fun _ => "id-a") 0 Host.utc.
Definition evening : World.t :=
  World.mk "2025-02-01T20:00:00.000Z" (fun _ => "id-b") 0 Host.utc.

(** A host whose time zone keeps one offset from UTC throughout: UTC itself,
    or a zone without daylight saving time. *)
Definition fixedOffset (tz : Host.TimeZone) : Prop :=
  exists c, forall t, Host.offsetAt tz t = c /\ Host.offsetOfLocal tz t = c.

(** New York in the first months of 2025: five hours behind UTC until
    2025-03-09T07:00:00Z, four hours behind from then on. *)
Definition newYork : Host.TimeZone := Host.springForward 1741503600000 (-18000000).

(** The days [s], [s + 1], ..., [e]. *)
Definition dayRange (s e : Z) : list Z :=
  map (fun i => (s + Z.of_nat i)%Z) (seq 0 (Z.to_nat (e - s + 1))).

Definition Rsum (l : list R) : R := fold_right Rplus 0 l.

(** The population variance, in days squared, of a list of time values. *)
Definition variance (times : list R) : R :=
  let avg := Rsum times / INR (List.length times) in
  Rsum (map (fun t => ((t - avg) / (24 * 60 * 60 * 1000)) ^ 2) times)
  / INR (List.length times).

Definition weightOf (weights : SourceWeights) (p : Prediction.t) : R :=
  Reconciler.getWeight (Prediction.source p) weights.

Definition totalWeightOf (weights : SourceWeights) (l : list Prediction.t) : R :=
  Rsum (map (weightOf weights) l).

(** The centroid time values of [identifyOutliers]. *)
Definition centroidStartOf (weights : SourceWeights) (l : list Prediction.t) : R :=
  Js.trunc (Rsum (map (fun p => Dates.getTime (Prediction.fertileStart p) * weightOf weights p) l)
            / totalWeightOf weights l).

Definition centroidEndOf (weights : SourceWeights) (l : list Prediction.t) : R :=
  Js.trunc (Rsum (map (fun p => Dates.getTime (Prediction.fertileEnd p) * weightOf weights p) l)
            / totalWeightOf weights l).

(** [P.confidence / 100], [0.5] when the confidence is absent. *)
Definition selfConfidence (p : Prediction.t) : R :=
  match Prediction.confidence p with
  | Some c => c / 100
  | None => 0.5
  end.

Definition inWindow (date : Z) (p : Prediction.t) : bool :=
  ((Prediction.fertileStart p <=? date)%Z && (date <=? Prediction.fertileEnd p)%Z)%bool.

(** The number of days from [date] to the nearer end of the window of [p]. *)
Definition daysOutside (date : Z) (p : Prediction.t) : Z :=
  Z.min (Z.abs (date - Prediction.fertileStart p))
        (Z.abs (date - Prediction.fertileEnd p)).

Definition decayed (weights : SourceWeights) (date : Z) (p : Prediction.t) : R :=
  weightOf weights p * selfConfidence p * exp (- (IZR (daysOutside date p) ^ 2) / 2).

(** What prediction [p] adds to the raw scores of [date]: the contribution
    with the cut-off the code applies, a decayed score being recorded when it
    is strictly above [0.1]. *)
Definition contribution (weights : SourceWeights) (date : Z) (p : Prediction.t) : R :=
  if inWindow date p then weightOf weights p * selfConfidence p
  else if Rgt_dec (decayed weights date p) 0.1 then decayed weights date p
  else 0.

(** The same for a time value [t], which need not be a midnight: whether it
    lies within the window of [p], its distance in days, rounded, from the
    nearer end, and what [p] adds to its raw scores. *)
Definition inWindowAt (t : Z) (p : Prediction.t) : bool :=
  ((Dates.parseDate (Prediction.fertileStart p) <=? t)%Z
   && (t <=? Dates.parseDate (Prediction.fertileEnd p))%Z)%bool.

Definition daysOutsideAt (t : Z) (p : Prediction.t) : Z :=
  Z.min (Dates.daysBetween (IZR t) (IZR (Dates.parseDate (Prediction.fertileStart p))))
        (Dates.daysBetween (IZR t) (IZR (Dates.parseDate (Prediction.fertileEnd p)))).

Definition decayedAt (weights : SourceWeights) (t : Z) (p : Prediction.t) : R :=
  weightOf weights p * selfConfidence p * exp (- (IZR (daysOutsideAt t p) ^ 2) / 2).

Definition contributionAt (weights : SourceWeights) (t : Z) (p : Prediction.t) : R :=
  if inWindowAt t p then weightOf weights p * selfConfidence p
  else if Rgt_dec (decayedAt weights t p) 0.1 then decayedAt weights t p
  else 0.

(** What prediction [p] adds to [rawScores] for the time value [t]. *)
Definition rawScoreAt (weights : SourceWeights) (t : Z) (p : Prediction.t)
    : list (string * R) :=
  if inWindowAt t p then [(Prediction.source p, weightOf weights p * selfConfidence p)]
  else if Rgt_dec (decayedAt weights t p) 0.1
       then [(Prediction.source p, decayedAt weights t p)]
       else [].

(** The score of midnight UTC of the day [date]. *)
Definition dayScoreAt (weights : SourceWeights) (predictions : list Prediction.t)
    (date : Z) : DayScore.t :=
  Reconciler.dayScore weights predictions (Dates.parseDate date).

(** The earliest start and the latest end, as day numbers. *)
Definition rangeStepDays (acc : Z * Z) (p : Prediction.t) : Z * Z :=
  ((if (Prediction.fertileStart p <? fst acc)%Z
    then Prediction.fertileStart p else fst acc),
   (if (snd acc <? Prediction.fertileEnd p)%Z
    then Prediction.fertileEnd p else snd acc)).

Definition rangeOf (p0 : Prediction.t) (l : list Prediction.t) : Z * Z :=
  fold_left rangeStepDays (p0 :: l)
            (Prediction.fertileStart p0, Prediction.fertileEnd p0).

(** [lo] is the earliest start and [hi] the latest end of the windows of [l]. *)
Definition unionRange (l : list Prediction.t) (lo hi : Z) : Prop :=
  (exists p, In p l /\ Prediction.fertileStart p = lo)
  /\ (forall p, In p l -> (lo <= Prediction.fertileStart p)%Z)
  /\ (exists p, In p l /\ Prediction.fertileEnd p = hi)
  /\ (forall p, In p l -> (Prediction.fertileEnd p <= hi)%Z).

Definition dateCmp (a b : DayScore.t) : R :=
  Dates.getTime (DayScore.date a) - Dates.getTime (DayScore.date b).

Definition pickPeak (best day : DayScore.t) : DayScore.t :=
  if Rgt_dec (DayScore.probability day) (DayScore.probability best) then day else best.

Definition fertileDaysOf (dayScores : list DayScore.t) (threshold : R) : list DayScore.t :=
  filter (fun d => Js.geb (DayScore.probability d) threshold) dayScores.

(** The longest run, cut out of the sorted fertile days. *)
Definition windowDaysOf (sortedDays : list DayScore.t) : list DayScore.t :=
  match sortedDays with
  | [] => []
  | first :: rest =>
      let s := Reconciler.commit
                 (Reconciler.scanRuns first rest 1 (Reconciler.mkScan 0 1 0 1)) in
      Js.slice (Reconciler.bestStart s)
               (Reconciler.bestStart s + Reconciler.bestLength s) sortedDays
  end.

Definition ScanInv (s : Reconciler.Scan) (i : nat) : Prop :=
  (1 <= Reconciler.bestLength s)%nat
  /\ (Reconciler.bestStart s + Reconciler.bestLength s <= i)%nat
  /\ (1 <= Reconciler.currentLength s)%nat
  /\ (Reconciler.currentStart s + Reconciler.currentLength s = i)%nat.

(** Two scores of one day that hold the same recorded scores and the same
    sources, in whatever order. *)
Definition sameScores (d d' : DayScore.t) : Prop :=
  DayScore.date d = DayScore.date d'
  /\ Permutation (DayScore.rawScores d) (DayScore.rawScores d')
  /\ Permutation (DayScore.sources d) (DayScore.sources d').

(** Two scores of one day. *)
Definition sameDate (d d' : DayScore.t) : Prop := DayScore.date d = DayScore.date d'.

Definition mergedWeights (options : ReconcilerOptions.t) : SourceWeights :=
  spread Reconciler.DEFAULT_WEIGHTS (Reconciler.weights (Reconciler.mergeOptions options)).

Definition thresholdOf (options : ReconcilerOptions.t) (valid : list Prediction.t) : R :=
  Reconciler.effectiveThreshold (Reconciler.mergeOptions options)
                                (Reconciler.calculateSourceAgreement valid).

(** The confidence synthesised when a window is extracted. *)
Definition windowConfidence (options : ReconcilerOptions.t) (valid : list Prediction.t) : R :=
  Rmin 1 (Rmax 0
    (Reconciler.calculateSourceAgreement valid
     * Rmin 1 (0.7 + INR (List.length valid) * 0.1)
     * Rmax 0.5 (1 - INR (List.length (Reconciler.identifyOutliers valid (mergedWeights options))) * 0.1))).

(** A fallback result: its explanation opens with the low-confidence note. *)
Definition isFallback (r : ReconciledPrediction.t) : Prop :=
  hd_error (ReconciledPrediction.explain r)
  = Some "Low confidence: Could not reconcile predictions".

(** The dates that, by the diagnostics of the result itself, reach the
    effective threshold: the recorded day scores whose probability is at or
    above the threshold that belongs to the recorded source agreement.  These
    are the days [findFertileWindow] cuts the window out of. *)
Definition reachedDays (options : ReconcilerOptions.t) (r : ReconciledPrediction.t) : list Z :=
  map DayScore.date
      (fertileDaysOf
         (Diagnostics.dayScores (ReconciledPrediction.diagnostics r))
         (Reconciler.effectiveThreshold
            (Reconciler.mergeOptions options)
            (Diagnostics.sourceAgreement (ReconciledPrediction.diagnostics r)))).

(** The pieces of a result on a host whose time zone is [tz]. *)
Definition dayScoresOf (tz : Host.TimeZone) (options : ReconcilerOptions.t)
    (valid : list Prediction.t)
    : list DayScore.t :=
  Reconciler.buildDayScores tz valid (mergedWeights options).

Definition windowOf (tz : Host.TimeZone) (options : ReconcilerOptions.t)
    (valid : list Prediction.t)
    : Reconciler.Window :=
  Reconciler.findFertileWindow (dayScoresOf tz options valid) (thresholdOf options valid).

Definition diagnosticsOf (tz : Host.TimeZone) (options : ReconcilerOptions.t)
    (valid : list Prediction.t)
    : Diagnostics.t :=
  Diagnostics.mk (Reconciler.calculateSourceAgreement valid)
                 (Reconciler.identifyOutliers valid (mergedWeights options))
                 (mergedWeights options)
                 (dayScoresOf tz options valid)
                 (List.length valid).

Definition windowResult (tz : Host.TimeZone) (options : ReconcilerOptions.t)
    (valid : list Prediction.t)
    (s e : Z) (p : option Z) : ReconciledPrediction.t :=
  ReconciledPrediction.mk s e p (windowConfidence options valid)
    (Reconciler.generateExplanations tz valid (dayScoresOf tz options valid)
       (Reconciler.calculateSourceAgreement valid)
       (Reconciler.identifyOutliers valid (mergedWeights options)) s e)
    (diagnosticsOf tz options valid).

Definition fallbackResult (tz : Host.TimeZone) (options : ReconcilerOptions.t)
    (valid : list Prediction.t)
    (best : Prediction.t) : ReconciledPrediction.t :=
  ReconciledPrediction.mk
    (Prediction.fertileStart best) (Prediction.fertileEnd best)
    (Prediction.ovulationDate best)
    (Rmax 0.2 (Reconciler.calculateSourceAgreement valid * 0.5))
    [ "Low confidence: Could not reconcile predictions";
      ("Falling back to " ++ Prediction.source best ++ " prediction")%string ]
    (diagnosticsOf tz options valid).

(** Some day's probability reaches the effective threshold. *)
Definition someDayReaches (tz : Host.TimeZone) (options : ReconcilerOptions.t)
    (predictions : list Prediction.t) : Prop :=
  exists d, In d (dayScoresOf tz options (Reconciler.validPredictions predictions))
            /\ thresholdOf options (Reconciler.validPredictions predictions)
               <= DayScore.probability d.

(** The time values [buildDayScores] scores: from two days, in local time,
    before the earliest start to two days after the latest end. *)
Definition allDatesOf (tz : Host.TimeZone) (l : list Prediction.t) : list Z :=
  match l with
  | [] => []
  | p0 :: l' =>
      let minDate := Dates.parseDate (fst (rangeOf p0 l')) in
      let maxDate := Dates.parseDate (snd (rangeOf p0 l')) in
      Dates.getDateRange tz
        (Dates.setDate tz minDate (Dates.getDate tz minDate - 2))
        (Dates.setDate tz maxDate (Dates.getDate tz maxDate + 2))
  end.

(** Admission: enough predictions came in and one of them has a positive
    confidence. *)
Definition admitted (predictions : list Prediction.t) (options : ReconcilerOptions.t) : Prop :=
  ~ INR (List.length predictions) < Reconciler.minSources (Reconciler.mergeOptions options)
  /\ Reconciler.validPredictions predictions <> [].

Definition sample (source : string) (fertileStart fertileEnd : Z)
    (ovulationDate : option Z) (confidence : R) : Prediction.t :=
  Prediction.mk "" source fertileStart fertileEnd ovulationDate (Some confidence)
                None None "" "".

Ltac sample_facts :=
  unfold selfConfidence, Reconciler.confidenceOr50, sample; simpl; lra.

Ltac weight_is v :=
  match goal with
  | |- context [weightOf ?w ?p] => replace (weightOf w p) with v by reflexivity
  end.

(** The fallback scenario of the test suite: two far-apart windows and a
    threshold of 0.99. *)
Definition strict : ReconcilerOptions.t :=
  ReconcilerOptions.mk None (Some 0.99) None None.

Definition apart : list Prediction.t :=
  [ sample "flo" 19732 19733 None 80; sample "clue" 19763 19764 None 80 ].

Definition dissenting : Prediction.t := sample "flo" 20129 20134 (Some 20140%Z) 20.

Definition assenting : Prediction.t := sample "flo" 20129 20134 (Some 20133%Z) 20.

(** The probability a series reports for date [D]. *)
Definition dayProbability (dayScores : list DayScore.t) (D : Z) : option R :=
  option_map DayScore.probability
             (find (fun d => (DayScore.date d =? D)%Z) dayScores).

(** The contribution as the claim words it: a decayed score is recorded
    when it is not below [0.1]. *)
Definition claimedContribution (weights : SourceWeights) (D : Z) (p : Prediction.t) : R :=
  if inWindow D p then weightOf weights p * selfConfidence p
  else if Rge_dec (decayed weights D p) 0.1 then decayed weights D p
  else 0.

Definition claimedProbability (weights : SourceWeights) (l : list Prediction.t) (D : Z) : R :=
  Rsum (map (claimedContribution weights D) l) / totalWeightOf weights l.

(** A weight for which a score two days outside the window, at confidence
    80, is exactly [0.1]. *)
Definition boundaryWeights : SourceWeights := [("flo", exp 2 / 8)].

Definition boundaryList : list Prediction.t := [sample "flo" 20129 20134 None 80].

(** A window from 7 to 12 March 2025; in New York the clocks change on the
    9th. *)
Definition acrossChange : list Prediction.t := [sample "flo" 20154 20159 None 100].

(** The admitted predictions of greatest effective weight have one window. *)
Definition heaviestAgree (options : ReconcilerOptions.t) (predictions : list Prediction.t) : Prop :=
  let valid := Reconciler.validPredictions predictions in
  let w := weightOf (mergedWeights options) in
  forall p q, In p valid -> In q valid ->
              (forall x, In x valid -> w x <= w p) ->
              (forall x, In x valid -> w x <= w q) ->
              Prediction.fertileStart p = Prediction.fertileStart q
              /\ Prediction.fertileEnd p = Prediction.fertileEnd q.

Definition tieA : Prediction.t := sample "flo" 20129 20134 None 20.
Definition tieB : Prediction.t := sample "clue" 20140 20145 None 20.

(** The observations recorded on [date], in input order. *)
Definition onDate (date : Z) (observations : list Observation.t) : list Observation.t :=
  filter (fun o => (Observation.date o =? date)%Z) observations.

(** The value of the first OPK observation recorded on [date]. *)
Definition firstOPKOn (date : Z) (observations : list Observation.t) : option OPKResult :=
  match find (fun o => (Observation.date o =? date)%Z && Symptoms.isType ty_opk o)%bool
             observations with
  | Some o =>
      match Observation.body o with
      | OPKValue v _ => Some v
      | _ => None
      end
  | None => None
  end.

Definition opkTest (date : Z) (value : OPKResult) : Observation.t :=
  Observation.mk "" date (OPKValue value None) None "" "".

(** Two tests on one day, the later one positive. *)
Definition twoTests : list Observation.t :=
  [opkTest 20131 opk_negative; opkTest 20131 opk_positive].

(** A positive test on 8 March 2025, the eve of the change of clocks in New
    York, and the moment [morning] on a host set to New York time. *)
Definition eve : list Observation.t := [opkTest 20155 opk_positive].

Definition morningInNewYork : World.t :=
  World.mk "2025-02-01T08:00:00.000Z" (fun _ => "id-a") 0 newYork.

(** The OPK scenario of the test suite: negative on 10 and 11 February 2025,
    positive on the 12th, negative on the 13th. *)
Definition pivot : list Observation.t :=
  [ opkTest 20129 opk_negative; opkTest 20130 opk_negative;
    opkTest 20131 opk_positive; opkTest 20132 opk_negative ].

(** The population variance of a list of day numbers. *)
Definition varianceDays (days : list Z) : R :=
  let mean := Rsum (map IZR days) / INR (List.length days) in
  Rsum (map (fun d => (IZR d - mean) ^ 2) days) / INR (List.length days).

(** Predictions that share one window: full agreement and no outlier. *)
Definition consensus (l : list Prediction.t) (s e : Z) : Prop :=
  forall p, In p l -> Prediction.fertileStart p = s /\ Prediction.fertileEnd p = e.

(** The weighted centroid, in days, of the starts or of the ends of [l]. *)
Definition centroidDay (weights : SourceWeights) (l : list Prediction.t)
    (f : Prediction.t -> Z) : R :=
  Rsum (map (fun p => IZR (f p) * weightOf weights p) l) / totalWeightOf weights l.

(** A far outlier, as the claim words it: start and end each more than three
    days from the weighted centroid of [l]. *)
Definition farOutlier (weights : SourceWeights) (l : list Prediction.t)
    (q : Prediction.t) : Prop :=
  3 < Rabs (IZR (Prediction.fertileStart q) - centroidDay weights l Prediction.fertileStart)
  /\ 3 < Rabs (IZR (Prediction.fertileEnd q) - centroidDay weights l Prediction.fertileEnd).

(** Two sources twenty days apart, and a third one twenty days further. *)
Definition spreadA : Prediction.t := sample "flo" 20120 20125 None 100.
Definition spreadB : Prediction.t := sample "clue" 20140 20145 None 10.
Definition farQ : Prediction.t := sample "manual" 20160 20165 None 10.

(** The outlier scenario of the test suite, with two agreeing sources. *)
Definition agreeing : list Prediction.t :=
  [ sample "flo" 20129 20134 None 70; sample "clue" 20129 20134 None 75 ].

Definition dissenter : Prediction.t := sample "manual" 20120 20125 None 65.

(** The entries [start .. start + len - 1] of [arr] are a run: each is dated
    one day after the entry before it. *)
Definition RunAt (arr : list DayScore.t) (start len : nat) : Prop :=
  forall k a b, (start <= k)%nat -> (k + 1 < start + len)%nat ->
                nth_error arr k = Some a -> nth_error arr (S k) = Some b ->
                DayScore.date b = (DayScore.date a + 1)%Z.

(** Among the runs that lie within the first [upto] entries of [arr], the one
    of [len] entries from [start] is a longest one, and the earliest of that
    length. *)
Definition LongestAmong (arr : list DayScore.t) (upto start len : nat) : Prop :=
  forall a n, (1 <= n)%nat -> (a + n <= upto)%nat -> RunAt arr a n ->
              (n <= len)%nat /\ (n = len -> (start <= a)%nat).

(** No run continues across index [i]: entry [i] is not dated one day after
    entry [i - 1]. *)
Definition BreakAt (arr : list DayScore.t) (i : nat) : Prop :=
  forall x y, (1 <= i)%nat -> nth_error arr (i - 1) = Some x -> nth_error arr i = Some y ->
              DayScore.date y <> (DayScore.date x + 1)%Z.

(** Two fertile days in a row, a gap, and a lone fertile day that scores
    highest. *)
Definition scoredDay (date : Z) (probability : R) : DayScore.t :=
  DayScore.mk date probability ["flo"] [("flo", probability)].

Definition threeDays : list DayScore.t :=
  [ scoredDay 20130 0.5; scoredDay 20131 0.6; scoredDay 20132 0.1;
    scoredDay 20133 0.9 ].

(** A historical cycle of the given length. *)
Definition cycleOf (length : Z) : Cycle.t := Cycle.mk "" 0 length 5 None "" "".

(** A day whose cervical-mucus score reaches [minCMScore]. *)
Definition highCM (options : Symptoms.Options) (d : DayFertilityData.t) : Prop :=
  Symptoms.minCMScore options <= IZR (DayFertilityData.cmScore d).

Definition cmTest (date : Z) (value : CervicalMucusType) : Observation.t :=
  Observation.mk "" date (CMValue value) None "" "".

(** Watery mucus on 11 February 2025, egg-white on the 12th and the 13th. *)
Definition mucus : list Observation.t :=
  [ cmTest 20130 cm_watery; cmTest 20131 cm_egg_white; cmTest 20132 cm_egg_white ].

(** The readings in the order [detectBBTShift] scans them. *)
Definition sortedByDate (observations : list BBTObservation.t) : list BBTObservation.t :=
  Js.sort (fun a b => Dates.getTime (BBTObservation.date a)
                      - Dates.getTime (BBTObservation.date b))
          observations.

(** The baseline of [detectBBTShift]: the mean of the five lowest of the six
    earliest readings. *)
Definition bbtBaseline (observations : list BBTObservation.t) : R :=
  fold_left (fun sum o => sum + BBTObservation.value o)
            (Js.slice 0 5
               (Js.sort (fun a b => BBTObservation.value a - BBTObservation.value b)
                        (Js.slice 0 6 (sortedByDate observations))))
            0
  / 5.

(** Three readings in a row at or above [threshold]. *)
Definition elevated (threshold : R) (d1 d2 d3 : BBTObservation.t) : Prop :=
  threshold <= BBTObservation.value d1
  /\ threshold <= BBTObservation.value d2
  /\ threshold <= BBTObservation.value d3.

Definition bbtReading (date : Z) (value : R) : BBTObservation.t :=
  BBTObservation.mk "" date value None None "" "".

(** Six readings at 97.0 and three at 97.5, on nine consecutive days. *)
Definition chart : list BBTObservation.t :=
  [ bbtReading 20120 97.0; bbtReading 20121 97.0; bbtReading 20122 97.0;
    bbtReading 20123 97.0; bbtReading 20124 97.0; bbtReading 20125 97.0;
    bbtReading 20126 97.5; bbtReading 20127 97.5; bbtReading 20128 97.5 ].

(** The order [localeCompare] puts on date strings: [a] does not come after [b]. *)
Definition dateLe (a b : string) : Prop := String.compare a b <> Gt.

(** The raw observations the row loop of [parseFFCSV] collects from [rows],
    the first of which has index [i], in file order. *)
Fixpoint acceptedFrom (dateParse : string -> option string)
    (parseFloat : string -> option R) (showNumber : R -> string)
    (rows : list ParsedCSVRow) (i : nat) : list FFRawObservation.t :=
  match rows with
  | [] => []
  | row :: rows' =>
      match FFImport.observation
              (FFImport.parseRow dateParse parseFloat showNumber row (i + 2)) with
      | Some o => [o]
      | None => []
      end
      ++ acceptedFrom dateParse parseFloat showNumber rows' (S i)
  end.

(** How many observations [convertToObservations] makes of one raw row: one
    for a temperature, one for a known cervical-mucus value, one for a known
    OPK result. *)
Definition yields (raw : FFRawObservation.t) : nat :=
  ((match FFRawObservation.temp raw with Some _ => 1 | None => 0 end)
   + (match FFRawObservation.cervicalMucus raw with
      | Some ff_cm_unknown | None => 0
      | Some _ => 1
      end)
   + (match FFRawObservation.opk raw with
      | Some ff_opk_unknown | None => 0
      | Some _ => 1
      end))%nat.

(** What an observation made of [raw] on day [date] looks like. *)
Definition madeOf (raw : FFRawObservation.t) (date : Z) (o : Observation.t) : Prop :=
  Observation.date o = date
  /\ match Observation.body o with
     | BBTValue t time =>
         FFRawObservation.temp raw = Some t /\ time = None
         /\ Observation.notes o = FFRawObservation.notes raw
     | CMValue v =>
         Observation.notes o = None
         /\ exists ff, FFRawObservation.cervicalMucus raw = Some ff
                       /\ ff <> ff_cm_unknown /\ v = FFImport.mapFFCervicalMucus ff
     | OPKValue v brand =>
         Observation.notes o = None /\ brand = None
         /\ exists ff, FFRawObservation.opk raw = Some ff
                       /\ ff <> ff_opk_unknown /\ v = FFImport.mapFFOPKResult ff
     | SymptomValue _ _ => False
     end.

(** A raw row with egg-white mucus and a note, and the observation made of it. *)
Definition rawMucus : FFRawObservation.t :=
  FFRawObservation.mk "2025-02-10" None (Some ff_eggwhite) None None (Some "after travel").

Definition convertedMucus : Observation.t :=
  Observation.mk "id-a" 20129 (CMValue cm_egg_white) None
                 "2025-02-01T08:00:00.000Z" "2025-02-01T08:00:00.000Z".

(** A string that is empty or starts with something other than white space. *)
Definition noLeadingSpace (s : string) : Prop :=
  match s with
  | EmptyString => True
  | String c _ => Str.isSpace c = false
  end.

(** The calendar prediction [predictCombined] starts from. *)
Definition combinedCalendar (input : CombinedPredictionInput.t) (w : World.t)
    : Prediction.t * World.t :=
  Calendar.predictFromCalendar
    (CombinedPredictionInput.currentCycleStart input)
    (match CombinedPredictionInput.historicalCycles input with
     | Some cycles => cycles
     | None => []
     end)
    CalendarPredictorOptions.empty w.

(** The predictions [predictCombined] gathers before it wraps or reconciles
    them: the calendar one, the symptom one, the external ones. *)
Definition combinedInputs (input : CombinedPredictionInput.t)
    (options : CombinedPredictorOptions.t) (w : World.t) : list Prediction.t :=
  let opts := Combined.mergeOptions options in
  let calendar := Combined.setSource (fst (combinedCalendar input w)) "manual" in
  (if (Combined.alwaysIncludeCalendar opts
       || match CombinedPredictionInput.observations input with
          | Some (_ :: _) => false
          | _ => true
          end)%bool
   then [calendar] else [])
  ++ match CombinedPredictionInput.observations input with
     | Some observations =>
         if Js.geb (INR (List.length observations)) (Combined.minSymptomObservations opts)
         then match fst (Symptoms.predictFromSymptoms observations
                           (Some (CombinedPredictionInput.currentCycleStart input))
                           SymptomPredictorOptions.empty
                           (snd (combinedCalendar input w))) with
              | Some p => [p]
              | None => []
              end
         else []
     | None => []
     end
  ++ match CombinedPredictionInput.externalPredictions input with
     | Some external => external
     | None => []
     end.

(** A cycle start and nothing else. *)
Definition bareInput : CombinedPredictionInput.t :=
  CombinedPredictionInput.mk 20120 None None None.

(** ** Checks of the string and date helpers *)

Example trim_ex : Str.trim "  25/12/2024 " = "25/12/2024".
Proof. reflexivity. Qed.
Example split_ex : Str.split "/" "25/12/2024" = ["25"; "12"; "2024"].
Proof. reflexivity. Qed.
Example format_ex :
  Dates.formatDateReadable Host.utc (Dates.parseDate 20129) = "Feb 10".
Proof. reflexivity. Qed.
Example format_local_ex :
  Dates.formatDateReadable newYork (Dates.parseDate 20129) = "Feb 9".
Proof. reflexivity. Qed.

(** ** CSV import: dates *)

Section ImportDates.

Variable dateParse : string -> option string.

(** A slash date is always read month first: the day-first branch of
    [parseDate] repeats the pattern of the branch before it and is never
    taken. *)
Lemma parseDate_slash_month_first (dateStr a b y : string) (rowNum : nat) :
  FFImport.blank (Some dateStr) = false ->
  Str.matchISO (Str.trim dateStr) = false ->
  Str.matchSlashDate (Str.trim dateStr) = Some (a, b, y) ->
  FFImport.parseDate dateParse dateStr rowNum
  = FFImport.mkDateResult
      (Some (y ++ "-" ++ Str.padStart2 a ++ "-" ++ Str.padStart2 b)%string) None.
Proof.
  intros Hb Hiso Hm. unfold FFImport.parseDate.
  rewrite Hb, Hiso, Hm. reflexivity.
Qed.

(** No rule parses the date: the row gives one error and no observation. *)
Lemma parseDate_error_iff (dateStr : string) (rowNum : nat) :
  FFImport.date (FFImport.parseDate dateParse dateStr rowNum) = None
  <-> FFImport.error (FFImport.parseDate dateParse dateStr rowNum) <> None.
Proof.
  unfold FFImport.parseDate.
  destruct (FFImport.blank (Some dateStr)); simpl; [split; congruence|].
  destruct (Str.matchISO _); simpl; [split; congruence|].
  destruct (Str.matchSlashDate _) as [[[a b] y]|]; simpl; [split; congruence|].
  destruct (dateParse _); simpl; split; congruence.
Qed.

(** The rules that come first: an ISO date is kept, a slash date is read
    month first, so [03/04/2024] is 4 March. *)
Example parseDate_iso (rowNum : nat) :
  FFImport.parseDate dateParse "2024-01-15" rowNum
  = FFImport.mkDateResult (Some "2024-01-15") None.
Proof. reflexivity. Qed.

Example parseDate_us (rowNum : nat) :
  FFImport.parseDate dateParse " 3/4/2024" rowNum
  = FFImport.mkDateResult (Some "2024-03-04") None.
Proof. reflexivity. Qed.

Example parseDate_missing (rowNum : nat) :
  FFImport.parseDate dateParse "  " rowNum
  = FFImport.mkDateResult None
      (Some (ImportError.mk rowNum "Date" "Date is required" (Some "  "))).
Proof. reflexivity. Qed.

Variable parseFloat : string -> option R.
Variable showNumber : R -> string.

(** A row whose date gives an error contributes that error and nothing
    else; the loop goes on with the rows that follow. *)
Lemma parseRow_bad_date (row : ParsedCSVRow) (rowNum : nat) (err : ImportError.t) :
  FFImport.error
    (FFImport.parseDate dateParse
       (match FFImport.findColumn row ["Date"; "date"; "DATE"] with
        | Some s => s
        | None => ""
        end) rowNum) = Some err ->
  FFImport.parseRow dateParse parseFloat showNumber row rowNum
  = FFImport.mkRowResult None [err] [].
Proof.
  intros H. unfold FFImport.parseRow. rewrite H. reflexivity.
Qed.

Lemma rowLoop_bad_date (row : ParsedCSVRow) (rows : list ParsedCSVRow) (i : nat)
    (acc : FFImport.Acc) (err : ImportError.t) :
  FFImport.parseRow dateParse parseFloat showNumber row (i + 2)
  = FFImport.mkRowResult None [err] [] ->
  FFImport.rowLoop dateParse parseFloat showNumber (row :: rows) i acc
  = FFImport.rowLoop dateParse parseFloat showNumber rows (S i)
      (FFImport.mkAcc (FFImport.acc_errors acc ++ [err])
                      (FFImport.acc_warnings acc)
                      (FFImport.acc_observations acc)).
Proof.
  intros H. simpl. rewrite H. simpl. rewrite app_nil_r. reflexivity.
Qed.

End ImportDates.

(** C7. [parseDate] on the cell [25/12/2024]: the month-first rule takes it
    and answers [2024-25-12]; the day-first rule, which would give
    [2024-12-25], is not reached, and no error is raised for the row. *)
Theorem parseDate_day_first_cell (dateParse : string -> option string) (rowNum : nat) :
  FFImport.parseDate dateParse "25/12/2024" rowNum
  = FFImport.mkDateResult (Some "2024-25-12") None.
Proof. reflexivity. Qed.

(** ** CSV import: the vocabularies *)

Lemma normalizeCM_range (cell : string) (v : CervicalMucusType) :
  FFImport.normalizeCM cell = Some v -> v <> cm_spotting.
Proof.
  unfold FFImport.normalizeCM.
  destruct (FFImport.parseCervicalMucus (Some cell)) as [[]|]; simpl;
    intros H; inversion H; discriminate.
Qed.

Lemma normalizeOPK_range (cell : string) (v : OPKResult) :
  FFImport.normalizeOPK cell = Some v -> v = opk_negative \/ v = opk_positive.
Proof.
  unfold FFImport.normalizeOPK.
  destruct (FFImport.parseOPK (Some cell)) as [[]|]; simpl;
    intros H; inversion H; auto.
Qed.

(** C8, as stated, fails: [egg-white] is produced (from the cell [eggwhite])
    but the synonym table has no entry for the spelling [egg-white], so it is
    parsed as [unknown] and dropped. *)
Lemma egg_white_not_fixed :
  producedCM cm_egg_white
  /\ FFImport.normalizeCM (Symptoms.cmName cm_egg_white) <> Some cm_egg_white.
Proof.
  split.
  - exists "eggwhite". reflexivity.
  - discriminate.
Qed.

(** C8, amended.  Every canonical cervical-mucus value produced by
    normalisation other than [egg-white], and every produced OPK value, is
    normalised to itself; and every value of the parser's own vocabulary
    (where egg-white is spelt [eggwhite]) is parsed to itself. *)
Theorem normalized_values_fixed :
  (forall v, producedCM v -> v <> cm_egg_white ->
             FFImport.normalizeCM (Symptoms.cmName v) = Some v)
  /\ (forall v, producedOPK v ->
                FFImport.normalizeOPK (FFImport.opkName v) = Some v)
  /\ (forall v, FFImport.parseCervicalMucus (Some (ffCMName v)) = Some v)
  /\ (forall v, FFImport.parseOPK (Some (ffOPKName v)) = Some v).
Proof.
  repeat split.
  - intros v [cell Hcell] Hne. apply normalizeCM_range in Hcell.
    destruct v; try reflexivity; congruence.
  - intros v [cell Hcell].
    destruct (normalizeOPK_range _ _ Hcell) as [-> | ->]; reflexivity.
  - intros []; reflexivity.
  - intros []; reflexivity.
Qed.

Lemma normalized_values_fixed_witness :
  producedCM cm_watery /\ cm_watery <> cm_egg_white
  /\ FFImport.normalizeCM (Symptoms.cmName cm_watery) = Some cm_watery
  /\ producedOPK opk_positive
  /\ FFImport.normalizeOPK (FFImport.opkName opk_positive) = Some opk_positive.
Proof.
  assert (Hcm : producedCM cm_watery) by (exists "W "; reflexivity).
  assert (Hne : cm_watery <> cm_egg_white) by discriminate.
  assert (Hopk : producedOPK opk_positive) by (exists "Peak"; reflexivity).
  split; [exact Hcm|]. split; [exact Hne|].
  split; [exact (proj1 normalized_values_fixed cm_watery Hcm Hne)|].
  split; [exact Hopk|].
  exact (proj1 (proj2 normalized_values_fixed) opk_positive Hopk).
Defined.

(** ** The ambient environment *)

(** C9, as stated, fails: the same call of [predictFromCalendar] made at two
    moments gives two different predictions. *)
Lemma predictFromCalendar_reads_host :
  fst (Calendar.predictFromCalendar 20120 [] CalendarPredictorOptions.empty morning)
  <> fst (Calendar.predictFromCalendar 20120 [] CalendarPredictorOptions.empty evening).
Proof.
  intros H. apply (f_equal Prediction.createdAt) in H.
  cbv [Calendar.predictFromCalendar bind ret getTimestamp generateId fst
       Prediction.createdAt morning evening World.clock] in H.
  discriminate H.
Qed.

(** C9, amended.  For a fixed input, two invocations of [predictFromCalendar]
    agree on every field but [id], [createdAt] and [updatedAt], and so do two
    invocations of [predictFromSymptoms] on hosts set to the same time zone;
    these three are read from the host: the identifier is the next random
    one and both timestamps are the clock's reading. *)
Theorem predictors_deterministic_up_to_minted
    (start : Z) (cycles : list Cycle.t) (copts : CalendarPredictorOptions.t)
    (observations : list Observation.t) (cycleStart : option Z)
    (sopts : SymptomPredictorOptions.t) (w1 w2 : World.t) :
  withoutMinted (fst (Calendar.predictFromCalendar start cycles copts w1))
  = withoutMinted (fst (Calendar.predictFromCalendar start cycles copts w2))
  /\ (World.tz w1 = World.tz w2 ->
      option_map withoutMinted
        (fst (Symptoms.predictFromSymptoms observations cycleStart sopts w1))
      = option_map withoutMinted
          (fst (Symptoms.predictFromSymptoms observations cycleStart sopts w2)))
  /\ (let p := fst (Calendar.predictFromCalendar start cycles copts w1) in
      Prediction.id p = World.uuids w1 (World.drawn w1)
      /\ Prediction.createdAt p = World.clock w1
      /\ Prediction.updatedAt p = World.clock w1)
  /\ match fst (Symptoms.predictFromSymptoms observations cycleStart sopts w1) with
     | Some p =>
         Prediction.id p = World.uuids w1 (World.drawn w1)
         /\ Prediction.createdAt p = World.clock w1
         /\ Prediction.updatedAt p = World.clock w1
     | None => True
     end.
Proof.
  split; [reflexivity|]. split; [|split; [repeat split|]].
  - intros Htz. unfold Symptoms.predictFromSymptoms, bind, timeZone.
    rewrite Htz.
    destruct (filter Symptoms.isRelevant observations); [reflexivity|].
    destruct (Symptoms.start _); [|reflexivity].
    destruct (Symptoms.end_ _); reflexivity.
  - unfold Symptoms.predictFromSymptoms, bind, timeZone.
    destruct (filter Symptoms.isRelevant observations); [exact I|].
    destruct (Symptoms.start _); [|exact I].
    destruct (Symptoms.end_ _); [|exact I].
    cbv [ret getTimestamp generateId fst]. repeat split.
Qed.

Lemma predictors_deterministic_up_to_minted_witness :
  World.tz morning = World.tz evening
  /\ option_map withoutMinted
       (fst (Symptoms.predictFromSymptoms pivot None SymptomPredictorOptions.empty morning))
     = option_map withoutMinted
         (fst (Symptoms.predictFromSymptoms pivot None SymptomPredictorOptions.empty evening)).
Proof.
  split; [reflexivity|].
  apply (predictors_deterministic_up_to_minted
           20120 [] CalendarPredictorOptions.empty pivot None SymptomPredictorOptions.empty
           morning evening).
  reflexivity.
Defined.

(** The time zone is read as well: the same observations at the same moment
    give a window that ends on 10 March on a host in UTC and on 9 March on a
    host in New York. *)
Lemma predictFromSymptoms_reads_time_zone :
  option_map Prediction.fertileEnd
    (fst (Symptoms.predictFromSymptoms eve None SymptomPredictorOptions.empty morning))
  = Some 20157%Z
  /\ option_map Prediction.fertileEnd
       (fst (Symptoms.predictFromSymptoms eve None SymptomPredictorOptions.empty
                                          morningInNewYork))
     = Some 20156%Z.
Proof. split; reflexivity. Qed.

(** ** Sums and the stable sort *)

Lemma fold_left_sum {A : Type} (f : A -> R) (l : list A) (a : R) :
  fold_left (fun sum x => sum + f x) l a = a + Rsum (map f l).
Proof.
  revert a. induction l as [|x l IH]; intros a; simpl.
  - lra.
  - rewrite IH. lra.
Qed.

Lemma fold_left_plus (l : list R) (a : R) :
  fold_left (fun a b => a + b) l a = a + Rsum l.
Proof.
  rewrite (fold_left_sum (fun x => x) l a), map_id. reflexivity.
Qed.

Lemma Rsum_app (l1 l2 : list R) : Rsum (l1 ++ l2) = Rsum l1 + Rsum l2.
Proof. induction l1 as [|x l1 IH]; simpl; [|rewrite IH]; lra. Qed.

Lemma Rsum_perm (l1 l2 : list R) : Permutation l1 l2 -> Rsum l1 = Rsum l2.
Proof. induction 1; simpl; lra. Qed.

Lemma Rsum_map_perm {A : Type} (f : A -> R) (l1 l2 : list A) :
  Permutation l1 l2 -> Rsum (map f l1) = Rsum (map f l2).
Proof. intros H. apply Rsum_perm, Permutation_map, H. Qed.

Lemma Rsum_map_le {A : Type} (f g : A -> R) (l : list A) :
  (forall x, In x l -> f x <= g x) -> Rsum (map f l) <= Rsum (map g l).
Proof.
  induction l as [|x l IH]; intros H; simpl; [lra|].
  assert (f x <= g x) by (apply H; left; reflexivity).
  assert (Rsum (map f l) <= Rsum (map g l)) by (apply IH; intros; apply H; right; assumption).
  lra.
Qed.

Lemma Rsum_map_nonneg {A : Type} (f : A -> R) (l : list A) :
  (forall x, In x l -> 0 <= f x) -> 0 <= Rsum (map f l).
Proof.
  induction l as [|x l IH]; intros H; simpl; [lra|].
  assert (0 <= f x) by (apply H; left; reflexivity).
  assert (0 <= Rsum (map f l)) by (apply IH; intros; apply H; right; assumption).
  lra.
Qed.

Lemma Rsum_map_scale {A : Type} (f : A -> R) (c : R) (l : list A) :
  Rsum (map (fun x => f x * c) l) = Rsum (map f l) * c.
Proof. induction l as [|x l IH]; simpl; [|rewrite IH]; lra. Qed.

Lemma Rsum_map_const {A : Type} (c : R) (l : list A) :
  Rsum (map (fun _ => c) l) = INR (List.length l) * c.
Proof.
  induction l as [|x l IH]; [simpl; lra|].
  change (Rsum (map (fun _ => c) (x :: l))) with (c + Rsum (map (fun _ => c) l)).
  rewrite IH. change (List.length (x :: l)) with (S (List.length l)).
  rewrite S_INR. lra.
Qed.

Section StableSort.

Context {A : Type}.
Variable cmp : A -> A -> R.

Lemma insert_perm (x : A) (l : list A) : Permutation (Js.insert cmp x l) (x :: l).
Proof.
  induction l as [|y l IH]; simpl; [reflexivity|].
  destruct (Rle_dec (cmp x y) 0); [reflexivity|].
  rewrite IH. apply perm_swap.
Qed.

Lemma sort_perm (l : list A) : Permutation (Js.sort cmp l) l.
Proof.
  induction l as [|x l IH]; simpl; [reflexivity|].
  rewrite insert_perm. apply perm_skip, IH.
Qed.

Lemma sort_nil (l : list A) : Js.sort cmp l = [] -> l = [].
Proof.
  intros H. apply Permutation_nil. rewrite <- H. apply sort_perm.
Qed.

(** The comparators of the code all have the shape [key a - key b]. *)
Variable key : A -> R.
Hypothesis cmp_key : forall a b, cmp a b = key a - key b.

Let le_key (a b : A) : Prop := key a <= key b.

Lemma insert_sorted (x : A) (l : list A) :
  StronglySorted le_key l -> StronglySorted le_key (Js.insert cmp x l).
Proof.
  induction 1 as [|y l Hs IH Hy]; simpl.
  - constructor; constructor.
  - destruct (Rle_dec (cmp x y) 0) as [Hle|Hgt].
    + rewrite cmp_key in Hle. constructor; [constructor; assumption|].
      constructor; [unfold le_key; lra|].
      eapply Forall_impl; [|exact Hy]. unfold le_key. intros a Ha. lra.
    + rewrite cmp_key in Hgt. constructor; [exact IH|].
      eapply Permutation_Forall; [symmetry; apply insert_perm|].
      constructor; [unfold le_key; lra | exact Hy].
Qed.

Lemma sort_sorted (l : list A) : StronglySorted le_key (Js.sort cmp l).
Proof.
  induction l as [|x l IH]; simpl; [constructor|].
  apply insert_sorted, IH.
Qed.

(** The head of the sorted list has the least key and is, among the elements
    with that key, the one that came first. *)
Lemma sort_head (l : list A) (best : A) (rest : list A) :
  Js.sort cmp l = best :: rest ->
  exists l1 l2, l = l1 ++ best :: l2 /\ (forall x, In x l1 -> key best < key x)
                /\ (forall x, In x l -> key best <= key x).
Proof.
  revert best rest. induction l as [|x l IH]; intros best rest; simpl; [discriminate|].
  destruct (Js.sort cmp l) as [|b r] eqn:Hs.
  - simpl. intros H; inversion H; subst.
    apply sort_nil in Hs. subst l.
    exists [], []. repeat split; [intros y []|].
    intros y [<-|[]]. lra.
  - destruct (IH b r eq_refl) as (l1 & l2 & Hl & Hbefore & Hall).
    simpl. destruct (Rle_dec (cmp x b) 0) as [Hle|Hgt]; intros H; inversion H; subst.
    + rewrite cmp_key in Hle.
      exists [], (l1 ++ b :: l2). repeat split; [intros y []|].
      intros y [<-|Hy]; [lra|]. specialize (Hall y Hy). lra.
    + rewrite cmp_key in Hgt.
      exists (x :: l1), l2. repeat split.
      * intros y [<-|Hy]; [lra | apply Hbefore, Hy].
      * intros y [<-|Hy]; [lra | apply Hall, Hy].
Qed.

End StableSort.

(** Sorting two lists that are related position by position, with
    comparators that agree on related elements. *)
Lemma sort_Forall2 {A B : Type} (Rel : A -> B -> Prop)
    (cmpA : A -> A -> R) (cmpB : B -> B -> R) :
  (forall a a' b b', Rel a b -> Rel a' b' -> cmpA a a' = cmpB b b') ->
  forall l l', Forall2 Rel l l' -> Forall2 Rel (Js.sort cmpA l) (Js.sort cmpB l').
Proof.
  intros Hc l l' H. induction H as [|a b l l' Hab Hl IH]; simpl; [constructor|].
  revert IH. generalize (Js.sort cmpA l) (Js.sort cmpB l'). clear Hl.
  intros s s' Hs. induction Hs as [|a' b' s s' Hab' Hs IH]; simpl.
  - constructor; [assumption|constructor].
  - rewrite (Hc a a' b b' Hab Hab').
    destruct (Rle_dec (cmpB b b') 0).
    + constructor; [assumption|]. constructor; assumption.
    + constructor; assumption.
Qed.

(** ** Dates *)

Lemma msPerDay_pos : 0 < Dates.msPerDay.
Proof. unfold Dates.msPerDay. lra. Qed.

Lemma round_IZR (z : Z) : Js.round (IZR z) = z.
Proof.
  unfold Js.round. symmetry. apply Int_part_spec. lra.
Qed.

Lemma daysBetween_getTime (a b : Z) :
  Dates.daysBetween (Dates.getTime a) (Dates.getTime b) = Z.abs (a - b).
Proof.
  unfold Dates.daysBetween, Dates.getTime.
  replace (IZR a * Dates.msPerDay - IZR b * Dates.msPerDay)
    with (IZR (a - b) * Dates.msPerDay) by (rewrite minus_IZR; ring).
  rewrite Rabs_mult, (Rabs_pos_eq Dates.msPerDay) by (left; apply msPerDay_pos).
  rewrite <- abs_IZR.
  replace (IZR (Z.abs (a - b)) * Dates.msPerDay / Dates.msPerDay)
    with (IZR (Z.abs (a - b))) by (field; apply Rgt_not_eq, msPerDay_pos).
  apply round_IZR.
Qed.

Lemma dayRange_In (s e d : Z) :
  In d (dayRange s e) <-> (s <= d <= e)%Z.
Proof.
  unfold dayRange. rewrite in_map_iff. split.
  - intros (i & <- & Hi). apply in_seq in Hi. lia.
  - intros H. exists (Z.to_nat (d - s)). split; [lia|]. apply in_seq. lia.
Qed.

Lemma dayRange_cons (s e : Z) :
  (s <= e)%Z -> dayRange s e = s :: dayRange (s + 1) e.
Proof.
  intros H. unfold dayRange.
  replace (Z.to_nat (e - s + 1)) with (S (Z.to_nat (e - (s + 1) + 1))) by lia.
  cbn [seq map]. f_equal; [lia|].
  rewrite <- seq_shift, map_map. apply map_ext. intros i. lia.
Qed.

Lemma dayRange_nil (s e : Z) : (e < s)%Z -> dayRange s e = [].
Proof.
  intros H. unfold dayRange.
  replace (Z.to_nat (e - s + 1)) with 0%nat by lia. reflexivity.
Qed.

Lemma formatDate_parseDate (d : Z) : Dates.formatDate (Dates.parseDate d) = d.
Proof. unfold Dates.formatDate, Dates.parseDate. apply Z.div_mul. lia. Qed.

Lemma parseDate_le (a b : Z) :
  (Dates.parseDate a <= Dates.parseDate b)%Z <-> (a <= b)%Z.
Proof. unfold Dates.parseDate. lia. Qed.

Lemma parseDate_lt (a b : Z) :
  (Dates.parseDate a < Dates.parseDate b)%Z <-> (a < b)%Z.
Proof. unfold Dates.parseDate. lia. Qed.

Lemma IZR_parseDate (d : Z) : IZR (Dates.parseDate d) = Dates.getTime d.
Proof.
  unfold Dates.parseDate, Dates.getTime, Dates.msPerDay. rewrite mult_IZR. lra.
Qed.

(** [setDate(getDate() + n)] moves the local time by [n] days. *)
Lemma setDate_getDate (tz : Host.TimeZone) (t n : Z) :
  Dates.setDate tz t (Dates.getDate tz t + n)
  = Dates.utcTime tz (Dates.localTime tz t + n * 86400000).
Proof.
  unfold Dates.setDate, Dates.getDate. cbv zeta. f_equal.
  pose proof (Z.div_mod (Dates.localTime tz t) 86400000 ltac:(lia)). lia.
Qed.

(** A day on is a later instant, and the further on, the later. *)
Lemma setDate_forward (tz : Host.TimeZone) (t : Z) :
  (t < Dates.setDate tz t (Dates.getDate tz t + 1))%Z.
Proof.
  rewrite setDate_getDate. unfold Dates.utcTime, Dates.localTime.
  replace (1 * 86400000)%Z with 86400000%Z by lia.
  apply (Host.dayForward tz t).
Qed.

Lemma utcTime_days (tz : Host.TimeZone) (x : Z) (k : nat) :
  (Dates.utcTime tz x <= Dates.utcTime tz (x + Z.of_nat k * 86400000))%Z.
Proof.
  induction k as [|k IH].
  - replace (x + Z.of_nat 0 * 86400000)%Z with x by lia. lia.
  - pose proof (Host.dayMonotone tz (x + Z.of_nat k * 86400000)) as H.
    unfold Dates.utcTime in *.
    replace (x + Z.of_nat (S k) * 86400000)%Z
      with (x + Z.of_nat k * 86400000 + 86400000)%Z by lia.
    lia.
Qed.

Lemma setDate_monotone (tz : Host.TimeZone) (t n m : Z) :
  (n <= m)%Z ->
  (Dates.setDate tz t (Dates.getDate tz t + n)
   <= Dates.setDate tz t (Dates.getDate tz t + m))%Z.
Proof.
  intros H. rewrite !setDate_getDate.
  pose proof (utcTime_days tz (Dates.localTime tz t + n * 86400000) (Z.to_nat (m - n))) as Hk.
  replace (Dates.localTime tz t + n * 86400000 + Z.of_nat (Z.to_nat (m - n)) * 86400000)%Z
    with (Dates.localTime tz t + m * 86400000)%Z in Hk by lia.
  exact Hk.
Qed.

(** On a host with a fixed offset the step is exactly [n] days. *)
Lemma setDate_fixed (tz : Host.TimeZone) (t n : Z) :
  fixedOffset tz ->
  Dates.setDate tz t (Dates.getDate tz t + n) = (t + n * 86400000)%Z.
Proof.
  intros [c Hc]. rewrite setDate_getDate. unfold Dates.utcTime, Dates.localTime.
  destruct (Hc t) as [-> _].
  destruct (Hc (t + c + n * 86400000)%Z) as [_ ->]. lia.
Qed.

Lemma fixedOffset_fixed (c : Z) : fixedOffset (Host.fixed c).
Proof. exists c. intros t. split; reflexivity. Qed.

Lemma fixedOffset_utc : fixedOffset Host.utc.
Proof. apply fixedOffset_fixed. Qed.

(** The two cases of the loop of [getDateRange]. *)
Lemma getDateRange_cons (tz : Host.TimeZone) (current end_ : Z) :
  (current <= end_)%Z ->
  Dates.getDateRange tz current end_
  = current :: Dates.getDateRange tz (Dates.setDate tz current (Dates.getDate tz current + 1))
                                  end_.
Proof.
  intros H. rewrite Dates.getDateRange_equation_1.
  destruct (Z_le_dec current end_); [reflexivity|lia].
Qed.

Lemma getDateRange_nil (tz : Host.TimeZone) (current end_ : Z) :
  (end_ < current)%Z -> Dates.getDateRange tz current end_ = [].
Proof.
  intros H. rewrite Dates.getDateRange_equation_1.
  destruct (Z_le_dec current end_); [lia|reflexivity].
Qed.

Lemma getDateRange_fixed (tz : Host.TimeZone) (s e : Z) :
  fixedOffset tz ->
  Dates.getDateRange tz (Dates.parseDate s) (Dates.parseDate e)
  = map Dates.parseDate (dayRange s e).
Proof.
  intros Hf.
  remember (Z.to_nat (e - s + 1)) as n eqn:Hn.
  revert s Hn. induction n as [|n IH]; intros s Hn.
  - rewrite getDateRange_nil by (apply parseDate_lt; lia).
    rewrite dayRange_nil by lia. reflexivity.
  - rewrite getDateRange_cons by (apply parseDate_le; lia).
    rewrite dayRange_cons by lia. cbn [map]. f_equal.
    rewrite (setDate_fixed tz _ 1 Hf).
    replace (Dates.parseDate s + 1 * 86400000)%Z with (Dates.parseDate (s + 1))
      by (unfold Dates.parseDate; lia).
    apply IH. lia.
Qed.

(** [addDays] of the symptom predictor: exact on a host with a fixed offset;
    on any host it moves the date forward for a positive number of days, and
    further for a larger one. *)
Lemma addDays_fixed (tz : Host.TimeZone) (d n : Z) :
  fixedOffset tz -> Symptoms.addDays tz d n = (d + n)%Z.
Proof.
  intros Hf. unfold Symptoms.addDays. cbv zeta. rewrite (setDate_fixed tz _ n Hf).
  replace (Dates.parseDate d + n * 86400000)%Z with (Dates.parseDate (d + n))
    by (unfold Dates.parseDate; lia).
  apply formatDate_parseDate.
Qed.

Lemma addDays_monotone (tz : Host.TimeZone) (d n m : Z) :
  (n <= m)%Z -> (Symptoms.addDays tz d n <= Symptoms.addDays tz d m)%Z.
Proof.
  intros H. unfold Symptoms.addDays, Dates.formatDate. cbv zeta.
  apply Z.div_le_mono; [lia|]. apply setDate_monotone, H.
Qed.

Lemma addDays_forward (tz : Host.TimeZone) (d n : Z) :
  (1 <= n)%Z -> (d <= Symptoms.addDays tz d n)%Z.
Proof.
  intros H. apply Z.le_trans with (Symptoms.addDays tz d 1);
    [|apply addDays_monotone, H].
  unfold Symptoms.addDays, Dates.formatDate. cbv zeta.
  pose proof (setDate_forward tz (Dates.parseDate d)) as Hf.
  rewrite <- (formatDate_parseDate d) at 1. unfold Dates.formatDate.
  apply Z.div_le_mono; lia.
Qed.

(** ** Source agreement *)

Lemma exp_le_1 (x : R) : x <= 0 -> exp x <= 1.
Proof.
  intros [H| ->]; [|rewrite exp_0; lra].
  left. rewrite <- exp_0. apply exp_increasing, H.
Qed.

(** [exp (-x) <= 1 / (1 + x)] for [x >= 0]. *)
Lemma exp_neg_bound (x : R) : 0 <= x -> exp (- x) <= / (1 + x).
Proof.
  intros Hx. rewrite exp_Ropp.
  apply Rinv_le_contravar; [lra|]. apply exp_ineq1_le.
Qed.

Lemma agreement_unfold (predictions : list Prediction.t) :
  Reconciler.calculateSourceAgreement predictions
  = if (List.length predictions <=? 1)%nat then 1
    else exp (- ((variance (map (fun p => Dates.getTime (Prediction.fertileStart p)) predictions)
                  + variance (map (fun p => Dates.getTime (Prediction.fertileEnd p)) predictions))
                 / 2) / 8).
Proof.
  unfold Reconciler.calculateSourceAgreement, variance.
  destruct (List.length predictions <=? 1)%nat; [reflexivity|].
  rewrite !fold_left_plus, !fold_left_sum, !Rplus_0_l. reflexivity.
Qed.

Lemma variance_nonneg (times : list R) : 0 <= variance times.
Proof.
  unfold variance. apply Rmult_le_pos.
  - apply Rsum_map_nonneg. intros t _. apply pow2_ge_0.
  - destruct times as [|t times]; [simpl; rewrite Rinv_0; lra|].
    left. apply Rinv_0_lt_compat. apply lt_0_INR. simpl. lia.
Qed.

Lemma agreement_range (predictions : list Prediction.t) :
  0 < Reconciler.calculateSourceAgreement predictions <= 1.
Proof.
  rewrite agreement_unfold.
  destruct (List.length predictions <=? 1)%nat; [lra|].
  split; [apply exp_pos|]. apply exp_le_1.
  pose proof (variance_nonneg (map (fun p => Dates.getTime (Prediction.fertileStart p)) predictions)).
  pose proof (variance_nonneg (map (fun p => Dates.getTime (Prediction.fertileEnd p)) predictions)).
  lra.
Qed.

Lemma threshold_ge (opts : Reconciler.Options) (predictions : list Prediction.t) :
  0 <= Reconciler.disagreementPenalty opts ->
  Reconciler.minConfidenceThreshold opts
  <= Reconciler.effectiveThreshold opts (Reconciler.calculateSourceAgreement predictions).
Proof.
  intros Hp. unfold Reconciler.effectiveThreshold.
  pose proof (agreement_range predictions) as [_ H1].
  destruct (Rlt_dec _ 0.7); [|lra].
  assert (0 <= Reconciler.disagreementPenalty opts
               * (1 - Reconciler.calculateSourceAgreement predictions))
    by (apply Rmult_le_pos; lra).
  lra.
Qed.

(** ** Outliers *)

Lemma centroid_fold (weights : SourceWeights) (l : list Prediction.t)
    (acc : Reconciler.Centroid) :
  fold_left (Reconciler.centroidStep weights) l acc
  = Reconciler.mkCentroid
      (Reconciler.totalWeight acc + totalWeightOf weights l)
      (Reconciler.weightedStartSum acc
       + Rsum (map (fun p => Dates.getTime (Prediction.fertileStart p) * weightOf weights p) l))
      (Reconciler.weightedEndSum acc
       + Rsum (map (fun p => Dates.getTime (Prediction.fertileEnd p) * weightOf weights p) l)).
Proof.
  revert acc. induction l as [|p l IH]; intros [tw ws we]; simpl.
  - unfold totalWeightOf. simpl. f_equal; lra.
  - rewrite IH. unfold totalWeightOf, Reconciler.centroidStep, weightOf. simpl.
    f_equal; lra.
Qed.

Lemma outlier_fold (test : Prediction.t -> bool) (l : list Prediction.t)
    (acc : list string) :
  fold_left (fun outliers p => if test p then outliers ++ [Prediction.source p]
                               else outliers) l acc
  = acc ++ map Prediction.source (filter test l).
Proof.
  revert acc. induction l as [|p l IH]; intros acc; simpl.
  - rewrite app_nil_r. reflexivity.
  - rewrite IH. destruct (test p); simpl; [rewrite <- app_assoc|]; reflexivity.
Qed.

Lemma outliers_unfold (weights : SourceWeights) (l : list Prediction.t) :
  Reconciler.identifyOutliers l weights
  = if (List.length l <=? 2)%nat then []
    else if Req_dec_T (totalWeightOf weights l) 0 then []
    else map Prediction.source
             (filter (Reconciler.isOutlier (centroidStartOf weights l)
                                           (centroidEndOf weights l)) l).
Proof.
  unfold Reconciler.identifyOutliers.
  destruct (List.length l <=? 2)%nat; [reflexivity|].
  rewrite centroid_fold. simpl. rewrite !Rplus_0_l.
  destruct (Req_dec_T (totalWeightOf weights l) 0); [reflexivity|].
  rewrite outlier_fold. reflexivity.
Qed.

Lemma filter_perm {A : Type} (f : A -> bool) (l1 l2 : list A) :
  Permutation l1 l2 -> Permutation (filter f l1) (filter f l2).
Proof.
  induction 1 as [|x l1 l2 H IH|x y l|l1 l2 l3 H1 IH1 H2 IH2]; simpl.
  - constructor.
  - destruct (f x); [apply perm_skip|]; exact IH.
  - destruct (f x), (f y); try reflexivity. apply perm_swap.
  - etransitivity; eassumption.
Qed.

(** ** The reconciler on a host

    From here on [tz] is the time zone of the host, any one. *)

Section OnHost.

Variable tz : Host.TimeZone.

(** ** Day scores *)

Lemma selfConfidence_code (p : Prediction.t) :
  Reconciler.confidenceOr50 p / 100 = selfConfidence p.
Proof.
  unfold Reconciler.confidenceOr50, selfConfidence.
  destruct (Prediction.confidence p); lra.
Qed.

Lemma scoreStep_spec (weights : SourceWeights) (t : Z)
    (acc : list (string * R) * list string) (p : Prediction.t) :
  Reconciler.scoreStep weights t acc p
  = (fst acc ++ rawScoreAt weights t p,
     snd acc ++ (if inWindowAt t p then [Prediction.source p] else [])).
Proof.
  destruct acc as [raw src].
  unfold Reconciler.scoreStep, rawScoreAt, inWindowAt, decayedAt, daysOutsideAt, weightOf.
  rewrite selfConfidence_code. cbn [fst snd].
  destruct (_ && _)%bool; [reflexivity|].
  destruct (Rgt_dec _ 0.1); rewrite ?app_nil_r; reflexivity.
Qed.

Lemma score_fold (weights : SourceWeights) (t : Z) (l : list Prediction.t)
    (acc : list (string * R) * list string) :
  fold_left (Reconciler.scoreStep weights t) l acc
  = (fst acc ++ flat_map (rawScoreAt weights t) l,
     snd acc ++ flat_map (fun p => if inWindowAt t p then [Prediction.source p] else []) l).
Proof.
  revert acc. induction l as [|p l IH]; intros acc; cbn [fold_left flat_map].
  - rewrite !app_nil_r. destruct acc; reflexivity.
  - rewrite IH, scoreStep_spec. cbn [fst snd]. rewrite <- !app_assoc. reflexivity.
Qed.

Lemma rawScoreAt_sum (weights : SourceWeights) (t : Z) (l : list Prediction.t) :
  Rsum (map snd (flat_map (rawScoreAt weights t) l))
  = Rsum (map (contributionAt weights t) l).
Proof.
  induction l as [|p l IH]; [reflexivity|].
  cbn [flat_map map]. rewrite map_app, Rsum_app, IH.
  change (Rsum (contributionAt weights t p :: map (contributionAt weights t) l))
    with (contributionAt weights t p + Rsum (map (contributionAt weights t) l)).
  f_equal. unfold rawScoreAt, contributionAt.
  destruct (inWindowAt t p); [simpl; lra|].
  destruct (Rgt_dec _ 0.1); simpl; lra.
Qed.

Lemma dayScore_spec (weights : SourceWeights) (l : list Prediction.t) (t : Z) :
  Reconciler.dayScore weights l t
  = DayScore.mk (Dates.formatDate t)
      (if Rgt_dec (totalWeightOf weights l) 0
       then Rsum (map (contributionAt weights t) l) / totalWeightOf weights l
       else 0)
      (flat_map (fun p => if inWindowAt t p then [Prediction.source p] else []) l)
      (flat_map (rawScoreAt weights t) l).
Proof.
  unfold Reconciler.dayScore. rewrite score_fold. cbn [fst snd app].
  rewrite !fold_left_sum, !Rplus_0_l.
  fold (weightOf weights). fold (totalWeightOf weights l).
  rewrite rawScoreAt_sum. reflexivity.
Qed.

Lemma dayScore_date (weights : SourceWeights) (l : list Prediction.t) (t : Z) :
  DayScore.date (Reconciler.dayScore weights l t) = Dates.formatDate t.
Proof. rewrite dayScore_spec. reflexivity. Qed.

Lemma dayScore_probability (weights : SourceWeights) (l : list Prediction.t) (t : Z) :
  DayScore.probability (Reconciler.dayScore weights l t)
  = if Rgt_dec (totalWeightOf weights l) 0
    then Rsum (map (contributionAt weights t) l) / totalWeightOf weights l
    else 0.
Proof. rewrite dayScore_spec. reflexivity. Qed.

(** At midnight UTC of a day the contribution is the one counted in days. *)
Lemma contributionAt_parse (weights : SourceWeights) (D : Z) (p : Prediction.t) :
  contributionAt weights (Dates.parseDate D) p = contribution weights D p.
Proof.
  unfold contributionAt, contribution, decayedAt, decayed, daysOutsideAt, daysOutside,
    inWindowAt, inWindow.
  rewrite !IZR_parseDate, !daysBetween_getTime.
  replace (Dates.parseDate (Prediction.fertileStart p) <=? Dates.parseDate D)%Z
    with (Prediction.fertileStart p <=? D)%Z
    by (unfold Dates.parseDate;
        destruct (Z.leb_spec (Prediction.fertileStart p) D);
        symmetry; [apply Z.leb_le|apply Z.leb_gt]; lia).
  replace (Dates.parseDate D <=? Dates.parseDate (Prediction.fertileEnd p))%Z
    with (D <=? Prediction.fertileEnd p)%Z
    by (unfold Dates.parseDate;
        destruct (Z.leb_spec D (Prediction.fertileEnd p));
        symmetry; [apply Z.leb_le|apply Z.leb_gt]; lia).
  reflexivity.
Qed.

Lemma dayScoreAt_date (weights : SourceWeights) (l : list Prediction.t) (date : Z) :
  DayScore.date (dayScoreAt weights l date) = date.
Proof.
  unfold dayScoreAt. rewrite dayScore_date. apply formatDate_parseDate.
Qed.

Lemma dayScoreAt_probability (weights : SourceWeights) (l : list Prediction.t)
    (date : Z) :
  DayScore.probability (dayScoreAt weights l date)
  = if Rgt_dec (totalWeightOf weights l) 0
    then Rsum (map (contribution weights date) l) / totalWeightOf weights l
    else 0.
Proof.
  unfold dayScoreAt. rewrite dayScore_probability.
  rewrite (map_ext _ _ (contributionAt_parse weights date)). reflexivity.
Qed.

(** The range is the least start and the greatest end. *)
Lemma range_fold (l : list Prediction.t) (a b : Z) :
  let r := fold_left rangeStepDays l (a, b) in
  ((fst r = a \/ exists p, In p l /\ fst r = Prediction.fertileStart p)
   /\ (fst r <= a)%Z /\ forall p, In p l -> (fst r <= Prediction.fertileStart p)%Z)
  /\ ((snd r = b \/ exists p, In p l /\ snd r = Prediction.fertileEnd p)
      /\ (b <= snd r)%Z /\ forall p, In p l -> (Prediction.fertileEnd p <= snd r)%Z).
Proof.
  revert a b. induction l as [|p l IH]; intros a b; simpl.
  - repeat split; try lia; try (left; reflexivity); intros p [].
  - change (rangeStepDays (a, b) p)
      with ((if (Prediction.fertileStart p <? a)%Z then Prediction.fertileStart p else a),
            (if (b <? Prediction.fertileEnd p)%Z then Prediction.fertileEnd p else b)).
    specialize (IH (if (Prediction.fertileStart p <? a)%Z then Prediction.fertileStart p else a)
                   (if (b <? Prediction.fertileEnd p)%Z then Prediction.fertileEnd p else b)).
    simpl in IH. destruct IH as [(Ha & Hle & Hall) (Hb & Hge & Hall')].
    split; (split; [|split]).
    + destruct Ha as [Ha|(q & Hq & Ha)]; [|right; exists q; auto].
      destruct (Prediction.fertileStart p <? a)%Z; [right; exists p|left]; auto.
    + destruct (Z.ltb_spec (Prediction.fertileStart p) a); lia.
    + intros q [<-|Hq]; [|apply Hall, Hq].
      destruct (Z.ltb_spec (Prediction.fertileStart p) a); lia.
    + destruct Hb as [Hb|(q & Hq & Hb)]; [|right; exists q; auto].
      destruct (b <? Prediction.fertileEnd p)%Z; [right; exists p|left]; auto.
    + destruct (Z.ltb_spec b (Prediction.fertileEnd p)); lia.
    + intros q [<-|Hq]; [|apply Hall', Hq].
      destruct (Z.ltb_spec b (Prediction.fertileEnd p)); lia.
Qed.

(** The loop over the time values finds the same two days. *)
Lemma range_parse (l : list Prediction.t) (a b : Z) :
  fold_left Reconciler.rangeStep l (Dates.parseDate a, Dates.parseDate b)
  = (Dates.parseDate (fst (fold_left rangeStepDays l (a, b))),
     Dates.parseDate (snd (fold_left rangeStepDays l (a, b)))).
Proof.
  revert a b. induction l as [|p l IH]; intros a b; [reflexivity|].
  cbn [fold_left].
  change (rangeStepDays (a, b) p)
    with ((if (Prediction.fertileStart p <? a)%Z then Prediction.fertileStart p else a),
          (if (b <? Prediction.fertileEnd p)%Z then Prediction.fertileEnd p else b)).
  change (Reconciler.rangeStep (Dates.parseDate a, Dates.parseDate b) p)
    with ((if (Dates.parseDate (Prediction.fertileStart p) <? Dates.parseDate a)%Z
           then Dates.parseDate (Prediction.fertileStart p) else Dates.parseDate a),
          (if (Dates.parseDate b <? Dates.parseDate (Prediction.fertileEnd p))%Z
           then Dates.parseDate (Prediction.fertileEnd p) else Dates.parseDate b)).
  replace (Dates.parseDate (Prediction.fertileStart p) <? Dates.parseDate a)%Z
    with (Prediction.fertileStart p <? a)%Z
    by (unfold Dates.parseDate;
        destruct (Z.ltb_spec (Prediction.fertileStart p) a);
        symmetry; [apply Z.ltb_lt|apply Z.ltb_ge]; lia).
  replace (Dates.parseDate b <? Dates.parseDate (Prediction.fertileEnd p))%Z
    with (b <? Prediction.fertileEnd p)%Z
    by (unfold Dates.parseDate;
        destruct (Z.ltb_spec b (Prediction.fertileEnd p));
        symmetry; [apply Z.ltb_lt|apply Z.ltb_ge]; lia).
  rewrite <- IH. f_equal.
  destruct (Prediction.fertileStart p <? a)%Z, (b <? Prediction.fertileEnd p)%Z;
    reflexivity.
Qed.

Lemma buildDayScores_unfold (weights : SourceWeights) (l : list Prediction.t) :
  Reconciler.buildDayScores tz l weights
  = map (Reconciler.dayScore weights l) (allDatesOf tz l).
Proof.
  destruct l as [|p0 l]; [reflexivity|].
  unfold Reconciler.buildDayScores, allDatesOf, rangeOf.
  rewrite range_parse. reflexivity.
Qed.

Lemma rangeOf_union (p0 : Prediction.t) (l : list Prediction.t) :
  unionRange (p0 :: l) (fst (rangeOf p0 l)) (snd (rangeOf p0 l)).
Proof.
  unfold rangeOf.
  destruct (range_fold (p0 :: l) (Prediction.fertileStart p0) (Prediction.fertileEnd p0))
    as [(Ha & _ & Hall) (Hb & _ & Hall')].
  split; [|split; [exact Hall|split; [|exact Hall']]].
  - destruct Ha as [Ha|(q & Hq & Ha)]; [exists p0|exists q]; split; auto.
    left; reflexivity.
  - destruct Hb as [Hb|(q & Hq & Hb)]; [exists p0|exists q]; split; auto.
    left; reflexivity.
Qed.

Lemma unionRange_intro (l : list Prediction.t) (p q : Prediction.t) :
  In p l -> In q l ->
  (forall x, In x l -> (Prediction.fertileStart p <= Prediction.fertileStart x)%Z) ->
  (forall x, In x l -> (Prediction.fertileEnd x <= Prediction.fertileEnd q)%Z) ->
  unionRange l (Prediction.fertileStart p) (Prediction.fertileEnd q).
Proof.
  intros Hp Hq Hlo Hhi. split; [exists p; auto|]. split; [exact Hlo|].
  split; [exists q; auto|exact Hhi].
Qed.

Lemma unionRange_unique (l : list Prediction.t) (lo hi lo' hi' : Z) :
  unionRange l lo hi -> unionRange l lo' hi' -> lo = lo' /\ hi = hi'.
Proof.
  intros ((p & Hp & <-) & Hlo & (q & Hq & <-) & Hhi)
         ((p' & Hp' & <-) & Hlo' & (q' & Hq' & <-) & Hhi').
  pose proof (Hlo _ Hp'). pose proof (Hlo' _ Hp).
  pose proof (Hhi _ Hq'). pose proof (Hhi' _ Hq). lia.
Qed.

Lemma unionRange_perm (l l' : list Prediction.t) (lo hi : Z) :
  Permutation l l' -> unionRange l lo hi -> unionRange l' lo hi.
Proof.
  intros H ((p & Hp & Hlo0) & Hlo & (q & Hq & Hhi0) & Hhi).
  split; [exists p; split; [eapply Permutation_in; eassumption|assumption]|].
  split; [intros x Hx; apply Hlo; eapply Permutation_in; [symmetry|]; eassumption|].
  split; [exists q; split; [eapply Permutation_in; eassumption|assumption]|].
  intros x Hx; apply Hhi; eapply Permutation_in; [symmetry|]; eassumption.
Qed.

Lemma unionRange_exists (l : list Prediction.t) :
  l <> [] -> exists lo hi, unionRange l lo hi.
Proof.
  destruct l as [|p0 l]; [congruence|]. intros _.
  eexists; eexists; apply rangeOf_union.
Qed.

(** The time values scored depend on the union of the windows only. *)
Lemma allDatesOf_range (l : list Prediction.t) (lo hi : Z) :
  unionRange l lo hi ->
  allDatesOf tz l
  = Dates.getDateRange tz
      (Dates.setDate tz (Dates.parseDate lo) (Dates.getDate tz (Dates.parseDate lo) - 2))
      (Dates.setDate tz (Dates.parseDate hi) (Dates.getDate tz (Dates.parseDate hi) + 2)).
Proof.
  intros H. destruct l as [|p0 l].
  - destruct H as ((p & [] & _) & _).
  - unfold allDatesOf.
    destruct (unionRange_unique _ _ _ _ _ H (rangeOf_union p0 l)) as [-> ->].
    reflexivity.
Qed.

Lemma allDatesOf_perm (l l' : list Prediction.t) :
  Permutation l l' -> allDatesOf tz l = allDatesOf tz l'.
Proof.
  intros H. destruct l as [|p0 l].
  - apply Permutation_nil in H. subst. reflexivity.
  - destruct (unionRange_exists (p0 :: l)) as (lo & hi & Hr); [discriminate|].
    rewrite (allDatesOf_range _ lo hi Hr).
    rewrite (allDatesOf_range _ lo hi (unionRange_perm _ _ _ _ H Hr)). reflexivity.
Qed.

(** On a host with a fixed offset: one score per date of the union range
    extended by two days each way, in ascending order. *)
Lemma allDatesOf_fixed (l : list Prediction.t) (lo hi : Z) :
  fixedOffset tz -> unionRange l lo hi ->
  allDatesOf tz l = map Dates.parseDate (dayRange (lo - 2) (hi + 2)).
Proof.
  intros Hf H. rewrite (allDatesOf_range l lo hi H).
  replace (Dates.getDate tz (Dates.parseDate lo) - 2)%Z
    with (Dates.getDate tz (Dates.parseDate lo) + -2)%Z by lia.
  rewrite !(setDate_fixed tz _ _ Hf).
  replace (Dates.parseDate lo + -2 * 86400000)%Z with (Dates.parseDate (lo - 2))
    by (unfold Dates.parseDate; lia).
  replace (Dates.parseDate hi + 2 * 86400000)%Z with (Dates.parseDate (hi + 2))
    by (unfold Dates.parseDate; lia).
  apply getDateRange_fixed, Hf.
Qed.

Lemma buildDayScores_range (weights : SourceWeights) (l : list Prediction.t)
    (lo hi : Z) :
  fixedOffset tz -> unionRange l lo hi ->
  Reconciler.buildDayScores tz l weights
  = map (dayScoreAt weights l) (dayRange (lo - 2) (hi + 2)).
Proof.
  intros Hf H. rewrite buildDayScores_unfold, (allDatesOf_fixed l lo hi Hf H), map_map.
  reflexivity.
Qed.

(** Bounds on a contribution. *)
Lemma contributionAt_le (weights : SourceWeights) (t : Z) (p : Prediction.t) :
  0 <= weightOf weights p -> 0 <= selfConfidence p ->
  contributionAt weights t p <= weightOf weights p * selfConfidence p.
Proof.
  intros Hw Hc. unfold contributionAt.
  assert (H0 : 0 <= weightOf weights p * selfConfidence p)
    by (apply Rmult_le_pos; assumption).
  destruct (inWindowAt t p); [lra|].
  destruct (Rgt_dec _ 0.1); [|exact H0].
  unfold decayedAt.
  assert (exp (- IZR (daysOutsideAt t p) ^ 2 / 2) <= 1).
  { apply exp_le_1. pose proof (pow2_ge_0 (IZR (daysOutsideAt t p))). lra. }
  rewrite <- (Rmult_1_r (weightOf weights p * selfConfidence p)) at 2.
  apply Rmult_le_compat_l; assumption.
Qed.

Lemma contributionAt_nonneg (weights : SourceWeights) (t : Z) (p : Prediction.t) :
  0 <= weightOf weights p -> 0 <= selfConfidence p ->
  0 <= contributionAt weights t p.
Proof.
  intros Hw Hc. unfold contributionAt.
  destruct (inWindowAt t p); [apply Rmult_le_pos; assumption|].
  destruct (Rgt_dec _ 0.1); lra.
Qed.

Lemma contribution_le (weights : SourceWeights) (date : Z) (p : Prediction.t) :
  0 <= weightOf weights p -> 0 <= selfConfidence p ->
  contribution weights date p <= weightOf weights p * selfConfidence p.
Proof. rewrite <- contributionAt_parse. apply contributionAt_le. Qed.

Lemma contribution_nonneg (weights : SourceWeights) (date : Z) (p : Prediction.t) :
  0 <= weightOf weights p -> 0 <= selfConfidence p ->
  0 <= contribution weights date p.
Proof. rewrite <- contributionAt_parse. apply contributionAt_nonneg. Qed.

(** ** Window extraction *)

Lemma findFertileWindow_unfold (dayScores : list DayScore.t) (threshold : R) :
  Reconciler.findFertileWindow dayScores threshold
  = match fertileDaysOf dayScores threshold with
    | [] => Reconciler.noWindow
    | _ :: _ =>
        match windowDaysOf (Js.sort dateCmp (fertileDaysOf dayScores threshold)) with
        | [] => Reconciler.noWindow
        | w0 :: ws =>
            Reconciler.mkWindow
              (Some (DayScore.date w0))
              (Some (Reconciler.last_date w0 (w0 :: ws)))
              (Some (DayScore.date (fold_left pickPeak (w0 :: ws) w0)))
        end
    end.
Proof.
  unfold Reconciler.findFertileWindow, fertileDaysOf.
  destruct (filter _ dayScores) as [|d ds]; [reflexivity|].
  change (fun a b : DayScore.t =>
            Dates.getTime (DayScore.date a) - Dates.getTime (DayScore.date b))
    with dateCmp.
  destruct (Js.sort dateCmp (d :: ds)) as [|first rest]; [reflexivity|].
  unfold windowDaysOf. cbv zeta.
  destruct (Js.slice _ _ (first :: rest)); reflexivity.
Qed.

Lemma commit_inv (s : Reconciler.Scan) (i : nat) :
  ScanInv s i -> ScanInv (Reconciler.commit s) i.
Proof.
  unfold ScanInv, Reconciler.commit. intros (H1 & H2 & H3 & H4).
  destruct (Nat.ltb_spec (Reconciler.bestLength s) (Reconciler.currentLength s));
    simpl; lia.
Qed.

Lemma scanRuns_inv (rest : list DayScore.t) :
  forall prev i s, ScanInv s i ->
                   ScanInv (Reconciler.scanRuns prev rest i s) (i + List.length rest).
Proof.
  induction rest as [|curr rest IH]; intros prev i s H; simpl.
  - rewrite Nat.add_0_r. exact H.
  - replace (i + S (List.length rest))%nat with (S i + List.length rest)%nat by lia.
    apply IH.
    destruct (Dates.daysBetween _ _ =? 1)%Z.
    + destruct H as (H1 & H2 & H3 & H4). unfold ScanInv; simpl. lia.
    + apply commit_inv in H. destruct H as (H1 & H2 & H3 & H4).
      unfold ScanInv; simpl. lia.
Qed.

Lemma windowDaysOf_part (sortedDays : list DayScore.t) :
  sortedDays <> [] ->
  windowDaysOf sortedDays <> []
  /\ exists l1 l2, sortedDays = l1 ++ windowDaysOf sortedDays ++ l2.
Proof.
  destruct sortedDays as [|first rest]; [congruence|]. intros _.
  unfold windowDaysOf.
  set (s := Reconciler.commit _).
  assert (Hinv : ScanInv s (1 + List.length rest)).
  { apply commit_inv, scanRuns_inv. unfold ScanInv; simpl. lia. }
  destruct Hinv as (H1 & H2 & _).
  set (l := first :: rest) in *.
  assert (Hlen : List.length l = (1 + List.length rest)%nat) by reflexivity.
  unfold Js.slice. split.
  - intros Hnil. apply (f_equal (@List.length _)) in Hnil.
    rewrite length_skipn, length_firstn in Hnil. simpl in Hnil. lia.
  - exists (firstn (Reconciler.bestStart s)
                   (firstn (Reconciler.bestStart s + Reconciler.bestLength s) l)),
           (skipn (Reconciler.bestStart s + Reconciler.bestLength s) l).
    rewrite app_assoc, firstn_skipn, firstn_skipn. reflexivity.
Qed.

Lemma StronglySorted_app {A : Type} (Rel : A -> A -> Prop) (l1 l2 : list A) :
  StronglySorted Rel (l1 ++ l2) -> StronglySorted Rel l1 /\ StronglySorted Rel l2.
Proof.
  induction l1 as [|x l1 IH]; simpl; intros H.
  - split; [constructor|exact H].
  - inversion H as [|? ? Hs Hx]; subst. destruct (IH Hs) as [H1 H2].
    split; [|exact H2]. constructor; [exact H1|].
    apply Forall_app in Hx. tauto.
Qed.

Lemma sorted_last {A : Type} (Rel : A -> A -> Prop) (l : list A) (d : A) :
  (forall x, Rel x x) -> StronglySorted Rel l ->
  forall x, In x l -> Rel x (List.last l d).
Proof.
  intros Hrefl. induction 1 as [|y l Hs IH Hy]; intros x Hx; [destruct Hx|].
  destruct l as [|z l].
  - destruct Hx as [<-|[]]. apply Hrefl.
  - change (List.last (y :: z :: l) d) with (List.last (z :: l) d).
    destruct Hx as [<-|Hx]; [|apply IH, Hx].
    rewrite Forall_forall in Hy. apply Hy.
    destruct (@exists_last _ (z :: l)) as (l' & a & Hl); [discriminate|].
    rewrite Hl, last_last. apply in_or_app. right. left. reflexivity.
Qed.

Lemma fold_pick_In (l : list DayScore.t) (b : DayScore.t) :
  fold_left pickPeak l b = b \/ In (fold_left pickPeak l b) l.
Proof.
  revert b. induction l as [|d l IH]; intros b; simpl; [left; reflexivity|].
  destruct (IH (pickPeak b d)) as [H|H]; [|right; right; exact H].
  rewrite H. unfold pickPeak.
  destruct (Rgt_dec _ _); [right; left|left]; reflexivity.
Qed.

Lemma getTime_le (a b : Z) : Dates.getTime a <= Dates.getTime b <-> (a <= b)%Z.
Proof.
  unfold Dates.getTime. pose proof msPerDay_pos as Hpos. split; intros H.
  - apply le_IZR. apply Rmult_le_reg_r with Dates.msPerDay; assumption.
  - apply Rmult_le_compat_r; [lra|]. apply IZR_le, H.
Qed.

(** The two shapes of the result: no day reaches the threshold and the window
    is empty, or the window is a run of days around its peak. *)
Lemma findFertileWindow_cases (dayScores : list DayScore.t) (threshold : R) :
  (fertileDaysOf dayScores threshold = []
   /\ Reconciler.findFertileWindow dayScores threshold = Reconciler.noWindow)
  \/ (fertileDaysOf dayScores threshold <> []
      /\ exists s e p,
           Reconciler.findFertileWindow dayScores threshold
           = Reconciler.mkWindow (Some s) (Some e) (Some p)
           /\ (s <= p <= e)%Z).
Proof.
  rewrite findFertileWindow_unfold.
  destruct (fertileDaysOf dayScores threshold) as [|d ds] eqn:Hf; [left; auto|].
  right. split; [discriminate|].
  assert (Hne : Js.sort dateCmp (d :: ds) <> []).
  { intros H. apply sort_nil in H. discriminate. }
  destruct (windowDaysOf_part _ Hne) as (Hw & l1 & l2 & Hl).
  pose proof (sort_sorted dateCmp (fun x => Dates.getTime (DayScore.date x))
                (fun a b => eq_refl) (d :: ds)) as Hs.
  rewrite Hl in Hs.
  apply StronglySorted_app in Hs. destruct Hs as [_ Hs].
  apply StronglySorted_app in Hs. destruct Hs as [Hs _].
  destruct (windowDaysOf _) as [|w0 ws]; [congruence|].
  do 3 eexists. split; [reflexivity|].
  assert (Hin : In (fold_left pickPeak (w0 :: ws) w0) (w0 :: ws)).
  { destruct (fold_pick_In (w0 :: ws) w0) as [->|H]; [left; reflexivity|exact H]. }
  split.
  - destruct Hin as [<-|Hin]; [lia|].
    inversion Hs as [|? ? _ Hall]; subst. rewrite Forall_forall in Hall.
    apply getTime_le, Hall, Hin.
  - unfold Reconciler.last_date. apply getTime_le.
    apply (sorted_last (fun a b => Dates.getTime (DayScore.date a)
                                   <= Dates.getTime (DayScore.date b)));
      [intros; lra | exact Hs | exact Hin].
Qed.

Lemma fertileDaysOf_nil (dayScores : list DayScore.t) (threshold : R) :
  fertileDaysOf dayScores threshold = []
  <-> forall d, In d dayScores -> DayScore.probability d < threshold.
Proof.
  unfold fertileDaysOf, Js.geb. split.
  - intros H d Hd.
    destruct (Rge_dec (DayScore.probability d) threshold) as [Hge|Hlt] eqn:E; [|lra].
    assert (In d (filter (fun d => if Rge_dec (DayScore.probability d) threshold
                                   then true else false) dayScores))
      by (apply filter_In; split; [assumption|rewrite E; reflexivity]).
    rewrite H in H0. destruct H0.
  - intros H. induction dayScores as [|d ds IH]; [reflexivity|]. simpl.
    destruct (Rge_dec (DayScore.probability d) threshold) as [Hge|Hlt].
    + specialize (H d (or_introl eq_refl)). lra.
    + apply IH. intros x Hx. apply H. right. exact Hx.
Qed.

Lemma Forall2_firstn {A B : Type} (Rel : A -> B -> Prop) (n : nat)
    (l : list A) (l' : list B) :
  Forall2 Rel l l' -> Forall2 Rel (firstn n l) (firstn n l').
Proof.
  intros H. revert n. induction H; intros [|n]; simpl; constructor; auto.
Qed.

Lemma Forall2_skipn {A B : Type} (Rel : A -> B -> Prop) (n : nat)
    (l : list A) (l' : list B) :
  Forall2 Rel l l' -> Forall2 Rel (skipn n l) (skipn n l').
Proof.
  intros H. revert n. induction H; intros [|n]; simpl; auto; constructor; auto.
Qed.

Lemma Forall2_of_map {A B : Type} (f : A -> B) (l l' : list A) :
  map f l = map f l' -> Forall2 (fun a b => f a = f b) l l'.
Proof.
  revert l'. induction l as [|a l IH]; intros [|b l'] H; try discriminate; constructor.
  - simpl in H. congruence.
  - apply IH. simpl in H. congruence.
Qed.

Lemma scanRuns_sameDate (rest rest' : list DayScore.t) :
  Forall2 sameDate rest rest' ->
  forall prev prev' i s,
    sameDate prev prev' ->
    Reconciler.scanRuns prev rest i s = Reconciler.scanRuns prev' rest' i s.
Proof.
  induction 1 as [|c c' rest rest' Hc Hr IH]; intros prev prev' i s Hp; simpl;
    [reflexivity|].
  unfold sameDate in Hc, Hp. rewrite Hc, Hp.
  apply IH. exact Hc.
Qed.

Lemma last_sameDate (l l' : list DayScore.t) :
  Forall2 sameDate l l' ->
  forall b b', sameDate b b' -> sameDate (List.last l b) (List.last l' b').
Proof.
  induction 1 as [|d d' l l' Hd Hl IH]; intros b b' Hb; [exact Hb|].
  destruct Hl as [|e e' l l' He Hl]; [exact Hd|].
  change (sameDate (List.last (e :: l) b) (List.last (e' :: l') b')).
  apply IH, Hb.
Qed.

Lemma windowDaysOf_sameDate (l l' : list DayScore.t) :
  Forall2 sameDate l l' -> Forall2 sameDate (windowDaysOf l) (windowDaysOf l').
Proof.
  intros H. destruct H as [|d d' l l' Hd Hl]; [constructor|].
  unfold windowDaysOf.
  rewrite (scanRuns_sameDate _ _ Hl d d' 1%nat _ Hd).
  unfold Js.slice. apply Forall2_skipn, Forall2_firstn.
  constructor; assumption.
Qed.

(** The start and the end of the window depend on the dates of the days that
    reach the threshold, and on nothing else. *)
Lemma findFertileWindow_dates (ds ds' : list DayScore.t) (threshold threshold' : R) :
  map DayScore.date (fertileDaysOf ds threshold)
  = map DayScore.date (fertileDaysOf ds' threshold') ->
  Reconciler.start (Reconciler.findFertileWindow ds threshold)
  = Reconciler.start (Reconciler.findFertileWindow ds' threshold')
  /\ Reconciler.end_ (Reconciler.findFertileWindow ds threshold)
     = Reconciler.end_ (Reconciler.findFertileWindow ds' threshold').
Proof.
  intros H. apply Forall2_of_map in H. fold sameDate in H.
  rewrite !findFertileWindow_unfold.
  assert (Hs : Forall2 sameDate (Js.sort dateCmp (fertileDaysOf ds threshold))
                                (Js.sort dateCmp (fertileDaysOf ds' threshold'))).
  { apply sort_Forall2; [|exact H].
    intros a a' b b' Ha Ha'. unfold dateCmp. unfold sameDate in Ha, Ha'.
    rewrite Ha, Ha'. reflexivity. }
  apply windowDaysOf_sameDate in Hs.
  destruct H as [|d d' f f' Hd Hf]; [split; reflexivity|].
  destruct Hs as [|w w' ws ws' Hw Hws]; [split; reflexivity|].
  assert (Hall : Forall2 sameDate (w :: ws) (w' :: ws')) by (constructor; assumption).
  pose proof (last_sameDate _ _ Hall w w' Hw) as Hl.
  unfold Reconciler.last_date. unfold sameDate in Hw, Hl.
  cbn [Reconciler.start Reconciler.end_]. rewrite Hw, Hl. split; reflexivity.
Qed.

(** ** The shape of [reconcile] *)

Lemma reconcile_unfold (predictions : list Prediction.t) (options : ReconcilerOptions.t) :
  Reconciler.reconcile tz predictions options
  = if Rlt_dec (INR (List.length predictions))
               (Reconciler.minSources (Reconciler.mergeOptions options))
    then None
    else
      let valid := Reconciler.validPredictions predictions in
      match valid with
      | [] => None
      | _ :: _ =>
          match Reconciler.start (windowOf tz options valid),
                Reconciler.end_ (windowOf tz options valid) with
          | Some s, Some e =>
              Some (windowResult tz options valid s e (Reconciler.peak (windowOf tz options valid)))
          | _, _ =>
              match Reconciler.sortedByWeight (mergedWeights options) valid with
              | [] => None
              | best :: _ => Some (fallbackResult tz options valid best)
              end
          end
      end.
Proof. reflexivity. Qed.

Lemma reconcile_not_admitted (predictions : list Prediction.t) (options : ReconcilerOptions.t) :
  ~ admitted predictions options -> Reconciler.reconcile tz predictions options = None.
Proof.
  intros H. rewrite reconcile_unfold.
  destruct (Rlt_dec _ _) as [Hlt|Hge]; [reflexivity|]. cbv zeta.
  destruct (Reconciler.validPredictions predictions) eqn:Hv; [reflexivity|].
  exfalso. apply H. split; [exact Hge|]. rewrite Hv. discriminate.
Qed.

(** The fallback sort puts a prediction of greatest weight in front, the
    first of them in input order. *)
Lemma sortedByWeight_head (weights : SourceWeights) (valid : list Prediction.t)
    (best : Prediction.t) (rest : list Prediction.t) :
  Reconciler.sortedByWeight weights valid = best :: rest ->
  exists l1 l2, valid = l1 ++ best :: l2
                /\ (forall p, In p l1 -> weightOf weights p < weightOf weights best)
                /\ (forall p, In p valid -> weightOf weights p <= weightOf weights best).
Proof.
  intros H. unfold Reconciler.sortedByWeight in H.
  apply (sort_head _ (fun p => - weightOf weights p)) in H;
    [|intros a b; unfold weightOf; ring].
  destruct H as (l1 & l2 & Hl & Hb & Ha).
  exists l1, l2. split; [exact Hl|]. split; intros p Hp.
  - specialize (Hb p Hp). lra.
  - specialize (Ha p Hp). lra.
Qed.

Lemma sortedByWeight_nonempty (weights : SourceWeights) (valid : list Prediction.t) :
  valid <> [] -> exists best rest, Reconciler.sortedByWeight weights valid = best :: rest.
Proof.
  intros H. destruct (Reconciler.sortedByWeight weights valid) as [|b r] eqn:E.
  - apply sort_nil in E. congruence.
  - eauto.
Qed.

(** Fallback: admission succeeds and no day reaches the threshold. *)
Lemma reconcile_fallback (predictions : list Prediction.t) (options : ReconcilerOptions.t) :
  let valid := Reconciler.validPredictions predictions in
  admitted predictions options ->
  (forall d, In d (dayScoresOf tz options valid) ->
             DayScore.probability d < thresholdOf options valid) ->
  exists best rest,
    Reconciler.sortedByWeight (mergedWeights options) valid = best :: rest
    /\ Reconciler.reconcile tz predictions options = Some (fallbackResult tz options valid best).
Proof.
  intros valid [Hmin Hne] Hlow.
  destruct (sortedByWeight_nonempty (mergedWeights options) valid Hne) as (best & rest & Hs).
  exists best, rest. split; [exact Hs|].
  assert (Hne' : valid <> []) by exact Hne.
  rewrite reconcile_unfold.
  destruct (Rlt_dec _ _); [contradiction|]. cbv zeta. fold valid.
  apply fertileDaysOf_nil in Hlow.
  destruct (findFertileWindow_cases (dayScoresOf tz options valid) (thresholdOf options valid))
    as [[_ Hw]|[Hf _]]; [|contradiction].
  unfold windowOf. rewrite Hw, Hs. simpl.
  clearbody valid. destruct valid; [congruence|reflexivity].
Qed.

(** A window is extracted: admission succeeds and some day reaches the
    threshold. *)
Lemma reconcile_window (predictions : list Prediction.t) (options : ReconcilerOptions.t) :
  let valid := Reconciler.validPredictions predictions in
  admitted predictions options ->
  fertileDaysOf (dayScoresOf tz options valid) (thresholdOf options valid) <> [] ->
  exists s e p,
    windowOf tz options valid = Reconciler.mkWindow (Some s) (Some e) (Some p)
    /\ (s <= p <= e)%Z
    /\ Reconciler.reconcile tz predictions options = Some (windowResult tz options valid s e (Some p)).
Proof.
  intros valid [Hmin Hne] Hf.
  destruct (findFertileWindow_cases (dayScoresOf tz options valid) (thresholdOf options valid))
    as [[Hnil _]|(_ & s & e & p & Hw & Hord)]; [contradiction|].
  exists s, e, p. split; [exact Hw|]. split; [exact Hord|].
  assert (Hne' : valid <> []) by exact Hne.
  rewrite reconcile_unfold.
  destruct (Rlt_dec _ _); [contradiction|]. cbv zeta. fold valid.
  unfold windowOf. rewrite Hw. simpl.
  clearbody valid. destruct valid; [congruence|reflexivity].
Qed.

(** Every result of [reconcile] is of one of the two kinds. *)
Lemma reconcile_some (predictions : list Prediction.t) (options : ReconcilerOptions.t)
    (r : ReconciledPrediction.t) :
  let valid := Reconciler.validPredictions predictions in
  Reconciler.reconcile tz predictions options = Some r ->
  admitted predictions options
  /\ ((exists best rest,
         Reconciler.sortedByWeight (mergedWeights options) valid = best :: rest
         /\ fertileDaysOf (dayScoresOf tz options valid) (thresholdOf options valid) = []
         /\ r = fallbackResult tz options valid best)
      \/ (exists s e p,
            fertileDaysOf (dayScoresOf tz options valid) (thresholdOf options valid) <> []
            /\ (s <= p <= e)%Z
            /\ r = windowResult tz options valid s e (Some p))).
Proof.
  intros valid Hr.
  assert (Ha : admitted predictions options).
  { destruct (Rlt_dec (INR (List.length predictions))
                      (Reconciler.minSources (Reconciler.mergeOptions options))) as [Hlt|Hge].
    - rewrite reconcile_not_admitted in Hr; [discriminate|]. intros [H _]. contradiction.
    - split; [exact Hge|]. intros Hv.
      rewrite reconcile_not_admitted in Hr; [discriminate|]. intros [_ H]. contradiction. }
  split; [exact Ha|].
  destruct (findFertileWindow_cases (dayScoresOf tz options valid) (thresholdOf options valid))
    as [[Hnil _]|(Hf & _)].
  - left. pose proof (proj1 (fertileDaysOf_nil _ _) Hnil) as Hlow.
    destruct (reconcile_fallback predictions options Ha Hlow) as (best & rest & Hs & Hrec).
    exists best, rest. split; [exact Hs|]. split; [exact Hnil|].
    rewrite Hr in Hrec. inversion Hrec. reflexivity.
  - right. destruct (reconcile_window predictions options Ha Hf) as (s & e & p & _ & Hord & Hrec).
    exists s, e, p. split; [exact Hf|]. split; [exact Hord|].
    rewrite Hr in Hrec. inversion Hrec. reflexivity.
Qed.

Lemma reconcile_admitted_some (predictions : list Prediction.t) (options : ReconcilerOptions.t) :
  admitted predictions options ->
  exists r, Reconciler.reconcile tz predictions options = Some r.
Proof.
  intros Ha.
  destruct (findFertileWindow_cases
              (dayScoresOf tz options (Reconciler.validPredictions predictions))
              (thresholdOf options (Reconciler.validPredictions predictions)))
    as [[Hnil _]|[Hf _]].
  - destruct (reconcile_fallback predictions options Ha
                (proj1 (fertileDaysOf_nil _ _) Hnil)) as (best & rest & _ & Hr).
    eauto.
  - destruct (reconcile_window predictions options Ha Hf) as (s & e & p & _ & _ & Hr).
    eauto.
Qed.

(** A result that a window was extracted for does not open with the
    low-confidence note; a fallback result does. *)
Lemma windowResult_not_fallback (options : ReconcilerOptions.t)
    (valid : list Prediction.t) (s e : Z) (p : option Z) :
  ~ isFallback (windowResult tz options valid s e p).
Proof.
  unfold isFallback, windowResult, Reconciler.generateExplanations.
  cbn [ReconciledPrediction.explain app hd_error].
  destruct valid as [|q [|q' l]]; intros H; inversion H.
Qed.

Lemma fallbackResult_fallback (options : ReconcilerOptions.t)
    (valid : list Prediction.t) (best : Prediction.t) :
  isFallback (fallbackResult tz options valid best).
Proof. reflexivity. Qed.

(** The probability of a day is at most the largest self-confidence. *)
Lemma probability_le (weights : SourceWeights) (l : list Prediction.t) (cmax : R) :
  0 <= cmax ->
  (forall p, In p l -> 0 <= weightOf weights p /\ 0 <= selfConfidence p <= cmax) ->
  forall d, In d (Reconciler.buildDayScores tz l weights) -> DayScore.probability d <= cmax.
Proof.
  intros Hc Hall d Hd.
  destruct l as [|p0 l]; [destruct Hd|].
  rewrite buildDayScores_unfold in Hd. apply in_map_iff in Hd.
  destruct Hd as (date & <- & _). rewrite dayScore_probability.
  destruct (Rgt_dec (totalWeightOf weights (p0 :: l)) 0) as [Hpos|]; [|exact Hc].
  assert (Hsum : Rsum (map (contributionAt weights date) (p0 :: l))
                 <= totalWeightOf weights (p0 :: l) * cmax).
  { unfold totalWeightOf. rewrite <- Rsum_map_scale. apply Rsum_map_le. intros p Hp.
    destruct (Hall p Hp) as (Hw & Hc0 & Hc1).
    apply Rle_trans with (weightOf weights p * selfConfidence p).
    - apply contributionAt_le; assumption.
    - apply Rmult_le_compat_l; assumption. }
  apply Rmult_le_reg_r with (totalWeightOf weights (p0 :: l)); [lra|].
  unfold Rdiv. rewrite Rmult_assoc, Rinv_l by lra. lra.
Qed.

(** ** Sample inputs *)

Lemma valid_cons (p : Prediction.t) (l : list Prediction.t) :
  Reconciler.validPredictions (p :: l)
  = if Rgt_dec (Reconciler.confidenceOr50 p) 0
    then p :: Reconciler.validPredictions l
    else Reconciler.validPredictions l.
Proof.
  unfold Reconciler.validPredictions, Js.gtb. simpl.
  destruct (Rgt_dec _ 0); reflexivity.
Qed.

Lemma valid_all (l : list Prediction.t) :
  (forall p, In p l -> 0 < Reconciler.confidenceOr50 p) ->
  Reconciler.validPredictions l = l.
Proof.
  induction l as [|p l IH]; intros H; [reflexivity|].
  rewrite valid_cons. destruct (Rgt_dec _ 0) as [_|Hn].
  - rewrite IH; [reflexivity|]. intros q Hq. apply H. right. exact Hq.
  - exfalso. apply Hn. apply H. left. reflexivity.
Qed.

Lemma valid_In (l : list Prediction.t) (p : Prediction.t) :
  In p (Reconciler.validPredictions l) <-> In p l /\ 0 < Reconciler.confidenceOr50 p.
Proof.
  unfold Reconciler.validPredictions, Js.gtb. rewrite filter_In.
  destruct (Rgt_dec (Reconciler.confidenceOr50 p) 0) as [Hgt|Hle];
    split; intros [H1 H2]; try discriminate; try (split; auto; fail).
Qed.

Lemma default_threshold_ge (valid : list Prediction.t) :
  0.3 <= thresholdOf ReconcilerOptions.empty valid.
Proof.
  unfold thresholdOf.
  apply (threshold_ge (Reconciler.mergeOptions ReconcilerOptions.empty) valid).
  simpl. lra.
Qed.

(** A single prediction of low confidence is returned as it is. *)
Lemma single_fallback (p : Prediction.t) :
  0 <= weightOf (mergedWeights ReconcilerOptions.empty) p ->
  0 < Reconciler.confidenceOr50 p -> selfConfidence p < 0.3 ->
  Reconciler.reconcile tz [p] ReconcilerOptions.empty
  = Some (fallbackResult tz ReconcilerOptions.empty [p] p).
Proof.
  intros Hw Hc Hlow.
  assert (Hv : Reconciler.validPredictions [p] = [p]).
  { apply valid_all. intros q [<-|[]]. exact Hc. }
  assert (Hc' : 0 <= selfConfidence p).
  { rewrite <- selfConfidence_code. lra. }
  destruct (reconcile_fallback [p] ReconcilerOptions.empty) as (best & rest & Hs & Hr).
  - split; [simpl; lra|]. rewrite Hv. discriminate.
  - rewrite Hv. intros d Hd.
    apply Rle_lt_trans with (selfConfidence p).
    + apply (probability_le (mergedWeights ReconcilerOptions.empty) [p]);
        [exact Hc'| |exact Hd].
      intros q [<-|[]]. lra.
    + pose proof (default_threshold_ge [p]). lra.
  - rewrite Hv in Hs, Hr. simpl in Hs. inversion Hs; subst. exact Hr.
Qed.

Lemma flo_weight (s e : Z) (ov : option Z) (c : R) :
  weightOf (mergedWeights ReconcilerOptions.empty) (sample "flo" s e ov c) = 0.70.
Proof. reflexivity. Qed.

(** ** C1: a single prediction *)

(** C1, amended.  For every prediction P whose confidence is positive (or
    absent), [reconcile([P])] with default options returns a result whose
    diagnostics report [inputPredictions = 1] and [sourceAgreement = 1]. *)
Theorem reconcile_single (P : Prediction.t) :
  0 < Reconciler.confidenceOr50 P ->
  exists r, Reconciler.reconcile tz [P] ReconcilerOptions.empty = Some r
            /\ Diagnostics.inputPredictions (ReconciledPrediction.diagnostics r) = 1%nat
            /\ Diagnostics.sourceAgreement (ReconciledPrediction.diagnostics r) = 1.
Proof.
  intros Hc.
  assert (Hv : Reconciler.validPredictions [P] = [P]).
  { apply valid_all. intros q [<-|[]]. exact Hc. }
  assert (Ha : admitted [P] ReconcilerOptions.empty).
  { split; [simpl; lra|]. rewrite Hv. discriminate. }
  destruct (findFertileWindow_cases
              (dayScoresOf tz ReconcilerOptions.empty (Reconciler.validPredictions [P]))
              (thresholdOf ReconcilerOptions.empty (Reconciler.validPredictions [P])))
    as [[Hnil _]|[Hf _]].
  - destruct (reconcile_fallback [P] ReconcilerOptions.empty Ha
                (proj1 (fertileDaysOf_nil _ _) Hnil)) as (best & rest & _ & Hr).
    eexists. split; [exact Hr|]. rewrite Hv. split; reflexivity.
  - destruct (reconcile_window [P] ReconcilerOptions.empty Ha Hf)
      as (s & e & p & _ & _ & Hr).
    eexists. split; [exact Hr|]. rewrite Hv. split; reflexivity.
Qed.

(** ** C5: the fallback *)

(** C5.  When admission succeeds and no day's probability reaches the
    effective threshold, the result is the admitted prediction of greatest
    effective weight, the first such in input order: its window and
    ovulation date as they are, confidence [max(0.2, agreement * 0.5)], and
    an explanation that opens with the low-confidence note and names the
    source fallen back to. *)
Theorem reconcile_fallback_result (predictions : list Prediction.t)
    (options : ReconcilerOptions.t) :
  let valid := Reconciler.validPredictions predictions in
  let weights := mergedWeights options in
  admitted predictions options ->
  (forall d, In d (Reconciler.buildDayScores tz valid weights) ->
             DayScore.probability d < thresholdOf options valid) ->
  exists best before after,
    valid = before ++ best :: after
    /\ (forall p, In p before -> weightOf weights p < weightOf weights best)
    /\ (forall p, In p valid -> weightOf weights p <= weightOf weights best)
    /\ Reconciler.reconcile tz predictions options
       = Some (ReconciledPrediction.mk
                 (Prediction.fertileStart best) (Prediction.fertileEnd best)
                 (Prediction.ovulationDate best)
                 (Rmax 0.2 (Reconciler.calculateSourceAgreement valid * 0.5))
                 [ "Low confidence: Could not reconcile predictions";
                   ("Falling back to " ++ Prediction.source best ++ " prediction")%string ]
                 (Diagnostics.mk (Reconciler.calculateSourceAgreement valid)
                                 (Reconciler.identifyOutliers valid weights)
                                 weights
                                 (Reconciler.buildDayScores tz valid weights)
                                 (List.length valid))).
Proof.
  intros valid weights Ha Hlow.
  destruct (reconcile_fallback predictions options Ha Hlow) as (best & rest & Hs & Hr).
  destruct (sortedByWeight_head _ _ _ _ Hs) as (l1 & l2 & Hl & Hb & Hall).
  exists best, l1, l2. repeat split; assumption.
Qed.

Lemma apart_valid : Reconciler.validPredictions apart = apart.
Proof. apply valid_all. intros p [<-|[<-|[]]]; sample_facts. Qed.

Lemma apart_low :
  forall d, In d (Reconciler.buildDayScores tz (Reconciler.validPredictions apart)
                                            (mergedWeights strict)) ->
            DayScore.probability d < thresholdOf strict (Reconciler.validPredictions apart).
Proof.
  intros d Hd. apply Rle_lt_trans with 0.8.
  - apply (probability_le _ _ 0.8) in Hd; [exact Hd|lra|].
    intros p Hp. apply valid_In in Hp. destruct Hp as [Hp _].
    destruct Hp as [<-|[<-|[]]]; (split; [weight_is 0.70; lra|sample_facts]).
  - pose proof (threshold_ge (Reconciler.mergeOptions strict)
                             (Reconciler.validPredictions apart)) as H.
    unfold thresholdOf. simpl in H. simpl. lra.
Qed.

Lemma apart_admitted : admitted apart strict.
Proof.
  split; [simpl; lra|]. rewrite apart_valid. discriminate.
Qed.

(** ** C10: the ovulation date and the window *)

(** C10, amended.  When every input prediction that has an ovulation date
    has it within its own window, the ovulation date of the result of
    [reconcile] lies within the returned window. *)
Theorem reconcile_ovulation_in_window (predictions : list Prediction.t)
    (options : ReconcilerOptions.t) (r : ReconciledPrediction.t) (o : Z) :
  (forall p o', In p predictions -> Prediction.ovulationDate p = Some o' ->
                (Prediction.fertileStart p <= o' <= Prediction.fertileEnd p)%Z) ->
  Reconciler.reconcile tz predictions options = Some r ->
  ReconciledPrediction.ovulationDate r = Some o ->
  (ReconciledPrediction.fertileStart r <= o <= ReconciledPrediction.fertileEnd r)%Z.
Proof.
  intros Hin Hr Ho.
  destruct (reconcile_some predictions options r Hr)
    as (_ & [(best & rest & Hs & _ & ->)|(s & e & p & _ & Hord & ->)]).
  - simpl in *. apply (Hin best o); [|exact Ho].
    assert (Hb : In best (Reconciler.validPredictions predictions)).
    { eapply Permutation_in; [apply sort_perm|].
      unfold Reconciler.sortedByWeight in Hs. rewrite Hs. left. reflexivity. }
    apply valid_In in Hb. tauto.
  - simpl in *. inversion Ho; subst. exact Hord.
Qed.

(** ** C4: the day-probability formula *)

Lemma find_dayScoreAt (weights : SourceWeights) (l : list Prediction.t)
    (dates : list Z) (D : Z) :
  In D dates ->
  find (fun d => (DayScore.date d =? D)%Z) (map (dayScoreAt weights l) dates)
  = Some (dayScoreAt weights l D).
Proof.
  induction dates as [|x dates IH]; intros H; [destruct H|]. simpl.
  rewrite dayScoreAt_date. destruct (Z.eqb_spec x D) as [->|Hne]; [reflexivity|].
  destruct H as [H|H]; [congruence|]. apply IH, H.
Qed.

(** On a host with a fixed offset the series holds, for every date of the
    extended union range, the sum of the contributions over the fixed total
    of the weights. *)
Lemma dayProbability_spec (weights : SourceWeights) (l : list Prediction.t)
    (lo hi D : Z) :
  fixedOffset tz ->
  unionRange l lo hi -> 0 < totalWeightOf weights l ->
  (lo - 2 <= D <= hi + 2)%Z ->
  dayProbability (Reconciler.buildDayScores tz l weights) D
  = Some (Rsum (map (contribution weights D) l) / totalWeightOf weights l).
Proof.
  intros Hf Hr Hw HD. unfold dayProbability.
  rewrite (buildDayScores_range weights l lo hi Hf Hr).
  rewrite find_dayScoreAt by (apply dayRange_In; exact HD).
  simpl. rewrite dayScoreAt_probability.
  destruct (Rgt_dec (totalWeightOf weights l) 0); [reflexivity|lra].
Qed.

Lemma boundary_decayed :
  decayed boundaryWeights 20136 (sample "flo" 20129 20134 None 80) = 0.1.
Proof.
  unfold decayed.
  replace (daysOutside 20136 (sample "flo" 20129 20134 None 80)) with 2%Z by reflexivity.
  replace (weightOf boundaryWeights (sample "flo" 20129 20134 None 80))
    with (exp 2 / 8) by reflexivity.
  replace (selfConfidence (sample "flo" 20129 20134 None 80)) with (80 / 100)
    by reflexivity.
  replace (- 2 ^ 2 / 2) with (Ropp 2) by lra.
  rewrite exp_Ropp. pose proof (exp_pos 2).
  replace (exp 2 / 8 * (80 / 100) * / exp 2)
    with (exp 2 * / exp 2 * (80 / 800)) by (unfold Rdiv; field; lra).
  rewrite Rinv_r by lra. lra.
Qed.

(** C4, amended.  On a host whose time zone keeps one offset from UTC, for
    every date D of the union range extended by two days on each end, the
    probability of D is the sum over the predictions P, with effective
    weight w and self-confidence c (P.confidence / 100, 0.5 when absent), of
    w c when D lies in the window of P, and otherwise of w c exp(-k^2 / 2),
    k the distance in days to the nearer end of the window, when that score
    is strictly above 0.1 (and of nothing when it is not), divided by the
    positive total of the weights of all the predictions. *)
Theorem day_probability_formula (weights : SourceWeights) (admittedList : list Prediction.t)
    (lo hi D : Z) :
  fixedOffset tz ->
  unionRange admittedList lo hi ->
  0 < totalWeightOf weights admittedList ->
  (lo - 2 <= D <= hi + 2)%Z ->
  dayProbability (Reconciler.buildDayScores tz admittedList weights) D
  = Some (Rsum (map (fun P =>
                      let w := Reconciler.getWeight (Prediction.source P) weights in
                      let c := match Prediction.confidence P with
                               | Some c => c / 100
                               | None => 0.5
                               end in
                      if ((Prediction.fertileStart P <=? D)%Z
                          && (D <=? Prediction.fertileEnd P)%Z)%bool
                      then w * c
                      else
                        let k := Z.min (Z.abs (D - Prediction.fertileStart P))
                                       (Z.abs (D - Prediction.fertileEnd P)) in
                        if Rgt_dec (w * c * exp (- (IZR k ^ 2) / 2)) 0.1
                        then w * c * exp (- (IZR k ^ 2) / 2)
                        else 0)
                   admittedList)
          / Rsum (map (fun P => Reconciler.getWeight (Prediction.source P) weights)
                      admittedList)).
Proof.
  intros Hf Hr Hw HD. unfold dayProbability.
  rewrite (buildDayScores_range weights admittedList lo hi Hf Hr).
  rewrite find_dayScoreAt by (apply dayRange_In; exact HD).
  cbn [option_map]. rewrite dayScoreAt_probability.
  destruct (Rgt_dec (totalWeightOf weights admittedList) 0) as [_|Hn]; [|lra].
  reflexivity.
Qed.

(** ** C2: the order of the input *)

Lemma Forall2_map_same {A B C : Type} (Rel : B -> C -> Prop) (f : A -> B)
    (g : A -> C) (l : list A) :
  (forall x, Rel (f x) (g x)) -> Forall2 Rel (map f l) (map g l).
Proof. intros H. induction l; simpl; constructor; auto. Qed.

(** The score of a time value holds the same entries whatever the order of
    the predictions. *)
Lemma dayScore_perm (weights : SourceWeights) (l l' : list Prediction.t) (t : Z) :
  Permutation l l' ->
  sameScores (Reconciler.dayScore weights l t) (Reconciler.dayScore weights l' t).
Proof.
  intros H. rewrite !dayScore_spec. unfold sameScores.
  cbn [DayScore.date DayScore.rawScores DayScore.sources].
  split; [reflexivity|]. split; apply Permutation_flat_map, H.
Qed.

Lemma buildDayScores_perm (weights : SourceWeights) (l l' : list Prediction.t) :
  Permutation l l' ->
  Forall2 sameScores (Reconciler.buildDayScores tz l weights)
                     (Reconciler.buildDayScores tz l' weights).
Proof.
  intros H. rewrite !buildDayScores_unfold, (allDatesOf_perm l l' H).
  apply Forall2_map_same. intros t. apply dayScore_perm, H.
Qed.

Lemma valid_perm (l l' : list Prediction.t) :
  Permutation l l' ->
  Permutation (Reconciler.validPredictions l) (Reconciler.validPredictions l').
Proof. apply filter_perm. Qed.

Lemma admitted_perm (l l' : list Prediction.t) (options : ReconcilerOptions.t) :
  Permutation l l' -> admitted l options -> admitted l' options.
Proof.
  intros H [Hmin Hne]. split.
  - rewrite <- (Permutation_length H). exact Hmin.
  - intros Hnil. apply Hne. apply Permutation_nil.
    rewrite <- Hnil. symmetry. apply valid_perm, H.
Qed.

Lemma someDayReaches_fertile (options : ReconcilerOptions.t) (predictions : list Prediction.t) :
  someDayReaches tz options predictions ->
  fertileDaysOf (dayScoresOf tz options (Reconciler.validPredictions predictions))
                (thresholdOf options (Reconciler.validPredictions predictions)) <> [].
Proof.
  intros (d & Hd & Hge) Hnil.
  pose proof (proj1 (fertileDaysOf_nil _ _) Hnil d Hd). lra.
Qed.

Lemma sorted_head_heaviest (weights : SourceWeights) (valid : list Prediction.t)
    (best : Prediction.t) (rest : list Prediction.t) :
  Reconciler.sortedByWeight weights valid = best :: rest ->
  In best valid /\ forall x, In x valid -> weightOf weights x <= weightOf weights best.
Proof.
  intros H. destruct (sortedByWeight_head _ _ _ _ H) as (l1 & l2 & -> & _ & Hall).
  split; [apply in_or_app; right; left; reflexivity|exact Hall].
Qed.

Lemma reconcile_diagnostics_of (predictions : list Prediction.t)
    (options : ReconcilerOptions.t) (r : ReconciledPrediction.t) :
  Reconciler.reconcile tz predictions options = Some r ->
  ReconciledPrediction.diagnostics r
  = diagnosticsOf tz options (Reconciler.validPredictions predictions).
Proof.
  intros Hr.
  destruct (reconcile_some predictions options r Hr)
    as (_ & [(best & rest & _ & _ & ->)|(s & e & p & _ & _ & ->)]); reflexivity.
Qed.

Lemma reachedDays_of (predictions : list Prediction.t)
    (options : ReconcilerOptions.t) (r : ReconciledPrediction.t) :
  Reconciler.reconcile tz predictions options = Some r ->
  reachedDays options r
  = map DayScore.date
        (fertileDaysOf (dayScoresOf tz options (Reconciler.validPredictions predictions))
                       (thresholdOf options (Reconciler.validPredictions predictions))).
Proof.
  intros Hr. unfold reachedDays.
  rewrite (reconcile_diagnostics_of predictions options r Hr). reflexivity.
Qed.

(** A result that does not open with the low-confidence note carries the
    window [findFertileWindow] extracted. *)
Lemma reconcile_extracted (predictions : list Prediction.t)
    (options : ReconcilerOptions.t) (r : ReconciledPrediction.t) :
  Reconciler.reconcile tz predictions options = Some r -> ~ isFallback r ->
  Reconciler.start (windowOf tz options (Reconciler.validPredictions predictions))
  = Some (ReconciledPrediction.fertileStart r)
  /\ Reconciler.end_ (windowOf tz options (Reconciler.validPredictions predictions))
     = Some (ReconciledPrediction.fertileEnd r).
Proof.
  intros Hr Hno.
  destruct (reconcile_some predictions options r Hr)
    as (Ha & [(best & rest & _ & _ & ->)|(s & e & p & Hf & _ & _)]).
  - destruct (Hno (fallbackResult_fallback _ _ _)).
  - destruct (reconcile_window predictions options Ha Hf) as (s' & e' & p' & Hw & _ & Hr').
    rewrite Hr in Hr'. inversion Hr'. subst r. rewrite Hw. split; reflexivity.
Qed.

(** A result that opens with the low-confidence note carries the window of
    the head of the sort by weight. *)
Lemma reconcile_fallen_back (predictions : list Prediction.t)
    (options : ReconcilerOptions.t) (r : ReconciledPrediction.t) :
  Reconciler.reconcile tz predictions options = Some r -> isFallback r ->
  exists best rest,
    Reconciler.sortedByWeight (mergedWeights options)
                              (Reconciler.validPredictions predictions) = best :: rest
    /\ ReconciledPrediction.fertileStart r = Prediction.fertileStart best
    /\ ReconciledPrediction.fertileEnd r = Prediction.fertileEnd best.
Proof.
  intros Hr Hfb.
  destruct (reconcile_some predictions options r Hr)
    as (_ & [(best & rest & Hs & _ & ->)|(s & e & p & _ & _ & ->)]).
  - exists best, rest. split; [exact Hs|]. split; reflexivity.
  - destruct (windowResult_not_fallback _ _ _ _ _ Hfb).
Qed.

(** C2, amended.  For every list L and every permutation L' of L,
    [reconcile(L)] and [reconcile(L')] are both null or both results.  The
    two results count the same number of admitted predictions and score the
    same days, each day with the same recorded scores and sources up to
    their order.  They have the same [fertileStart] and [fertileEnd] when a
    window is extracted and, by the diagnostics of the two results, the same
    days reach the effective threshold; and when both fall back and the
    admitted predictions of greatest weight share one window.  In the
    fallback with a tie between different windows the first one in input
    order is returned.  What is summed over the predictions in input order
    (the day probabilities, the agreement, the centroid behind the outliers,
    hence the confidence) is left out. *)
Theorem reconcile_permutation (L L' : list Prediction.t) (options : ReconcilerOptions.t) :
  Permutation L L' ->
  match Reconciler.reconcile tz L options, Reconciler.reconcile tz L' options with
  | Some r, Some r' =>
      Diagnostics.inputPredictions (ReconciledPrediction.diagnostics r)
      = Diagnostics.inputPredictions (ReconciledPrediction.diagnostics r')
      /\ Forall2 sameScores
           (Diagnostics.dayScores (ReconciledPrediction.diagnostics r))
           (Diagnostics.dayScores (ReconciledPrediction.diagnostics r'))
      /\ (~ isFallback r -> ~ isFallback r' ->
          reachedDays options r = reachedDays options r' ->
          ReconciledPrediction.fertileStart r = ReconciledPrediction.fertileStart r'
          /\ ReconciledPrediction.fertileEnd r = ReconciledPrediction.fertileEnd r')
      /\ (isFallback r -> isFallback r' -> heaviestAgree options L ->
          ReconciledPrediction.fertileStart r = ReconciledPrediction.fertileStart r'
          /\ ReconciledPrediction.fertileEnd r = ReconciledPrediction.fertileEnd r')
  | None, None => True
  | _, _ => False
  end.
Proof.
  intros H.
  pose proof (valid_perm _ _ H) as HV.
  destruct (Reconciler.reconcile tz L options) as [r|] eqn:Hr;
    destruct (Reconciler.reconcile tz L' options) as [r'|] eqn:Hr'.
  - split; [|split; [|split]].
    + rewrite (reconcile_diagnostics_of L options r Hr).
      rewrite (reconcile_diagnostics_of L' options r' Hr').
      unfold diagnosticsOf. cbn [Diagnostics.inputPredictions].
      apply Permutation_length, HV.
    + rewrite (reconcile_diagnostics_of L options r Hr).
      rewrite (reconcile_diagnostics_of L' options r' Hr').
      unfold diagnosticsOf, dayScoresOf. cbn [Diagnostics.dayScores].
      apply buildDayScores_perm, HV.
    + intros Hno Hno' Hsame.
      rewrite (reachedDays_of L options r Hr), (reachedDays_of L' options r' Hr') in Hsame.
      destruct (reconcile_extracted L options r Hr Hno) as [Hs He].
      destruct (reconcile_extracted L' options r' Hr' Hno') as [Hs' He'].
      destruct (findFertileWindow_dates _ _ _ _ Hsame) as [H1 H2].
      unfold windowOf in Hs, He, Hs', He'.
      rewrite Hs, Hs' in H1. rewrite He, He' in H2.
      inversion H1. inversion H2. split; reflexivity.
    + intros Hfb Hfb' Hagree.
      destruct (reconcile_fallen_back L options r Hr Hfb) as (best & rest & Hs & -> & ->).
      destruct (reconcile_fallen_back L' options r' Hr' Hfb') as (best' & rest' & Hs' & -> & ->).
      destruct (sorted_head_heaviest _ _ _ _ Hs) as [Hin Hmax].
      destruct (sorted_head_heaviest _ _ _ _ Hs') as [Hin' Hmax'].
      assert (Hin2 : In best' (Reconciler.validPredictions L))
        by (eapply Permutation_in; [symmetry; exact HV|exact Hin']).
      apply (Hagree best best'); try assumption.
      intros x Hx. apply Hmax'. eapply Permutation_in; [exact HV|exact Hx].
  - destruct (reconcile_some L options r Hr) as (Ha & _).
    destruct (reconcile_admitted_some L' options (admitted_perm _ _ options H Ha))
      as (r' & Hr'').
    rewrite Hr' in Hr''. discriminate.
  - destruct (reconcile_some L' options r' Hr') as (Ha & _).
    destruct (reconcile_admitted_some L options
                (admitted_perm _ _ options (Permutation_sym H) Ha)) as (r & Hr'').
    rewrite Hr in Hr''. discriminate.
  - exact I.
Qed.

(** With default options, a list of admitted predictions whose
    self-confidences stay below 0.3 falls back. *)
Lemma low_fallback (l : list Prediction.t) (cmax : R) :
  l <> [] -> 0 <= cmax < 0.3 ->
  (forall p, In p l -> 0 <= weightOf (mergedWeights ReconcilerOptions.empty) p
                       /\ 0 < Reconciler.confidenceOr50 p
                       /\ selfConfidence p <= cmax) ->
  exists best rest,
    Reconciler.sortedByWeight (mergedWeights ReconcilerOptions.empty) l = best :: rest
    /\ Reconciler.reconcile tz l ReconcilerOptions.empty
       = Some (fallbackResult tz ReconcilerOptions.empty l best).
Proof.
  intros Hne Hc Hall.
  assert (Hv : Reconciler.validPredictions l = l).
  { apply valid_all. intros p Hp. apply (Hall p Hp). }
  destruct (reconcile_fallback l ReconcilerOptions.empty) as (best & rest & Hs & Hr).
  - split; [|rewrite Hv; exact Hne].
    destruct l as [|p l]; [congruence|].
    change (List.length (p :: l)) with (S (List.length l)). rewrite S_INR.
    pose proof (pos_INR (List.length l)). simpl. lra.
  - rewrite Hv. intros d Hd. apply Rle_lt_trans with cmax.
    + apply (probability_le (mergedWeights ReconcilerOptions.empty) l);
        [lra| |exact Hd].
      intros q Hq. destruct (Hall q Hq) as (Hw & Hpos & Hle).
      split; [exact Hw|]. split; [|exact Hle].
      rewrite <- selfConfidence_code. lra.
    + pose proof (default_threshold_ge l). lra.
  - rewrite Hv in Hs, Hr. eauto.
Qed.

Lemma tie_facts (p : Prediction.t) :
  In p [tieA; tieB] ->
  0 <= weightOf (mergedWeights ReconcilerOptions.empty) p
  /\ 0 < Reconciler.confidenceOr50 p /\ selfConfidence p <= 0.2.
Proof.
  intros [<-|[<-|[]]]; (split; [weight_is 0.70; lra|]);
    split; unfold tieA, tieB; sample_facts.
Qed.

Lemma tie_sorted (p q : Prediction.t) :
  In p [tieA; tieB] -> In q [tieA; tieB] ->
  Reconciler.sortedByWeight (mergedWeights ReconcilerOptions.empty) [p; q] = [p; q].
Proof.
  intros Hp Hq. unfold Reconciler.sortedByWeight. simpl.
  fold (weightOf (mergedWeights ReconcilerOptions.empty) p).
  fold (weightOf (mergedWeights ReconcilerOptions.empty) q).
  replace (weightOf (mergedWeights ReconcilerOptions.empty) p) with 0.70
    by (destruct Hp as [<-|[<-|[]]]; reflexivity).
  replace (weightOf (mergedWeights ReconcilerOptions.empty) q) with 0.70
    by (destruct Hq as [<-|[<-|[]]]; reflexivity).
  destruct (Rle_dec (0.70 - 0.70) 0); [reflexivity|lra].
Qed.

(** ** C3: adding a far outlier *)

(** The probability of a day is at most the weighted mean of the
    self-confidences. *)
Lemma probability_le_mean (weights : SourceWeights) (l : list Prediction.t) :
  (forall p, In p l -> 0 <= weightOf weights p /\ 0 <= selfConfidence p) ->
  0 < totalWeightOf weights l ->
  forall d, In d (Reconciler.buildDayScores tz l weights) ->
            DayScore.probability d
            <= Rsum (map (fun p => weightOf weights p * selfConfidence p) l)
               / totalWeightOf weights l.
Proof.
  intros Hall Hpos d Hd.
  destruct l as [|p0 l]; [destruct Hd|].
  rewrite buildDayScores_unfold in Hd. apply in_map_iff in Hd.
  destruct Hd as (date & <- & _). rewrite dayScore_probability.
  destruct (Rgt_dec (totalWeightOf weights (p0 :: l)) 0) as [_|Hn]; [|lra].
  unfold Rdiv. apply Rmult_le_compat_r; [left; apply Rinv_0_lt_compat; exact Hpos|].
  apply Rsum_map_le. intros p Hp. destruct (Hall p Hp).
  apply contributionAt_le; assumption.
Qed.

(** On a host with a fixed offset a day inside the window of [p] has at
    least the share of [p]. *)
Lemma probability_ge_share (weights : SourceWeights) (l : list Prediction.t)
    (lo hi D : Z) (p : Prediction.t) :
  fixedOffset tz ->
  unionRange l lo hi ->
  (forall q, In q l -> 0 <= weightOf weights q /\ 0 <= selfConfidence q) ->
  0 < totalWeightOf weights l ->
  In p l -> inWindow D p = true ->
  exists d, In d (Reconciler.buildDayScores tz l weights)
            /\ weightOf weights p * selfConfidence p / totalWeightOf weights l
               <= DayScore.probability d.
Proof.
  intros Hfix Hr Hall Hpos Hp Hin.
  assert (HD : (lo - 2 <= D <= hi + 2)%Z).
  { destruct Hr as (_ & Hlo & _ & Hhi). specialize (Hlo p Hp). specialize (Hhi p Hp).
    unfold inWindow in Hin. apply andb_prop in Hin. destruct Hin as [H1 H2].
    apply Z.leb_le in H1, H2. lia. }
  exists (dayScoreAt weights l D). split.
  - rewrite (buildDayScores_range weights l lo hi Hfix Hr).
    apply in_map, dayRange_In, HD.
  - rewrite dayScoreAt_probability.
    destruct (Rgt_dec (totalWeightOf weights l) 0) as [_|Hn]; [|lra].
    unfold Rdiv. apply Rmult_le_compat_r; [left; apply Rinv_0_lt_compat; exact Hpos|].
    clear Hr HD Hpos. induction l as [|q l IH]; [destruct Hp|]. simpl.
    assert (Hrest : 0 <= Rsum (map (contribution weights D) l)).
    { apply Rsum_map_nonneg. intros x Hx.
      destruct (Hall x (or_intror Hx)). apply contribution_nonneg; assumption. }
    destruct Hp as [->|Hp].
    + unfold contribution at 1. rewrite Hin. lra.
    + assert (0 <= contribution weights D q).
      { destruct (Hall q (or_introl eq_refl)). apply contribution_nonneg; assumption. }
      specialize (IH (fun x Hx => Hall x (or_intror Hx)) Hp). lra.
Qed.

Lemma default_threshold_le (valid : list Prediction.t) :
  thresholdOf ReconcilerOptions.empty valid <= 0.45.
Proof.
  unfold thresholdOf, Reconciler.effectiveThreshold.
  pose proof (agreement_range valid) as [Hpos _]. simpl.
  destruct (Rlt_dec _ 0.7); lra.
Qed.

Lemma variance_getTime (days : list Z) :
  variance (map Dates.getTime days) = varianceDays days.
Proof.
  unfold variance, varianceDays. rewrite !length_map, !map_map.
  destruct days as [|d0 days]; [simpl; lra|].
  set (n := INR (List.length (d0 :: days))).
  assert (Hn : n <> 0) by (apply not_0_INR; discriminate).
  f_equal. f_equal. apply map_ext. intros d.
  unfold Dates.getTime. fold Dates.msPerDay.
  replace (Rsum (map (fun x => IZR x * Dates.msPerDay) (d0 :: days)))
    with (Rsum (map IZR (d0 :: days)) * Dates.msPerDay)
    by (rewrite <- Rsum_map_scale; reflexivity).
  pose proof msPerDay_pos.
  f_equal. field. split; lra.
Qed.

Lemma agreement_days (predictions : list Prediction.t) :
  (2 <= List.length predictions)%nat ->
  Reconciler.calculateSourceAgreement predictions
  = exp (- ((varianceDays (map Prediction.fertileStart predictions)
             + varianceDays (map Prediction.fertileEnd predictions)) / 2) / 8).
Proof.
  intros Hlen. rewrite agreement_unfold.
  destruct (Nat.leb_spec (List.length predictions) 1); [lia|].
  rewrite <- !variance_getTime, !map_map. reflexivity.
Qed.

Lemma trunc_IZR (z : Z) : Js.trunc (IZR z) = IZR z.
Proof.
  unfold Js.trunc. destruct (Rle_dec 0 (IZR z)).
  - f_equal. symmetry. apply Int_part_spec. lra.
  - assert (H : Int_part (- IZR z) = (- z)%Z)
      by (symmetry; apply Int_part_spec; rewrite opp_IZR; lra).
    rewrite H, opp_IZR. lra.
Qed.

Lemma getTime_IZR (d : Z) : Dates.getTime d = IZR (d * 86400000).
Proof. unfold Dates.getTime, Dates.msPerDay. rewrite mult_IZR. lra. Qed.

Lemma consensus_map (l : list Prediction.t) (s e : Z) :
  consensus l s e ->
  map Prediction.fertileStart l = map (fun _ => s) l
  /\ map Prediction.fertileEnd l = map (fun _ => e) l.
Proof.
  intros H. split; apply map_ext_in; intros p Hp; apply (H p Hp).
Qed.

Lemma varianceDays_const {A : Type} (c : Z) (l : list A) :
  varianceDays (map (fun _ => c) l) = 0.
Proof.
  unfold varianceDays. rewrite !map_map, length_map.
  destruct l as [|x l]; [simpl; lra|].
  set (n := INR (List.length (x :: l))).
  assert (Hn : n <> 0) by (apply not_0_INR; discriminate).
  rewrite (Rsum_map_const (IZR c) (x :: l)). fold n.
  replace (n * IZR c / n) with (IZR c) by (field; exact Hn).
  replace (Rsum (map (fun _ : A => (IZR c - IZR c) ^ 2) (x :: l))) with (n * 0).
  - field. exact Hn.
  - unfold n. rewrite <- (Rsum_map_const 0 (x :: l)). f_equal. apply map_ext.
    intros _. ring.
Qed.

Lemma consensus_agreement (l : list Prediction.t) (s e : Z) :
  consensus l s e -> Reconciler.calculateSourceAgreement l = 1.
Proof.
  intros H. destruct (Nat.leb_spec (List.length l) 1) as [Hle|Hgt].
  - rewrite agreement_unfold.
    destruct (Nat.leb_spec (List.length l) 1); [reflexivity|lia].
  - rewrite agreement_days by lia.
    destruct (consensus_map l s e H) as [-> ->].
    rewrite !varianceDays_const.
    replace (- ((0 + 0) / 2) / 8) with 0 by lra. apply exp_0.
Qed.

Lemma consensus_outliers (weights : SourceWeights) (l : list Prediction.t) (s e : Z) :
  consensus l s e -> Reconciler.identifyOutliers l weights = [].
Proof.
  intros H. rewrite outliers_unfold.
  destruct (List.length l <=? 2)%nat; [reflexivity|].
  destruct (Req_dec_T (totalWeightOf weights l) 0) as [|Hw]; [reflexivity|].
  assert (Hcs : centroidStartOf weights l = Dates.getTime s).
  { unfold centroidStartOf.
    replace (Rsum (map (fun p => Dates.getTime (Prediction.fertileStart p) * weightOf weights p) l))
      with (totalWeightOf weights l * Dates.getTime s).
    - replace (totalWeightOf weights l * Dates.getTime s / totalWeightOf weights l)
        with (Dates.getTime s) by (field; exact Hw).
      rewrite getTime_IZR. apply trunc_IZR.
    - unfold totalWeightOf. rewrite <- Rsum_map_scale. f_equal.
      apply map_ext_in. intros p Hp. destruct (H p Hp) as [-> _]. ring. }
  assert (Hce : centroidEndOf weights l = Dates.getTime e).
  { unfold centroidEndOf.
    replace (Rsum (map (fun p => Dates.getTime (Prediction.fertileEnd p) * weightOf weights p) l))
      with (totalWeightOf weights l * Dates.getTime e).
    - replace (totalWeightOf weights l * Dates.getTime e / totalWeightOf weights l)
        with (Dates.getTime e) by (field; exact Hw).
      rewrite getTime_IZR. apply trunc_IZR.
    - unfold totalWeightOf. rewrite <- Rsum_map_scale. f_equal.
      apply map_ext_in. intros p Hp. destruct (H p Hp) as [_ ->]. ring. }
  rewrite Hcs, Hce.
  replace (filter (Reconciler.isOutlier (Dates.getTime s) (Dates.getTime e)) l) with (@nil Prediction.t);
    [reflexivity|].
  symmetry. clear Hcs Hce Hw. induction l as [|p l IH]; [reflexivity|]. simpl.
  destruct (H p (or_introl eq_refl)) as [Hs He].
  unfold Reconciler.isOutlier at 1. rewrite !daysBetween_getTime, Hs, He, !Z.sub_diag.
  simpl. apply IH. intros q Hq. apply H. right. exact Hq.
Qed.

Lemma consensus_confidence (options : ReconcilerOptions.t) (l : list Prediction.t) (s e : Z) :
  consensus l s e ->
  windowConfidence options l = Rmin 1 (0.7 + INR (List.length l) * 0.1).
Proof.
  intros H. unfold windowConfidence.
  rewrite (consensus_agreement l s e H), (consensus_outliers _ l s e H).
  pose proof (pos_INR (List.length l)) as Hn. simpl.
  set (m := Rmin 1 (0.7 + INR (List.length l) * 0.1)).
  assert (Hm : 0 < m <= 1) by (unfold m, Rmin; destruct (Rle_dec _ _); lra).
  replace (1 - 0 * 0.1) with 1 by lra.
  rewrite (Rmax_right 0.5 1) by lra.
  replace (1 * m * 1) with m by ring.
  rewrite (Rmax_right 0 m), (Rmin_right 1 m) by lra. reflexivity.
Qed.

(** The confidence of a result never exceeds 1, nor the larger of 0.2 and
    the source agreement. *)
Lemma result_confidence_le (predictions : list Prediction.t) (options : ReconcilerOptions.t)
    (r : ReconciledPrediction.t) :
  Reconciler.reconcile tz predictions options = Some r ->
  ReconciledPrediction.confidence r <= 1
  /\ ReconciledPrediction.confidence r
     <= Rmax 0.2 (Reconciler.calculateSourceAgreement
                    (Reconciler.validPredictions predictions)).
Proof.
  intros Hr.
  pose proof (agreement_range (Reconciler.validPredictions predictions)) as [Ha0 Ha1].
  set (a := Reconciler.calculateSourceAgreement (Reconciler.validPredictions predictions)) in *.
  destruct (reconcile_some predictions options r Hr)
    as (_ & [(best & rest & _ & _ & ->)|(s & e & p & _ & _ & ->)]); simpl; fold a.
  - pose proof (Rmax_l 0.2 a). pose proof (Rmax_r 0.2 a).
    split; apply Rmax_lub; lra.
  - unfold windowConfidence. fold a.
    set (x := Rmin 1 (0.7 + _)). set (y := Rmax 0.5 _).
    assert (Hx : 0 < x <= 1).
    { unfold x, Rmin. pose proof (pos_INR (List.length (Reconciler.validPredictions predictions))).
      destruct (Rle_dec _ _); lra. }
    assert (Hy : 0 < y <= 1).
    { unfold y, Rmax.
      pose proof (pos_INR (List.length (Reconciler.identifyOutliers
                                          (Reconciler.validPredictions predictions)
                                          (mergedWeights options)))).
      destruct (Rle_dec _ _); lra. }
    assert (Hxy : a * x * y <= a).
    { assert (a * x <= a) by nra. assert (0 <= a * x) by nra. nra. }
    assert (0 <= a * x * y) by (apply Rmult_le_pos; [apply Rmult_le_pos|]; lra).
    rewrite (Rmax_right 0 (a * x * y)), (Rmin_right 1 (a * x * y)) by lra.
    pose proof (Rmax_r 0.2 a). lra.
Qed.

Lemma exp_neg_le (x b : R) : 0 <= x -> 1 <= b * (1 + x) -> exp (- x) <= b.
Proof.
  intros Hx Hb. apply Rle_trans with (/ (1 + x)); [apply exp_neg_bound, Hx|].
  apply Rmult_le_reg_r with (1 + x); [lra|].
  rewrite Rinv_l by lra. exact Hb.
Qed.

Lemma varianceDays_pair (s q : Z) :
  varianceDays [s; q] = (IZR q - IZR s) ^ 2 / 4.
Proof. unfold varianceDays. simpl. field. Qed.

Lemma varianceDays_triple (s q : Z) :
  varianceDays [s; s; q] = 2 * (IZR q - IZR s) ^ 2 / 9.
Proof. unfold varianceDays. simpl. field. Qed.

Lemma far_square (q s : Z) : (3 < Z.abs (q - s))%Z -> 16 <= (IZR q - IZR s) ^ 2.
Proof.
  intros H. rewrite <- minus_IZR.
  assert (Hz : (q - s <= -4 \/ 4 <= q - s)%Z) by lia.
  destruct Hz as [Hz|Hz]; apply IZR_le in Hz; nra.
Qed.

(** The agreement of a consensus of one or two predictions joined by a far
    outlier. *)
Lemma far_agreement (V : list Prediction.t) (Q : Prediction.t) (s e : Z) :
  consensus V s e ->
  (List.length V = 1 \/ List.length V = 2)%nat ->
  (3 < Z.abs (Prediction.fertileStart Q - s))%Z ->
  (3 < Z.abs (Prediction.fertileEnd Q - e))%Z ->
  Reconciler.calculateSourceAgreement (V ++ [Q]) <= 0.8.
Proof.
  intros Hc Hlen Hs He.
  apply far_square in Hs, He.
  rewrite agreement_days by (rewrite length_app; simpl; lia).
  rewrite !map_app. destruct (consensus_map V s e Hc) as [-> ->]. simpl.
  destruct V as [|p1 [|p2 [|p3 V]]]; simpl in Hlen; try lia; simpl.
  - rewrite !varianceDays_pair.
    match goal with |- exp (- ?X / 8) <= _ =>
      replace (- X / 8) with (- (X / 8)) by lra; apply exp_neg_le; lra end.
  - rewrite !varianceDays_triple.
    match goal with |- exp (- ?X / 8) <= _ =>
      replace (- X / 8) with (- (X / 8)) by lra; apply exp_neg_le; lra end.
Qed.

Lemma valid_app (l l' : list Prediction.t) :
  Reconciler.validPredictions (l ++ l')
  = Reconciler.validPredictions l ++ Reconciler.validPredictions l'.
Proof. apply filter_app. Qed.

Lemma admitted_app (L : list Prediction.t) (Q : Prediction.t) (options : ReconcilerOptions.t) :
  admitted L options -> admitted (L ++ [Q]) options.
Proof.
  intros [Hmin Hne]. split.
  - rewrite length_app, plus_INR. change (INR (List.length [Q])) with 1.
    intros H. apply Hmin. lra.
  - rewrite valid_app. intros H. apply app_eq_nil in H. tauto.
Qed.

(** C3, amended.  For every list L of size at least 2 whose predictions all
    share one window [s, e] (which is then L's centroid) and for which
    [reconcile(L)] extracts a window, and every further prediction Q whose
    start lies more than 3 days from s and whose end lies more than 3 days
    from e, the confidence of [reconcile(L with Q appended)] is at most the
    confidence of [reconcile(L)]. *)
Theorem consensus_outlier_confidence (L : list Prediction.t) (Q : Prediction.t)
    (options : ReconcilerOptions.t) (s e : Z) :
  (2 <= List.length L)%nat ->
  admitted L options ->
  (forall p, In p L -> Prediction.fertileStart p = s /\ Prediction.fertileEnd p = e) ->
  someDayReaches tz options L ->
  (3 < Z.abs (Prediction.fertileStart Q - s))%Z ->
  (3 < Z.abs (Prediction.fertileEnd Q - e))%Z ->
  exists r r',
    Reconciler.reconcile tz L options = Some r
    /\ Reconciler.reconcile tz (L ++ [Q]) options = Some r'
    /\ ReconciledPrediction.confidence r' <= ReconciledPrediction.confidence r.
Proof.
  intros _ Ha Hc Hreach Hs He.
  set (V := Reconciler.validPredictions L).
  assert (HcV : consensus V s e).
  { intros p Hp. apply Hc. apply valid_In in Hp. tauto. }
  pose proof (someDayReaches_fertile _ _ Hreach) as Hf. fold V in Hf.
  destruct (reconcile_window L options Ha Hf) as (ws & we & wp & _ & _ & Hr).
  fold V in Hr.
  destruct (reconcile_admitted_some _ options (admitted_app L Q options Ha)) as (r' & Hr').
  exists (windowResult tz options V ws we (Some wp)), r'.
  split; [exact Hr|]. split; [exact Hr'|].
  simpl. rewrite (consensus_confidence options V s e HcV).
  assert (Hn : (1 <= List.length V)%nat).
  { destruct Ha as [_ Hne]. fold V in Hne. destruct V; [congruence|simpl; lia]. }
  destruct (result_confidence_le _ _ _ Hr') as [H1 Ha'].
  rewrite valid_app in Ha'. fold V in Ha'.
  destruct (reconcile_some _ _ _ Hr') as (_ & Hshape).
  rewrite valid_app in Hshape. fold V in Hshape.
  rewrite valid_cons in Ha', Hshape.
  destruct (Rgt_dec (Reconciler.confidenceOr50 Q) 0) as [HQ|HQ].
  - change (Reconciler.validPredictions []) with (@nil Prediction.t) in Ha'.
    destruct (le_lt_dec 3 (List.length V)) as [H3|H3].
    + pose proof (le_INR _ _ H3) as H3'. change (INR 3) with (1 + 1 + 1) in H3'.
      unfold Rmin. destruct (Rle_dec 1 _); lra.
    + pose proof (far_agreement V Q s e HcV ltac:(lia) Hs He) as Hfar.
      assert (Hle : ReconciledPrediction.confidence r' <= 0.8).
      { eapply Rle_trans; [exact Ha'|]. apply Rmax_lub; lra. }
      pose proof (le_INR _ _ Hn) as Hn'. change (INR 1) with 1 in Hn'.
      unfold Rmin. destruct (Rle_dec 1 _); lra.
  - change (Reconciler.validPredictions []) with (@nil Prediction.t) in Hshape.
    rewrite app_nil_r in Hshape.
    destruct Hshape as [(best & rest & _ & Hnil & _)|(s' & e' & p' & _ & _ & ->)];
      [contradiction|].
    simpl. rewrite (consensus_confidence options V s e HcV). lra.
Qed.

Lemma windowConfidence_le_agreement (options : ReconcilerOptions.t) (l : list Prediction.t) :
  windowConfidence options l <= Reconciler.calculateSourceAgreement l.
Proof.
  unfold windowConfidence.
  pose proof (agreement_range l) as [Ha0 Ha1].
  set (a := Reconciler.calculateSourceAgreement l) in *.
  set (x := Rmin 1 (0.7 + _)). set (y := Rmax 0.5 _).
  assert (Hx : 0 < x <= 1).
  { unfold x, Rmin. pose proof (pos_INR (List.length l)). destruct (Rle_dec _ _); lra. }
  assert (Hy : 0 < y <= 1).
  { unfold y, Rmax.
    pose proof (pos_INR (List.length (Reconciler.identifyOutliers l (mergedWeights options)))).
    destruct (Rle_dec _ _); lra. }
  assert (Hxy : a * x * y <= a).
  { assert (a * x <= a) by nra. assert (0 <= a * x) by nra. nra. }
  assert (0 <= a * x * y) by (apply Rmult_le_pos; [apply Rmult_le_pos|]; lra).
  rewrite (Rmax_right 0 (a * x * y)), (Rmin_right 1 (a * x * y)) by lra. exact Hxy.
Qed.

Lemma varianceDays_three (a b c : Z) :
  varianceDays [a; b; c]
  = (IZR a ^ 2 + IZR b ^ 2 + IZR c ^ 2 - IZR a * IZR b - IZR b * IZR c - IZR a * IZR c)
    * 2 / 9.
Proof. unfold varianceDays. simpl. field. Qed.

Lemma spread_facts (p : Prediction.t) :
  In p [spreadA; spreadB; farQ] ->
  0 < Reconciler.confidenceOr50 p
  /\ 0 <= weightOf (mergedWeights ReconcilerOptions.empty) p
  /\ 0 <= selfConfidence p.
Proof.
  intros [<-|[<-|[<-|[]]]]; (split; [unfold spreadA, spreadB, farQ; sample_facts|]);
    (split; [|unfold spreadA, spreadB, farQ; sample_facts]).
  - weight_is 0.70. lra.
  - weight_is 0.70. lra.
  - weight_is 0.60. lra.
Qed.

Lemma spread_far :
  farOutlier (mergedWeights ReconcilerOptions.empty) [spreadA; spreadB] farQ.
Proof.
  unfold farOutlier, centroidDay, totalWeightOf.
  cbn [map Rsum fold_right].
  replace (weightOf (mergedWeights ReconcilerOptions.empty) spreadA) with 0.70 by reflexivity.
  replace (weightOf (mergedWeights ReconcilerOptions.empty) spreadB) with 0.70 by reflexivity.
  change (Prediction.fertileStart spreadA) with 20120%Z.
  change (Prediction.fertileStart spreadB) with 20140%Z.
  change (Prediction.fertileEnd spreadA) with 20125%Z.
  change (Prediction.fertileEnd spreadB) with 20145%Z.
  change (Prediction.fertileStart farQ) with 20160%Z.
  change (Prediction.fertileEnd farQ) with 20165%Z.
  replace (20160 - (20120 * 0.70 + (20140 * 0.70 + 0)) / (0.70 + (0.70 + 0))) with 30 by lra.
  replace (20165 - (20125 * 0.70 + (20145 * 0.70 + 0)) / (0.70 + (0.70 + 0))) with 30 by lra.
  rewrite Rabs_pos_eq by lra. lra.
Qed.

Lemma spread_pair_confidence :
  fixedOffset tz ->
  exists r, Reconciler.reconcile tz [spreadA; spreadB] ReconcilerOptions.empty = Some r
            /\ ReconciledPrediction.confidence r <= 0.1.
Proof.
  intros Hfix.
  set (W := mergedWeights ReconcilerOptions.empty).
  assert (Hv : Reconciler.validPredictions [spreadA; spreadB] = [spreadA; spreadB]).
  { apply valid_all. intros p Hp. apply spread_facts. simpl in *. tauto. }
  assert (Ha : admitted [spreadA; spreadB] ReconcilerOptions.empty).
  { split; [simpl; lra|rewrite Hv; discriminate]. }
  assert (Hreach : someDayReaches tz ReconcilerOptions.empty [spreadA; spreadB]).
  { unfold someDayReaches. rewrite Hv.
    destruct (probability_ge_share W [spreadA; spreadB] 20120 20145 20120 spreadA)
      as (d & Hd & Hge).
    - exact Hfix.
    - apply (unionRange_intro _ spreadA spreadB); simpl; auto;
        intros p [<-|[<-|[]]]; simpl; lia.
    - intros q Hq. apply spread_facts. simpl in *. tauto.
    - unfold totalWeightOf. cbn [map Rsum fold_right].
      replace (weightOf W spreadA) with 0.70 by reflexivity.
      replace (weightOf W spreadB) with 0.70 by reflexivity. lra.
    - left. reflexivity.
    - reflexivity.
    - exists d. split; [exact Hd|].
      pose proof (default_threshold_le [spreadA; spreadB]) as Hthr.
      unfold totalWeightOf in Hge. cbn [map Rsum fold_right] in Hge.
      replace (weightOf W spreadA) with 0.70 in Hge by reflexivity.
      replace (weightOf W spreadB) with 0.70 in Hge by reflexivity.
      replace (selfConfidence spreadA) with (100 / 100) in Hge by reflexivity.
      lra. }
  destruct (reconcile_window _ _ Ha (someDayReaches_fertile _ _ Hreach))
    as (s & e & p & _ & _ & Hr).
  rewrite Hv in Hr. eexists. split; [exact Hr|].
  unfold windowResult. cbn [ReconciledPrediction.confidence].
  eapply Rle_trans; [apply windowConfidence_le_agreement|].
  rewrite agreement_days by (simpl; lia).
  cbn [map]. rewrite !varianceDays_pair.
  change (Prediction.fertileStart spreadA) with 20120%Z.
  change (Prediction.fertileStart spreadB) with 20140%Z.
  change (Prediction.fertileEnd spreadA) with 20125%Z.
  change (Prediction.fertileEnd spreadB) with 20145%Z.
  match goal with |- exp (- ?X / 8) <= _ =>
    replace (- X / 8) with (- (X / 8)) by lra; apply exp_neg_le; lra end.
Qed.

Lemma spread_triple_confidence :
  exists r, Reconciler.reconcile tz ([spreadA; spreadB] ++ [farQ]) ReconcilerOptions.empty = Some r
            /\ 0.2 <= ReconciledPrediction.confidence r.
Proof.
  set (W := mergedWeights ReconcilerOptions.empty).
  change ([spreadA; spreadB] ++ [farQ]) with [spreadA; spreadB; farQ].
  assert (Hv : Reconciler.validPredictions [spreadA; spreadB; farQ]
               = [spreadA; spreadB; farQ]).
  { apply valid_all. intros p Hp. apply spread_facts. exact Hp. }
  assert (Ha : admitted [spreadA; spreadB; farQ] ReconcilerOptions.empty).
  { split; [simpl; lra|rewrite Hv; discriminate]. }
  assert (Hagree : Reconciler.calculateSourceAgreement [spreadA; spreadB; farQ] <= 0.1).
  { rewrite agreement_days by (simpl; lia).
    cbn [map]. rewrite !varianceDays_three.
    change (Prediction.fertileStart spreadA) with 20120%Z.
    change (Prediction.fertileStart spreadB) with 20140%Z.
    change (Prediction.fertileStart farQ) with 20160%Z.
    change (Prediction.fertileEnd spreadA) with 20125%Z.
    change (Prediction.fertileEnd spreadB) with 20145%Z.
    change (Prediction.fertileEnd farQ) with 20165%Z.
    match goal with |- exp (- ?X / 8) <= _ =>
      replace (- X / 8) with (- (X / 8)) by lra; apply exp_neg_le; lra end. }
  destruct (reconcile_fallback [spreadA; spreadB; farQ] ReconcilerOptions.empty Ha)
    as (best & rest & _ & Hr).
  - rewrite Hv. intros d Hd. apply Rle_lt_trans with 0.415.
    + eapply Rle_trans.
      * apply (probability_le_mean W [spreadA; spreadB; farQ]); [| |exact Hd].
        -- intros p Hp. apply spread_facts. exact Hp.
        -- unfold totalWeightOf. cbn [map Rsum fold_right].
           replace (weightOf W spreadA) with 0.70 by reflexivity.
           replace (weightOf W spreadB) with 0.70 by reflexivity.
           replace (weightOf W farQ) with 0.60 by reflexivity. lra.
      * unfold totalWeightOf. cbn [map Rsum fold_right].
        replace (weightOf W spreadA) with 0.70 by reflexivity.
        replace (weightOf W spreadB) with 0.70 by reflexivity.
        replace (weightOf W farQ) with 0.60 by reflexivity.
        replace (selfConfidence spreadA) with (100 / 100) by reflexivity.
        replace (selfConfidence spreadB) with (10 / 100) by reflexivity.
        replace (selfConfidence farQ) with (10 / 100) by reflexivity. lra.
    + unfold thresholdOf, Reconciler.effectiveThreshold.
      destruct (Rlt_dec _ 0.7) as [_|Hn]; [|lra]. simpl. lra.
  - eexists. split; [exact Hr|].
    unfold fallbackResult. cbn [ReconciledPrediction.confidence]. apply Rmax_l.
Qed.

Lemma agreeing_consensus (p : Prediction.t) :
  In p agreeing -> Prediction.fertileStart p = 20129%Z /\ Prediction.fertileEnd p = 20134%Z.
Proof. intros [<-|[<-|[]]]; split; reflexivity. Qed.

Lemma agreeing_facts (p : Prediction.t) :
  In p agreeing ->
  0 < Reconciler.confidenceOr50 p
  /\ 0 <= weightOf (mergedWeights ReconcilerOptions.empty) p
  /\ 0 <= selfConfidence p.
Proof.
  intros [<-|[<-|[]]]; (split; [sample_facts|]); (split; [|sample_facts]);
    weight_is 0.70; lra.
Qed.

Lemma agreeing_valid : Reconciler.validPredictions agreeing = agreeing.
Proof. apply valid_all. intros p Hp. apply agreeing_facts, Hp. Qed.

Lemma agreeing_admitted : admitted agreeing ReconcilerOptions.empty.
Proof. split; [simpl; lra|rewrite agreeing_valid; discriminate]. Qed.

Lemma agreeing_reaches :
  fixedOffset tz -> someDayReaches tz ReconcilerOptions.empty agreeing.
Proof.
  intros Hfix.
  set (W := mergedWeights ReconcilerOptions.empty).
  unfold someDayReaches. rewrite agreeing_valid.
  destruct (probability_ge_share W agreeing 20129 20134 20129
              (sample "flo" 20129 20134 None 70)) as (d & Hd & Hge).
  - exact Hfix.
  - apply (unionRange_intro _ (sample "flo" 20129 20134 None 70)
                              (sample "flo" 20129 20134 None 70));
      try (left; reflexivity);
      intros p Hp; destruct (agreeing_consensus p Hp) as [Hs0 He0];
      rewrite ?Hs0, ?He0; simpl; lia.
  - intros q Hq. apply agreeing_facts, Hq.
  - unfold totalWeightOf, agreeing. cbn [map Rsum fold_right].
    repeat weight_is 0.70. lra.
  - left. reflexivity.
  - reflexivity.
  - exists d. split; [exact Hd|].
    assert (Hthr : thresholdOf ReconcilerOptions.empty agreeing = 0.3).
    { unfold thresholdOf, Reconciler.effectiveThreshold.
      rewrite (consensus_agreement agreeing 20129 20134 agreeing_consensus).
      destruct (Rlt_dec 1 0.7); [lra|reflexivity]. }
    unfold totalWeightOf, agreeing in Hge. cbn [map Rsum fold_right] in Hge.
    replace (weightOf W (sample "flo" 20129 20134 None 70)) with 0.70 in Hge by reflexivity.
    replace (weightOf W (sample "clue" 20129 20134 None 75)) with 0.70 in Hge by reflexivity.
    replace (selfConfidence (sample "flo" 20129 20134 None 70)) with (70 / 100) in Hge
      by reflexivity.
    rewrite Hthr. lra.
Qed.


(** ** The reconciler: when a result is returned, and its confidence *)

Lemma valid_nil_iff (predictions : list Prediction.t) :
  Reconciler.validPredictions predictions = []
  <-> forall p, In p predictions -> Reconciler.confidenceOr50 p <= 0.
Proof.
  split.
  - intros H p Hp.
    destruct (Rlt_dec 0 (Reconciler.confidenceOr50 p)) as [Hc|Hc]; [|lra].
    assert (Hin : In p (Reconciler.validPredictions predictions))
      by (apply valid_In; split; assumption).
    rewrite H in Hin. destruct Hin.
  - intros H.
    destruct (Reconciler.validPredictions predictions) as [|p l] eqn:E; [reflexivity|].
    assert (Hin : In p (Reconciler.validPredictions predictions))
      by (rewrite E; left; reflexivity).
    apply valid_In in Hin. destruct Hin as [Hin Hc].
    specialize (H p Hin). lra.
Qed.

(** X1.  [reconcile] returns [null] exactly when fewer predictions came in
    than [minSources], or when no prediction has a confidence
    ([confidence ?? 50]) above zero; in every other case it returns a
    result. *)
Theorem reconcile_null_iff (predictions : list Prediction.t)
    (options : ReconcilerOptions.t) :
  Reconciler.reconcile tz predictions options = None
  <-> (INR (List.length predictions)
         < Reconciler.minSources (Reconciler.mergeOptions options)
       \/ forall p, In p predictions -> Reconciler.confidenceOr50 p <= 0).
Proof.
  split.
  - intros Hnone.
    destruct (Rlt_dec (INR (List.length predictions))
                      (Reconciler.minSources (Reconciler.mergeOptions options)))
      as [Hlt|Hge]; [left; exact Hlt|].
    right. apply valid_nil_iff.
    destruct (Reconciler.validPredictions predictions) as [|p l] eqn:E; [reflexivity|].
    destruct (reconcile_admitted_some predictions options) as [r Hr].
    + split; [exact Hge|]. rewrite E. discriminate.
    + rewrite Hr in Hnone. discriminate.
  - intros H. apply reconcile_not_admitted. intros [Hge Hne].
    destruct H as [Hlt|Hall]; [exact (Hge Hlt)|].
    apply Hne. apply valid_nil_iff. exact Hall.
Qed.

(** X2.  The confidence of every result of [reconcile] lies between 0 and 1
    and does not exceed the larger of 0.2 and the source agreement the
    result reports; the confidence of a fallback result, one that opens with
    the low-confidence note, lies between 0.2 and 0.5. *)
Theorem reconcile_confidence_range (predictions : list Prediction.t)
    (options : ReconcilerOptions.t) (r : ReconciledPrediction.t) :
  Reconciler.reconcile tz predictions options = Some r ->
  0 <= ReconciledPrediction.confidence r <= 1
  /\ ReconciledPrediction.confidence r
     <= Rmax 0.2 (Diagnostics.sourceAgreement (ReconciledPrediction.diagnostics r))
  /\ (isFallback r -> 0.2 <= ReconciledPrediction.confidence r <= 0.5).
Proof.
  intros Hr.
  pose proof (agreement_range (Reconciler.validPredictions predictions)) as [Ha0 Ha1].
  destruct (result_confidence_le predictions options r Hr) as [Hle1 Hle2].
  rewrite (reconcile_diagnostics_of predictions options r Hr).
  unfold diagnosticsOf. cbn [Diagnostics.sourceAgreement].
  destruct (reconcile_some predictions options r Hr)
    as (_ & [(best & rest & _ & _ & ->)|(s & e & p & Hf & _ & ->)]).
  - unfold fallbackResult in *. cbn [ReconciledPrediction.confidence] in *.
    set (a := Reconciler.calculateSourceAgreement (Reconciler.validPredictions predictions)) in *.
    pose proof (Rmax_l 0.2 (a * 0.5)).
    assert (Rmax 0.2 (a * 0.5) <= 0.5) by (apply Rmax_lub; lra).
    split; [lra|]. split; [exact Hle2|]. intros _. lra.
  - split; [|split; [exact Hle2|]].
    + split; [|exact Hle1].
      unfold windowResult, windowConfidence. cbn [ReconciledPrediction.confidence].
      apply Rle_trans with (Rmax 0 0); [rewrite Rmax_left; lra|].
      apply Rmin_glb; [rewrite Rmax_left; lra|].
      rewrite (Rmax_left 0 0) by lra. apply Rmax_l.
    + intros Hfb. destruct (windowResult_not_fallback _ _ _ _ _ Hfb).
Qed.

Lemma outliers_from (weights : SourceWeights) (l : list Prediction.t) :
  (List.length (Reconciler.identifyOutliers l weights) <= List.length l)%nat
  /\ forall s, In s (Reconciler.identifyOutliers l weights) ->
               exists p, In p l /\ Prediction.source p = s.
Proof.
  rewrite outliers_unfold.
  destruct (List.length l <=? 2)%nat; [split; [simpl; lia|intros s []]|].
  destruct (Req_dec_T _ _); [split; [simpl; lia|intros s []]|].
  split.
  - rewrite length_map. apply filter_length_le.
  - intros s Hs. apply in_map_iff in Hs. destruct Hs as (p & Hp & Hin).
    apply filter_In in Hin. exists p. tauto.
Qed.

(** X3.  In the diagnostics of every result, [inputPredictions] is the number
    of predictions whose confidence is above zero (those left after the
    filter, not the number handed in), [sourceAgreement] lies between 0 and
    1, and every outlier tag is the source of one of those predictions;
    there are at most as many tags as such predictions, and none when there
    are fewer than three. *)
Theorem reconcile_diagnostics (predictions : list Prediction.t)
    (options : ReconcilerOptions.t) (r : ReconciledPrediction.t) :
  Reconciler.reconcile tz predictions options = Some r ->
  let d := ReconciledPrediction.diagnostics r in
  let valid := filter (fun p => Js.gtb (Reconciler.confidenceOr50 p) 0) predictions in
  Diagnostics.inputPredictions d = List.length valid
  /\ (1 <= Diagnostics.inputPredictions d <= List.length predictions)%nat
  /\ 0 <= Diagnostics.sourceAgreement d <= 1
  /\ (List.length (Diagnostics.outliers d) <= Diagnostics.inputPredictions d)%nat
  /\ ((Diagnostics.inputPredictions d <= 2)%nat -> Diagnostics.outliers d = [])
  /\ (forall s, In s (Diagnostics.outliers d) ->
                exists p, In p predictions /\ 0 < Reconciler.confidenceOr50 p
                          /\ Prediction.source p = s).
Proof.
  intros Hr d valid.
  fold (Reconciler.validPredictions predictions) in valid.
  assert (Hd : d = diagnosticsOf tz options valid)
    by (apply reconcile_diagnostics_of, Hr).
  destruct (reconcile_some predictions options r Hr) as ([_ Hne] & _).
  fold valid in Hne.
  rewrite Hd. unfold diagnosticsOf.
  cbn [Diagnostics.inputPredictions Diagnostics.sourceAgreement Diagnostics.outliers].
  destruct (outliers_from (mergedWeights options) valid) as [Hlen Hsrc].
  split; [reflexivity|]. split.
  - split.
    + destruct valid; [contradiction|simpl; lia].
    + apply filter_length_le.
  - split; [pose proof (agreement_range valid); lra|]. split; [exact Hlen|]. split.
    + intros H2. rewrite outliers_unfold.
      apply Nat.leb_le in H2. rewrite H2. reflexivity.
    + intros s Hs. destruct (Hsrc s Hs) as (p & Hp & Hsp).
      apply valid_In in Hp. exists p. tauto.
Qed.

Lemma someDayReaches_iff (options : ReconcilerOptions.t) (predictions : list Prediction.t) :
  someDayReaches tz options predictions
  <-> fertileDaysOf (dayScoresOf tz options (Reconciler.validPredictions predictions))
                    (thresholdOf options (Reconciler.validPredictions predictions)) <> [].
Proof.
  split; [apply someDayReaches_fertile|].
  intros Hne.
  destruct (fertileDaysOf _ _) as [|d l] eqn:E; [contradiction|].
  assert (Hin : In d (fertileDaysOf
                        (dayScoresOf tz options (Reconciler.validPredictions predictions))
                        (thresholdOf options (Reconciler.validPredictions predictions))))
    by (rewrite E; left; reflexivity).
  unfold fertileDaysOf in Hin. apply filter_In in Hin. destruct Hin as [Hin Hge].
  exists d. split; [exact Hin|].
  unfold Js.geb in Hge. destruct (Rge_dec _ _); [lra|discriminate].
Qed.

(** X4.  When all predictions with a confidence above zero share one window,
    every result reports full agreement (1) and no outliers.  The confidence
    of a fallback result is then exactly 0.5; that of a result with an
    extracted window is [min(1, 0.7 + 0.1 n)], n the number of those
    predictions, to within 0.01, and exactly 1 from three predictions on. *)
Theorem reconcile_consensus (predictions : list Prediction.t)
    (options : ReconcilerOptions.t) (r : ReconciledPrediction.t) (s e : Z) :
  (forall p, In p predictions -> 0 < Reconciler.confidenceOr50 p ->
             Prediction.fertileStart p = s /\ Prediction.fertileEnd p = e) ->
  Reconciler.reconcile tz predictions options = Some r ->
  let n := List.length (Reconciler.validPredictions predictions) in
  Diagnostics.sourceAgreement (ReconciledPrediction.diagnostics r) = 1
  /\ Diagnostics.outliers (ReconciledPrediction.diagnostics r) = []
  /\ (isFallback r -> ReconciledPrediction.confidence r = 0.5)
  /\ (~ isFallback r ->
      Rmin 1 (0.69 + INR n * 0.1) <= ReconciledPrediction.confidence r
      /\ ReconciledPrediction.confidence r <= Rmin 1 (0.71 + INR n * 0.1)
      /\ ((3 <= n)%nat -> ReconciledPrediction.confidence r = 1)).
Proof.
  intros Hsame Hr n.
  assert (Hc : consensus (Reconciler.validPredictions predictions) s e).
  { intros p Hp. apply valid_In in Hp. destruct Hp as [Hp Hpos]. auto. }
  destruct (reconcile_some predictions options r Hr)
    as ([_ Hne] & [(best & rest & _ & Hnil & ->)|(s' & e' & p & Hf & _ & ->)]).
  - split; [|split; [|split]].
    + unfold fallbackResult, diagnosticsOf.
      cbn [ReconciledPrediction.diagnostics Diagnostics.sourceAgreement].
      apply (consensus_agreement _ s e Hc).
    + unfold fallbackResult, diagnosticsOf.
      cbn [ReconciledPrediction.diagnostics Diagnostics.outliers].
      apply (consensus_outliers _ _ s e Hc).
    + intros _. unfold fallbackResult. cbn [ReconciledPrediction.confidence].
      rewrite (consensus_agreement _ s e Hc). rewrite Rmax_right by lra. lra.
    + intros Hno. destruct (Hno (fallbackResult_fallback _ _ _)).
  - split; [|split; [|split]].
    + unfold windowResult, diagnosticsOf.
      cbn [ReconciledPrediction.diagnostics Diagnostics.sourceAgreement].
      apply (consensus_agreement _ s e Hc).
    + unfold windowResult, diagnosticsOf.
      cbn [ReconciledPrediction.diagnostics Diagnostics.outliers].
      apply (consensus_outliers _ _ s e Hc).
    + intros Hfb. destruct (windowResult_not_fallback _ _ _ _ _ Hfb).
    + intros _. unfold windowResult. cbn [ReconciledPrediction.confidence].
      rewrite (consensus_confidence options _ s e Hc). fold n.
      pose proof (pos_INR n) as Hn.
      split; [|split].
      * apply Rmin_glb; [apply Rmin_l|].
        apply Rle_trans with (0.69 + INR n * 0.1); [apply Rmin_r|].
        unfold Rmin. destruct (Rle_dec 1 (0.7 + INR n * 0.1)); lra.
      * unfold Rmin. destruct (Rle_dec 1 (0.7 + INR n * 0.1));
          destruct (Rle_dec 1 (0.71 + INR n * 0.1)); lra.
      * intros H3. apply le_INR in H3. change (INR 3) with (1 + 1 + 1) in H3.
        apply Rmin_left. lra.
Qed.

(** ** The reconciler: the day scores *)

Lemma seq_shift_sorted (start : Z) (n k : nat) :
  StronglySorted Z.lt (map (fun i => (start + Z.of_nat i)%Z) (seq k n)).
Proof.
  revert k. induction n as [|n IH]; intros k; simpl; constructor.
  - apply IH.
  - apply Forall_forall. intros x Hx. apply in_map_iff in Hx.
    destruct Hx as (i & <- & Hi). apply in_seq in Hi. lia.
Qed.

Lemma dayRange_sorted (s e : Z) : StronglySorted Z.lt (dayRange s e).
Proof. apply seq_shift_sorted. Qed.

Lemma dayRange_length (s e : Z) :
  List.length (dayRange s e) = Z.to_nat (e - s + 1).
Proof. unfold dayRange. rewrite length_map, length_seq. reflexivity. Qed.

(** The time values of [getDateRange] go up, from [current] on. *)
Lemma getDateRange_sorted (n : nat) :
  forall current end_,
    (Z.to_nat (end_ - current + 1) <= n)%nat ->
    Forall (fun t => (current <= t)%Z) (Dates.getDateRange tz current end_)
    /\ StronglySorted Z.lt (Dates.getDateRange tz current end_).
Proof.
  induction n as [|n IH]; intros current end_ Hn.
  - rewrite getDateRange_nil by lia. split; constructor.
  - destruct (Z_le_dec current end_) as [Hle|Hgt].
    + rewrite getDateRange_cons by exact Hle.
      pose proof (setDate_forward tz current) as Hf.
      destruct (IH (Dates.setDate tz current (Dates.getDate tz current + 1)) end_)
        as [Hall Hs]; [lia|].
      split.
      * constructor; [lia|]. eapply Forall_impl; [|exact Hall]. cbv beta. intros t Ht. lia.
      * constructor; [exact Hs|]. eapply Forall_impl; [|exact Hall]. cbv beta. intros t Ht. lia.
    + rewrite getDateRange_nil by lia. split; constructor.
Qed.

Lemma sorted_formatDate (l : list Z) :
  StronglySorted Z.lt l -> StronglySorted Z.le (map Dates.formatDate l).
Proof.
  induction 1 as [|t l Hs IH Hall]; simpl; constructor; [exact IH|].
  rewrite Forall_forall in Hall |- *. intros d Hd.
  apply in_map_iff in Hd. destruct Hd as (t' & <- & Ht').
  specialize (Hall t' Ht'). unfold Dates.formatDate. apply Z.div_le_mono; lia.
Qed.

Lemma buildDayScores_dates_any (weights : SourceWeights) (l : list Prediction.t) :
  StronglySorted Z.le (map DayScore.date (Reconciler.buildDayScores tz l weights)).
Proof.
  rewrite buildDayScores_unfold, map_map.
  rewrite (map_ext _ Dates.formatDate (dayScore_date weights l)).
  apply sorted_formatDate.
  destruct l as [|p0 l]; [constructor|]. unfold allDatesOf.
  eapply getDateRange_sorted. apply Nat.le_refl.
Qed.

Lemma buildDayScores_dates (weights : SourceWeights) (l : list Prediction.t)
    (lo hi : Z) :
  fixedOffset tz -> unionRange l lo hi ->
  map DayScore.date (Reconciler.buildDayScores tz l weights)
  = dayRange (lo - 2) (hi + 2).
Proof.
  intros Hf H. rewrite (buildDayScores_range weights l lo hi Hf H), map_map.
  rewrite <- (map_id (dayRange (lo - 2) (hi + 2))) at 2.
  apply map_ext. intros D. apply dayScoreAt_date.
Qed.

(** X5.  [buildDayScores] lists its scores in ascending order of date on
    every host.  On a host whose time zone keeps one offset from UTC it
    scores each day from two days before the earliest start to two days
    after the latest end exactly once: [hi - lo + 5] days for a union range
    [lo, hi]. *)
Theorem dayScores_cover_range (weights : SourceWeights) (l : list Prediction.t)
    (lo hi : Z) :
  unionRange l lo hi ->
  let dates := map DayScore.date (Reconciler.buildDayScores tz l weights) in
  StronglySorted Z.le dates
  /\ (fixedOffset tz ->
      (forall D, In D dates <-> (lo - 2 <= D <= hi + 2)%Z)
      /\ StronglySorted Z.lt dates
      /\ List.length (Reconciler.buildDayScores tz l weights) = Z.to_nat (hi - lo + 5)).
Proof.
  intros H dates. unfold dates. split; [apply buildDayScores_dates_any|].
  intros Hf.
  rewrite (buildDayScores_dates weights l lo hi Hf H). split; [|split].
  - intros D. apply dayRange_In.
  - apply dayRange_sorted.
  - rewrite <- (length_map DayScore.date), (buildDayScores_dates weights l lo hi Hf H).
    rewrite dayRange_length. f_equal. lia.
Qed.

Lemma agreeing_union : unionRange agreeing 20129 20134.
Proof.
  apply (unionRange_intro agreeing (sample "flo" 20129 20134 None 70)
                          (sample "flo" 20129 20134 None 70)).
  - left. reflexivity.
  - left. reflexivity.
  - intros x Hx. destruct (agreeing_consensus x Hx) as [-> _]. simpl. lia.
  - intros x Hx. destruct (agreeing_consensus x Hx) as [_ ->]. simpl. lia.
Qed.

Lemma probability_nonneg (weights : SourceWeights) (l : list Prediction.t) :
  (forall p, In p l -> 0 <= weightOf weights p /\ 0 <= selfConfidence p) ->
  forall d, In d (Reconciler.buildDayScores tz l weights) -> 0 <= DayScore.probability d.
Proof.
  intros Hl d Hd. destruct l as [|p0 l0]; [destruct Hd|].
  rewrite buildDayScores_unfold in Hd. apply in_map_iff in Hd.
  destruct Hd as (D & <- & _). rewrite dayScore_probability.
  destruct (Rgt_dec _ _) as [Hpos|_]; [|lra].
  apply Rmult_le_pos.
  - apply Rsum_map_nonneg. intros p Hp. destruct (Hl p Hp).
    apply contributionAt_nonneg; assumption.
  - left. apply Rinv_0_lt_compat. lra.
Qed.

(** X6.  When no effective weight is negative and every confidence lies
    between 0 and 100 (an absent one counts as 50), every day-probability
    lies between 0 and 1. *)
Theorem dayScore_probability_range (weights : SourceWeights) (l : list Prediction.t) :
  (forall p, In p l ->
             0 <= Reconciler.getWeight (Prediction.source p) weights
             /\ 0 <= Reconciler.confidenceOr50 p <= 100) ->
  forall d, In d (Reconciler.buildDayScores tz l weights) ->
            0 <= DayScore.probability d <= 1.
Proof.
  intros Hl d Hd.
  assert (Hl' : forall p, In p l -> 0 <= weightOf weights p /\ 0 <= selfConfidence p <= 1).
  { intros p Hp. destruct (Hl p Hp) as [Hw Hc]. split; [exact Hw|].
    rewrite <- selfConfidence_code. lra. }
  split.
  - apply (probability_nonneg weights l); [|exact Hd].
    intros p Hp. destruct (Hl' p Hp). lra.
  - apply (probability_le weights l 1); [lra|exact Hl'|exact Hd].
Qed.

Lemma agreeing_weights (p : Prediction.t) :
  In p agreeing ->
  0 <= Reconciler.getWeight (Prediction.source p) (mergedWeights ReconcilerOptions.empty)
  /\ 0 <= Reconciler.confidenceOr50 p <= 100.
Proof.
  intros [<-|[<-|[]]].
  - split; [change (0 <= weightOf (mergedWeights ReconcilerOptions.empty)
                             (sample "flo" 20129 20134 None 70));
            weight_is 0.70; lra|sample_facts].
  - split; [change (0 <= weightOf (mergedWeights ReconcilerOptions.empty)
                             (sample "clue" 20129 20134 None 75));
            weight_is 0.70; lra|sample_facts].
Qed.

End OnHost.

(** ** Runs of the reconciler on a host in UTC *)

(** C1, as stated, fails: a prediction of confidence 0 is not admitted and
    [reconcile] returns nothing. *)
Lemma zero_confidence_not_reconciled :
  Reconciler.reconcile Host.utc [sample "flo" 20129 20134 (Some 20133%Z) 0]
                       ReconcilerOptions.empty
  = None.
Proof.
  apply reconcile_not_admitted. intros [_ H]. apply H.
  rewrite valid_cons. destruct (Rgt_dec _ 0) as [H0|]; [|reflexivity].
  unfold Reconciler.confidenceOr50, sample in H0. simpl in H0. lra.
Qed.

Lemma reconcile_single_witness :
  0 < Reconciler.confidenceOr50 (sample "flo" 20129 20134 (Some 20133%Z) 70)
  /\ exists r,
       Reconciler.reconcile Host.utc [sample "flo" 20129 20134 (Some 20133%Z) 70]
                            ReconcilerOptions.empty = Some r
       /\ Diagnostics.inputPredictions (ReconciledPrediction.diagnostics r) = 1%nat
       /\ Diagnostics.sourceAgreement (ReconciledPrediction.diagnostics r) = 1.
Proof.
  assert (H : 0 < Reconciler.confidenceOr50 (sample "flo" 20129 20134 (Some 20133%Z) 70))
    by sample_facts.
  split; [exact H|]. apply (reconcile_single Host.utc _ H).
Defined.

Lemma reconcile_fallback_result_witness :
  exists best before after,
    Reconciler.validPredictions apart = before ++ best :: after
    /\ (forall p, In p before ->
                  weightOf (mergedWeights strict) p < weightOf (mergedWeights strict) best)
    /\ (forall p, In p (Reconciler.validPredictions apart) ->
                  weightOf (mergedWeights strict) p <= weightOf (mergedWeights strict) best)
    /\ Reconciler.reconcile Host.utc apart strict
       = Some (ReconciledPrediction.mk
                 (Prediction.fertileStart best) (Prediction.fertileEnd best)
                 (Prediction.ovulationDate best)
                 (Rmax 0.2 (Reconciler.calculateSourceAgreement
                              (Reconciler.validPredictions apart) * 0.5))
                 [ "Low confidence: Could not reconcile predictions";
                   ("Falling back to " ++ Prediction.source best ++ " prediction")%string ]
                 (Diagnostics.mk
                    (Reconciler.calculateSourceAgreement (Reconciler.validPredictions apart))
                    (Reconciler.identifyOutliers (Reconciler.validPredictions apart)
                                                 (mergedWeights strict))
                    (mergedWeights strict)
                    (Reconciler.buildDayScores Host.utc (Reconciler.validPredictions apart)
                                               (mergedWeights strict))
                    (List.length (Reconciler.validPredictions apart)))).
Proof.
  exact (reconcile_fallback_result Host.utc apart strict apart_admitted (apart_low Host.utc)).
Defined.

(** C10, as stated, fails: a low-confidence source that places its ovulation
    date after its own window is returned as it is by the fallback. *)
Lemma fallback_ovulation_outside :
  exists r o,
    Reconciler.reconcile Host.utc [dissenting] ReconcilerOptions.empty = Some r
    /\ ReconciledPrediction.ovulationDate r = Some o
    /\ ~ (ReconciledPrediction.fertileStart r <= o <= ReconciledPrediction.fertileEnd r)%Z.
Proof.
  exists (fallbackResult Host.utc ReconcilerOptions.empty [dissenting] dissenting), 20140%Z.
  split; [|split; [reflexivity|simpl; lia]].
  apply single_fallback.
  - unfold dissenting. rewrite flo_weight. lra.
  - unfold dissenting. sample_facts.
  - unfold dissenting. sample_facts.
Qed.

Lemma reconcile_ovulation_in_window_witness :
  (ReconciledPrediction.fertileStart
     (fallbackResult Host.utc ReconcilerOptions.empty [assenting] assenting)
   <= 20133
   <= ReconciledPrediction.fertileEnd
        (fallbackResult Host.utc ReconcilerOptions.empty [assenting] assenting))%Z.
Proof.
  apply (reconcile_ovulation_in_window Host.utc [assenting] ReconcilerOptions.empty).
  - intros p o' [<-|[]] H. inversion H. simpl. lia.
  - apply single_fallback.
    + unfold assenting. rewrite flo_weight. lra.
    + unfold assenting. sample_facts.
    + unfold assenting. sample_facts.
  - reflexivity.
Defined.

(** The day scores across the change of clocks of 9 March 2025 in New York,
    for a window from 7 to 12 March: the loop of [getDateRange] steps by
    local days from an instant that is midnight in UTC, so that after the
    change each instant is one hour short of the next midnight.  The 9th is
    scored twice and the 14th, the last day of the extended range, not at
    all. *)
Lemma newYork_instants :
  allDatesOf newYork acrossChange
  = [ 1741132800000; 1741219200000; 1741305600000; 1741392000000; 1741478400000;
      1741561200000; 1741647600000; 1741734000000; 1741820400000; 1741906800000 ]%Z.
Proof.
  unfold allDatesOf, acrossChange. cbv zeta.
  replace (rangeOf (sample "flo" 20154 20159 None 100) []) with (20154%Z, 20159%Z)
    by reflexivity.
  cbn [fst snd].
  replace (Dates.setDate newYork (Dates.parseDate 20154)
             (Dates.getDate newYork (Dates.parseDate 20154) - 2))
    with 1741132800000%Z by (vm_compute; reflexivity).
  replace (Dates.setDate newYork (Dates.parseDate 20159)
             (Dates.getDate newYork (Dates.parseDate 20159) + 2))
    with 1741910400000%Z by (vm_compute; reflexivity).
  do 10 (rewrite getDateRange_cons by lia;
         match goal with
         | |- context [Dates.setDate ?tz ?t ?d] =>
             let v := eval vm_compute in (Dates.setDate tz t d) in
             replace (Dates.setDate tz t d) with v by (vm_compute; reflexivity)
         end).
  rewrite getDateRange_nil by lia. reflexivity.
Qed.

Lemma newYork_dates (weights : SourceWeights) :
  map DayScore.date (Reconciler.buildDayScores newYork acrossChange weights)
  = [20152; 20153; 20154; 20155; 20156; 20156; 20157; 20158; 20159; 20160]%Z.
Proof.
  rewrite buildDayScores_unfold, map_map.
  rewrite (map_ext _ Dates.formatDate (dayScore_date weights acrossChange)).
  rewrite newYork_instants. vm_compute. reflexivity.
Qed.

Lemma dayProbability_none (dayScores : list DayScore.t) (D : Z) :
  ~ In D (map DayScore.date dayScores) -> dayProbability dayScores D = None.
Proof.
  intros H. unfold dayProbability.
  destruct (find _ dayScores) as [d|] eqn:E; [|reflexivity].
  apply find_some in E. destruct E as [Hin Heq]. apply Z.eqb_eq in Heq.
  exfalso. apply H. rewrite <- Heq. apply in_map, Hin.
Qed.

(** C4, as stated, fails in two ways.  At the cut-off: a decayed score of
    exactly [0.1] is not below [0.1], yet the code, which tests
    [decayScore > 0.1], does not record it; over the reals the score is
    exactly [0.1] for the weight [exp(2) / 8] at confidence 80, two days
    from the window (in binary64 the weight 0.9236320123663312 has this
    effect).  And on a host that changes its clocks within the range: in
    New York the 14th of March 2025 lies in the extended range of a window
    from the 7th to the 12th and has no score at all. *)
Lemma formula_fails_at_cutoff_and_across_change :
  (unionRange boundaryList 20129 20134
   /\ (20129 - 2 <= 20136 <= 20134 + 2)%Z
   /\ dayProbability (Reconciler.buildDayScores Host.utc boundaryList boundaryWeights) 20136
      <> Some (claimedProbability boundaryWeights boundaryList 20136))
  /\ (unionRange acrossChange 20154 20159
      /\ (20154 - 2 <= 20161 <= 20159 + 2)%Z
      /\ dayProbability
           (Reconciler.buildDayScores newYork acrossChange
                                      (mergedWeights ReconcilerOptions.empty)) 20161
         <> Some (claimedProbability (mergedWeights ReconcilerOptions.empty)
                                     acrossChange 20161)).
Proof.
  split.
  - assert (Hr : unionRange boundaryList 20129 20134).
    { repeat split; try (eexists; split; [left; reflexivity|reflexivity]);
        intros p [<-|[]]; simpl; lia. }
    assert (Hw : totalWeightOf boundaryWeights boundaryList = exp 2 / 8).
    { unfold totalWeightOf, boundaryList. simpl. weight_is (exp 2 / 8). lra. }
    pose proof (exp_pos 2) as Hpos.
    split; [exact Hr|]. split; [lia|].
    rewrite (dayProbability_spec Host.utc boundaryWeights boundaryList 20129 20134 20136
               fixedOffset_utc Hr)
      by (try rewrite Hw; (lra || lia)).
    unfold claimedProbability. rewrite Hw.
    unfold boundaryList. simpl.
    unfold contribution, claimedContribution.
    replace (inWindow 20136 (sample "flo" 20129 20134 None 80)) with false by reflexivity.
    rewrite boundary_decayed.
    destruct (Rgt_dec 0.1 0.1) as [Hgt|_]; [lra|].
    destruct (Rge_dec 0.1 0.1) as [_|Hn]; [|lra].
    intros H. inversion H as [H1].
    assert (H2 : (0 + 0) / (exp 2 / 8) = 0) by (unfold Rdiv; ring).
    rewrite H2 in H1.
    assert (0 < (0.1 + 0) / (exp 2 / 8)) by (apply Rdiv_lt_0_compat; lra).
    lra.
  - split; [|split; [lia|]].
    + repeat split; try (eexists; split; [left; reflexivity|reflexivity]);
        intros p [<-|[]]; simpl; lia.
    + rewrite dayProbability_none; [discriminate|].
      rewrite newYork_dates. simpl. intros H.
      repeat (destruct H as [H|H]; [discriminate|]). exact H.
Qed.

Lemma day_probability_formula_witness :
  dayProbability
    (Reconciler.buildDayScores Host.utc [sample "flo" 20129 20134 None 70]
                               (mergedWeights ReconcilerOptions.empty)) 20130
  = Some ((0.70 * (70 / 100) + 0) / (0.70 + 0)).
Proof.
  apply (day_probability_formula Host.utc (mergedWeights ReconcilerOptions.empty)
           [sample "flo" 20129 20134 None 70] 20129 20134 20130).
  - exact fixedOffset_utc.
  - repeat split; try (eexists; split; [left; reflexivity|reflexivity]);
      intros p [<-|[]]; simpl; lia.
  - unfold totalWeightOf. simpl. weight_is 0.70. lra.
  - lia.
Defined.

(** C2, as stated, fails: two low-confidence sources of equal weight and
    different windows; the fallback returns the one that comes first. *)
Lemma tie_broken_by_order :
  Permutation [tieA; tieB] [tieB; tieA]
  /\ exists r r',
       Reconciler.reconcile Host.utc [tieA; tieB] ReconcilerOptions.empty = Some r
       /\ Reconciler.reconcile Host.utc [tieB; tieA] ReconcilerOptions.empty = Some r'
       /\ ReconciledPrediction.fertileStart r <> ReconciledPrediction.fertileStart r'.
Proof.
  split; [apply perm_swap|].
  destruct (low_fallback Host.utc [tieA; tieB] 0.2) as (b & rest & Hs & Hr);
    [discriminate|lra|apply tie_facts|].
  destruct (low_fallback Host.utc [tieB; tieA] 0.2) as (b' & rest' & Hs' & Hr');
    [discriminate|lra| |].
  { intros p Hp. apply tie_facts. destruct Hp as [<-|[<-|[]]]; simpl; auto. }
  rewrite tie_sorted in Hs by (simpl; auto).
  rewrite tie_sorted in Hs' by (simpl; auto).
  inversion Hs; inversion Hs'; subst.
  eexists; eexists. split; [exact Hr|]. split; [exact Hr'|].
  simpl. lia.
Qed.

Lemma reconcile_permutation_witness :
  match Reconciler.reconcile Host.utc agreeing ReconcilerOptions.empty,
        Reconciler.reconcile Host.utc (rev agreeing) ReconcilerOptions.empty with
  | Some r, Some r' =>
      Diagnostics.inputPredictions (ReconciledPrediction.diagnostics r)
      = Diagnostics.inputPredictions (ReconciledPrediction.diagnostics r')
      /\ Forall2 sameScores
           (Diagnostics.dayScores (ReconciledPrediction.diagnostics r))
           (Diagnostics.dayScores (ReconciledPrediction.diagnostics r'))
      /\ (~ isFallback r -> ~ isFallback r' ->
          reachedDays ReconcilerOptions.empty r = reachedDays ReconcilerOptions.empty r' ->
          ReconciledPrediction.fertileStart r = ReconciledPrediction.fertileStart r'
          /\ ReconciledPrediction.fertileEnd r = ReconciledPrediction.fertileEnd r')
      /\ (isFallback r -> isFallback r' -> heaviestAgree ReconcilerOptions.empty agreeing ->
          ReconciledPrediction.fertileStart r = ReconciledPrediction.fertileStart r'
          /\ ReconciledPrediction.fertileEnd r = ReconciledPrediction.fertileEnd r')
  | None, None => True
  | _, _ => False
  end.
Proof.
  apply (reconcile_permutation Host.utc agreeing (rev agreeing) ReconcilerOptions.empty).
  apply Permutation_rev.
Defined.

(** C3, as stated, fails: two sources twenty days apart give a confidence
    below 0.1; a third source, thirty days from their centroid, sends
    [reconcile] to the fallback, whose confidence is at least 0.2. *)
Lemma outlier_raises_confidence :
  (2 <= List.length [spreadA; spreadB])%nat
  /\ farOutlier (mergedWeights ReconcilerOptions.empty) [spreadA; spreadB] farQ
  /\ exists r r',
       Reconciler.reconcile Host.utc [spreadA; spreadB] ReconcilerOptions.empty = Some r
       /\ Reconciler.reconcile Host.utc ([spreadA; spreadB] ++ [farQ])
                               ReconcilerOptions.empty = Some r'
       /\ ReconciledPrediction.confidence r < ReconciledPrediction.confidence r'.
Proof.
  split; [simpl; lia|]. split; [exact spread_far|].
  destruct (spread_pair_confidence Host.utc fixedOffset_utc) as (r & Hr & Hle).
  destruct (spread_triple_confidence Host.utc) as (r' & Hr' & Hge).
  exists r, r'. split; [exact Hr|]. split; [exact Hr'|]. lra.
Qed.

Lemma consensus_outlier_confidence_witness :
  exists r r',
    Reconciler.reconcile Host.utc agreeing ReconcilerOptions.empty = Some r
    /\ Reconciler.reconcile Host.utc (agreeing ++ [dissenter]) ReconcilerOptions.empty
       = Some r'
    /\ ReconciledPrediction.confidence r' <= ReconciledPrediction.confidence r.
Proof.
  apply (consensus_outlier_confidence Host.utc agreeing dissenter ReconcilerOptions.empty
           20129 20134).
  - simpl. lia.
  - exact agreeing_admitted.
  - exact agreeing_consensus.
  - exact (agreeing_reaches Host.utc fixedOffset_utc).
  - simpl. lia.
  - simpl. lia.
Defined.

(** The two agreeing sources give a result with an extracted window. *)
Lemma agreeing_window :
  exists r, Reconciler.reconcile Host.utc agreeing ReconcilerOptions.empty = Some r
            /\ ~ isFallback r.
Proof.
  destruct (reconcile_window Host.utc agreeing ReconcilerOptions.empty agreeing_admitted
              (someDayReaches_fertile Host.utc _ _ (agreeing_reaches Host.utc fixedOffset_utc)))
    as (s & e & p & _ & _ & Hr).
  eexists. split; [exact Hr|]. apply windowResult_not_fallback.
Qed.

Lemma reconcile_confidence_range_witness :
  exists r,
    Reconciler.reconcile Host.utc agreeing ReconcilerOptions.empty = Some r
    /\ ~ isFallback r
    /\ 0 <= ReconciledPrediction.confidence r <= 1
    /\ ReconciledPrediction.confidence r
       <= Rmax 0.2 (Diagnostics.sourceAgreement (ReconciledPrediction.diagnostics r))
    /\ (isFallback r -> 0.2 <= ReconciledPrediction.confidence r <= 0.5).
Proof.
  destruct agreeing_window as (r & Hr & Hno).
  exists r. split; [exact Hr|]. split; [exact Hno|].
  exact (reconcile_confidence_range Host.utc agreeing ReconcilerOptions.empty r Hr).
Defined.

Lemma reconcile_diagnostics_witness :
  exists r,
    Reconciler.reconcile Host.utc agreeing ReconcilerOptions.empty = Some r
    /\ Diagnostics.inputPredictions (ReconciledPrediction.diagnostics r) = 2%nat
    /\ 0 <= Diagnostics.sourceAgreement (ReconciledPrediction.diagnostics r) <= 1
    /\ Diagnostics.outliers (ReconciledPrediction.diagnostics r) = [].
Proof.
  destruct agreeing_window as (r & Hr & _).
  exists r. split; [exact Hr|].
  destruct (reconcile_diagnostics Host.utc agreeing ReconcilerOptions.empty r Hr)
    as (Hn & _ & Ha & _ & Ho & _).
  assert (Hn2 : Diagnostics.inputPredictions (ReconciledPrediction.diagnostics r) = 2%nat).
  { rewrite Hn. fold (Reconciler.validPredictions agreeing).
    rewrite valid_all; [reflexivity|].
    intros p Hp. destruct (agreeing_weights p Hp) as [_ Hc].
    destruct Hp as [<-|[<-|[]]]; sample_facts. }
  split; [exact Hn2|]. split; [exact Ha|]. apply Ho. rewrite Hn2. apply Nat.le_refl.
Defined.

Lemma reconcile_consensus_witness :
  exists r,
    Reconciler.reconcile Host.utc agreeing ReconcilerOptions.empty = Some r
    /\ Diagnostics.sourceAgreement (ReconciledPrediction.diagnostics r) = 1
    /\ Diagnostics.outliers (ReconciledPrediction.diagnostics r) = []
    /\ Rmin 1 (0.69 + INR (List.length (Reconciler.validPredictions agreeing)) * 0.1)
       <= ReconciledPrediction.confidence r
    /\ ReconciledPrediction.confidence r
       <= Rmin 1 (0.71 + INR (List.length (Reconciler.validPredictions agreeing)) * 0.1).
Proof.
  destruct agreeing_window as (r & Hr & Hno).
  exists r. split; [exact Hr|].
  destruct (reconcile_consensus Host.utc agreeing ReconcilerOptions.empty r 20129 20134)
    as (Ha & Ho & _ & Hc).
  - intros p Hp _. exact (agreeing_consensus p Hp).
  - exact Hr.
  - destruct (Hc Hno) as (Hlo & Hhi & _).
    split; [exact Ha|]. split; [exact Ho|]. split; [exact Hlo|exact Hhi].
Defined.

Lemma dayScores_cover_range_witness :
  StronglySorted Z.le
    (map DayScore.date
         (Reconciler.buildDayScores Host.utc agreeing (mergedWeights ReconcilerOptions.empty)))
  /\ List.length (Reconciler.buildDayScores Host.utc agreeing
                                            (mergedWeights ReconcilerOptions.empty))
     = Z.to_nat (20134 - 20129 + 5).
Proof.
  destruct (dayScores_cover_range Host.utc (mergedWeights ReconcilerOptions.empty)
              agreeing 20129 20134 agreeing_union) as [Hs Hfix].
  split; [exact Hs|].
  destruct (Hfix fixedOffset_utc) as (_ & _ & Hlen). exact Hlen.
Defined.

Lemma dayScore_probability_range_witness :
  0 <= DayScore.probability
         (dayScoreAt (mergedWeights ReconcilerOptions.empty) agreeing 20130) <= 1.
Proof.
  apply (dayScore_probability_range Host.utc (mergedWeights ReconcilerOptions.empty) agreeing).
  - exact agreeing_weights.
  - rewrite (buildDayScores_range Host.utc _ agreeing 20129 20134 fixedOffset_utc
               agreeing_union).
    apply in_map. apply dayRange_In. lia.
Defined.

(** ** C6: the symptom predictor *)

Lemma mapGet_mapSet (k k' : Z) (v : list Observation.t) (m : Symptoms.ByDate) :
  Symptoms.mapGet k (Symptoms.mapSet k' v m)
  = if (k' =? k)%Z then Some v else Symptoms.mapGet k m.
Proof.
  induction m as [|[k0 v0] m IH]; simpl.
  - reflexivity.
  - destruct (Z.eqb_spec k0 k') as [->|Hne]; simpl.
    + destruct (k' =? k)%Z; reflexivity.
    + rewrite IH. destruct (Z.eqb_spec k0 k) as [->|Hne'].
      * destruct (Z.eqb_spec k' k); [congruence|reflexivity].
      * reflexivity.
Qed.

Lemma group_get (observations : list Observation.t) :
  forall (m : Symptoms.ByDate) (k : Z),
    Symptoms.mapGet k (fold_left Symptoms.groupStep observations m)
    = match Symptoms.mapGet k m, onDate k observations with
      | None, [] => None
      | None, l => Some l
      | Some l0, l => Some (l0 ++ l)
      end.
Proof.
  induction observations as [|o obs IH]; intros m k; simpl.
  - destruct (Symptoms.mapGet k m); [rewrite app_nil_r|]; reflexivity.
  - rewrite IH. unfold Symptoms.groupStep. rewrite mapGet_mapSet.
    destruct (Z.eqb_spec (Observation.date o) k) as [->|Hne].
    + destruct (Symptoms.mapGet k m) as [l0|]; simpl.
      * rewrite <- app_assoc. reflexivity.
      * reflexivity.
    + reflexivity.
Qed.

Lemma mapSet_keys (k : Z) (v : list Observation.t) (m : Symptoms.ByDate) :
  NoDup (map fst m) ->
  NoDup (map fst (Symptoms.mapSet k v m))
  /\ forall x, In x (map fst (Symptoms.mapSet k v m)) -> x = k \/ In x (map fst m).
Proof.
  induction m as [|[k0 v0] m IH]; simpl; intros Hnd.
  - split; [constructor; [intros []|constructor]|]. intros x [<-|[]]. left; reflexivity.
  - inversion Hnd as [|? ? Hnotin Hnd']; subst.
    destruct (Z.eqb_spec k0 k) as [->|Hne]; simpl.
    + split; [constructor; assumption|]. intros x [<-|Hx]; auto.
    + destruct (IH Hnd') as [Hnd'' Hin]. split.
      * constructor; [|exact Hnd'']. intros Hk0.
        destruct (Hin k0 Hk0) as [->|Hx]; [congruence|contradiction].
      * intros x [<-|Hx]; [right; left; reflexivity|].
        destruct (Hin x Hx); auto.
Qed.

Lemma group_keys (observations : list Observation.t) :
  forall m : Symptoms.ByDate,
    NoDup (map fst m) -> NoDup (map fst (fold_left Symptoms.groupStep observations m)).
Proof.
  induction observations as [|o obs IH]; intros m Hnd; simpl; [exact Hnd|].
  apply IH. unfold Symptoms.groupStep. apply mapSet_keys, Hnd.
Qed.

Lemma In_mapGet (m : Symptoms.ByDate) (k : Z) (l : list Observation.t) :
  NoDup (map fst m) -> (In (k, l) m <-> Symptoms.mapGet k m = Some l).
Proof.
  induction m as [|[k0 v0] m IH]; simpl; intros Hnd.
  - split; [intros []|discriminate].
  - inversion Hnd as [|? ? Hnotin Hnd']; subst.
    destruct (Z.eqb_spec k0 k) as [->|Hne].
    + split.
      * intros [H|H]; [inversion H; reflexivity|].
        exfalso. apply Hnotin. apply in_map_iff. exists (k, l). auto.
      * intros H. inversion H. left. reflexivity.
    + rewrite <- (IH Hnd'). split.
      * intros [H|H]; [inversion H; congruence|exact H].
      * intros H. right. exact H.
Qed.

(** The groups of [analyzeDays]: one per date that occurs, holding the
    observations of that date in input order. *)
Lemma group_spec (observations : list Observation.t) (k : Z) (l : list Observation.t) :
  In (k, l) (fold_left Symptoms.groupStep observations [])
  <-> l = onDate k observations /\ l <> [].
Proof.
  rewrite In_mapGet by (apply group_keys; constructor).
  rewrite group_get. simpl.
  destruct (onDate k observations) as [|o os]; split.
  - discriminate.
  - intros [-> H]. congruence.
  - intros H. inversion H. split; [reflexivity|discriminate].
  - intros [-> _]. reflexivity.
Qed.

Lemma find_filter {A : Type} (f g : A -> bool) (l : list A) :
  find f (filter g l) = find (fun x => g x && f x)%bool l.
Proof.
  induction l as [|x l IH]; simpl; [reflexivity|].
  destruct (g x); simpl; [rewrite IH|exact IH]. reflexivity.
Qed.

Lemma analyzeDay_date (options : Symptoms.Options) (entry : Z * list Observation.t) :
  DayFertilityData.date (Symptoms.analyzeDay options entry) = fst entry.
Proof. destruct entry. reflexivity. Qed.

Lemma analyzeDay_flag (options : Symptoms.Options) (observations : list Observation.t) (k : Z) :
  DayFertilityData.hasOPKPositive
    (Symptoms.analyzeDay options (k, onDate k observations)) = true
  <-> firstOPKOn k observations = Some opk_positive.
Proof.
  unfold Symptoms.analyzeDay, firstOPKOn, onDate. simpl.
  rewrite find_filter.
  destruct (find _ observations) as [o|]; [|split; discriminate].
  destruct (Observation.body o) as [v|v t|v b|v sv]; try (split; discriminate).
  destruct v; split; intros H; try discriminate; reflexivity.
Qed.

Lemma analyzeDays_In (observations : list Observation.t) (options : Symptoms.Options)
    (d : DayFertilityData.t) :
  In d (Symptoms.analyzeDays observations options)
  <-> exists k, onDate k observations <> []
                /\ d = Symptoms.analyzeDay options (k, onDate k observations).
Proof.
  unfold Symptoms.analyzeDays. split.
  - intros H. apply (Permutation_in _ (sort_perm _ _)) in H.
    apply in_map_iff in H. destruct H as ([k l] & <- & Hin).
    apply group_spec in Hin. destruct Hin as [-> Hne]. exists k. auto.
  - intros (k & Hne & ->).
    apply (Permutation_in _ (Permutation_sym (sort_perm _ _))).
    apply in_map. apply group_spec. auto.
Qed.

Lemma StronglySorted_filter {A : Type} (Rel : A -> A -> Prop) (f : A -> bool) (l : list A) :
  StronglySorted Rel l -> StronglySorted Rel (filter f l).
Proof.
  induction 1 as [|x l Hs IH Hx]; simpl; [constructor|].
  destruct (f x); [|exact IH]. constructor; [exact IH|].
  rewrite Forall_forall in *. intros y Hy. apply Hx.
  apply filter_In in Hy. tauto.
Qed.

(** The flag of a day follows its first OPK observation, and the window is
    built around the earliest flagged day. *)
Lemma opk_window (tz : Host.TimeZone) (observations : list Observation.t)
    (options : Symptoms.Options) :
  let dayData := Symptoms.analyzeDays observations options in
  (forall d, In d dayData ->
             (DayFertilityData.hasOPKPositive d = true
              <-> firstOPKOn (DayFertilityData.date d) observations = Some opk_positive))
  /\ ((exists d, In d dayData /\ DayFertilityData.hasOPKPositive d = true) ->
      exists D,
        (exists d, In d dayData /\ DayFertilityData.date d = D
                   /\ DayFertilityData.hasOPKPositive d = true)
        /\ (forall d, In d dayData -> DayFertilityData.hasOPKPositive d = true ->
                      (D <= DayFertilityData.date d)%Z)
        /\ Symptoms.findFertileWindow tz dayData options
           = Symptoms.mkWindow
               (Some (Symptoms.addDays tz D (- Symptoms.daysBeforeOPK options)))
               (Some (Symptoms.addDays tz D (Symptoms.daysAfterOPK options)))
               (Some (Symptoms.addDays tz D 1))).
Proof.
  intros dayData. split.
  - intros d Hd. apply analyzeDays_In in Hd. destruct Hd as (k & _ & ->).
    rewrite analyzeDay_date. cbn [fst].
    apply (analyzeDay_flag options observations k).
  - intros (d & Hd & Hflag).
    assert (Hsorted : StronglySorted
                        (fun a b => Dates.getTime (DayFertilityData.date a)
                                    <= Dates.getTime (DayFertilityData.date b))
                        (filter DayFertilityData.hasOPKPositive dayData)).
    { apply StronglySorted_filter.
      apply (sort_sorted _ (fun x => Dates.getTime (DayFertilityData.date x))).
      intros a b. reflexivity. }
    assert (Hin : In d (filter DayFertilityData.hasOPKPositive dayData))
      by (apply filter_In; auto).
    clearbody dayData.
    assert (Hwin : forall opkDay rest,
               filter DayFertilityData.hasOPKPositive dayData = opkDay :: rest ->
               Symptoms.findFertileWindow tz dayData options
               = Symptoms.mkWindow
                   (Some (Symptoms.addDays tz (DayFertilityData.date opkDay)
                                           (- Symptoms.daysBeforeOPK options)))
                   (Some (Symptoms.addDays tz (DayFertilityData.date opkDay)
                                           (Symptoms.daysAfterOPK options)))
                   (Some (Symptoms.addDays tz (DayFertilityData.date opkDay) 1))).
    { intros opkDay rest Hf. unfold Symptoms.findFertileWindow.
      destruct dayData as [|d0 ds]; [discriminate|]. rewrite Hf. reflexivity. }
    destruct (filter DayFertilityData.hasOPKPositive dayData) as [|opkDay rest] eqn:Hf;
      [destruct Hin|].
    assert (HopkIn : In opkDay (filter DayFertilityData.hasOPKPositive dayData))
      by (rewrite Hf; left; reflexivity).
    apply filter_In in HopkIn. destruct HopkIn as [Hopk1 Hopk2].
    exists (DayFertilityData.date opkDay). split; [|split].
    + exists opkDay. auto.
    + intros d' Hd' Hflag'.
      assert (Hin' : In d' (opkDay :: rest))
        by (rewrite <- Hf; apply filter_In; auto).
      destruct Hin' as [<-|Hin']; [lia|].
      inversion Hsorted as [|? ? _ Hall]; subst. rewrite Forall_forall in Hall.
      apply getTime_le, Hall, Hin'.
    + apply (Hwin opkDay rest eq_refl).
Qed.

(** C6, as stated, fails: a day with a negative test followed by a positive
    one is not flagged, only the first OPK observation of a day is read. *)
Lemma second_test_ignored :
  (exists o, In o twoTests /\ Observation.date o = 20131%Z
             /\ Observation.body o = OPKValue opk_positive None)
  /\ exists d, In d (Symptoms.analyzeDays twoTests Symptoms.DEFAULT_OPTIONS)
               /\ DayFertilityData.date d = 20131%Z
               /\ DayFertilityData.hasOPKPositive d = false.
Proof.
  split.
  - exists (opkTest 20131 opk_positive). simpl. auto.
  - exists (Symptoms.analyzeDay Symptoms.DEFAULT_OPTIONS (20131%Z, onDate 20131 twoTests)).
    split; [|split; reflexivity].
    apply analyzeDays_In. exists 20131%Z. split; [discriminate|reflexivity].
Qed.

(** The window is what [predictFromSymptoms] emits. *)
Lemma predictFromSymptoms_window (observations : list Observation.t)
    (cycleStartDate : option Z) (options : SymptomPredictorOptions.t) (w : World.t)
    (s e p : Z) :
  let opts := Symptoms.mergeOptions options in
  let relevant := filter Symptoms.isRelevant observations in
  relevant <> [] ->
  Symptoms.findFertileWindow (World.tz w) (Symptoms.analyzeDays relevant opts) opts
  = Symptoms.mkWindow (Some s) (Some e) (Some p) ->
  exists prediction,
    fst (Symptoms.predictFromSymptoms observations cycleStartDate options w)
    = Some prediction
    /\ Prediction.fertileStart prediction = s
    /\ Prediction.fertileEnd prediction = e
    /\ Prediction.ovulationDate prediction = Some p.
Proof.
  intros opts relevant Hne Hw. unfold Symptoms.predictFromSymptoms, bind, timeZone.
  fold relevant. fold opts. rewrite Hw. simpl.
  clearbody relevant. destruct relevant; [congruence|].
  eexists. split; [reflexivity|]. repeat split.
Qed.

(** C6, amended.  In the per-day aggregation a date's [opkPositive] flag is
    true exactly when the first OPK observation recorded on that date, in
    input order, is positive.  When at least one day is flagged, the
    predictor emits a prediction built around D, the earliest flagged day;
    on a host whose time zone keeps one offset from UTC its window is
    [D - daysBeforeOPK, D + daysAfterOPK] with ovulation date D + 1, which
    with default options is [D - 2, D + 2]. *)
Theorem opk_flag_and_window (observations : list Observation.t)
    (cycleStartDate : option Z) (options : SymptomPredictorOptions.t) (w : World.t) :
  let opts := Symptoms.mergeOptions options in
  let relevant := filter Symptoms.isRelevant observations in
  let dayData := Symptoms.analyzeDays relevant opts in
  (forall d, In d dayData ->
             (DayFertilityData.hasOPKPositive d = true
              <-> firstOPKOn (DayFertilityData.date d) relevant = Some opk_positive))
  /\ ((exists d, In d dayData /\ DayFertilityData.hasOPKPositive d = true) ->
      exists D prediction,
        (exists d, In d dayData /\ DayFertilityData.date d = D
                   /\ DayFertilityData.hasOPKPositive d = true)
        /\ (forall d, In d dayData -> DayFertilityData.hasOPKPositive d = true ->
                      (D <= DayFertilityData.date d)%Z)
        /\ fst (Symptoms.predictFromSymptoms observations cycleStartDate options w)
           = Some prediction
        /\ (fixedOffset (World.tz w) ->
            Symptoms.findFertileWindow (World.tz w) dayData opts
            = Symptoms.mkWindow (Some (D - Symptoms.daysBeforeOPK opts)%Z)
                                (Some (D + Symptoms.daysAfterOPK opts)%Z)
                                (Some (D + 1)%Z)
            /\ Prediction.fertileStart prediction = (D - Symptoms.daysBeforeOPK opts)%Z
            /\ Prediction.fertileEnd prediction = (D + Symptoms.daysAfterOPK opts)%Z
            /\ Prediction.ovulationDate prediction = Some (D + 1)%Z))
  /\ Symptoms.daysBeforeOPK (Symptoms.mergeOptions SymptomPredictorOptions.empty) = 2%Z
  /\ Symptoms.daysAfterOPK (Symptoms.mergeOptions SymptomPredictorOptions.empty) = 2%Z.
Proof.
  intros opts relevant dayData.
  destruct (opk_window (World.tz w) relevant opts) as [Hflag Hwin].
  split; [exact Hflag|]. split; [|split; reflexivity].
  intros Hex. destruct (Hwin Hex) as (D & Hd & Hmin & Hw).
  assert (Hne : relevant <> []).
  { destruct Hex as (d & Hd' & _). apply analyzeDays_In in Hd'.
    destruct Hd' as (k & Hk & _). intros Hnil. apply Hk. rewrite Hnil. reflexivity. }
  destruct (predictFromSymptoms_window observations cycleStartDate options w _ _ _ Hne Hw)
    as (prediction & Hp & Hs & He & Ho).
  exists D, prediction. split; [exact Hd|]. split; [exact Hmin|]. split; [exact Hp|].
  intros Hfix. fold dayData in Hw. rewrite Hw, Hs, He, Ho.
  rewrite !(addDays_fixed _ _ _ Hfix).
  replace (D + - Symptoms.daysBeforeOPK opts)%Z with (D - Symptoms.daysBeforeOPK opts)%Z
    by lia.
  repeat split; reflexivity.
Qed.

Lemma opk_flag_and_window_witness :
  exists D prediction,
    (exists d, In d (Symptoms.analyzeDays pivot Symptoms.DEFAULT_OPTIONS)
               /\ DayFertilityData.date d = D
               /\ DayFertilityData.hasOPKPositive d = true)
    /\ (forall d, In d (Symptoms.analyzeDays pivot Symptoms.DEFAULT_OPTIONS) ->
                  DayFertilityData.hasOPKPositive d = true ->
                  (D <= DayFertilityData.date d)%Z)
    /\ fst (Symptoms.predictFromSymptoms pivot None SymptomPredictorOptions.empty
                                         (World.mk "" (fun _ => "") 0 Host.utc))
       = Some prediction
    /\ Symptoms.findFertileWindow Host.utc
         (Symptoms.analyzeDays pivot Symptoms.DEFAULT_OPTIONS) Symptoms.DEFAULT_OPTIONS
       = Symptoms.mkWindow (Some (D - 2)%Z) (Some (D + 2)%Z) (Some (D + 1)%Z)
    /\ Prediction.fertileStart prediction = (D - 2)%Z
    /\ Prediction.fertileEnd prediction = (D + 2)%Z
    /\ Prediction.ovulationDate prediction = Some (D + 1)%Z.
Proof.
  destruct (proj1 (proj2 (opk_flag_and_window pivot None SymptomPredictorOptions.empty
                            (World.mk "" (fun _ => "") 0 Host.utc))))
    as (D & prediction & Hd & Hmin & Hp & Hfix).
  { exists (Symptoms.analyzeDay Symptoms.DEFAULT_OPTIONS (20131%Z, onDate 20131 pivot)).
    split; [|reflexivity].
    apply (analyzeDays_In pivot Symptoms.DEFAULT_OPTIONS).
    exists 20131%Z. split; [discriminate|reflexivity]. }
  destruct (Hfix fixedOffset_utc) as (Hw & Hs & He & Ho).
  exists D, prediction.
  split; [exact Hd|]. split; [exact Hmin|]. split; [exact Hp|].
  split; [exact Hw|]. split; [exact Hs|]. split; [exact He|exact Ho].
Defined.

(** The day count across the change of clocks of 9 March 2025 in New York:
    two days on from the 8th is the 9th, the instant reached being one hour
    short of midnight UTC of the 10th. *)
Example addDays_across_change :
  Symptoms.addDays newYork 20155 2 = 20156%Z
  /\ Symptoms.addDays Host.utc 20155 2 = 20157%Z.
Proof. split; vm_compute; reflexivity. Qed.

(** * Further properties of the code *)

(** ** The reconciler: the extracted window is a run of fertile days *)

Lemma daysBetween_one (a b : DayScore.t) :
  Dates.getTime (DayScore.date a) <= Dates.getTime (DayScore.date b) ->
  (Dates.daysBetween (Dates.getTime (DayScore.date b))
                     (Dates.getTime (DayScore.date a)) =? 1)%Z = true ->
  DayScore.date b = (DayScore.date a + 1)%Z.
Proof.
  intros Hle H. apply getTime_le in Hle. apply Z.eqb_eq in H.
  rewrite daysBetween_getTime in H. lia.
Qed.

Lemma commit_run (arr : list DayScore.t) (s : Reconciler.Scan) :
  RunAt arr (Reconciler.bestStart s) (Reconciler.bestLength s) ->
  RunAt arr (Reconciler.currentStart s) (Reconciler.currentLength s) ->
  RunAt arr (Reconciler.bestStart (Reconciler.commit s))
            (Reconciler.bestLength (Reconciler.commit s))
  /\ RunAt arr (Reconciler.currentStart (Reconciler.commit s))
               (Reconciler.currentLength (Reconciler.commit s)).
Proof.
  intros Hb Hc. unfold Reconciler.commit.
  destruct (_ <? _)%nat; simpl; auto.
Qed.

Lemma scanRuns_run (arr : list DayScore.t) :
  StronglySorted (fun a b => Dates.getTime (DayScore.date a)
                             <= Dates.getTime (DayScore.date b)) arr ->
  forall rest pre prev i s,
    arr = pre ++ prev :: rest -> i = S (List.length pre) ->
    ScanInv s i ->
    RunAt arr (Reconciler.bestStart s) (Reconciler.bestLength s) ->
    RunAt arr (Reconciler.currentStart s) (Reconciler.currentLength s) ->
    let s' := Reconciler.scanRuns prev rest i s in
    RunAt arr (Reconciler.bestStart s') (Reconciler.bestLength s')
    /\ RunAt arr (Reconciler.currentStart s') (Reconciler.currentLength s').
Proof.
  intros Hsorted.
  induction rest as [|curr rest IH]; intros pre prev i s Harr Hi Hinv Hb Hc; simpl.
  - auto.
  - assert (Hprev : nth_error arr (List.length pre) = Some prev).
    { rewrite Harr, nth_error_app2, Nat.sub_diag by lia. reflexivity. }
    assert (Hcurr : nth_error arr i = Some curr).
    { rewrite Harr, Hi, nth_error_app2 by lia.
      replace (S (List.length pre) - List.length pre)%nat with 1%nat by lia.
      reflexivity. }
    assert (Hle : Dates.getTime (DayScore.date prev)
                  <= Dates.getTime (DayScore.date curr)).
    { rewrite Harr in Hsorted. apply StronglySorted_app in Hsorted.
      destruct Hsorted as [_ Hs]. inversion Hs as [|? ? _ Hall]; subst.
      rewrite Forall_forall in Hall. apply Hall. left. reflexivity. }
    apply (IH (pre ++ [prev]) curr (S i)).
    + rewrite <- app_assoc. exact Harr.
    + rewrite length_app. simpl. lia.
    + destruct (Dates.daysBetween _ _ =? 1)%Z.
      * destruct Hinv as (H1 & H2 & H3 & H4). unfold ScanInv; simpl. lia.
      * apply commit_inv in Hinv. destruct Hinv as (H1 & H2 & H3 & H4).
        unfold ScanInv; simpl. lia.
    + destruct (Dates.daysBetween _ _ =? 1)%Z; simpl; [exact Hb|].
      apply commit_run; assumption.
    + destruct (Dates.daysBetween _ _ =? 1)%Z eqn:Hgap; simpl.
      * destruct Hinv as (_ & _ & _ & H4).
        intros k a b Hk1 Hk2 Ha Hb'.
        destruct (Nat.eq_dec (S k) i) as [Hki|Hki].
        -- assert (k = List.length pre) by lia. subst k.
           rewrite Hki, Hcurr in Hb'. rewrite Hprev in Ha.
           inversion Ha; inversion Hb'; subst a b.
           apply daysBetween_one; assumption.
        -- apply (Hc k a b); try assumption; lia.
      * intros k a b Hk1 Hk2 _ _. lia.
Qed.

Lemma run_dates (w : list DayScore.t) (w0 : DayScore.t) :
  RunAt (w0 :: w) 0 (S (List.length w)) ->
  forall k d, nth_error (w0 :: w) k = Some d ->
              DayScore.date d = (DayScore.date w0 + Z.of_nat k)%Z.
Proof.
  intros Hrun k. induction k as [|k IH]; intros d Hd.
  - simpl in Hd. inversion Hd. lia.
  - assert (Hlt : (S k < List.length (w0 :: w))%nat).
    { apply nth_error_Some. rewrite Hd. discriminate. }
    destruct (nth_error (w0 :: w) k) as [a|] eqn:Ha.
    + rewrite (Hrun k a d); [|lia|simpl in Hlt; lia|exact Ha|exact Hd].
      rewrite (IH a eq_refl). lia.
    + apply nth_error_None in Ha. lia.
Qed.

Lemma windowDaysOf_run (sortedDays : list DayScore.t) :
  StronglySorted (fun a b => Dates.getTime (DayScore.date a)
                             <= Dates.getTime (DayScore.date b)) sortedDays ->
  RunAt (windowDaysOf sortedDays) 0 (List.length (windowDaysOf sortedDays)).
Proof.
  intros Hsorted. destruct sortedDays as [|first rest].
  - intros k a b _ _ Ha. destruct k; discriminate.
  - unfold windowDaysOf.
    set (s0 := Reconciler.mkScan 0 1 0 1).
    assert (Hinv0 : ScanInv s0 1) by (unfold ScanInv; simpl; lia).
    assert (Hrun0 : RunAt (first :: rest) 0 1) by (intros k a b; lia).
    destruct (scanRuns_run (first :: rest) Hsorted rest [] first 1%nat s0
                eq_refl eq_refl Hinv0 Hrun0 Hrun0) as [Hb Hc].
    pose proof (scanRuns_inv rest first 1%nat s0 Hinv0) as Hinv.
    destruct (commit_run _ _ Hb Hc) as [Hb' _].
    apply commit_inv in Hinv.
    set (s := Reconciler.commit _) in *.
    destruct Hinv as (H1 & H2 & _).
    unfold Js.slice. rewrite length_skipn, length_firstn.
    intros k a b _ Hk Ha Hb2.
    rewrite nth_error_skipn in Ha, Hb2.
    rewrite nth_error_firstn in Ha, Hb2.
    simpl List.length in Hk, H2.
    destruct (Nat.ltb_spec (Reconciler.bestStart s + k)
                           (Reconciler.bestStart s + Reconciler.bestLength s));
      [|discriminate].
    destruct (Nat.ltb_spec (Reconciler.bestStart s + S k)
                           (Reconciler.bestStart s + Reconciler.bestLength s));
      [|discriminate].
    apply (Hb' (Reconciler.bestStart s + k)%nat a b); try assumption; try lia.
    rewrite <- Nat.add_succ_r. exact Hb2.
Qed.

Lemma nth_error_last {A : Type} (l : list A) :
  forall a d, nth_error (a :: l) (List.length l) = Some (List.last (a :: l) d).
Proof.
  induction l as [|x l IH]; intros a d; [reflexivity|].
  change (nth_error (a :: x :: l) (List.length (x :: l)))
    with (nth_error (x :: l) (List.length l)).
  rewrite (IH x d). reflexivity.
Qed.

Lemma fold_pick_max (l : list DayScore.t) :
  forall b,
    DayScore.probability b <= DayScore.probability (fold_left pickPeak l b)
    /\ forall x, In x l ->
                 DayScore.probability x <= DayScore.probability (fold_left pickPeak l b).
Proof.
  induction l as [|y l IH]; intros b; simpl.
  - split; [lra|intros x []].
  - destruct (IH (pickPeak b y)) as [Hb Hl].
    assert (Hp : DayScore.probability b <= DayScore.probability (pickPeak b y)
                 /\ DayScore.probability y <= DayScore.probability (pickPeak b y)).
    { unfold pickPeak. destruct (Rgt_dec _ _); lra. }
    split; [lra|]. intros x [<-|Hx]; [lra|auto].
Qed.

Lemma windowDay_fertile (dayScores : list DayScore.t) (threshold : R) (d : DayScore.t) :
  In d (windowDaysOf (Js.sort dateCmp (fertileDaysOf dayScores threshold))) ->
  In d dayScores /\ threshold <= DayScore.probability d.
Proof.
  intros Hin.
  destruct (fertileDaysOf dayScores threshold) as [|f fs] eqn:Hf.
  - simpl in Hin. destruct Hin.
  - assert (Hne : Js.sort dateCmp (f :: fs) <> []).
    { intros H. apply sort_nil in H. discriminate. }
    destruct (windowDaysOf_part _ Hne) as (_ & l1 & l2 & Hl).
    assert (Hs : In d (Js.sort dateCmp (f :: fs))).
    { rewrite Hl. apply in_or_app. right. apply in_or_app. left. exact Hin. }
    apply (Permutation_in _ (sort_perm dateCmp (f :: fs))) in Hs.
    rewrite <- Hf in Hs. unfold fertileDaysOf in Hs. apply filter_In in Hs.
    destruct Hs as [Hd Hge]. split; [exact Hd|].
    unfold Js.geb in Hge. destruct (Rge_dec _ _); [lra|discriminate].
Qed.

Lemma NoDup_map_eq {A B : Type} (f : A -> B) (l : list A) (x y : A) :
  NoDup (map f l) -> In x l -> In y l -> f x = f y -> x = y.
Proof.
  induction l as [|a l IH]; intros Hnd Hx Hy Hf; [destruct Hx|].
  simpl in Hnd. inversion Hnd as [|? ? Hnotin Hnd']; subst.
  destruct Hx as [<-|Hx], Hy as [<-|Hy]; auto.
  - exfalso. apply Hnotin. rewrite Hf. apply in_map. exact Hy.
  - exfalso. apply Hnotin. rewrite <- Hf. apply in_map. exact Hx.
Qed.

(** X7.  The window [findFertileWindow] extracts is an unbroken run of
    fertile days: every date from its start to its end belongs to a scored
    day whose probability is at least the threshold.  The peak lies within
    the window, reached the threshold itself and, when each date is scored
    once, no day of the window has a higher probability. *)
Theorem window_is_fertile_run (dayScores : list DayScore.t) (threshold : R)
    (s e p : Z) :
  Reconciler.findFertileWindow dayScores threshold
  = Reconciler.mkWindow (Some s) (Some e) (Some p) ->
  (s <= p <= e)%Z
  /\ (forall D, (s <= D <= e)%Z ->
                exists d, In d dayScores /\ DayScore.date d = D
                          /\ threshold <= DayScore.probability d)
  /\ exists dp, In dp dayScores /\ DayScore.date dp = p
                /\ threshold <= DayScore.probability dp
                /\ (NoDup (map DayScore.date dayScores) ->
                    forall d, In d dayScores -> (s <= DayScore.date d <= e)%Z ->
                              DayScore.probability d <= DayScore.probability dp).
Proof.
  intros Hw.
  destruct (findFertileWindow_cases dayScores threshold)
    as [[_ Hno]|(_ & s' & e' & p' & Hw' & Hord)].
  { rewrite Hno in Hw. discriminate. }
  rewrite Hw in Hw'. inversion Hw'; subst s' e' p'. clear Hw'.
  split; [exact Hord|].
  rewrite findFertileWindow_unfold in Hw.
  destruct (fertileDaysOf dayScores threshold) as [|f fs] eqn:Hf; [discriminate|].
  rewrite <- Hf in Hw.
  pose proof (windowDaysOf_run (Js.sort dateCmp (fertileDaysOf dayScores threshold))
                (sort_sorted dateCmp (fun x => Dates.getTime (DayScore.date x))
                             (fun a b => eq_refl) _)) as Hrun.
  pose proof (windowDay_fertile dayScores threshold) as Hfert.
  destruct (windowDaysOf _) as [|w0 ws]; [discriminate|].
  inversion Hw as [[Hs He Hp]]. clear Hw. subst s e p.
  pose proof (run_dates ws w0 Hrun) as Hdates.
  set (s := DayScore.date w0) in *.
  set (e := Reconciler.last_date w0 (w0 :: ws)) in *.
  assert (Hend : e = (s + Z.of_nat (List.length ws))%Z).
  { unfold e, Reconciler.last_date. apply Hdates. apply nth_error_last. }
  assert (Hcover : forall D, (s <= D <= e)%Z ->
                             exists d, In d (w0 :: ws) /\ DayScore.date d = D).
  { intros D HD.
    destruct (nth_error (w0 :: ws) (Z.to_nat (D - s))) as [d|] eqn:Hd.
    - exists d. split; [eapply nth_error_In; exact Hd|].
      rewrite (Hdates _ d Hd). lia.
    - apply nth_error_None in Hd. simpl in Hd. lia. }
  split.
  - intros D HD. destruct (Hcover D HD) as (d & Hin & Hdate).
    destruct (Hfert d Hin). exists d. tauto.
  - set (dp := fold_left pickPeak (w0 :: ws) w0) in *.
    assert (Hin : In dp (w0 :: ws)).
    { destruct (fold_pick_In (w0 :: ws) w0) as [H|H]; [|exact H].
      fold dp in H. rewrite H. left. reflexivity. }
    destruct (Hfert dp Hin) as [Hdp Hthr].
    exists dp. repeat split; try assumption; try reflexivity.
    intros Hnd d Hd HD.
    destruct (Hcover (DayScore.date d) HD) as (d' & Hin' & Hdate).
    assert (d' = d).
    { apply (NoDup_map_eq DayScore.date dayScores); try assumption.
      apply (Hfert d' Hin'). }
    subst d'. apply (fold_pick_max (w0 :: ws) w0). exact Hin'.
Qed.

Lemma sort_id {A : Type} (cmp : A -> A -> R) (key : A -> R) (l : list A) :
  (forall a b, cmp a b = key a - key b) ->
  StronglySorted (fun a b => key a <= key b) l -> Js.sort cmp l = l.
Proof.
  intros Hcmp. induction 1 as [|x l Hs IH Hall]; [reflexivity|].
  change (Js.sort cmp (x :: l)) with (Js.insert cmp x (Js.sort cmp l)).
  rewrite IH. destruct l as [|y l']; [reflexivity|]. simpl.
  rewrite Forall_forall in Hall. specialize (Hall y (or_introl eq_refl)).
  destruct (Rle_dec (cmp x y) 0) as [_|Hn]; [reflexivity|].
  exfalso. apply Hn. rewrite Hcmp. lra.
Qed.

Lemma threeDays_window :
  Reconciler.findFertileWindow threeDays 0.3
  = Reconciler.mkWindow (Some 20130%Z) (Some 20131%Z) (Some 20131%Z).
Proof.
  rewrite findFertileWindow_unfold.
  assert (Hf : fertileDaysOf threeDays 0.3
               = [scoredDay 20130 0.5; scoredDay 20131 0.6; scoredDay 20133 0.9]).
  { unfold fertileDaysOf, threeDays, scoredDay, Js.geb. simpl.
    destruct (Rge_dec 0.5 0.3); [|lra]. destruct (Rge_dec 0.6 0.3); [|lra].
    destruct (Rge_dec 0.1 0.3); [lra|]. destruct (Rge_dec 0.9 0.3); [|lra].
    reflexivity. }
  rewrite Hf. unfold scoredDay.
  rewrite (sort_id dateCmp (fun x => Dates.getTime (DayScore.date x)));
    [|intros x y; reflexivity|].
  - unfold windowDaysOf. cbn [Reconciler.scanRuns].
    rewrite !daysBetween_getTime. simpl.
    unfold pickPeak, Reconciler.last_date. simpl.
    destruct (Rgt_dec 0.5 0.5); [lra|]. cbn [DayScore.probability].
    destruct (Rgt_dec 0.6 0.5); [|lra].
    reflexivity.
  - repeat (apply SSorted_cons || apply SSorted_nil || apply Forall_cons
            || apply Forall_nil); apply getTime_le; simpl; lia.
Qed.

Lemma window_is_fertile_run_witness :
  (20130 <= 20131 <= 20131)%Z
  /\ exists d, In d threeDays /\ DayScore.date d = 20131%Z
               /\ 0.3 <= DayScore.probability d.
Proof.
  destruct (window_is_fertile_run threeDays 0.3 20130 20131 20131 threeDays_window)
    as (Hord & Hall & _).
  split; [exact Hord|]. apply Hall. lia.
Defined.

(** ** Dates *)

(** X8.  [daysBetween] is symmetric and is zero between a time and itself;
    between two civil dates it is the exact number of days that separates
    them, so a date moved by [addDays(d, n)] is [|n|] days from [d]. *)
Theorem daysBetween_days (a b : R) (d d' n : Z) :
  Dates.daysBetween a b = Dates.daysBetween b a
  /\ Dates.daysBetween a a = 0%Z
  /\ Dates.daysBetween (Dates.getTime d) (Dates.getTime d') = Z.abs (d - d')
  /\ Dates.daysBetween (Dates.getTime (Dates.addDays d n)) (Dates.getTime d) = Z.abs n.
Proof.
  split; [|split; [|split]].
  - unfold Dates.daysBetween. rewrite Rabs_minus_sym. reflexivity.
  - unfold Dates.daysBetween.
    replace (a - a) with 0 by ring. rewrite Rabs_R0.
    replace (0 / Dates.msPerDay) with (IZR 0) by (unfold Rdiv; ring).
    apply round_IZR.
  - apply daysBetween_getTime.
  - rewrite daysBetween_getTime. unfold Dates.addDays. f_equal. lia.
Qed.

(** ** The calendar predictor *)

Lemma round_between (x : R) (lo hi : Z) :
  IZR lo <= x <= IZR hi -> (lo <= Js.round x <= hi)%Z.
Proof.
  intros [Hlo Hhi]. unfold Js.round.
  destruct (base_Int_part (x + / 2)) as [H1 H2].
  split.
  - assert (H : (lo - 1 < Int_part (x + / 2))%Z).
    { apply lt_IZR. rewrite minus_IZR. lra. }
    lia.
  - assert (H : (Int_part (x + / 2) < hi + 1)%Z).
    { apply lt_IZR. rewrite plus_IZR. lra. }
    lia.
Qed.

Lemma average_between (cycles : list Cycle.t) (lo hi : Z) :
  cycles <> [] ->
  (forall c, In c cycles -> (lo <= Cycle.length c <= hi)%Z) ->
  (lo <= Calendar.calculateAverageCycleLength cycles <= hi)%Z.
Proof.
  intros Hne Hall.
  destruct cycles as [|c0 cs]; [contradiction|].
  unfold Calendar.calculateAverageCycleLength.
  set (l := c0 :: cs) in *.
  rewrite (fold_left_sum (fun c => IZR (Cycle.length c)) l 0).
  assert (Hn : 0 < INR (List.length l)).
  { unfold l. change (List.length (c0 :: cs)) with (S (List.length cs)).
    rewrite S_INR. pose proof (pos_INR (List.length cs)). lra. }
  assert (Hlow : INR (List.length l) * IZR lo <= Rsum (map (fun c => IZR (Cycle.length c)) l)).
  { rewrite <- (Rsum_map_const (IZR lo) l). apply Rsum_map_le.
    intros c Hc. apply IZR_le. apply (Hall c Hc). }
  assert (Hhigh : Rsum (map (fun c => IZR (Cycle.length c)) l) <= INR (List.length l) * IZR hi).
  { rewrite <- (Rsum_map_const (IZR hi) l). apply Rsum_map_le.
    intros c Hc. apply IZR_le. apply (Hall c Hc). }
  apply round_between.
  set (t := Rsum _) in *. set (n := INR _) in *.
  assert (Hinv : 0 < / n) by (apply Rinv_0_lt_compat; exact Hn).
  assert (Hn1 : n * / n = 1) by (apply Rinv_r; lra).
  unfold Rdiv. rewrite Rplus_0_l. split.
  - replace (IZR lo) with (n * IZR lo * / n) by (rewrite Rmult_assoc, (Rmult_comm (IZR lo)), <- Rmult_assoc, Hn1; ring).
    apply Rmult_le_compat_r; lra.
  - replace (IZR hi) with (n * IZR hi * / n) by (rewrite Rmult_assoc, (Rmult_comm (IZR hi)), <- Rmult_assoc, Hn1; ring).
    apply Rmult_le_compat_r; lra.
Qed.

(** X9.  [calculateAverageCycleLength] is 28 without history; with history
    it lies between the shortest and the longest historical cycle length, so
    it is that length when all cycles are equally long. *)
Theorem averageCycleLength_between (cycles : list Cycle.t) (lo hi : Z) :
  Calendar.calculateAverageCycleLength [] = 28%Z
  /\ (cycles <> [] ->
      (forall c, In c cycles -> (lo <= Cycle.length c <= hi)%Z) ->
      (lo <= Calendar.calculateAverageCycleLength cycles <= hi)%Z
      /\ (lo = hi -> Calendar.calculateAverageCycleLength cycles = lo)).
Proof.
  split; [reflexivity|]. intros Hne Hall.
  pose proof (average_between cycles lo hi Hne Hall) as H.
  split; [exact H|]. intros Heq. lia.
Qed.

Lemma averageCycleLength_between_witness :
  (27 <= Calendar.calculateAverageCycleLength [cycleOf 27; cycleOf 30] <= 30)%Z.
Proof.
  apply (averageCycleLength_between [cycleOf 27; cycleOf 30] 27 30).
  - discriminate.
  - intros c [<-|[<-|[]]]; simpl; lia.
Defined.

Lemma Rsum_zero (l : list R) :
  (forall x, In x l -> 0 <= x) -> Rsum l = 0 -> forall x, In x l -> x = 0.
Proof.
  induction l as [|y l IH]; intros Hpos Hsum x Hx; [destruct Hx|].
  simpl in Hsum.
  assert (Hy : 0 <= y) by (apply Hpos; left; reflexivity).
  assert (Hl : 0 <= Rsum l).
  { rewrite <- (map_id l). apply Rsum_map_nonneg. intros z Hz. apply Hpos. right. exact Hz. }
  destruct Hx as [<-|Hx]; [lra|].
  apply IH; [intros z Hz; apply Hpos; right; exact Hz|lra|exact Hx].
Qed.

Lemma variability_unfold (cycles : list Cycle.t) :
  (2 <= List.length cycles)%nat ->
  Calendar.calculateCycleVariability cycles
  = sqrt (varianceDays (map Cycle.length cycles)).
Proof.
  intros Hn. unfold Calendar.calculateCycleVariability, varianceDays.
  destruct (Nat.ltb_spec (List.length cycles) 2); [lia|].
  cbv zeta. rewrite fold_left_plus, Rplus_0_l.
  rewrite (fold_left_sum (fun l => (l - _) ^ 2)), Rplus_0_l.
  rewrite !map_map, !length_map. reflexivity.
Qed.

Lemma varianceDays_nonneg (days : list Z) : 0 <= varianceDays days.
Proof.
  unfold varianceDays.
  destruct days as [|d ds].
  - simpl. unfold Rdiv. rewrite Rmult_0_l. lra.
  - apply Rmult_le_pos.
    + apply Rsum_map_nonneg. intros x _. apply pow2_ge_0.
    + left. apply Rinv_0_lt_compat.
      change (List.length (d :: ds)) with (S (List.length ds)). rewrite S_INR.
      pose proof (pos_INR (List.length ds)). lra.
Qed.

(** X10.  [calculateCycleVariability] is never negative, and for a history
    of at least two cycles it is zero exactly when all cycles have the same
    length. *)
Theorem cycleVariability_zero_iff (cycles : list Cycle.t) :
  0 <= Calendar.calculateCycleVariability cycles
  /\ ((2 <= List.length cycles)%nat ->
      (Calendar.calculateCycleVariability cycles = 0
       <-> forall c c', In c cycles -> In c' cycles -> Cycle.length c = Cycle.length c')).
Proof.
  split.
  - unfold Calendar.calculateCycleVariability.
    destruct (List.length cycles <? 2)%nat; [lra|]. apply sqrt_pos.
  - intros Hn. rewrite (variability_unfold cycles Hn).
    assert (Hlen : 0 < INR (List.length (map Cycle.length cycles))).
    { rewrite length_map. apply lt_0_INR. lia. }
    split.
    + intros Hz.
      apply sqrt_eq_0 in Hz; [|apply varianceDays_nonneg].
      unfold varianceDays in Hz.
      set (mean := Rsum (map IZR (map Cycle.length cycles))
                   / INR (List.length (map Cycle.length cycles))) in *.
      assert (Hsum : Rsum (map (fun d => (IZR d - mean) ^ 2) (map Cycle.length cycles)) = 0).
      { apply (Rmult_eq_reg_r (/ INR (List.length (map Cycle.length cycles)))).
        - rewrite Rmult_0_l. exact Hz.
        - apply Rinv_neq_0_compat. lra. }
      assert (Hall : forall c, In c cycles -> IZR (Cycle.length c) = mean).
      { intros c Hc.
        assert (H0 : (IZR (Cycle.length c) - mean) ^ 2 = 0).
        { apply (Rsum_zero (map (fun d => (IZR d - mean) ^ 2) (map Cycle.length cycles))).
          - intros x Hx. apply in_map_iff in Hx. destruct Hx as (d & <- & _).
            apply pow2_ge_0.
          - exact Hsum.
          - rewrite map_map.
            apply (in_map (fun x => (IZR (Cycle.length x) - mean) ^ 2)). exact Hc. }
        rewrite <- Rsqr_pow2 in H0. apply Rsqr_0_uniq in H0. lra. }
      intros c c' Hc Hc'. apply eq_IZR. rewrite (Hall c Hc), (Hall c' Hc'). reflexivity.
    + intros Heq.
      destruct cycles as [|c0 cs]; [simpl in Hn; lia|].
      assert (Hmap : map Cycle.length (c0 :: cs)
                     = map (fun _ => Cycle.length c0) (c0 :: cs)).
      { apply map_ext_in. intros c Hc. apply Heq; [exact Hc|left; reflexivity]. }
      rewrite Hmap, varianceDays_const. apply sqrt_0.
Qed.

Lemma cycleVariability_zero_iff_witness :
  Calendar.calculateCycleVariability [cycleOf 28; cycleOf 28] = 0.
Proof.
  apply (cycleVariability_zero_iff [cycleOf 28; cycleOf 28]).
  - simpl. lia.
  - intros c c' [<-|[<-|[]]] [<-|[<-|[]]]; reflexivity.
Defined.

Lemma predictFromCalendar_fields (start : Z) (cycles : list Cycle.t)
    (options : CalendarPredictorOptions.t) (w : World.t) :
  let opts := Calendar.mergeOptions options in
  let avg := Calendar.calculateAverageCycleLength cycles in
  let p := fst (Calendar.predictFromCalendar start cycles options w) in
  Prediction.source p = "manual"
  /\ Prediction.ovulationDate p = Some (start + (avg - Calendar.lutealPhaseLength opts))%Z
  /\ Prediction.fertileStart p
     = (start + (avg - Calendar.lutealPhaseLength opts
                 - Calendar.daysBeforeOvulation opts))%Z
  /\ Prediction.fertileEnd p
     = (start + (avg - Calendar.lutealPhaseLength opts
                 + Calendar.daysAfterOvulation opts))%Z
  /\ Prediction.id p = World.uuids w (World.drawn w)
  /\ snd (Calendar.predictFromCalendar start cycles options w)
     = World.mk (World.clock w) (World.uuids w) (S (World.drawn w)) (World.tz w).
Proof. repeat split. Qed.

Lemma predictFromCalendar_same_confidence (start start' : Z) (cycles : list Cycle.t)
    (options : CalendarPredictorOptions.t) (w w' : World.t) :
  Prediction.confidence (fst (Calendar.predictFromCalendar start cycles options w))
  = Prediction.confidence (fst (Calendar.predictFromCalendar start' cycles options w')).
Proof. reflexivity. Qed.

Lemma calendar_confidence (start : Z) (cycles : list Cycle.t)
    (options : CalendarPredictorOptions.t) (w : World.t) :
  exists c,
    Prediction.confidence (fst (Calendar.predictFromCalendar start cycles options w))
    = Some c
    /\ 20 <= c <= 80
    /\ (CalendarPredictorOptions.regularityBonus options = None -> 40 <= c <= 75).
Proof.
  eexists. split; [reflexivity|].
  set (x := if (6 <=? List.length cycles)%nat then 55 + 10
            else if (3 <=? List.length cycles)%nat then 55 + 5 else 55).
  assert (Hx : 55 <= x <= 65).
  { unfold x. destruct (6 <=? _)%nat; [lra|]. destruct (3 <=? _)%nat; lra. }
  split.
  - split; [apply Rmax_l|]. apply Rmax_lub; [lra|]. apply Rle_trans with 80; [apply Rmin_l|lra].
  - intros Hrb. unfold Calendar.mergeOptions. rewrite Hrb.
    cbn [Calendar.regularityBonus Calendar.DEFAULT_OPTIONS]. fold x.
    set (y := if Rle_dec _ 2 then _ else _).
    assert (Hy : 40 <= y <= 75).
    { unfold y. destruct (Rle_dec _ 2); [lra|]. destruct (Rle_dec _ 4); [lra|].
      destruct (Rgt_dec _ 6); lra. }
    rewrite (Rmin_right 80 y), (Rmax_right 20 y) by lra. exact Hy.
Qed.

(** X11.  The confidence [predictFromCalendar] reports always lies between
    20 and 80; with the default regularity bonus it lies between 40 and 75,
    and it is exactly 55 when fewer than two historical cycles are known. *)
Theorem predictFromCalendar_confidence (start : Z) (cycles : list Cycle.t)
    (options : CalendarPredictorOptions.t) (w : World.t) :
  exists c,
    Prediction.confidence (fst (Calendar.predictFromCalendar start cycles options w))
    = Some c
    /\ 20 <= c <= 80
    /\ (CalendarPredictorOptions.regularityBonus options = None -> 40 <= c <= 75)
    /\ (CalendarPredictorOptions.regularityBonus options = None ->
        (List.length cycles < 2)%nat -> c = 55).
Proof.
  destruct (calendar_confidence start cycles options w) as (c & Hc & Hrange & Hdefault).
  exists c. split; [exact Hc|]. split; [exact Hrange|]. split; [exact Hdefault|].
  intros Hrb Hn.
  assert (Hc' : Prediction.confidence
                  (fst (Calendar.predictFromCalendar start cycles options w))
                = Some 55).
  { unfold Calendar.predictFromCalendar, bind, getTimestamp, generateId, ret.
    cbn [fst Prediction.confidence].
    unfold Calendar.mergeOptions. rewrite Hrb.
    cbn [Calendar.regularityBonus Calendar.DEFAULT_OPTIONS].
    unfold Calendar.calculateCycleVariability.
    destruct (Nat.ltb_spec (List.length cycles) 2); [|lia].
    destruct (Nat.leb_spec 6 (List.length cycles)); [lia|].
    destruct (Nat.leb_spec 3 (List.length cycles)); [lia|].
    destruct (Rle_dec 5 2); [lra|]. destruct (Rle_dec 5 4); [lra|].
    destruct (Rgt_dec 5 6); [lra|].
    rewrite (Rmin_right 80 55), (Rmax_right 20 55) by lra. reflexivity. }
  rewrite Hc in Hc'. inversion Hc'. reflexivity.
Qed.

(** X12.  With a history whose cycle lengths all lie between [lo] and [hi],
    [predictFromCalendar] places ovulation between [lo - luteal] and
    [hi - luteal] days after the cycle start, and the fertile window runs
    from [daysBeforeOvulation] days before that date to [daysAfterOvulation]
    days after it: with the defaults, days [lo - 19 .. hi - 13] of the
    cycle at the widest. *)
Theorem calendar_window_bounds (start : Z) (cycles : list Cycle.t)
    (options : CalendarPredictorOptions.t) (w : World.t) (lo hi : Z) :
  cycles <> [] ->
  (forall c, In c cycles -> (lo <= Cycle.length c <= hi)%Z) ->
  let opts := Calendar.mergeOptions options in
  let p := fst (Calendar.predictFromCalendar start cycles options w) in
  exists ov,
    Prediction.ovulationDate p = Some ov
    /\ (start + lo - Calendar.lutealPhaseLength opts <= ov
        <= start + hi - Calendar.lutealPhaseLength opts)%Z
    /\ Prediction.fertileStart p = (ov - Calendar.daysBeforeOvulation opts)%Z
    /\ Prediction.fertileEnd p = (ov + Calendar.daysAfterOvulation opts)%Z
    /\ (options = CalendarPredictorOptions.empty ->
        (start + lo - 19 <= Prediction.fertileStart p)%Z
        /\ (Prediction.fertileEnd p <= start + hi - 13)%Z).
Proof.
  intros Hne Hall opts p.
  destruct (predictFromCalendar_fields start cycles options w)
    as (_ & Hov & Hs & He & _).
  fold p opts in Hov, Hs, He.
  pose proof (average_between cycles lo hi Hne Hall) as Havg.
  eexists. split; [exact Hov|]. rewrite Hs, He.
  split; [lia|]. split; [lia|]. split; [lia|].
  intros ->. unfold opts. simpl. lia.
Qed.

Lemma calendar_window_bounds_witness :
  exists ov,
    Prediction.ovulationDate
      (fst (Calendar.predictFromCalendar 20120 [cycleOf 27; cycleOf 30]
              CalendarPredictorOptions.empty morning)) = Some ov
    /\ (20120 + 27 - 14 <= ov <= 20120 + 30 - 14)%Z.
Proof.
  destruct (calendar_window_bounds 20120 [cycleOf 27; cycleOf 30]
              CalendarPredictorOptions.empty morning 27 30)
    as (ov & Hov & Hb & _).
  - discriminate.
  - intros c [<-|[<-|[]]]; simpl; lia.
  - exists ov. split; [exact Hov|exact Hb].
Defined.

Lemma multipleFrom_S (cycles : list Cycle.t) (options : CalendarPredictorOptions.t)
    (avg : Z) (n i : nat) (cycleStart : Z) (w : World.t) :
  Calendar.multipleFrom cycles options avg (S n) i cycleStart w
  = let first := Calendar.predictFromCalendar cycleStart cycles options w in
    let others := Calendar.multipleFrom cycles options avg n (S i)
                    (Dates.addDays cycleStart avg) (snd first) in
    (Prediction.mk (Prediction.id (fst first)) (Prediction.source (fst first))
       (Prediction.fertileStart (fst first)) (Prediction.fertileEnd (fst first))
       (Prediction.ovulationDate (fst first))
       (Some (Rmax 20 (match Prediction.confidence (fst first) with
                       | Some c => c
                       | None => 0
                       end - INR i * 10)))
       (Prediction.cycleId (fst first)) (Prediction.notes (fst first))
       (Prediction.createdAt (fst first)) (Prediction.updatedAt (fst first))
     :: fst others, snd others).
Proof.
  cbn [Calendar.multipleFrom]. unfold bind, ret. cbv zeta.
  destruct (Calendar.predictFromCalendar cycleStart cycles options w) as [pr w1].
  cbn [fst snd].
  destruct (Calendar.multipleFrom cycles options avg n (S i)
              (Dates.addDays cycleStart avg) w1) as [rest w2].
  reflexivity.
Qed.

Lemma multipleFrom_spec (cycles : list Cycle.t) (options : CalendarPredictorOptions.t)
    (avg : Z) (n : nat) :
  forall (i : nat) (cycleStart : Z) (w : World.t),
    let result := Calendar.multipleFrom cycles options avg n i cycleStart w in
    List.length (fst result) = n
    /\ snd result = World.mk (World.clock w) (World.uuids w) (World.drawn w + n)
                              (World.tz w)
    /\ forall k p, nth_error (fst result) k = Some p ->
         let q := fst (Calendar.predictFromCalendar
                         (cycleStart + Z.of_nat k * avg) cycles options w) in
         Prediction.fertileStart p = Prediction.fertileStart q
         /\ Prediction.fertileEnd p = Prediction.fertileEnd q
         /\ Prediction.ovulationDate p = Prediction.ovulationDate q
         /\ Prediction.source p = Prediction.source q
         /\ Prediction.confidence p
            = Some (Rmax 20 (match Prediction.confidence q with
                             | Some c => c
                             | None => 0
                             end - INR (i + k) * 10))
         /\ Prediction.id p = World.uuids w (World.drawn w + k).
Proof.
  induction n as [|n IH]; intros i cycleStart w.
  - simpl. split; [reflexivity|split].
    + destruct w. simpl. rewrite Nat.add_0_r. reflexivity.
    + intros k p Hk. destruct k; discriminate.
  - rewrite multipleFrom_S. cbv zeta.
    pose proof (predictFromCalendar_fields cycleStart cycles options w) as Hf.
    cbv zeta in Hf.
    destruct (Calendar.predictFromCalendar cycleStart cycles options w) as [pr w1] eqn:E.
    cbn [fst snd] in Hf |- *.
    destruct Hf as (Hsrc & Hov & Hs & He & Hid & Hw1).
    specialize (IH (S i) (Dates.addDays cycleStart avg) w1).
    destruct (Calendar.multipleFrom cycles options avg n (S i)
                (Dates.addDays cycleStart avg) w1) as [rest w2] eqn:E2.
    cbn [fst snd] in IH |- *. destruct IH as (Hlen & Hw2 & Hnth).
    split; [simpl; lia|]. split.
    + rewrite Hw2, Hw1. simpl. f_equal. lia.
    + intros k p Hk. destruct k as [|k].
      * simpl in Hk. inversion Hk; subst p. clear Hk.
        cbn [Prediction.fertileStart Prediction.fertileEnd Prediction.ovulationDate
             Prediction.source Prediction.confidence Prediction.id].
        replace (cycleStart + Z.of_nat 0 * avg)%Z with cycleStart by lia.
        rewrite E. cbn [fst]. rewrite Nat.add_0_r.
        repeat split. rewrite Hid. f_equal. lia.
      * simpl in Hk. destruct (Hnth k p Hk) as (H1 & H2 & H3 & H4 & H5 & H6).
        pose proof (predictFromCalendar_fields
                      (Dates.addDays cycleStart avg + Z.of_nat k * avg)
                      cycles options w1) as (_ & Gov & Gs & Ge & _).
        pose proof (predictFromCalendar_fields
                      (cycleStart + Z.of_nat (S k) * avg)
                      cycles options w) as (_ & Fov & Fs & Fe & _).
        rewrite H1, H2, H3, H4, H5, H6, Gs, Ge, Gov, Fs, Fe, Fov.
        unfold Dates.addDays.
        rewrite (predictFromCalendar_same_confidence
                   (cycleStart + avg + Z.of_nat k * avg) (cycleStart + Z.of_nat (S k) * avg)
                   cycles options w1 w).
        rewrite Hw1. cbn [World.uuids World.drawn].
        replace (S i + k)%nat with (i + S k)%nat by lia.
        replace (S (World.drawn w) + k)%nat with (World.drawn w + S k)%nat by lia.
        repeat split; try (f_equal; lia).
Qed.

(** X13.  [predictMultipleCycles] returns exactly [numberOfCycles]
    predictions and draws one identifier for each.  The prediction for the
    k-th cycle ahead is the calendar prediction for a cycle starting [k]
    average cycle lengths later, its confidence lowered by [10 k] but not
    below 20; so confidences never increase along the list. *)
Theorem predictMultipleCycles_spec (start : Z) (cycles : list Cycle.t)
    (numberOfCycles : nat) (options : CalendarPredictorOptions.t) (w : World.t) :
  let avg := Calendar.calculateAverageCycleLength cycles in
  let result := Calendar.predictMultipleCycles start cycles numberOfCycles options w in
  List.length (fst result) = numberOfCycles
  /\ World.drawn (snd result) = (World.drawn w + numberOfCycles)%nat
  /\ (forall k p, nth_error (fst result) k = Some p ->
        let q := fst (Calendar.predictFromCalendar
                        (start + Z.of_nat k * avg) cycles options w) in
        Prediction.fertileStart p = Prediction.fertileStart q
        /\ Prediction.fertileEnd p = Prediction.fertileEnd q
        /\ Prediction.ovulationDate p = Prediction.ovulationDate q
        /\ Prediction.id p = World.uuids w (World.drawn w + k)
        /\ exists c, Prediction.confidence q = Some c
                     /\ Prediction.confidence p = Some (Rmax 20 (c - INR k * 10)))
  /\ (forall k k' p p' c c',
        (k <= k')%nat ->
        nth_error (fst result) k = Some p -> nth_error (fst result) k' = Some p' ->
        Prediction.confidence p = Some c -> Prediction.confidence p' = Some c' ->
        20 <= c' <= c).
Proof.
  intros avg result.
  destruct (multipleFrom_spec cycles options avg numberOfCycles 0 start w)
    as (Hlen & Hw & Hnth).
  change (Calendar.multipleFrom cycles options avg numberOfCycles 0 start w)
    with result in Hlen, Hw, Hnth.
  split; [exact Hlen|]. split; [rewrite Hw; reflexivity|].
  assert (Hspec : forall k p, nth_error (fst result) k = Some p ->
            let q := fst (Calendar.predictFromCalendar
                            (start + Z.of_nat k * avg) cycles options w) in
            Prediction.fertileStart p = Prediction.fertileStart q
            /\ Prediction.fertileEnd p = Prediction.fertileEnd q
            /\ Prediction.ovulationDate p = Prediction.ovulationDate q
            /\ Prediction.id p = World.uuids w (World.drawn w + k)
            /\ exists c, Prediction.confidence q = Some c
                         /\ Prediction.confidence p = Some (Rmax 20 (c - INR k * 10))).
  { intros k p Hk. destruct (Hnth k p Hk) as (H1 & H2 & H3 & _ & H5 & H6).
    repeat split; try assumption.
    destruct (calendar_confidence (start + Z.of_nat k * avg) cycles options w)
      as (c & Hc & _).
    exists c. split; [exact Hc|]. rewrite H5, Hc. reflexivity. }
  split; [exact Hspec|].
  intros k k' p p' c c' Hle Hk Hk' Hc Hc'.
  destruct (Hspec k p Hk) as (_ & _ & _ & _ & c0 & Hq & Hp).
  destruct (Hspec k' p' Hk') as (_ & _ & _ & _ & c0' & Hq' & Hp').
  rewrite (predictFromCalendar_same_confidence _ (start + Z.of_nat k * avg) _ _ _ w) in Hq'.
  rewrite Hq in Hq'. inversion Hq'; subst c0'.
  rewrite Hc in Hp. rewrite Hc' in Hp'. inversion Hp; inversion Hp'; subst c c'.
  split; [apply Rmax_l|].
  apply le_INR in Hle.
  apply Rmax_lub; [apply Rmax_l|].
  apply Rle_trans with (c0 - INR k * 10); [lra|apply Rmax_r].
Qed.

(** ** The symptom predictor *)

Lemma sorted_strict {A : Type} (f : A -> Z) (l : list A) :
  StronglySorted (fun a b => Dates.getTime (f a) <= Dates.getTime (f b)) l ->
  NoDup (map f l) ->
  StronglySorted (fun a b => (f a < f b)%Z) l.
Proof.
  induction l as [|x l IH]; intros Hs Hnd; [constructor|].
  inversion Hs as [|? ? Hs' Hall]; subst.
  simpl in Hnd. inversion Hnd as [|? ? Hnotin Hnd']; subst.
  constructor; [apply IH; assumption|].
  rewrite Forall_forall in Hall |- *. intros y Hy.
  specialize (Hall y Hy). apply getTime_le in Hall.
  assert (f x <> f y) by (intros E; apply Hnotin; rewrite E; apply in_map; exact Hy).
  lia.
Qed.

Lemma sorted_map {A : Type} (f : A -> Z) (l : list A) :
  StronglySorted (fun a b => (f a < f b)%Z) l -> StronglySorted Z.lt (map f l).
Proof.
  induction 1 as [|x l Hs IH Hall]; simpl; constructor; [exact IH|].
  rewrite Forall_forall in Hall |- *. intros y Hy.
  apply in_map_iff in Hy. destruct Hy as (z & <- & Hz). auto.
Qed.

Lemma analyzeDays_strict (observations : list Observation.t) (options : Symptoms.Options) :
  StronglySorted (fun a b => (DayFertilityData.date a < DayFertilityData.date b)%Z)
                 (Symptoms.analyzeDays observations options).
Proof.
  apply sorted_strict.
  - apply (sort_sorted _ (fun x => Dates.getTime (DayFertilityData.date x))).
    intros a b. reflexivity.
  - unfold Symptoms.analyzeDays.
    apply (Permutation_NoDup
             (l := map DayFertilityData.date
                       (map (Symptoms.analyzeDay options)
                            (fold_left Symptoms.groupStep observations [])))).
    + apply Permutation_map, Permutation_sym, sort_perm.
    + rewrite map_map.
      rewrite (map_ext _ fst (fun e => analyzeDay_date options e)).
      apply group_keys. constructor.
Qed.

Lemma onDate_nonempty (k : Z) (observations : list Observation.t) :
  onDate k observations <> [] <-> exists o, In o observations /\ Observation.date o = k.
Proof.
  unfold onDate. split.
  - intros Hne. destruct (filter _ observations) as [|o l] eqn:E; [contradiction|].
    assert (Hin : In o (filter (fun o => (Observation.date o =? k)%Z) observations))
      by (rewrite E; left; reflexivity).
    apply filter_In in Hin. destruct Hin as [Hin Hd]. apply Z.eqb_eq in Hd. eauto.
  - intros (o & Hin & Hd) E.
    assert (H : In o (filter (fun o => (Observation.date o =? k)%Z) observations))
      by (apply filter_In; split; [exact Hin|apply Z.eqb_eq; exact Hd]).
    rewrite E in H. destruct H.
Qed.

(** X14.  [analyzeDays] returns one entry for each date that carries an
    observation, in strictly ascending order of date. *)
Theorem analyzeDays_dates (observations : list Observation.t) (options : Symptoms.Options) :
  let dates := map DayFertilityData.date (Symptoms.analyzeDays observations options) in
  StronglySorted Z.lt dates
  /\ forall D, In D dates <-> exists o, In o observations /\ Observation.date o = D.
Proof.
  intros dates. split.
  - apply sorted_map, analyzeDays_strict.
  - intros D. unfold dates. rewrite in_map_iff. split.
    + intros (d & Hd & Hin). apply analyzeDays_In in Hin.
      destruct Hin as (k & Hne & ->). rewrite analyzeDay_date in Hd. cbn [fst] in Hd.
      subst k. apply onDate_nonempty. exact Hne.
    + intros Hex. apply onDate_nonempty in Hex.
      exists (Symptoms.analyzeDay options (D, onDate D observations)).
      split; [apply analyzeDay_date|].
      apply analyzeDays_In. exists D. auto.
Qed.

Lemma fold_cm_max (l : list DayFertilityData.t) :
  forall b,
    let r := fold_left
               (fun best day =>
                  if (DayFertilityData.cmScore best <? DayFertilityData.cmScore day)%Z
                  then day else best) l b in
    (DayFertilityData.cmScore b <= DayFertilityData.cmScore r)%Z
    /\ (forall x, In x l -> (DayFertilityData.cmScore x <= DayFertilityData.cmScore r)%Z)
    /\ (r = b
        \/ exists l1 l2,
             l = l1 ++ r :: l2
             /\ (DayFertilityData.cmScore b < DayFertilityData.cmScore r)%Z
             /\ forall x, In x l1 ->
                          (DayFertilityData.cmScore x < DayFertilityData.cmScore r)%Z).
Proof.
  induction l as [|y l IH]; intros b; cbn zeta.
  - simpl. split; [lia|]. split; [intros x []|]. left. reflexivity.
  - cbn [fold_left].
    destruct (Z.ltb_spec (DayFertilityData.cmScore b) (DayFertilityData.cmScore y)) as [Hlt|Hge].
    + destruct (IH y) as (H1 & H2 & H3). cbn zeta in H1, H2, H3.
      set (r := fold_left _ l y) in *.
      split; [lia|]. split.
      * intros x [<-|Hx]; [exact H1|auto].
      * right. destruct H3 as [Hr|(l1 & l2 & Hl & Hs & Hall)].
        -- exists [], l. rewrite Hr. split; [reflexivity|]. split; [exact Hlt|intros x []].
        -- exists (y :: l1), l2. split; [rewrite Hl; reflexivity|]. split; [lia|].
           intros x [<-|Hx]; [exact Hs|auto].
    + destruct (IH b) as (H1 & H2 & H3). cbn zeta in H1, H2, H3.
      set (r := fold_left _ l b) in *.
      split; [exact H1|]. split.
      * intros x [<-|Hx]; [lia|auto].
      * destruct H3 as [Hr|(l1 & l2 & Hl & Hs & Hall)]; [left; exact Hr|].
        right. exists (y :: l1), l2. split; [rewrite Hl; reflexivity|].
        split; [exact Hs|]. intros x [<-|Hx]; [lia|auto].
Qed.

Lemma sorted_before {A : Type} (f : A -> Z) (l1 l2 : list A) (r x : A) :
  StronglySorted (fun a b => (f a < f b)%Z) (l1 ++ r :: l2) ->
  In x (l1 ++ r :: l2) -> (f x < f r)%Z -> In x l1.
Proof.
  induction l1 as [|y l1 IH]; simpl; intros Hs Hx Hlt.
  - inversion Hs as [|? ? _ Hall]; subst. rewrite Forall_forall in Hall.
    destruct Hx as [<-|Hx]; [lia|]. specialize (Hall x Hx). lia.
  - inversion Hs as [|? ? Hs' _]; subst.
    destruct Hx as [<-|Hx]; [left; reflexivity|].
    right. apply IH; assumption.
Qed.

Lemma geb_true (x y : R) : Js.geb x y = true <-> y <= x.
Proof. unfold Js.geb. destruct (Rge_dec x y); split; intros; try lra; discriminate. Qed.

Lemma symptoms_window_shape (tz : Host.TimeZone) (dayData : list DayFertilityData.t)
    (options : Symptoms.Options) :
  StronglySorted (fun a b => (DayFertilityData.date a < DayFertilityData.date b)%Z) dayData ->
  match filter DayFertilityData.hasOPKPositive dayData with
  | opkDay :: _ =>
      Symptoms.findFertileWindow tz dayData options
      = Symptoms.mkWindow
          (Some (Symptoms.addDays tz (DayFertilityData.date opkDay)
                                  (- Symptoms.daysBeforeOPK options)))
          (Some (Symptoms.addDays tz (DayFertilityData.date opkDay)
                                  (Symptoms.daysAfterOPK options)))
          (Some (Symptoms.addDays tz (DayFertilityData.date opkDay) 1))
  | [] =>
      ((forall d, In d dayData -> ~ highCM options d) ->
       Symptoms.findFertileWindow tz dayData options = Symptoms.noWindow)
      /\ ((exists d, In d dayData /\ highCM options d) ->
          exists first peakDay,
            In first dayData /\ highCM options first
            /\ In peakDay dayData /\ highCM options peakDay
            /\ (forall d, In d dayData -> highCM options d ->
                  (DayFertilityData.date first <= DayFertilityData.date d)%Z
                  /\ (DayFertilityData.cmScore d <= DayFertilityData.cmScore peakDay)%Z
                  /\ ((DayFertilityData.date d < DayFertilityData.date peakDay)%Z ->
                      (DayFertilityData.cmScore d < DayFertilityData.cmScore peakDay)%Z))
            /\ Symptoms.findFertileWindow tz dayData options
               = Symptoms.mkWindow
                   (Some (DayFertilityData.date first))
                   (Some (Symptoms.addDays tz (DayFertilityData.date peakDay) 2))
                   (Some (Symptoms.addDays tz (DayFertilityData.date peakDay) 1)))
  end.
Proof.
  intros Hsorted.
  set (high := fun d => Js.geb (IZR (DayFertilityData.cmScore d))
                               (Symptoms.minCMScore options)).
  assert (Hhigh : forall d, In d (filter high dayData) <-> In d dayData /\ highCM options d).
  { intros d. rewrite filter_In. unfold high, highCM. rewrite geb_true. tauto. }
  assert (Hfs : StronglySorted
                  (fun a b => (DayFertilityData.date a < DayFertilityData.date b)%Z)
                  (filter high dayData))
    by (apply StronglySorted_filter; exact Hsorted).
  assert (Hunfold :
            Symptoms.findFertileWindow tz dayData options
            = match filter DayFertilityData.hasOPKPositive dayData with
              | opkDay :: _ =>
                  Symptoms.mkWindow
                    (Some (Symptoms.addDays tz (DayFertilityData.date opkDay)
                                            (- Symptoms.daysBeforeOPK options)))
                    (Some (Symptoms.addDays tz (DayFertilityData.date opkDay)
                                            (Symptoms.daysAfterOPK options)))
                    (Some (Symptoms.addDays tz (DayFertilityData.date opkDay) 1))
              | [] =>
                  match filter high dayData with
                  | first :: _ =>
                      let peakDay :=
                        fold_left
                          (fun best day =>
                             if (DayFertilityData.cmScore best
                                 <? DayFertilityData.cmScore day)%Z
                             then day else best)
                          (filter high dayData) first in
                      Symptoms.mkWindow
                        (Some (DayFertilityData.date first))
                        (Some (Symptoms.addDays tz (DayFertilityData.date peakDay) 2))
                        (Some (Symptoms.addDays tz (DayFertilityData.date peakDay) 1))
                  | [] => Symptoms.noWindow
                  end
              end).
  { unfold Symptoms.findFertileWindow. destruct dayData as [|d0 ds]; [reflexivity|].
    fold high. destruct (filter DayFertilityData.hasOPKPositive (d0 :: ds)); [|reflexivity].
    destruct (filter high (d0 :: ds)); reflexivity. }
  rewrite Hunfold. clear Hunfold.
  destruct (filter DayFertilityData.hasOPKPositive dayData) as [|opkDay ?]; [|reflexivity].
  split.
  - intros Hnone. destruct (filter high dayData) as [|first rest] eqn:E; [reflexivity|].
    exfalso. apply (Hnone first); apply (Hhigh first); left; reflexivity.
  - intros (d & Hd & Hq).
    destruct (filter high dayData) as [|first rest] eqn:E.
    { destruct (proj2 (Hhigh d) (conj Hd Hq)). }
    cbv zeta.
    destruct (fold_cm_max (first :: rest) first) as (H1 & H2 & H3). cbn zeta in H1, H2, H3.
    set (peakDay := fold_left _ (first :: rest) first) in *.
    assert (Hpeak : In peakDay (first :: rest)).
    { destruct H3 as [->|(l1 & l2 & -> & _)]; [left; reflexivity|].
      apply in_or_app. right. left. reflexivity. }
    exists first, peakDay.
    destruct (proj1 (Hhigh first) (or_introl eq_refl)) as [Hf1 Hf2].
    destruct (proj1 (Hhigh peakDay) Hpeak) as [Hp1 Hp2].
    repeat split; try assumption.
    + assert (Hin : In d0 (first :: rest)) by (apply Hhigh; split; assumption).
      destruct Hin as [<-|Hin]; [lia|].
      apply StronglySorted_inv in Hfs. destruct Hfs as [_ Hall].
        rewrite Forall_forall in Hall.
      specialize (Hall d0 Hin). lia.
    + apply H2. apply Hhigh. split; assumption.
    + intros Hlt.
      assert (Hin : In d0 (first :: rest)) by (apply Hhigh; split; assumption).
      destruct H3 as [Hr|(l1 & l2 & Hl & _ & Hall)].
      * exfalso. rewrite Hr in Hlt.
        destruct Hin as [<-|Hin]; [lia|].
        apply StronglySorted_inv in Hfs. destruct Hfs as [_ Hall].
        rewrite Forall_forall in Hall.
        specialize (Hall d0 Hin). lia.
      * apply Hall. rewrite Hl in Hfs, Hin.
        apply (sorted_before DayFertilityData.date l1 l2 peakDay d0 Hfs Hin Hlt).
Qed.

Lemma predictFromSymptoms_some (observations : list Observation.t)
    (cycleStartDate : option Z) (options : SymptomPredictorOptions.t) (w : World.t)
    (p : Prediction.t) :
  fst (Symptoms.predictFromSymptoms observations cycleStartDate options w) = Some p ->
  let opts := Symptoms.mergeOptions options in
  let relevant := filter Symptoms.isRelevant observations in
  let dayData := Symptoms.analyzeDays relevant opts in
  let window := Symptoms.findFertileWindow (World.tz w) dayData opts in
  relevant <> []
  /\ Symptoms.start window = Some (Prediction.fertileStart p)
  /\ Symptoms.end_ window = Some (Prediction.fertileEnd p)
  /\ Prediction.ovulationDate p = Symptoms.peak window
  /\ Prediction.source p = "fertility-friend"
  /\ Prediction.cycleId p = None
  /\ Prediction.confidence p
     = Some (IZR (Symptoms.calculateConfidence dayData
                    (existsb DayFertilityData.hasOPKPositive dayData)
                    (existsb (fun d => Js.geb (IZR (DayFertilityData.cmScore d))
                                              (Symptoms.minCMScore opts)) dayData))).
Proof.
  intros H opts relevant dayData window.
  unfold Symptoms.predictFromSymptoms in H. unfold bind at 1, timeZone in H.
  cbv zeta in H.
  change (filter Symptoms.isRelevant observations) with relevant in H.
  change (Symptoms.mergeOptions options) with opts in H.
  change (Symptoms.analyzeDays relevant opts) with dayData in H.
  change (Symptoms.findFertileWindow (World.tz w) dayData opts) with window in H.
  destruct relevant as [|o0 os] eqn:Er; [discriminate|].
  destruct (Symptoms.start window) as [s|]; [|discriminate].
  destruct (Symptoms.end_ window) as [e|]; [|discriminate].
  unfold bind, getTimestamp, generateId, ret in H. cbn [fst] in H.
  inversion H. cbn. repeat split. discriminate.
Qed.

Lemma firstOPKOn_In (k : Z) (observations : list Observation.t) (v : OPKResult) :
  firstOPKOn k observations = Some v ->
  exists o brand, In o observations /\ Observation.date o = k
                  /\ Observation.body o = OPKValue v brand.
Proof.
  unfold firstOPKOn.
  destruct (find _ observations) as [o|] eqn:E; [|discriminate].
  apply find_some in E. destruct E as [Hin Hc].
  apply andb_prop in Hc. destruct Hc as [Hd _]. apply Z.eqb_eq in Hd.
  destruct (Observation.body o) as [?|? ?|v' b|? ?] eqn:Hb; try discriminate.
  intros H. inversion H; subst v'. exists o, b. auto.
Qed.

Lemma filter_none {A : Type} (f : A -> bool) (l : list A) :
  (forall x, In x l -> f x = false) -> filter f l = [].
Proof.
  induction l as [|x l IH]; intros H; [reflexivity|]. simpl.
  rewrite (H x (or_introl eq_refl)). apply IH. intros y Hy. apply H. right. exact Hy.
Qed.

Lemma no_positive_days (observations : list Observation.t) (options : Symptoms.Options) :
  (forall o brand, In o observations ->
                   Observation.body o <> OPKValue opk_positive brand) ->
  filter DayFertilityData.hasOPKPositive (Symptoms.analyzeDays observations options) = [].
Proof.
  intros Hno. apply filter_none. intros d Hd.
  destruct (DayFertilityData.hasOPKPositive d) eqn:Hflag; [|reflexivity].
  apply analyzeDays_In in Hd. destruct Hd as (k & _ & ->).
  apply analyzeDay_flag in Hflag. apply firstOPKOn_In in Hflag.
  destruct Hflag as (o & brand & Hin & _ & Hb). destruct (Hno o brand Hin Hb).
Qed.

Lemma analyzeDay_cm (options : Symptoms.Options) (observations : list Observation.t) (k : Z) :
  let d := Symptoms.analyzeDay options (k, onDate k observations) in
  DayFertilityData.cmScore d = 0%Z
  \/ exists o v, In o observations /\ Observation.date o = k
                 /\ Observation.body o = CMValue v
                 /\ DayFertilityData.cmScore d = Symptoms.CM_FERTILITY_SCORES v.
Proof.
  unfold Symptoms.analyzeDay. cbn zeta. cbn [DayFertilityData.cmScore].
  destruct (find (Symptoms.isType ty_cervical_mucus) (onDate k observations)) as [o|] eqn:E;
    [|left; reflexivity].
  apply find_some in E. destruct E as [Hin _].
  unfold onDate in Hin. apply filter_In in Hin. destruct Hin as [Hin Hd].
  apply Z.eqb_eq in Hd.
  destruct (Observation.body o) as [v|? ?|? ?|? ?] eqn:Hb; try (left; reflexivity).
  right. exists o, v. auto.
Qed.

(** X15.  Without a positive OPK observation the symptom window rests on
    cervical mucus: there is none when no day's mucus score reaches
    [minCMScore]; otherwise it starts on the earliest such day, and, on a
    host whose time zone keeps one offset from UTC, ends two days after the
    peak day, the earliest of those days that has the highest score, with
    ovulation placed on the day after the peak. *)
Theorem cm_window_spec (tz : Host.TimeZone) (observations : list Observation.t)
    (options : Symptoms.Options) :
  (forall o brand, In o observations ->
                   Observation.body o <> OPKValue opk_positive brand) ->
  let dayData := Symptoms.analyzeDays observations options in
  ((forall d, In d dayData -> ~ highCM options d) ->
   Symptoms.findFertileWindow tz dayData options = Symptoms.noWindow)
  /\ ((exists d, In d dayData /\ highCM options d) ->
      exists first peakDay,
        In first dayData /\ highCM options first
        /\ In peakDay dayData /\ highCM options peakDay
        /\ (forall d, In d dayData -> highCM options d ->
              (DayFertilityData.date first <= DayFertilityData.date d)%Z
              /\ (DayFertilityData.cmScore d <= DayFertilityData.cmScore peakDay)%Z
              /\ ((DayFertilityData.date d < DayFertilityData.date peakDay)%Z ->
                  (DayFertilityData.cmScore d < DayFertilityData.cmScore peakDay)%Z))
        /\ Symptoms.start (Symptoms.findFertileWindow tz dayData options)
           = Some (DayFertilityData.date first)
        /\ (fixedOffset tz ->
            Symptoms.findFertileWindow tz dayData options
            = Symptoms.mkWindow
                (Some (DayFertilityData.date first))
                (Some (DayFertilityData.date peakDay + 2)%Z)
                (Some (DayFertilityData.date peakDay + 1)%Z))).
Proof.
  intros Hno dayData.
  pose proof (symptoms_window_shape tz dayData options
                (analyzeDays_strict observations options)) as H.
  unfold dayData in H. rewrite (no_positive_days observations options Hno) in H.
  destruct H as [Hnone Hsome]. split; [exact Hnone|].
  intros Hex. destruct (Hsome Hex) as (first & peakDay & Hf1 & Hf2 & Hp1 & Hp2 & Hall & Hw).
  exists first, peakDay. repeat (split; [assumption|]).
  unfold dayData. rewrite Hw. split; [reflexivity|].
  intros Hfix. rewrite !(addDays_fixed _ _ _ Hfix). reflexivity.
Qed.

Lemma mucus_high :
  exists d, In d (Symptoms.analyzeDays mucus Symptoms.DEFAULT_OPTIONS)
            /\ highCM Symptoms.DEFAULT_OPTIONS d.
Proof.
  exists (Symptoms.analyzeDay Symptoms.DEFAULT_OPTIONS (20131%Z, onDate 20131 mucus)).
  split.
  - apply analyzeDays_In. exists 20131%Z. split; [discriminate|reflexivity].
  - unfold highCM. simpl. lra.
Qed.

Lemma mucus_no_opk (o : Observation.t) (brand : option string) :
  In o mucus -> Observation.body o <> OPKValue opk_positive brand.
Proof. intros [<-|[<-|[<-|[]]]]; discriminate. Qed.

Lemma cm_window_spec_witness :
  exists first peakDay,
    Symptoms.findFertileWindow Host.utc
      (Symptoms.analyzeDays mucus Symptoms.DEFAULT_OPTIONS) Symptoms.DEFAULT_OPTIONS
    = Symptoms.mkWindow (Some (DayFertilityData.date first))
                        (Some (DayFertilityData.date peakDay + 2)%Z)
                        (Some (DayFertilityData.date peakDay + 1)%Z).
Proof.
  destruct (proj2 (cm_window_spec Host.utc mucus Symptoms.DEFAULT_OPTIONS mucus_no_opk)
                  mucus_high)
    as (first & peakDay & _ & _ & _ & _ & _ & _ & Hw).
  exists first, peakDay. exact (Hw fixedOffset_utc).
Defined.

Lemma low_mucus_days (observations : list Observation.t) (options : Symptoms.Options) :
  0 < Symptoms.minCMScore options ->
  (forall o v, In o observations -> Observation.body o = CMValue v ->
               IZR (Symptoms.CM_FERTILITY_SCORES v) < Symptoms.minCMScore options) ->
  forall d, In d (Symptoms.analyzeDays observations options) -> ~ highCM options d.
Proof.
  intros Hmin Hlow d Hd Hhigh. unfold highCM in Hhigh.
  apply analyzeDays_In in Hd. destruct Hd as (k & _ & ->).
  destruct (analyzeDay_cm options observations k) as [H0|(o & v & Hin & _ & Hb & Hs)].
  - rewrite H0 in Hhigh. lra.
  - rewrite Hs in Hhigh. specialize (Hlow o v Hin Hb). lra.
Qed.

(** X16.  [predictFromSymptoms] makes no prediction, and draws no
    identifier, when [minCMScore] is positive, no OPK observation is
    positive and every cervical-mucus observation scores below
    [minCMScore]: temperature readings and other symptoms alone never yield
    a window. *)
Theorem predictFromSymptoms_none (observations : list Observation.t)
    (cycleStartDate : option Z) (options : SymptomPredictorOptions.t) (w : World.t) :
  let opts := Symptoms.mergeOptions options in
  0 < Symptoms.minCMScore opts ->
  (forall o brand, In o observations ->
                   Observation.body o <> OPKValue opk_positive brand) ->
  (forall o v, In o observations -> Observation.body o = CMValue v ->
               IZR (Symptoms.CM_FERTILITY_SCORES v) < Symptoms.minCMScore opts) ->
  Symptoms.predictFromSymptoms observations cycleStartDate options w = (None, w).
Proof.
  intros opts Hmin Hno Hlow.
  set (relevant := filter Symptoms.isRelevant observations).
  assert (Hsub : forall o, In o relevant -> In o observations).
  { intros o Ho. unfold relevant in Ho. apply filter_In in Ho. tauto. }
  assert (Hw : Symptoms.findFertileWindow (World.tz w)
                 (Symptoms.analyzeDays relevant opts) opts
               = Symptoms.noWindow).
  { pose proof (symptoms_window_shape (World.tz w) (Symptoms.analyzeDays relevant opts) opts
                  (analyzeDays_strict relevant opts)) as H.
    rewrite (no_positive_days relevant opts) in H
      by (intros o brand Ho; apply Hno, Hsub, Ho).
    apply (proj1 H). apply low_mucus_days; [exact Hmin|].
    intros o v Ho. apply Hlow, Hsub, Ho. }
  unfold Symptoms.predictFromSymptoms, bind, timeZone. cbv zeta.
  change (filter Symptoms.isRelevant observations) with relevant.
  change (Symptoms.mergeOptions options) with opts.
  rewrite Hw. destruct relevant; reflexivity.
Qed.

Lemma predictFromSymptoms_none_witness :
  Symptoms.predictFromSymptoms
    [cmTest 20130 cm_creamy; opkTest 20130 opk_negative] None
    SymptomPredictorOptions.empty morning
  = (None, morning).
Proof.
  apply predictFromSymptoms_none.
  - simpl. lra.
  - intros o brand [<-|[<-|[]]]; discriminate.
  - intros o v [<-|[<-|[]]] Hb; inversion Hb; subst; simpl; lra.
Defined.

Lemma calculateConfidence_bounds (dayData : list DayFertilityData.t) (hasOPK hasCM : bool) :
  (40 <= Symptoms.calculateConfidence dayData hasOPK hasCM <= 95)%Z
  /\ ((hasOPK || hasCM)%bool = true ->
      (55 <= Symptoms.calculateConfidence dayData hasOPK hasCM)%Z).
Proof.
  unfold Symptoms.calculateConfidence.
  destruct hasOPK, hasCM, (10 <=? List.length dayData)%nat, (5 <=? List.length dayData)%nat;
    simpl; split; try lia; intros; try discriminate; lia.
Qed.

Lemma filter_existsb {A : Type} (f : A -> bool) (l : list A) (x : A) (rest : list A) :
  filter f l = x :: rest -> existsb f l = true.
Proof.
  intros H. apply existsb_exists. exists x.
  apply filter_In. rewrite H. left. reflexivity.
Qed.

(** X17.  Every prediction [predictFromSymptoms] returns is tagged
    [fertility-friend], has a confidence between 55 and 95 and an ovulation
    date; with OPK margins of at least one day after and minus one day
    before (the defaults are 2 and 2) that date lies within the fertile
    window. *)
Theorem symptom_prediction_shape (observations : list Observation.t)
    (cycleStartDate : option Z) (options : SymptomPredictorOptions.t) (w : World.t)
    (p : Prediction.t) :
  fst (Symptoms.predictFromSymptoms observations cycleStartDate options w) = Some p ->
  let opts := Symptoms.mergeOptions options in
  Prediction.source p = "fertility-friend"
  /\ (exists c : Z, Prediction.confidence p = Some (IZR c) /\ (55 <= c <= 95)%Z)
  /\ exists ov,
       Prediction.ovulationDate p = Some ov
       /\ ((-1 <= Symptoms.daysBeforeOPK opts)%Z -> (1 <= Symptoms.daysAfterOPK opts)%Z ->
           (Prediction.fertileStart p <= ov <= Prediction.fertileEnd p)%Z).
Proof.
  intros H opts.
  destruct (predictFromSymptoms_some observations cycleStartDate options w p H)
    as (_ & Hs & He & Hov & Hsrc & _ & Hc).
  fold opts in Hs, He, Hov, Hc.
  set (relevant := filter Symptoms.isRelevant observations) in *.
  set (dayData := Symptoms.analyzeDays relevant opts) in *.
  set (high := fun d => Js.geb (IZR (DayFertilityData.cmScore d))
                               (Symptoms.minCMScore opts)) in *.
  pose proof (symptoms_window_shape (World.tz w) dayData opts
                (analyzeDays_strict relevant opts)) as Hshape.
  clearbody opts.
  split; [exact Hsrc|].
  destruct (calculateConfidence_bounds dayData
              (existsb DayFertilityData.hasOPKPositive dayData) (existsb high dayData))
    as [Hb1 Hb2].
  destruct (filter DayFertilityData.hasOPKPositive dayData) as [|opkDay rest] eqn:Ef.
  - destruct Hshape as [Hnone Hsome].
    destruct (existsb high dayData) eqn:Eh.
    + split.
      * eexists. split; [exact Hc|]. split; [|lia].
        apply Hb2. apply orb_true_r.
      * apply existsb_exists in Eh. destruct Eh as (d & Hd & Hq).
        apply geb_true in Hq.
        destruct (Hsome (ex_intro _ d (conj Hd Hq)))
          as (first & peakDay & Hf1 & Hf2 & Hp1 & Hp2 & Hall & Hw).
        rewrite Hw in Hs, He, Hov. cbn [Symptoms.start Symptoms.end_ Symptoms.peak] in Hs, He, Hov.
        injection Hs as Hs. injection He as He. eexists. split; [exact Hov|].
        intros _ _. destruct (Hall peakDay Hp1 Hp2) as [Hle _].
        pose proof (addDays_forward (World.tz w) (DayFertilityData.date peakDay) 1
                      ltac:(lia)).
        pose proof (addDays_monotone (World.tz w) (DayFertilityData.date peakDay) 1 2
                      ltac:(lia)).
        lia.
    + exfalso. rewrite Hnone in Hs; [discriminate|].
      intros d Hd Hq.
      assert (Ht : existsb high dayData = true).
      { apply existsb_exists. exists d. split; [exact Hd|]. apply geb_true. exact Hq. }
      rewrite Eh in Ht. discriminate.
  - split.
    + eexists. split; [exact Hc|]. split; [|lia].
      apply Hb2. rewrite (filter_existsb _ _ _ _ Ef). reflexivity.
    + rewrite Hshape in Hs, He, Hov. cbn [Symptoms.start Symptoms.end_ Symptoms.peak] in Hs, He, Hov.
      injection Hs as Hs. injection He as He. eexists. split; [exact Hov|]. intros Hb Ha.
      pose proof (addDays_monotone (World.tz w) (DayFertilityData.date opkDay)
                    (- Symptoms.daysBeforeOPK opts) 1 ltac:(lia)).
      pose proof (addDays_monotone (World.tz w) (DayFertilityData.date opkDay)
                    1 (Symptoms.daysAfterOPK opts) ltac:(lia)).
      lia.
Qed.

Lemma pivot_predicted :
  exists p, fst (Symptoms.predictFromSymptoms pivot None SymptomPredictorOptions.empty
                   morning) = Some p.
Proof.
  destruct (proj2 (opk_window Host.utc pivot Symptoms.DEFAULT_OPTIONS)) as (D & _ & _ & Hw).
  - exists (Symptoms.analyzeDay Symptoms.DEFAULT_OPTIONS (20131%Z, onDate 20131 pivot)).
    split; [|reflexivity].
    apply (analyzeDays_In pivot Symptoms.DEFAULT_OPTIONS).
    exists 20131%Z. split; [discriminate|reflexivity].
  - destruct (predictFromSymptoms_window pivot None SymptomPredictorOptions.empty morning
                _ _ _ (fun H => ltac:(discriminate H)) Hw) as (p & Hp & _).
    exists p. exact Hp.
Qed.

Lemma symptom_prediction_shape_witness :
  exists p,
    fst (Symptoms.predictFromSymptoms pivot None SymptomPredictorOptions.empty morning)
    = Some p
    /\ Prediction.source p = "fertility-friend".
Proof.
  destruct pivot_predicted as [p Hp]. exists p. split; [exact Hp|].
  apply (symptom_prediction_shape pivot None SymptomPredictorOptions.empty morning p Hp).
Defined.

(** ** The temperature shift *)

Lemma detectBBTShift_unfold (observations : list BBTObservation.t) :
  Symptoms.detectBBTShift observations
  = if (List.length observations <? 6)%nat then None
    else Symptoms.shiftLoop (bbtBaseline observations)
                            (skipn 6 (sortedByDate observations)).
Proof. reflexivity. Qed.

Lemma shiftLoop_short (baselineAvg : R) (days : list BBTObservation.t) :
  (List.length days <= 2)%nat -> Symptoms.shiftLoop baselineAvg days = None.
Proof.
  destruct days as [|d1 [|d2 [|d3 rest]]]; simpl; intros H; try reflexivity; lia.
Qed.

Lemma sortedByDate_length (observations : list BBTObservation.t) :
  List.length (sortedByDate observations) = List.length observations.
Proof. apply Permutation_length, sort_perm. Qed.

(** X18.  [detectBBTShift] reports no shift for fewer than nine readings:
    the six earliest readings only set the baseline, and a rise needs three
    readings after them. *)
Theorem detectBBTShift_needs_nine (observations : list BBTObservation.t) :
  (List.length observations < 9)%nat -> Symptoms.detectBBTShift observations = None.
Proof.
  intros Hlen. rewrite detectBBTShift_unfold.
  destruct (List.length observations <? 6)%nat; [reflexivity|].
  apply shiftLoop_short. rewrite length_skipn, sortedByDate_length. lia.
Qed.

Lemma detectBBTShift_needs_nine_witness :
  Symptoms.detectBBTShift (firstn 8 chart) = None.
Proof. apply detectBBTShift_needs_nine. simpl. lia. Defined.

Lemma shiftLoop_some (baselineAvg : R) (days : list BBTObservation.t) :
  forall shift,
    Symptoms.shiftLoop baselineAvg days = Some shift ->
    exists pre d1 d2 d3 post,
      days = pre ++ d1 :: d2 :: d3 :: post
      /\ shift = Symptoms.mkShift (BBTObservation.date d1) true
      /\ elevated (baselineAvg + 0.2) d1 d2 d3
      /\ forall pre' x1 x2 x3 post',
           days = pre' ++ x1 :: x2 :: x3 :: post' ->
           (List.length pre' < List.length pre)%nat ->
           ~ elevated (baselineAvg + 0.2) x1 x2 x3.
Proof.
  induction days as [|d1 rest IH]; intros shift H; [discriminate|].
  destruct rest as [|d2 [|d3 tl]]; try discriminate.
  cbn [Symptoms.shiftLoop] in H. cbv zeta in H.
  destruct (Js.geb (BBTObservation.value d1) (baselineAvg + 0.2)
            && Js.geb (BBTObservation.value d2) (baselineAvg + 0.2)
            && Js.geb (BBTObservation.value d3) (baselineAvg + 0.2))%bool eqn:Et.
  - inversion H; subst shift.
    apply andb_prop in Et. destruct Et as [Et E3].
    apply andb_prop in Et. destruct Et as [E1 E2].
    apply geb_true in E1, E2, E3.
    exists [], d1, d2, d3, tl. repeat split; try assumption.
    intros pre' x1 x2 x3 post' _ Hl. simpl in Hl. lia.
  - destruct (IH shift H) as (pre & e1 & e2 & e3 & post & Hd & Hs & He & Hmin).
    exists (d1 :: pre), e1, e2, e3, post.
    split; [simpl; rewrite Hd; reflexivity|]. split; [exact Hs|]. split; [exact He|].
    intros pre' x1 x2 x3 post' Hd' Hl.
    destruct pre' as [|y pre''].
    + simpl in Hd'. inversion Hd'; subst x1 x2 x3 post'.
      intros (G1 & G2 & G3). apply geb_true in G1, G2, G3.
      rewrite G1, G2, G3 in Et. discriminate.
    + simpl in Hd'. inversion Hd' as [[Hy Hrest]].
      apply (Hmin pre'' x1 x2 x3 post' Hrest). simpl in Hl. lia.
Qed.

Lemma sorted_app_le {A : Type} (f : A -> R) (five : list A) (hi : A) :
  StronglySorted (fun a b => f a <= f b) (five ++ [hi]) ->
  forall o, In o five -> f o <= f hi.
Proof.
  induction five as [|y five IH]; intros Hs o Ho; [destruct Ho|].
  simpl in Hs. apply StronglySorted_inv in Hs. destruct Hs as [Hs Hall].
  destruct Ho as [<-|Ho]; [|apply IH; assumption].
  rewrite Forall_forall in Hall. apply Hall.
  apply in_or_app. right. left. reflexivity.
Qed.

Lemma baseline_spec (observations : list BBTObservation.t) :
  (6 <= List.length observations)%nat ->
  let six := firstn 6 (sortedByDate observations) in
  exists five hi,
    Permutation (five ++ [hi]) six
    /\ List.length five = 5%nat
    /\ StronglySorted (fun a b => BBTObservation.value a <= BBTObservation.value b) five
    /\ (forall o, In o five -> BBTObservation.value o <= BBTObservation.value hi)
    /\ bbtBaseline observations
       = fold_left (fun sum o => sum + BBTObservation.value o) five 0 / 5.
Proof.
  intros Hlen six. unfold bbtBaseline, Js.slice.
  change (skipn 0 (firstn 6 (sortedByDate observations))) with six.
  set (byValue := Js.sort (fun a b => BBTObservation.value a - BBTObservation.value b) six).
  change (skipn 0 (firstn 5 byValue)) with (firstn 5 byValue).
  assert (Hsix : List.length six = 6%nat).
  { unfold six. rewrite length_firstn, sortedByDate_length. lia. }
  assert (Hperm : Permutation byValue six) by apply sort_perm.
  assert (Hbv : List.length byValue = 6%nat).
  { rewrite (Permutation_length Hperm). exact Hsix. }
  assert (Hsorted : StronglySorted
                      (fun a b => BBTObservation.value a <= BBTObservation.value b) byValue).
  { apply (sort_sorted _ BBTObservation.value). intros a b. reflexivity. }
  assert (Hsplit : byValue = firstn 5 byValue ++ skipn 5 byValue)
    by (symmetry; apply firstn_skipn).
  destruct (skipn 5 byValue) as [|hi [|? ?]] eqn:Esk.
  - apply (f_equal (@List.length _)) in Esk. rewrite length_skipn, Hbv in Esk.
    simpl in Esk. lia.
  - exists (firstn 5 byValue), hi.
    rewrite Hsplit in Hsorted.
    split; [rewrite <- Hsplit; exact Hperm|].
    split; [rewrite length_firstn, Hbv; reflexivity|].
    split; [apply (StronglySorted_app _ _ _ Hsorted)|].
    split; [apply (sorted_app_le BBTObservation.value), Hsorted|reflexivity].
  - apply (f_equal (@List.length _)) in Esk. rewrite length_skipn, Hbv in Esk.
    simpl in Esk. lia.
Qed.

(** X19.  For readings between 0 and 200 degrees: when [detectBBTShift]
    reports a shift it is confirmed, and its date is that of the first of
    three readings in a row, in date order and after the six earliest ones;
    these three lie 0.2 above the baseline, to within a millionth of a
    degree, and no three readings in a row before them, after the six
    earliest, all lie more than a millionth of a degree above that level.
    The baseline is the sum of the five lowest of the six earliest
    readings, taken in ascending order, divided by 5. *)
Theorem detectBBTShift_sound (observations : list BBTObservation.t)
    (shift : Symptoms.Shift) :
  (forall o, In o observations -> 0 <= BBTObservation.value o <= 200) ->
  Symptoms.detectBBTShift observations = Some shift ->
  let threshold := bbtBaseline observations + 0.2 in
  let six := firstn 6 (sortedByDate observations) in
  (exists five hi,
     Permutation (five ++ [hi]) six
     /\ List.length five = 5%nat
     /\ StronglySorted (fun a b => BBTObservation.value a <= BBTObservation.value b) five
     /\ (forall o, In o five -> BBTObservation.value o <= BBTObservation.value hi)
     /\ bbtBaseline observations
        = fold_left (fun sum o => sum + BBTObservation.value o) five 0 / 5)
  /\ exists pre d1 d2 d3 post,
       sortedByDate observations = pre ++ d1 :: d2 :: d3 :: post
       /\ (6 <= List.length pre)%nat
       /\ shift = Symptoms.mkShift (BBTObservation.date d1) true
       /\ elevated (threshold - 0.000001) d1 d2 d3
       /\ forall pre' x1 x2 x3 post',
            sortedByDate observations = pre' ++ x1 :: x2 :: x3 :: post' ->
            (6 <= List.length pre' < List.length pre)%nat ->
            ~ elevated (threshold + 0.000001) x1 x2 x3.
Proof.
  intros _ H threshold six. rewrite detectBBTShift_unfold in H.
  destruct (Nat.ltb_spec (List.length observations) 6) as [|Hlen]; [discriminate|].
  split; [apply baseline_spec; exact Hlen|].
  destruct (shiftLoop_some _ _ shift H) as (pre & d1 & d2 & d3 & post & Hd & Hs & He & Hmin).
  assert (Hsix : List.length six = 6%nat).
  { unfold six. rewrite length_firstn, sortedByDate_length. lia. }
  exists (six ++ pre), d1, d2, d3, post.
  split.
  { rewrite <- app_assoc, <- Hd. symmetry. apply firstn_skipn. }
  split; [rewrite length_app; lia|]. split; [exact Hs|]. split.
  { destruct He as (E1 & E2 & E3). unfold elevated, threshold. repeat split; lra. }
  intros pre' x1 x2 x3 post' Hd' Hl (G1 & G2 & G3). rewrite length_app, Hsix in Hl.
  apply (Hmin (skipn 6 pre') x1 x2 x3 post').
  - rewrite Hd' at 1. rewrite skipn_app.
    replace (6 - List.length pre')%nat with 0%nat by lia. reflexivity.
  - rewrite length_skipn. lia.
  - unfold elevated, threshold in *. repeat split; lra.
Qed.

Lemma chart_sorted : sortedByDate chart = chart.
Proof.
  apply (sort_id _ (fun x => Dates.getTime (BBTObservation.date x)));
    [intros a b; reflexivity|].
  unfold chart.
  repeat (apply SSorted_cons || apply SSorted_nil || apply Forall_cons || apply Forall_nil);
    apply getTime_le; simpl; lia.
Qed.

Lemma chart_baseline : bbtBaseline chart = 97.0.
Proof.
  unfold bbtBaseline. rewrite chart_sorted.
  change (Js.slice 0 6 chart) with (firstn 6 chart).
  rewrite (sort_id _ BBTObservation.value); [|intros a b; reflexivity|].
  - unfold chart, Js.slice. simpl. lra.
  - unfold chart. simpl.
    repeat (apply SSorted_cons || apply SSorted_nil || apply Forall_cons || apply Forall_nil);
      simpl; lra.
Qed.

Lemma chart_shift :
  Symptoms.detectBBTShift chart = Some (Symptoms.mkShift 20126 true).
Proof.
  rewrite detectBBTShift_unfold, chart_baseline, chart_sorted.
  unfold chart. simpl. unfold Js.geb.
  destruct (Rge_dec 97.5 (97.0 + 0.2)) as [_|Hn]; [reflexivity|]. exfalso. lra.
Qed.

Lemma chart_range (o : BBTObservation.t) :
  In o chart -> 0 <= BBTObservation.value o <= 200.
Proof.
  unfold chart. intros H.
  repeat (destruct H as [<-|H]; [simpl; lra|]). destruct H.
Qed.

Lemma detectBBTShift_sound_witness :
  exists pre d1 d2 d3 post,
    sortedByDate chart = pre ++ d1 :: d2 :: d3 :: post
    /\ (6 <= List.length pre)%nat
    /\ Symptoms.mkShift 20126 true = Symptoms.mkShift (BBTObservation.date d1) true
    /\ elevated (bbtBaseline chart + 0.2 - 0.000001) d1 d2 d3.
Proof.
  destruct (detectBBTShift_sound chart (Symptoms.mkShift 20126 true) chart_range chart_shift)
    as (_ & pre & d1 & d2 & d3 & post & Hd & Hl & Hs & He & _).
  exists pre, d1, d2, d3, post. auto.
Defined.

(** ** The CSV import: rows, errors and warnings *)

Section ImportRows.

Variable dateParse : string -> option string.
Variable parseFloat : string -> option R.
Variable showNumber : R -> string.

Lemma parseDate_error_shape (dateStr : string) (rowNum : nat) (e : ImportError.t) :
  FFImport.error (FFImport.parseDate dateParse dateStr rowNum) = Some e ->
  ImportError.field e = "Date" /\ ImportError.row e = rowNum.
Proof.
  unfold FFImport.parseDate.
  destruct (FFImport.blank (Some dateStr)).
  - simpl. intros H. inversion H. auto.
  - destruct (Str.matchISO _); [discriminate|].
    destruct (Str.matchSlashDate _) as [[[a b] y]|]; [discriminate|].
    destruct (dateParse _); [discriminate|].
    simpl. intros H. inversion H. auto.
Qed.

Lemma parseTemp_warning_shape (tempStr : option string) (rowNum : nat) (w : ImportError.t) :
  FFImport.warning (FFImport.parseTemp parseFloat showNumber tempStr rowNum) = Some w ->
  ImportError.field w = "Temp" /\ ImportError.row w = rowNum.
Proof.
  unfold FFImport.parseTemp.
  destruct tempStr as [s|]; [|discriminate].
  destruct (FFImport.blank (Some s)); [discriminate|].
  destruct (parseFloat _) as [t|].
  - destruct (Js.ltb t 95 || Js.gtb t 101)%bool; [|discriminate].
    simpl. intros H. inversion H. auto.
  - simpl. intros H. inversion H. auto.
Qed.

Lemma parseRow_cases (row : ParsedCSVRow) (rowNum : nat) :
  (exists e,
     FFImport.parseRow dateParse parseFloat showNumber row rowNum
     = FFImport.mkRowResult None [e] []
     /\ ImportError.field e = "Date" /\ ImportError.row e = rowNum)
  \/ (exists o ws,
        FFImport.parseRow dateParse parseFloat showNumber row rowNum
        = FFImport.mkRowResult (Some o) [] ws
        /\ (List.length ws <= 1)%nat
        /\ forall w, In w ws -> ImportError.field w = "Temp" /\ ImportError.row w = rowNum).
Proof.
  unfold FFImport.parseRow. cbv zeta.
  destruct (FFImport.error (FFImport.parseDate dateParse _ rowNum)) as [e|] eqn:Ee.
  - left. exists e. split; [reflexivity|].
    apply (parseDate_error_shape _ _ _ Ee).
  - right. eexists. eexists. split; [reflexivity|].
    destruct (FFImport.warning (FFImport.parseTemp parseFloat showNumber _ rowNum))
      as [w|] eqn:Ew.
    + split; [simpl; lia|]. intros w' [<-|[]].
      apply (parseTemp_warning_shape _ _ _ Ew).
    + split; [simpl; lia|]. intros w' [].
Qed.

Lemma rowLoop_spec (rows : list ParsedCSVRow) :
  forall (i : nat) (acc : FFImport.Acc),
    let out := FFImport.rowLoop dateParse parseFloat showNumber rows i acc in
    FFImport.acc_observations out
    = FFImport.acc_observations acc
      ++ acceptedFrom dateParse parseFloat showNumber rows i
    /\ (exists errs,
          FFImport.acc_errors out = FFImport.acc_errors acc ++ errs
          /\ (List.length errs
              + List.length (acceptedFrom dateParse parseFloat showNumber rows i)
              = List.length rows)%nat
          /\ forall e, In e errs ->
                       ImportError.field e = "Date"
                       /\ (i + 2 <= ImportError.row e < i + 2 + List.length rows)%nat)
    /\ (exists warns,
          FFImport.acc_warnings out = FFImport.acc_warnings acc ++ warns
          /\ forall w, In w warns ->
                       ImportError.field w = "Temp"
                       /\ (i + 2 <= ImportError.row w < i + 2 + List.length rows)%nat).
Proof.
  induction rows as [|row rows IH]; intros i acc; cbn zeta.
  - simpl. rewrite app_nil_r. split; [reflexivity|]. split.
    + exists []. rewrite app_nil_r. split; [reflexivity|]. split; [reflexivity|intros e []].
    + exists []. rewrite app_nil_r. split; [reflexivity|intros e []].
  - cbn [FFImport.rowLoop acceptedFrom]. cbv zeta.
    set (acc' := FFImport.mkAcc _ _ _).
    destruct (IH (S i) acc') as (Hobs & (errs & Herr & Hcount & Hfield) & (warns & Hwarn & Hwf)).
    cbn zeta in Hobs, Herr, Hwarn.
    rewrite Hobs, Herr, Hwarn. unfold acc'.
    cbn [FFImport.acc_observations FFImport.acc_errors FFImport.acc_warnings].
    destruct (parseRow_cases row (i + 2)) as [(e & -> & Hf & Hr)|(o & ws & -> & Hlen & Hws)];
      cbn [FFImport.observation FFImport.errors FFImport.warnings].
    + split; [reflexivity|]. split.
      * exists (e :: errs). split; [rewrite <- app_assoc; reflexivity|].
        split; [simpl; simpl in Hcount; lia|].
        intros e' [<-|He']; [split; [exact Hf|simpl; lia]|].
        destruct (Hfield e' He'). split; [assumption|simpl; lia].
      * exists warns. rewrite app_nil_r. split; [reflexivity|].
        intros w Hw. destruct (Hwf w Hw). split; [assumption|simpl; lia].
    + split; [rewrite <- app_assoc; reflexivity|]. split.
      * exists errs. rewrite app_nil_r. split; [reflexivity|].
        split; [simpl; simpl in Hcount; lia|].
        intros e' He'. destruct (Hfield e' He'). split; [assumption|simpl; lia].
      * exists (ws ++ warns). split; [rewrite <- app_assoc; reflexivity|].
        intros w Hw. apply in_app_or in Hw. destruct Hw as [Hw|Hw].
        -- destruct (Hws w Hw). split; [assumption|simpl; lia].
        -- destruct (Hwf w Hw). split; [assumption|simpl; lia].
Qed.

(** X20.  [parseFFCSV] accounts for every data row exactly once: a row either
    becomes one observation or gives one error, so observations plus errors
    equal rows plus the parser's own errors.  Row errors are all about the
    [Date] field and carry a row number from 2 to the number of data rows
    plus 1 (the header line is counted); the import succeeds exactly when
    there is no error at all, whatever the warnings. *)
Theorem parseFFCSV_accounting (parsed : PapaResult.t) :
  let r := FFImport.parseFFCSV dateParse parseFloat showNumber parsed in
  (List.length (ImportResult.observations r) + List.length (ImportResult.errors r)
   = List.length (PapaResult.data parsed) + List.length (PapaResult.errors parsed))%nat
  /\ (ImportResult.success r = true <-> ImportResult.errors r = [])
  /\ (exists csvErrors rowErrors,
        ImportResult.errors r = csvErrors ++ rowErrors
        /\ List.length csvErrors = List.length (PapaResult.errors parsed)
        /\ (forall e, In e csvErrors -> ImportError.field e = "CSV")
        /\ forall e, In e rowErrors ->
                     ImportError.field e = "Date"
                     /\ (2 <= ImportError.row e < 2 + List.length (PapaResult.data parsed))%nat).
Proof.
  intros r. unfold r, FFImport.parseFFCSV. cbv zeta.
  set (csv := map _ (PapaResult.errors parsed)).
  destruct (rowLoop_spec (PapaResult.data parsed) 0 (FFImport.mkAcc csv [] []))
    as (Hobs & (errs & Herr & Hcount & Hfield) & _).
  cbn zeta in Hobs, Herr.
  cbn [ImportResult.observations ImportResult.errors ImportResult.success].
  rewrite Herr. cbn [FFImport.acc_errors].
  split; [|split].
  - rewrite (Permutation_length (sort_perm _ _)), Hobs.
    cbn [FFImport.acc_observations]. rewrite app_nil_l, length_app.
    unfold csv. rewrite length_map. lia.
  - rewrite Nat.eqb_eq. split.
    + intros H. destruct (csv ++ errs); [reflexivity|discriminate].
    + intros ->. reflexivity.
  - exists csv, errs. split; [reflexivity|]. split; [unfold csv; apply length_map|].
    split.
    + intros e He. unfold csv in He. apply in_map_iff in He.
      destruct He as (x & <- & _). reflexivity.
    + intros e He. destruct (Hfield e He). split; [assumption|lia].
Qed.

Lemma insert_sorted_total {A : Type} (cmp : A -> A -> R) (le : A -> A -> Prop) :
  (forall x y, cmp x y <= 0 -> le x y) ->
  (forall x y, ~ cmp x y <= 0 -> le y x) ->
  (forall x y z, le x y -> le y z -> le x z) ->
  forall x l, StronglySorted le l -> StronglySorted le (Js.insert cmp x l).
Proof.
  intros Hle Htot Htrans x l. induction 1 as [|y l Hs IH Hall]; simpl.
  - constructor; constructor.
  - rewrite Forall_forall in Hall.
    destruct (Rle_dec (cmp x y) 0) as [Hc|Hc].
    + constructor; [constructor; [exact Hs|apply Forall_forall; exact Hall]|].
      apply Forall_forall. intros z [<-|Hz]; [auto|].
      apply (Htrans x y z); auto.
    + constructor; [exact IH|].
      apply Forall_forall. intros z Hz.
      apply (Permutation_in _ (insert_perm cmp x l)) in Hz.
      destruct Hz as [<-|Hz]; auto.
Qed.

Lemma sort_sorted_total {A : Type} (cmp : A -> A -> R) (le : A -> A -> Prop) :
  (forall x y, cmp x y <= 0 -> le x y) ->
  (forall x y, ~ cmp x y <= 0 -> le y x) ->
  (forall x y z, le x y -> le y z -> le x z) ->
  forall l, StronglySorted le (Js.sort cmp l).
Proof.
  intros Hle Htot Htrans l. induction l as [|x l IH]; simpl; [constructor|].
  apply insert_sorted_total; assumption.
Qed.

Lemma dateLe_trans (a b c : string) : dateLe a b -> dateLe b c -> dateLe a c.
Proof.
  unfold dateLe. intros Hab Hbc.
  destruct (String.compare a b) eqn:E1; [| |contradiction].
  - apply OrderedTypeEx.String_as_OT.cmp_eq in E1. subst b. exact Hbc.
  - destruct (String.compare b c) eqn:E2; [| |contradiction].
    + apply OrderedTypeEx.String_as_OT.cmp_eq in E2. subst c. rewrite E1. discriminate.
    + apply OrderedTypeEx.String_as_OT.cmp_lt in E1, E2.
      pose proof (OrderedTypeEx.String_as_OT.lt_trans _ _ _ E1 E2) as H.
      apply OrderedTypeEx.String_as_OT.cmp_lt in H.
      unfold OrderedTypeEx.String_as_OT.cmp in H. rewrite H. discriminate.
Qed.

Lemma localeCompare_le (a b : string) : FFImport.localeCompare a b <= 0 <-> dateLe a b.
Proof.
  unfold FFImport.localeCompare, dateLe.
  destruct (String.compare a b); split; intros H; try lra; try discriminate.
  contradiction.
Qed.

Lemma dateLe_total (a b : string) : ~ dateLe a b -> dateLe b a.
Proof.
  unfold dateLe. intros H.
  pose proof (OrderedTypeEx.String_as_OT.cmp_antisym b a) as Ha.
  unfold OrderedTypeEx.String_as_OT.cmp in Ha. rewrite Ha.
  destruct (String.compare a b); try discriminate.
  exfalso. apply H. discriminate.
Qed.

(** X21.  The observations [parseFFCSV] returns are the accepted rows, all of
    them (rows with a repeated date included), rearranged in ascending order
    of their date strings. *)
Theorem parseFFCSV_sorted (parsed : PapaResult.t) :
  let r := FFImport.parseFFCSV dateParse parseFloat showNumber parsed in
  Permutation (ImportResult.observations r)
              (acceptedFrom dateParse parseFloat showNumber (PapaResult.data parsed) 0)
  /\ StronglySorted
       (fun a b => dateLe (FFRawObservation.date a) (FFRawObservation.date b))
       (ImportResult.observations r).
Proof.
  intros r. unfold r, FFImport.parseFFCSV. cbv zeta.
  cbn [ImportResult.observations].
  set (csv := map _ (PapaResult.errors parsed)).
  destruct (rowLoop_spec (PapaResult.data parsed) 0 (FFImport.mkAcc csv [] []))
    as (Hobs & _).
  cbn zeta in Hobs. rewrite Hobs. cbn [FFImport.acc_observations]. rewrite app_nil_l.
  split; [apply sort_perm|].
  apply sort_sorted_total.
  - intros x y H. apply localeCompare_le. exact H.
  - intros x y H. apply dateLe_total. intros H'. apply H, localeCompare_le, H'.
  - intros x y z. apply dateLe_trans.
Qed.

Lemma existsb_eqb_In (d : string) (seen : list string) :
  existsb (String.eqb d) seen = true <-> In d seen.
Proof.
  rewrite existsb_exists. split.
  - intros (x & Hx & He). apply String.eqb_eq in He. subst x. exact Hx.
  - intros H. exists d. split; [exact H|apply String.eqb_refl].
Qed.

Lemma duplicateWarnings_shape (observations : list FFRawObservation.t) :
  forall datesSeen w,
    In w (FFImport.duplicateWarnings datesSeen observations) ->
    ImportError.row w = 0%nat /\ ImportError.field w = "Date"
    /\ exists d, ImportError.value w = Some d
                 /\ In d (map FFRawObservation.date observations)
                 /\ (In d datesSeen
                     \/ (2 <= count_occ string_dec
                                        (map FFRawObservation.date observations) d)%nat).
Proof.
  induction observations as [|o rest IH]; intros seen w Hw; [destruct Hw|].
  cbn [FFImport.duplicateWarnings] in Hw. cbv zeta in Hw.
  apply in_app_or in Hw. destruct Hw as [Hw|Hw].
  - destruct (existsb _ seen) eqn:E; [|destruct Hw].
    destruct Hw as [<-|[]]. apply existsb_eqb_In in E.
    repeat split. exists (FFRawObservation.date o).
    split; [reflexivity|]. split; [left; reflexivity|]. left. exact E.
  - destruct (IH _ w Hw) as (Hr & Hf & d & Hv & Hin & Hcases).
    split; [exact Hr|]. split; [exact Hf|]. exists d.
    split; [exact Hv|]. split; [right; exact Hin|].
    cbn [map count_occ].
    destruct (string_dec (FFRawObservation.date o) d) as [Heq|Hne].
    + destruct Hcases as [[Hd|Hs]|Hc].
      * right. apply (count_occ_In string_dec) in Hin. lia.
      * left. exact Hs.
      * right. lia.
    + destruct Hcases as [[Hd|Hs]|Hc]; [contradiction|left; exact Hs|right; exact Hc].
Qed.

Lemma duplicateWarnings_nil (observations : list FFRawObservation.t) :
  forall datesSeen,
    FFImport.duplicateWarnings datesSeen observations = []
    <-> NoDup (map FFRawObservation.date observations)
        /\ forall d, In d (map FFRawObservation.date observations) -> ~ In d datesSeen.
Proof.
  induction observations as [|o rest IH]; intros seen.
  - simpl. split; [intros _; split; [constructor|intros d []]|reflexivity].
  - cbn [FFImport.duplicateWarnings map]. cbv zeta.
    destruct (existsb _ seen) eqn:E.
    + apply existsb_eqb_In in E. split; [discriminate|].
      intros [_ H]. exfalso. apply (H _ (or_introl eq_refl)). exact E.
    + assert (Hnot : ~ In (FFRawObservation.date o) seen).
      { intros H. apply existsb_eqb_In in H. rewrite H in E. discriminate. }
      rewrite app_nil_l, IH. split.
      * intros [Hnd Hall]. split.
        -- constructor; [|exact Hnd]. intros Hin. apply (Hall _ Hin). left. reflexivity.
        -- intros d [<-|Hd]; [exact Hnot|].
           intros Hs. apply (Hall d Hd). right. exact Hs.
      * intros [Hnd Hall]. inversion Hnd as [|? ? Hnotin Hnd']; subst. split; [exact Hnd'|].
        intros d Hd [<-|Hs]; [contradiction|].
        apply (Hall d (or_intror Hd)). exact Hs.
Qed.

(** X22.  The warnings of [parseFFCSV] are the temperature warnings of the
    rows followed by the duplicate-date warnings.  A duplicate-date warning
    has row 0 and names a date that at least two returned observations
    carry; there is none exactly when all returned observations have
    different dates.  Duplicates are reported, not removed. *)
Theorem parseFFCSV_duplicates (parsed : PapaResult.t) :
  let r := FFImport.parseFFCSV dateParse parseFloat showNumber parsed in
  let dates := map FFRawObservation.date (ImportResult.observations r) in
  exists tempWarnings dupWarnings,
    ImportResult.warnings r = tempWarnings ++ dupWarnings
    /\ (forall w, In w tempWarnings ->
                  ImportError.field w = "Temp" /\ (2 <= ImportError.row w)%nat)
    /\ (forall w, In w dupWarnings ->
                  ImportError.row w = 0%nat /\ ImportError.field w = "Date"
                  /\ exists d, ImportError.value w = Some d
                               /\ (2 <= count_occ string_dec dates d)%nat)
    /\ (dupWarnings = [] <-> NoDup dates).
Proof.
  intros r dates. unfold dates, r, FFImport.parseFFCSV. cbv zeta.
  cbn [ImportResult.observations ImportResult.warnings].
  set (csv := map _ (PapaResult.errors parsed)).
  destruct (rowLoop_spec (PapaResult.data parsed) 0 (FFImport.mkAcc csv [] []))
    as (_ & _ & (warns & Hwarn & Hwf)).
  cbn zeta in Hwarn. rewrite Hwarn. cbn [FFImport.acc_warnings]. rewrite app_nil_l.
  set (obs := Js.sort _ _).
  exists warns, (FFImport.duplicateWarnings [] obs).
  split; [reflexivity|]. split; [|split].
  - intros w Hw. destruct (Hwf w Hw). split; [assumption|lia].
  - intros w Hw.
    destruct (duplicateWarnings_shape obs [] w Hw) as (Hr & Hf & d & Hv & _ & [[]|Hc]).
    split; [exact Hr|]. split; [exact Hf|]. exists d. auto.
  - rewrite duplicateWarnings_nil. split; [tauto|].
    intros H. split; [exact H|]. intros d _ [].
Qed.

End ImportRows.

(** ** The CSV import: conversion to observations *)

Lemma convertOne_spec (timestamp : string) (raw : FFRawObservation.t) (date : Z)
    (w : World.t) :
  let res := FFImport.convertOne timestamp raw date w in
  List.length (fst res) = yields raw
  /\ snd res = World.mk (World.clock w) (World.uuids w)
                        (World.drawn w + List.length (fst res)) (World.tz w)
  /\ forall k o, nth_error (fst res) k = Some o ->
                 Observation.id o = World.uuids w (World.drawn w + k)
                 /\ Observation.createdAt o = timestamp
                 /\ Observation.updatedAt o = timestamp
                 /\ madeOf raw date o.
Proof.
  destruct w as [clock uuids drawn]. destruct raw as [d temp cm opk i notes].
  unfold FFImport.convertOne, yields, madeOf, bind, ret, generateId.
  destruct temp as [t|]; destruct cm as [[| | | | |]|]; destruct opk as [[| | |]|];
    cbn; (split; [reflexivity|]); (split; [f_equal; lia|]);
    intros k o Hk;
    destruct k as [|[|[|k]]]; cbn in Hk; try discriminate;
    try (destruct k; discriminate);
    injection Hk as Ho; rewrite <- Ho; cbn;
    repeat split; try (f_equal; lia);
    try (eexists; repeat split; discriminate).
Qed.

Lemma convertLoop_cons (dayNumber : string -> Z) (timestamp : string)
    (raw : FFRawObservation.t) (rest : list FFRawObservation.t) (w : World.t) :
  FFImport.convertLoop dayNumber timestamp (raw :: rest) w
  = let one := FFImport.convertOne timestamp raw
                 (dayNumber (FFRawObservation.date raw)) w in
    let others := FFImport.convertLoop dayNumber timestamp rest (snd one) in
    (fst one ++ fst others, snd others).
Proof.
  cbn [FFImport.convertLoop]. unfold bind, ret. cbv zeta.
  destruct (FFImport.convertOne timestamp raw _ w) as [here w1]. cbn [fst snd].
  destruct (FFImport.convertLoop dayNumber timestamp rest w1) as [others w2].
  reflexivity.
Qed.

Lemma convertLoop_spec (dayNumber : string -> Z) (timestamp : string)
    (raws : list FFRawObservation.t) :
  forall w,
    let res := FFImport.convertLoop dayNumber timestamp raws w in
    List.length (fst res) = list_sum (map yields raws)
    /\ snd res = World.mk (World.clock w) (World.uuids w)
                          (World.drawn w + List.length (fst res)) (World.tz w)
    /\ forall k o, nth_error (fst res) k = Some o ->
                   Observation.id o = World.uuids w (World.drawn w + k)
                   /\ Observation.createdAt o = timestamp
                   /\ Observation.updatedAt o = timestamp
                   /\ exists raw, In raw raws
                                  /\ madeOf raw (dayNumber (FFRawObservation.date raw)) o.
Proof.
  induction raws as [|raw rest IH]; intros w; cbn zeta.
  - simpl. split; [reflexivity|]. split.
    + destruct w. simpl. f_equal. lia.
    + intros k o Hk. destruct k; discriminate.
  - rewrite convertLoop_cons. cbv zeta.
    pose proof (convertOne_spec timestamp raw (dayNumber (FFRawObservation.date raw)) w)
      as Hone. cbv zeta in Hone.
    destruct (FFImport.convertOne timestamp raw _ w) as [here w1].
    cbn [fst snd] in Hone |- *. destruct Hone as (Hlen1 & Hw1 & Hnth1).
    specialize (IH w1). cbv zeta in IH.
    destruct (FFImport.convertLoop dayNumber timestamp rest w1) as [others w2].
    cbn [fst snd] in IH |- *. destruct IH as (Hlen2 & Hw2 & Hnth2).
    rewrite length_app.
    split; [simpl; lia|]. split.
    + rewrite Hw2, Hw1. simpl. f_equal. lia.
    + intros k o Hk.
      destruct (Nat.lt_ge_cases k (List.length here)) as [Hlt|Hge].
      * rewrite nth_error_app1 in Hk by exact Hlt.
        destruct (Hnth1 k o Hk) as (H1 & H2 & H3 & H4).
        repeat split; try assumption. exists raw. split; [left; reflexivity|exact H4].
      * rewrite nth_error_app2 in Hk by exact Hge.
        destruct (Hnth2 _ o Hk) as (H1 & H2 & H3 & raw' & Hin & H4).
        split.
        { rewrite H1, Hw1. cbn [World.uuids World.drawn]. f_equal. lia. }
        repeat split; try assumption. exists raw'. split; [right; exact Hin|exact H4].
Qed.

Lemma convertToObservations_spec (dayNumber : string -> Z)
    (raws : list FFRawObservation.t) (w : World.t) :
  let res := FFImport.convertToObservations dayNumber raws w in
  List.length (fst res) = list_sum (map yields raws)
  /\ snd res = World.mk (World.clock w) (World.uuids w)
                        (World.drawn w + List.length (fst res)) (World.tz w)
  /\ forall k o, nth_error (fst res) k = Some o ->
                 Observation.id o = World.uuids w (World.drawn w + k)
                 /\ Observation.createdAt o = World.clock w
                 /\ Observation.updatedAt o = World.clock w
                 /\ exists raw, In raw raws
                                /\ madeOf raw (dayNumber (FFRawObservation.date raw)) o.
Proof.
  unfold FFImport.convertToObservations, bind, getTimestamp.
  apply convertLoop_spec.
Qed.

(** X24.  [convertToObservations] makes one observation for each temperature,
    each known cervical-mucus value and each known OPK result of the raw
    rows.  It draws one identifier per observation, in order, and stamps all
    of them with the one time read at the start; when the host never hands
    out an identifier twice, all identifiers differ. *)
Theorem convertToObservations_ids (dayNumber : string -> Z)
    (raws : list FFRawObservation.t) (w : World.t) :
  let res := FFImport.convertToObservations dayNumber raws w in
  List.length (fst res) = list_sum (map yields raws)
  /\ World.drawn (snd res) = (World.drawn w + List.length (fst res))%nat
  /\ (forall k o, nth_error (fst res) k = Some o ->
                  Observation.id o = World.uuids w (World.drawn w + k)
                  /\ Observation.createdAt o = World.clock w
                  /\ Observation.updatedAt o = World.clock w)
  /\ ((forall i j, World.uuids w i = World.uuids w j -> i = j) ->
      NoDup (map Observation.id (fst res))).
Proof.
  intros res.
  destruct (convertToObservations_spec dayNumber raws w) as (Hlen & Hw & Hnth).
  fold res in Hlen, Hw, Hnth.
  split; [exact Hlen|]. split; [rewrite Hw; reflexivity|]. split.
  - intros k o Hk. destruct (Hnth k o Hk) as (H1 & H2 & H3 & _). auto.
  - intros Hinj. apply NoDup_nth_error. intros i j Hi Hij.
    rewrite length_map in Hi. rewrite !nth_error_map in Hij.
    destruct (nth_error (fst res) i) as [oi|] eqn:Ei.
    + destruct (nth_error (fst res) j) as [oj|] eqn:Ej; [|discriminate].
      destruct (Hnth i oi Ei) as (Hi1 & _). destruct (Hnth j oj Ej) as (Hj1 & _).
      simpl in Hij. inversion Hij as [Hid]. rewrite Hi1, Hj1 in Hid.
      apply Hinj in Hid. lia.
    + apply nth_error_None in Ei. lia.
Qed.

(** X25.  Every observation [convertToObservations] returns comes from one
    raw row and carries that row's date.  A temperature observation carries
    the row's temperature and notes; a cervical-mucus or OPK observation
    carries the mapped value of a known raw value and no notes, so the notes
    of a row without a temperature are not carried over.  No symptom
    observation, no [spotting], [almost-positive] or [invalid] value is ever
    produced. *)
Theorem convertToObservations_content (dayNumber : string -> Z)
    (raws : list FFRawObservation.t) (w : World.t) (o : Observation.t) :
  In o (fst (FFImport.convertToObservations dayNumber raws w)) ->
  (exists raw, In raw raws
               /\ Observation.date o = dayNumber (FFRawObservation.date raw)
               /\ match Observation.body o with
                  | BBTValue t _ =>
                      FFRawObservation.temp raw = Some t
                      /\ Observation.notes o = FFRawObservation.notes raw
                  | CMValue v =>
                      Observation.notes o = None
                      /\ exists ff, FFRawObservation.cervicalMucus raw = Some ff
                                    /\ ff <> ff_cm_unknown
                                    /\ v = FFImport.mapFFCervicalMucus ff
                  | OPKValue v _ =>
                      Observation.notes o = None
                      /\ exists ff, FFRawObservation.opk raw = Some ff
                                    /\ ff <> ff_opk_unknown
                                    /\ v = FFImport.mapFFOPKResult ff
                  | SymptomValue _ _ => False
                  end)
  /\ match Observation.body o with
     | CMValue v => v <> cm_spotting
     | OPKValue v _ => v = opk_negative \/ v = opk_positive
     | BBTValue _ _ => True
     | SymptomValue _ _ => False
     end.
Proof.
  intros Hin. apply In_nth_error in Hin. destruct Hin as [k Hk].
  destruct (convertToObservations_spec dayNumber raws w) as (_ & _ & Hnth).
  destruct (Hnth k o Hk) as (_ & _ & _ & raw & Hraw & Hdate & Hbody).
  split.
  - exists raw. split; [exact Hraw|]. split; [exact Hdate|].
    destruct (Observation.body o) as [v|t time|v brand|v sv]; try tauto.
  - destruct (Observation.body o) as [v|t time|v brand|v sv]; try tauto.
    + destruct Hbody as (_ & ff & _ & Hff & ->). destruct ff; try discriminate; contradiction.
    + destruct Hbody as (_ & _ & ff & _ & Hff & ->).
      destruct ff; simpl; auto. contradiction.
Qed.

Lemma convertToObservations_content_witness :
  exists raw, In raw [rawMucus]
              /\ Observation.date convertedMucus = 20129%Z
              /\ Observation.notes convertedMucus = None.
Proof.
  destruct (convertToObservations_content (fun _ => 20129%Z) [rawMucus] morning
              convertedMucus) as [(raw & Hin & Hd & Hb) _].
  - left. reflexivity.
  - exists raw. split; [exact Hin|]. split; [exact Hd|]. exact (proj1 Hb).
Defined.

(** ** The CSV import: headers and cell spellings *)

Lemma get_In {A : Type} (key : string) (m : list (string * A)) (v : A) :
  FFImport.get key m = Some v -> In key (map fst m).
Proof.
  induction m as [|[k x] m IH]; simpl; [discriminate|].
  destruct (String.eqb k key) eqn:E.
  - apply String.eqb_eq in E. intros _. left. exact E.
  - intros H. right. apply IH. exact H.
Qed.

Lemma findInsensitive_In (lowerName : string) (keys : ParsedCSVRow) (cell : string) :
  FFImport.findInsensitive lowerName keys = Some cell ->
  exists key, In key (map fst keys) /\ Str.toLowerCase key = lowerName.
Proof.
  induction keys as [|[k x] keys IH]; simpl; [discriminate|].
  destruct (String.eqb (Str.toLowerCase k) lowerName) eqn:E.
  - apply String.eqb_eq in E. intros _. exists k. auto.
  - intros H. destruct (IH H) as (key & Hin & Hl). exists key. auto.
Qed.

Lemma findColumn_In (row : ParsedCSVRow) (names : list string) (cell : string) :
  FFImport.findColumn row names = Some cell ->
  exists key name, In key (map fst row) /\ In name names
                   /\ Str.toLowerCase key = Str.toLowerCase name.
Proof.
  induction names as [|name names IH]; simpl; [discriminate|].
  destruct (FFImport.get name row) as [c|] eqn:Eg.
  - intros _. exists name, name. split; [apply (get_In _ _ _ Eg)|]. auto.
  - destruct (FFImport.findInsensitive (Str.toLowerCase name) row) as [c|] eqn:Ef.
    + intros _. destruct (findInsensitive_In _ _ _ Ef) as (key & Hin & Hl).
      exists key, name. auto.
    + intros H. destruct (IH H) as (key & n & Hin & Hn & Hl). exists key, n. auto.
Qed.

Lemma validate_unfold (headers : list string) :
  FFImport.valid (FFImport.validateCSVStructure (Some headers))
  = existsb (Str.includes "date") (map Str.toLowerCase headers).
Proof.
  unfold FFImport.validateCSVStructure. cbn [fold_left].
  destruct (existsb _ _); reflexivity.
Qed.

(** X26.  [validateCSVStructure] accepts a header row exactly when some
    header contains [date], whatever the case; it reports the headers as
    found.  Every row in which the parser finds a date cell has such a
    header, so validation never rejects a file the parser could read; the
    converse fails: a lone header [Updated] passes validation although the
    parser finds no date column under it. *)
Theorem validate_accepts_date_column (headers : list string) (row : ParsedCSVRow)
    (cell : string) :
  (FFImport.valid (FFImport.validateCSVStructure (Some headers)) = true
   <-> exists h, In h headers /\ Str.includes "date" (Str.toLowerCase h) = true)
  /\ FFImport.foundColumns (FFImport.validateCSVStructure (Some headers)) = headers
  /\ (FFImport.findColumn row ["Date"; "date"; "DATE"] <> None ->
      FFImport.valid (FFImport.validateCSVStructure (Some (map fst row))) = true)
  /\ (FFImport.valid (FFImport.validateCSVStructure (Some ["Updated"])) = true
      /\ FFImport.findColumn [("Updated", cell)] ["Date"; "date"; "DATE"] = None).
Proof.
  split; [|split; [reflexivity|split; [|split; reflexivity]]].
  - rewrite validate_unfold, existsb_exists. split.
    + intros (x & Hx & Hi). apply in_map_iff in Hx. destruct Hx as (h & <- & Hh).
      exists h. auto.
    + intros (h & Hh & Hi). exists (Str.toLowerCase h). split; [|exact Hi].
      apply in_map. exact Hh.
  - intros Hfound.
    destruct (FFImport.findColumn row ["Date"; "date"; "DATE"]) as [c|] eqn:E;
      [|contradiction].
    destruct (findColumn_In _ _ _ E) as (key & name & Hin & Hn & Hl).
    rewrite validate_unfold. apply existsb_exists.
    exists (Str.toLowerCase key). split; [apply in_map; exact Hin|].
    rewrite Hl. destruct Hn as [<-|[<-|[<-|[]]]]; reflexivity.
Qed.

Lemma validate_accepts_date_column_witness :
  FFImport.valid
    (FFImport.validateCSVStructure (Some (map fst [("Date", "2025-02-10")]))) = true.
Proof.
  destruct (validate_accepts_date_column [] [("Date", "2025-02-10")] "")
    as (_ & _ & H & _).
  apply H. discriminate.
Defined.

Lemma isSpace_lower (c : ascii) : Str.isSpace (Str.lowerChar c) = Str.isSpace c.
Proof. destruct c as [[] [] [] [] [] [] [] []]; reflexivity. Qed.

Lemma lowerChar_idem (c : ascii) : Str.lowerChar (Str.lowerChar c) = Str.lowerChar c.
Proof. destruct c as [[] [] [] [] [] [] [] []]; reflexivity. Qed.

Lemma toLowerCase_idem (s : string) :
  Str.toLowerCase (Str.toLowerCase s) = Str.toLowerCase s.
Proof.
  induction s as [|c s IH]; [reflexivity|]. simpl. rewrite lowerChar_idem, IH. reflexivity.
Qed.

Lemma trimStart_lower (s : string) :
  Str.trimStart (Str.toLowerCase s) = Str.toLowerCase (Str.trimStart s).
Proof.
  induction s as [|c s IH]; [reflexivity|]. simpl. rewrite isSpace_lower.
  destruct (Str.isSpace c); [exact IH|reflexivity].
Qed.

Lemma trimEnd_lower (s : string) :
  Str.trimEnd (Str.toLowerCase s) = Str.toLowerCase (Str.trimEnd s).
Proof.
  induction s as [|c s IH]; [reflexivity|].
  cbn [Str.toLowerCase Str.trimEnd]. rewrite IH, isSpace_lower.
  destruct (Str.trimEnd s) as [|a r]; cbn [Str.toLowerCase].
  - destruct (Str.isSpace c); reflexivity.
  - reflexivity.
Qed.

Lemma trim_lower (s : string) :
  Str.trim (Str.toLowerCase s) = Str.toLowerCase (Str.trim s).
Proof. unfold Str.trim. rewrite trimStart_lower, trimEnd_lower. reflexivity. Qed.

Lemma trimEnd_idem (s : string) : Str.trimEnd (Str.trimEnd s) = Str.trimEnd s.
Proof.
  induction s as [|c s IH]; [reflexivity|].
  cbn [Str.trimEnd]. destruct (Str.trimEnd s) as [|a r] eqn:E.
  - destruct (Str.isSpace c) eqn:Ec; [reflexivity|].
    cbn [Str.trimEnd]. rewrite Ec. reflexivity.
  - cbn [Str.trimEnd] in IH |- *. rewrite IH. reflexivity.
Qed.

Lemma trimStart_noLeading (s : string) : noLeadingSpace (Str.trimStart s).
Proof.
  induction s as [|c s IH]; simpl; [exact I|].
  destruct (Str.isSpace c) eqn:E; [exact IH|]. simpl. exact E.
Qed.

Lemma trimStart_fixed (s : string) : noLeadingSpace s -> Str.trimStart s = s.
Proof. destruct s as [|c s]; simpl; [reflexivity|]. intros ->. reflexivity. Qed.

Lemma trimEnd_noLeading (s : string) : noLeadingSpace s -> noLeadingSpace (Str.trimEnd s).
Proof.
  destruct s as [|c s]; simpl; [trivial|]. intros Hc.
  destruct (Str.trimEnd s); [rewrite Hc|]; simpl; exact Hc.
Qed.

Lemma trim_idem (s : string) : Str.trim (Str.trim s) = Str.trim s.
Proof.
  unfold Str.trim.
  rewrite (trimStart_fixed (Str.trimEnd (Str.trimStart s))).
  - apply trimEnd_idem.
  - apply trimEnd_noLeading, trimStart_noLeading.
Qed.

Lemma lower_empty (s : string) :
  String.eqb (Str.toLowerCase s) "" = String.eqb s "".
Proof. destruct s; reflexivity. Qed.

Lemma blank_lower (s : string) :
  FFImport.blank (Some (Str.toLowerCase s)) = FFImport.blank (Some s).
Proof. unfold FFImport.blank. rewrite trim_lower. apply lower_empty. Qed.

Lemma blank_trim (s : string) :
  FFImport.blank (Some (Str.trim s)) = FFImport.blank (Some s).
Proof. unfold FFImport.blank. rewrite trim_idem. reflexivity. Qed.

(** X23.  The cell parsers ignore letter case and surrounding white space: a
    cervical-mucus, OPK or intercourse cell parses to the same value as its
    lower-cased form and as its trimmed form. *)
Theorem cell_parsers_normalise (s : string) :
  (FFImport.parseCervicalMucus (Some (Str.toLowerCase s))
   = FFImport.parseCervicalMucus (Some s)
   /\ FFImport.parseCervicalMucus (Some (Str.trim s))
      = FFImport.parseCervicalMucus (Some s))
  /\ (FFImport.parseOPK (Some (Str.toLowerCase s)) = FFImport.parseOPK (Some s)
      /\ FFImport.parseOPK (Some (Str.trim s)) = FFImport.parseOPK (Some s))
  /\ (FFImport.parseIntercourse (Some (Str.toLowerCase s))
      = FFImport.parseIntercourse (Some s)
      /\ FFImport.parseIntercourse (Some (Str.trim s))
         = FFImport.parseIntercourse (Some s)).
Proof.
  unfold FFImport.parseCervicalMucus, FFImport.parseOPK, FFImport.parseIntercourse.
  rewrite blank_lower, blank_trim, trim_lower, toLowerCase_idem, trim_idem.
  repeat split.
Qed.

(** ** The combined predictor *)

(** The predictors leave the time zone of the host as it is. *)
Lemma predictFromCalendar_tz (start : Z) (cycles : list Cycle.t)
    (options : CalendarPredictorOptions.t) (w : World.t) :
  World.tz (snd (Calendar.predictFromCalendar start cycles options w)) = World.tz w.
Proof. reflexivity. Qed.

Lemma predictFromSymptoms_tz (observations : list Observation.t)
    (cycleStartDate : option Z) (options : SymptomPredictorOptions.t) (w : World.t) :
  World.tz (snd (Symptoms.predictFromSymptoms observations cycleStartDate options w))
  = World.tz w.
Proof.
  unfold Symptoms.predictFromSymptoms, bind, timeZone.
  destruct (filter Symptoms.isRelevant observations); [reflexivity|].
  destruct (Symptoms.start _); [|reflexivity].
  destruct (Symptoms.end_ _); reflexivity.
Qed.

Lemma predictCombined_unfold (input : CombinedPredictionInput.t)
    (options : CombinedPredictorOptions.t) (w : World.t) :
  fst (Combined.predictCombined input options w)
  = match combinedInputs input options w with
    | [p] => Some (Combined.wrap (Combined.mergeOptions options) p)
    | predictions =>
        option_map CombinedPrediction.ofReconciled
          (Reconciler.reconcile (World.tz w) predictions
             (ReconcilerOptions.mk
                (Some (Combined.weights (Combined.mergeOptions options)))
                None None None))
    end.
Proof.
  unfold Combined.predictCombined, combinedInputs, combinedCalendar, bind, ret, timeZone.
  cbv zeta.
  pose proof (predictFromCalendar_tz
                (CombinedPredictionInput.currentCycleStart input)
                (match CombinedPredictionInput.historicalCycles input with
                 | Some cycles => cycles
                 | None => []
                 end) CalendarPredictorOptions.empty w) as Htz1.
  destruct (Calendar.predictFromCalendar _ _ _ w) as [cal w1]. cbn [fst snd] in *.
  rewrite <- Htz1. clear Htz1.
  set (opts := Combined.mergeOptions options).
  destruct (Combined.alwaysIncludeCalendar opts);
    destruct (CombinedPredictionInput.externalPredictions input) as [ext|];
    destruct (CombinedPredictionInput.observations input) as [[|o os]|];
    cbn [orb app];
    try destruct (Js.geb _ (Combined.minSymptomObservations opts));
    try match goal with
        | |- context [Symptoms.predictFromSymptoms ?a ?b ?c w1] =>
            rewrite <- (predictFromSymptoms_tz a b c w1);
            destruct (Symptoms.predictFromSymptoms a b c w1) as [[p|] w2]
        end;
    cbn [fst snd app]; rewrite ?app_nil_r; cbn [app];
    try reflexivity;
    try (destruct ext as [|? [|? ?]]; reflexivity).
Qed.

Lemma combinedCalendar_facts (input : CombinedPredictionInput.t) (w : World.t) :
  let cal := Combined.setSource (fst (combinedCalendar input w)) "manual" in
  let start := CombinedPredictionInput.currentCycleStart input in
  let avg := Calendar.calculateAverageCycleLength
               (match CombinedPredictionInput.historicalCycles input with
                | Some cycles => cycles
                | None => []
                end) in
  Prediction.source cal = "manual"
  /\ Prediction.ovulationDate cal = Some (start + avg - 14)%Z
  /\ Prediction.fertileStart cal = (start + avg - 19)%Z
  /\ Prediction.fertileEnd cal = (start + avg - 13)%Z
  /\ exists c, Prediction.confidence cal = Some c /\ 40 <= c <= 75.
Proof.
  intros cal start avg. subst cal start avg. unfold combinedCalendar.
  destruct (predictFromCalendar_fields (CombinedPredictionInput.currentCycleStart input)
              (match CombinedPredictionInput.historicalCycles input with
               | Some cycles => cycles
               | None => []
               end) CalendarPredictorOptions.empty w) as (_ & Hov & Hs & He & _).
  destruct (calendar_confidence (CombinedPredictionInput.currentCycleStart input)
              (match CombinedPredictionInput.historicalCycles input with
               | Some cycles => cycles
               | None => []
               end) CalendarPredictorOptions.empty w) as (c & Hc & _ & Hr).
  unfold Combined.setSource.
  cbn [Prediction.source Prediction.ovulationDate Prediction.fertileStart
       Prediction.fertileEnd Prediction.confidence].
  cbv zeta in Hov, Hs, He. rewrite Hov, Hs, He.
  split; [reflexivity|]. split; [f_equal; simpl; lia|].
  split; [simpl; lia|]. split; [simpl; lia|].
  exists c. split; [exact Hc|]. apply Hr. reflexivity.
Qed.

(** X28.  [predictCombined] never returns [null] when the calendar prediction
    is included, which is the default ([alwaysIncludeCalendar]) and is
    always the case when no observations are given: the calendar prediction
    has a positive confidence, so either it is wrapped on its own or
    [reconcile] admits the list. *)
Theorem predictCombined_never_null (input : CombinedPredictionInput.t)
    (options : CombinedPredictorOptions.t) (w : World.t) :
  CombinedPredictorOptions.alwaysIncludeCalendar options <> Some false
  \/ CombinedPredictionInput.observations input = None
  \/ CombinedPredictionInput.observations input = Some [] ->
  fst (Combined.predictCombined input options w) <> None.
Proof.
  intros Hinc. rewrite predictCombined_unfold.
  set (cal := Combined.setSource (fst (combinedCalendar input w)) "manual").
  assert (Hin : In cal (combinedInputs input options w)).
  { unfold combinedInputs. cbv zeta. fold cal. apply in_or_app. left.
    destruct Hinc as [Ha|[Ho|Ho]].
    - unfold Combined.mergeOptions. cbn [Combined.alwaysIncludeCalendar].
      destruct (CombinedPredictorOptions.alwaysIncludeCalendar options) as [[|]|];
        [left; reflexivity|contradiction|left; reflexivity].
    - rewrite Ho, orb_true_r. left. reflexivity.
    - rewrite Ho, orb_true_r. left. reflexivity. }
  assert (Hpos : 0 < Reconciler.confidenceOr50 cal).
  { destruct (combinedCalendar_facts input w) as (_ & _ & _ & _ & c & Hc & Hr).
    fold cal in Hc. unfold Reconciler.confidenceOr50. rewrite Hc. lra. }
  destruct (combinedInputs input options w) as [|p [|q rest]] eqn:E.
  - destruct Hin.
  - discriminate.
  - destruct (reconcile_admitted_some (World.tz w) (p :: q :: rest)
                (ReconcilerOptions.mk
                   (Some (Combined.weights (Combined.mergeOptions options)))
                   None None None)) as [r Hr].
    + split.
      * cbn [Reconciler.mergeOptions Reconciler.minSources ReconcilerOptions.minSources
             Reconciler.DEFAULT_OPTIONS].
        change (List.length (p :: q :: rest)) with (S (S (List.length rest))).
        rewrite !S_INR. pose proof (pos_INR (List.length rest)). simpl. lra.
      * intros Hnil.
        assert (Hv : In cal (Reconciler.validPredictions (p :: q :: rest)))
          by (apply valid_In; split; assumption).
        rewrite Hnil in Hv. destruct Hv.
    + rewrite Hr. discriminate.
Qed.

Lemma predictCombined_never_null_witness :
  fst (Combined.predictCombined bareInput CombinedPredictorOptions.empty morning) <> None.
Proof.
  apply predictCombined_never_null. left. discriminate.
Defined.

(** X29.  With no observations and no external predictions [predictCombined]
    returns the calendar prediction on its own: ovulation [average cycle
    length - 14] days after the cycle start, the window from five days
    before it to one day after it, the calendar confidence divided by 100
    (between 0.40 and 0.75), a first explanation line naming the [manual]
    source, and diagnostics that report one input, agreement 1, no outliers
    and no day scores. *)
Theorem predictCombined_calendar_only (input : CombinedPredictionInput.t)
    (options : CombinedPredictorOptions.t) (w : World.t) :
  CombinedPredictionInput.observations input = None
  \/ CombinedPredictionInput.observations input = Some [] ->
  CombinedPredictionInput.externalPredictions input = None
  \/ CombinedPredictionInput.externalPredictions input = Some [] ->
  let start := CombinedPredictionInput.currentCycleStart input in
  let avg := Calendar.calculateAverageCycleLength
               (match CombinedPredictionInput.historicalCycles input with
                | Some cycles => cycles
                | None => []
                end) in
  exists r c,
    fst (Combined.predictCombined input options w) = Some r
    /\ CombinedPrediction.ovulationDate r = Some (start + avg - 14)%Z
    /\ CombinedPrediction.fertileStart r = (start + avg - 19)%Z
    /\ CombinedPrediction.fertileEnd r = (start + avg - 13)%Z
    /\ CombinedPrediction.confidence r = Some c /\ 0.40 <= c <= 0.75
    /\ hd "" (CombinedPrediction.explain r) = "Based on manual prediction only"
    /\ CombinedPrediction.diagnostics r
       = Diagnostics.mk 1 [] (Combined.weights (Combined.mergeOptions options)) [] 1.
Proof.
  intros Hobs Hext start avg. rewrite predictCombined_unfold.
  set (cal := Combined.setSource (fst (combinedCalendar input w)) "manual").
  assert (Hl : combinedInputs input options w = [cal]).
  { unfold combinedInputs. cbv zeta. fold cal.
    destruct Hobs as [-> | ->], Hext as [-> | ->]; rewrite orb_true_r;
      try reflexivity;
      destruct (Js.geb _ _); reflexivity. }
  rewrite Hl.
  destruct (combinedCalendar_facts input w) as (Hsrc & Hov & Hs & He & c & Hc & Hr).
  fold cal start avg in Hsrc, Hov, Hs, He, Hc.
  exists (Combined.wrap (Combined.mergeOptions options) cal), (c / 100).
  unfold Combined.wrap.
  cbn [CombinedPrediction.ovulationDate CombinedPrediction.fertileStart
       CombinedPrediction.fertileEnd CombinedPrediction.confidence
       CombinedPrediction.explain CombinedPrediction.diagnostics hd].
  rewrite Hov, Hs, He, Hc, Hsrc.
  repeat split; lra.
Qed.

Lemma predictCombined_calendar_only_witness :
  exists r c,
    fst (Combined.predictCombined bareInput CombinedPredictorOptions.empty morning) = Some r
    /\ CombinedPrediction.confidence r = Some c /\ 0.40 <= c <= 0.75.
Proof.
  destruct (predictCombined_calendar_only bareInput CombinedPredictorOptions.empty morning)
    as (r & c & Hr & _ & _ & _ & Hc & Hb & _).
  - left. reflexivity.
  - left. reflexivity.
  - exists r, c. auto.
Defined.

(** X30.  The quality score of [assessPredictionQuality] always lies between
    45 and 100, so the rating is never [poor]; the rating is [excellent]
    from 80 on, [good] from 60 on and [fair] below. *)
Theorem assessPredictionQuality_range (input : CombinedPredictionInput.t) :
  let q := Combined.assessPredictionQuality input in
  (45 <= PredictionQuality.score q <= 100)%Z
  /\ PredictionQuality.overall q <> poor
  /\ (PredictionQuality.overall q = excellent <-> (80 <= PredictionQuality.score q)%Z)
  /\ (PredictionQuality.overall q = good <-> (60 <= PredictionQuality.score q < 80)%Z)
  /\ (PredictionQuality.overall q = fair <-> (PredictionQuality.score q < 60)%Z).
Proof.
  intros q. unfold q, Combined.assessPredictionQuality. cbv zeta.
  cbn [PredictionQuality.score PredictionQuality.overall].
  set (cycleCount := match CombinedPredictionInput.historicalCycles input with
                     | Some cycles => List.length cycles
                     | None => O
                     end).
  set (a1 := Combined.assessHistory cycleCount (Combined.mkAssessment [] [] 50)).
  assert (H1 : ((cycleCount < 3)%nat /\ Combined.score a1 = 45%Z)
               \/ ((3 <= cycleCount)%nat /\ (58 <= Combined.score a1)%Z)).
  { unfold a1, Combined.assessHistory.
    destruct (Nat.leb_spec 6 cycleCount); [right; cbn [Combined.score]; lia|].
    destruct (Nat.leb_spec 3 cycleCount); [right; cbn [Combined.score]; lia|left; cbn [Combined.score]; lia]. }
  clearbody a1.
  set (a2 := Combined.assessRegularity _ a1).
  assert (H2 : (45 <= Combined.score a2)%Z).
  { unfold a2, Combined.assessRegularity. unfold cycleCount in H1.
    destruct (CombinedPredictionInput.historicalCycles input) as [cycles|]; [|simpl in H1; lia].
    destruct (Nat.leb_spec 3 (List.length cycles)); [|lia]. cbv zeta.
    destruct (Rle_dec _ 2); [cbn [Combined.score]; lia|]. destruct (Rle_dec _ 4); cbn [Combined.score]; lia. }
  clearbody a2. clear H1.
  set (a3 := Combined.assessOPK _ a2).
  assert (H3 : (45 <= Combined.score a3)%Z).
  { unfold a3, Combined.assessOPK. destruct (0 <? _)%nat; cbn [Combined.score]; lia. }
  clearbody a3. clear H2.
  set (a4 := Combined.assessCM _ a3).
  assert (H4 : (45 <= Combined.score a4)%Z).
  { unfold a4, Combined.assessCM. destruct (7 <=? _)%nat; [cbn [Combined.score]; lia|].
    destruct (0 <? _)%nat; cbn [Combined.score]; lia. }
  clearbody a4. clear H3.
  set (a5 := Combined.assessExternal _ a4).
  assert (H5 : (45 <= Combined.score a5)%Z).
  { unfold a5, Combined.assessExternal. destruct (0 <? _)%nat; [cbn [Combined.score]; lia|exact H4]. }
  clearbody a5. clear H4.
  set (s := Combined.score a5) in *. clearbody s.
  destruct (Z.leb_spec 80 (Z.max 0 (Z.min 100 s)));
    [|destruct (Z.leb_spec 60 (Z.max 0 (Z.min 100 s)));
      [|destruct (Z.leb_spec 40 (Z.max 0 (Z.min 100 s)))]];
    repeat split; intros; try discriminate; try lia.
Qed.

(** ** The reconciler: the extracted window is the longest run *)

Lemma commit_longest (arr : list DayScore.t) (s : Reconciler.Scan) (i : nat) :
  (i <= List.length arr)%nat ->
  ScanInv s i ->
  (Reconciler.bestStart s <= Reconciler.currentStart s)%nat ->
  BreakAt arr (Reconciler.currentStart s) ->
  LongestAmong arr (Reconciler.currentStart s)
               (Reconciler.bestStart s) (Reconciler.bestLength s) ->
  LongestAmong arr i (Reconciler.bestStart (Reconciler.commit s))
               (Reconciler.bestLength (Reconciler.commit s))
  /\ (Reconciler.bestStart (Reconciler.commit s) <= Reconciler.currentStart s)%nat.
Proof.
  intros Hi (H1 & H2 & H3 & H4) Hle Hbreak Hlong.
  assert (Hcases : forall a n, (1 <= n)%nat -> (a + n <= i)%nat -> RunAt arr a n ->
             (a + n <= Reconciler.currentStart s)%nat
             \/ ((Reconciler.currentStart s <= a)%nat
                 /\ (n <= Reconciler.currentLength s)%nat
                 /\ (n = Reconciler.currentLength s -> a = Reconciler.currentStart s))).
  { intros a n Hn Han Hrun.
    destruct (Nat.le_gt_cases (a + n) (Reconciler.currentStart s)) as [Hc|Hc]; [left; exact Hc|].
    right.
    destruct (Nat.le_gt_cases (Reconciler.currentStart s) a) as [Ha|Ha].
    { split; [exact Ha|]. split; lia. }
    exfalso.
    set (cs := Reconciler.currentStart s) in *.
    destruct (nth_error arr (cs - 1)) as [x|] eqn:Ex;
      [|apply nth_error_None in Ex; lia].
    destruct (nth_error arr cs) as [y|] eqn:Ey;
      [|apply nth_error_None in Ey; lia].
    apply (Hbreak x y); [lia|exact Ex|exact Ey|].
    apply (Hrun (cs - 1)%nat x y); [lia|lia|exact Ex|].
    replace (S (cs - 1)) with cs by lia. exact Ey. }
  unfold Reconciler.commit.
  destruct (Nat.ltb_spec (Reconciler.bestLength s) (Reconciler.currentLength s)) as [Hlt|Hge];
    cbn [Reconciler.bestStart Reconciler.bestLength].
  - split; [|lia]. intros a n Hn Han Hrun.
    destruct (Hcases a n Hn Han Hrun) as [Hc|(Ha & Hl & Heq)].
    + destruct (Hlong a n Hn Hc Hrun) as [Hb _]. split; lia.
    + split; [exact Hl|]. intros E. specialize (Heq E). lia.
  - split; [|exact Hle]. intros a n Hn Han Hrun.
    destruct (Hcases a n Hn Han Hrun) as [Hc|(Ha & Hl & Heq)].
    + apply (Hlong a n Hn Hc Hrun).
    + split; lia.
Qed.

Lemma scanRuns_longest (arr : list DayScore.t) :
  forall rest pre prev i s,
    arr = pre ++ prev :: rest -> i = S (List.length pre) ->
    ScanInv s i ->
    (Reconciler.bestStart s <= Reconciler.currentStart s)%nat ->
    BreakAt arr (Reconciler.currentStart s) ->
    LongestAmong arr (Reconciler.currentStart s)
                 (Reconciler.bestStart s) (Reconciler.bestLength s) ->
    let s' := Reconciler.scanRuns prev rest i s in
    (Reconciler.bestStart s' <= Reconciler.currentStart s')%nat
    /\ BreakAt arr (Reconciler.currentStart s')
    /\ LongestAmong arr (Reconciler.currentStart s')
                    (Reconciler.bestStart s') (Reconciler.bestLength s').
Proof.
  induction rest as [|curr rest IH]; intros pre prev i s Harr Hi Hinv Hle Hbreak Hlong; simpl.
  - auto.
  - assert (Hprev : nth_error arr (i - 1) = Some prev).
    { rewrite Harr, Hi, nth_error_app2 by lia.
      replace (S (List.length pre) - 1 - List.length pre)%nat with 0%nat by lia.
      reflexivity. }
    assert (Hcurr : nth_error arr i = Some curr).
    { rewrite Harr, Hi, nth_error_app2 by lia.
      replace (S (List.length pre) - List.length pre)%nat with 1%nat by lia.
      reflexivity. }
    assert (Hlen : (i <= List.length arr)%nat).
    { rewrite Harr, length_app. simpl. lia. }
    apply (IH (pre ++ [prev]) curr (S i)).
    + rewrite <- app_assoc. exact Harr.
    + rewrite length_app. simpl. lia.
    + destruct (Dates.daysBetween _ _ =? 1)%Z.
      * destruct Hinv as (H1 & H2 & H3 & H4). unfold ScanInv; simpl. lia.
      * apply commit_inv in Hinv. destruct Hinv as (H1 & H2 & H3 & H4).
        unfold ScanInv; simpl. lia.
    + destruct (Dates.daysBetween _ _ =? 1)%Z; simpl; [exact Hle|].
      destruct (commit_longest arr s i Hlen Hinv Hle Hbreak Hlong) as [_ Hb].
      destruct Hinv as (_ & _ & _ & H4). lia.
    + destruct (Dates.daysBetween _ _ =? 1)%Z eqn:Hgap; simpl; [exact Hbreak|].
      intros x y _ Hx Hy. rewrite Hprev in Hx. rewrite Hcurr in Hy.
      inversion Hx; inversion Hy; subst x y. intros E.
      apply Z.eqb_neq in Hgap. apply Hgap.
      rewrite daysBetween_getTime, E. lia.
    + destruct (Dates.daysBetween _ _ =? 1)%Z; simpl; [exact Hlong|].
      apply (commit_longest arr s i Hlen Hinv Hle Hbreak Hlong).
Qed.

Lemma windowDaysOf_longest (first : DayScore.t) (rest : list DayScore.t) :
  exists bs bl,
    windowDaysOf (first :: rest) = Js.slice bs (bs + bl) (first :: rest)
    /\ (1 <= bl)%nat /\ (bs + bl <= List.length (first :: rest))%nat
    /\ LongestAmong (first :: rest) (List.length (first :: rest)) bs bl.
Proof.
  set (arr := first :: rest).
  set (s0 := Reconciler.mkScan 0 1 0 1).
  assert (Hinv0 : ScanInv s0 1) by (unfold ScanInv; simpl; lia).
  assert (Hbreak0 : BreakAt arr 0) by (intros x y H; lia).
  assert (Hlong0 : LongestAmong arr 0 0 1) by (intros a n Hn Han; lia).
  destruct (scanRuns_longest arr rest [] first 1%nat s0 eq_refl eq_refl Hinv0
              (Nat.le_refl 0) Hbreak0 Hlong0) as (Hle & Hbreak & Hlong).
  pose proof (scanRuns_inv rest first 1%nat s0 Hinv0) as Hinv.
  set (s1 := Reconciler.scanRuns first rest 1 s0) in *.
  assert (Hlen : (1 + List.length rest <= List.length arr)%nat) by (simpl; lia).
  destruct (commit_longest arr s1 _ Hlen Hinv Hle Hbreak Hlong) as [Hfinal _].
  apply commit_inv in Hinv. destruct Hinv as (H1 & H2 & _).
  exists (Reconciler.bestStart (Reconciler.commit s1)),
         (Reconciler.bestLength (Reconciler.commit s1)).
  split; [reflexivity|]. split; [exact H1|]. split; [simpl; lia|].
  exact Hfinal.
Qed.

Lemma strict_nth (arr : list DayScore.t) :
  StronglySorted (fun a b => (DayScore.date a < DayScore.date b)%Z) arr ->
  forall i j x y, (i < j)%nat -> nth_error arr i = Some x -> nth_error arr j = Some y ->
                  (DayScore.date x < DayScore.date y)%Z.
Proof.
  induction 1 as [|z arr Hs IH Hall]; intros i j x y Hij Hx Hy.
  - destruct i; discriminate.
  - destruct j as [|j]; [lia|]. simpl in Hy.
    destruct i as [|i].
    + simpl in Hx. inversion Hx; subst z.
      rewrite Forall_forall in Hall. apply Hall. eapply nth_error_In. exact Hy.
    + simpl in Hx. apply (IH i j); [lia|exact Hx|exact Hy].
Qed.

Lemma next_day (arr : list DayScore.t) (k : nat) (x : DayScore.t) :
  StronglySorted (fun a b => (DayScore.date a < DayScore.date b)%Z) arr ->
  nth_error arr k = Some x ->
  (exists y, In y arr /\ DayScore.date y = (DayScore.date x + 1)%Z) ->
  exists y, nth_error arr (S k) = Some y /\ DayScore.date y = (DayScore.date x + 1)%Z.
Proof.
  intros Hs Hx (y & Hy & Hd).
  apply In_nth_error in Hy. destruct Hy as [j Hj].
  destruct (Nat.lt_trichotomy j (S k)) as [Hlt|[Heq|Hgt]].
  - exfalso. destruct (Nat.eq_dec j k) as [->|Hne].
    + rewrite Hx in Hj. inversion Hj; subst y. lia.
    + pose proof (strict_nth arr Hs j k y x ltac:(lia) Hj Hx). lia.
  - subst j. exists y. auto.
  - exfalso.
    destruct (nth_error arr (S k)) as [z|] eqn:Ez.
    + pose proof (strict_nth arr Hs k (S k) x z ltac:(lia) Hx Ez).
      pose proof (strict_nth arr Hs (S k) j z y Hgt Ez Hj). lia.
    + apply nth_error_None in Ez.
      assert (j < List.length arr)%nat by (apply nth_error_Some; rewrite Hj; discriminate).
      lia.
Qed.

Lemma range_run (arr : list DayScore.t) :
  StronglySorted (fun a b => (DayScore.date a < DayScore.date b)%Z) arr ->
  forall (n k : nat) (x : DayScore.t),
    nth_error arr k = Some x ->
    (forall D, (DayScore.date x <= D <= DayScore.date x + Z.of_nat n)%Z ->
               exists y, In y arr /\ DayScore.date y = D) ->
    RunAt arr k (S n) /\ (k + S n <= List.length arr)%nat.
Proof.
  intros Hs. induction n as [|n IH]; intros k x Hx Hall.
  - split; [intros j a b; lia|].
    assert (k < List.length arr)%nat by (apply nth_error_Some; rewrite Hx; discriminate).
    lia.
  - destruct (next_day arr k x Hs Hx) as (y & Hy & Hd).
    { apply Hall. lia. }
    destruct (IH (S k) y Hy) as [Hrun Hlen].
    { intros D HD. apply Hall. lia. }
    split; [|lia].
    intros j a b Hj1 Hj2 Ha Hb.
    destruct (Nat.eq_dec j k) as [->|Hne].
    + rewrite Hx in Ha. rewrite Hy in Hb. inversion Ha; inversion Hb; subst a b. exact Hd.
    + apply (Hrun j a b); try assumption; lia.
Qed.

Lemma NoDup_map_filter {A B : Type} (f : A -> B) (g : A -> bool) (l : list A) :
  NoDup (map f l) -> NoDup (map f (filter g l)).
Proof.
  induction l as [|x l IH]; simpl; intros H; [constructor|].
  inversion H as [|? ? Hnotin Hnd]; subst.
  destruct (g x); [|apply IH; exact Hnd].
  simpl. constructor; [|apply IH; exact Hnd].
  intros Hin. apply Hnotin. apply in_map_iff in Hin.
  destruct Hin as (y & Hy & Hin). apply filter_In in Hin.
  rewrite <- Hy. apply in_map. tauto.
Qed.

(** X27.  When each date is scored once, the window [findFertileWindow]
    extracts is a longest run of consecutive fertile days: no stretch of
    consecutive dates whose probabilities all reach the threshold is longer
    than the window, and a stretch of the same length does not begin before
    it. *)
Theorem window_is_longest_run (dayScores : list DayScore.t) (threshold : R)
    (s e p : Z) :
  Reconciler.findFertileWindow dayScores threshold
  = Reconciler.mkWindow (Some s) (Some e) (Some p) ->
  NoDup (map DayScore.date dayScores) ->
  forall a b,
    (a <= b)%Z ->
    (forall D, (a <= D <= b)%Z ->
               exists d, In d dayScores /\ DayScore.date d = D
                         /\ threshold <= DayScore.probability d) ->
    (b - a <= e - s)%Z /\ ((b - a = e - s)%Z -> (s <= a)%Z).
Proof.
  intros Hw Hnd a b Hab Hall.
  rewrite findFertileWindow_unfold in Hw.
  destruct (fertileDaysOf dayScores threshold) as [|f fs] eqn:Hf; [discriminate|].
  rewrite <- Hf in Hw.
  set (arr := Js.sort dateCmp (fertileDaysOf dayScores threshold)) in *.
  assert (Hperm : Permutation arr (fertileDaysOf dayScores threshold)) by apply sort_perm.
  assert (Hsorted : StronglySorted
                      (fun x y => Dates.getTime (DayScore.date x)
                                  <= Dates.getTime (DayScore.date y)) arr).
  { apply (sort_sorted dateCmp (fun x => Dates.getTime (DayScore.date x))).
    intros x y. reflexivity. }
  assert (Hstrict : StronglySorted
                      (fun x y => (DayScore.date x < DayScore.date y)%Z) arr).
  { apply sorted_strict; [exact Hsorted|].
    apply (Permutation_NoDup
             (l := map DayScore.date (fertileDaysOf dayScores threshold))).
    - apply Permutation_map, Permutation_sym, Hperm.
    - apply NoDup_map_filter. exact Hnd. }
  assert (Hin : forall d, In d dayScores -> threshold <= DayScore.probability d ->
                          In d arr).
  { intros d Hd Hp. apply (Permutation_in _ (Permutation_sym Hperm)).
    apply filter_In. split; [exact Hd|]. apply geb_true. exact Hp. }
  pose proof (windowDaysOf_run arr Hsorted) as Hrun.
  destruct arr as [|first rest] eqn:Earr.
  { apply Permutation_nil in Hperm. rewrite Hf in Hperm. discriminate. }
  destruct (windowDaysOf_longest first rest) as (bs & bl & Hwd & Hbl & Hfit & Hlong).
  rewrite <- Earr in *. clear Earr.
  destruct (windowDaysOf arr) as [|w0 ws] eqn:Ew; [discriminate|].
  inversion Hw as [[Hs He Hp]]. clear Hw. subst s e p.
  pose proof (run_dates ws w0 Hrun) as Hdates.
  assert (Hend : Reconciler.last_date w0 (w0 :: ws)
                 = (DayScore.date w0 + Z.of_nat (List.length ws))%Z).
  { unfold Reconciler.last_date. apply Hdates. apply nth_error_last. }
  assert (Hlenw : List.length (w0 :: ws) = bl).
  { rewrite Hwd. unfold Js.slice. rewrite length_skipn, length_firstn. lia. }
  assert (Hw0 : nth_error arr bs = Some w0).
  { assert (H0 : nth_error (w0 :: ws) 0 = Some w0) by reflexivity.
    rewrite Hwd in H0. unfold Js.slice in H0.
    rewrite nth_error_skipn, nth_error_firstn, Nat.add_0_r in H0.
    destruct (Nat.ltb_spec bs (bs + bl)); [exact H0|lia]. }
  destruct (Hall a ltac:(lia)) as (x & Hx & Hxd & Hxp).
  pose proof (Hin x Hx Hxp) as Hxa.
  apply In_nth_error in Hxa. destruct Hxa as [k Hk].
  destruct (range_run arr Hstrict (Z.to_nat (b - a)) k x Hk) as [Hrange Hfits].
  { intros D HD. destruct (Hall D ltac:(lia)) as (d & Hd & Hdd & Hdp).
    exists d. split; [apply Hin; assumption|exact Hdd]. }
  destruct (Hlong k (S (Z.to_nat (b - a))) ltac:(lia) Hfits Hrange) as [Hmax Htie].
  simpl in Hlenw. rewrite Hend. split; [lia|].
  intros Heq.
  assert (Hbs : (bs <= k)%nat) by (apply Htie; lia).
  destruct (Nat.eq_dec bs k) as [E|E].
  - subst k. rewrite Hk in Hw0. inversion Hw0; subst w0. lia.
  - pose proof (strict_nth arr Hstrict bs k w0 x ltac:(lia) Hw0 Hk). lia.
Qed.

Lemma threeDays_nodup : NoDup (map DayScore.date threeDays).
Proof.
  simpl. repeat constructor; simpl; intros H;
    repeat (destruct H as [H|H]; [discriminate H|]); exact H.
Qed.

Lemma threeDays_lone (D : Z) :
  (20133 <= D <= 20133)%Z ->
  exists d, In d threeDays /\ DayScore.date d = D /\ 0.3 <= DayScore.probability d.
Proof.
  intros HD. exists (scoredDay 20133 0.9).
  split; [simpl; tauto|]. split; [simpl; lia|simpl; lra].
Qed.

Lemma window_is_longest_run_witness : (20133 - 20133 <= 20131 - 20130)%Z.
Proof.
  destruct (window_is_longest_run threeDays 0.3 20130 20131 20131 threeDays_window
              threeDays_nodup 20133 20133 (Z.le_refl 20133) threeDays_lone) as [H _].
  exact H.
Defined.
